(** * msi-ec: fan-control engine of the MSI embedded-controller driver

    A shallow embedding of the fan-control core of [msi-ec.c] and of the
    register description in [ec_memory_configuration.h]:

    - the profile registry ([CONFIGURATIONS]) and [load_configuration];
    - the curve buffers and their synchronisation with the EC
      ([sync_ec_curve], [push_ec_curve] and the two [_safe] wrappers);
    - the curve text codec ([print_curve], [read_curve]);
    - the fan-mode transition hook [curve_fan_mode_change];
    - the hwmon PWM-enable state machine ([msi_ec_hwmon_write],
      [msi_ec_hwmon_read]).

    C [int]s are modelled as [Z]; every value that the code stores in a
    [u8] goes through [u8] (reduction modulo 256).  Functions that return
    a status code return the same number as the C code (0 or a negated
    errno).  State that the C code keeps in globals is threaded
    explicitly. *)

From Stdlib Require Import ZArith List String Ascii Bool Lia.
From Stdlib Require Import DecimalString.
Import ListNotations.
Open Scope string_scope.
Open Scope list_scope.
Open Scope Z_scope.

(* ================================================================= *)
(** ** Error numbers and fixed-width integers *)

Definition EIO : Z := 5.
Definition EINVAL : Z := 22.
Definition ERANGE : Z := 34.
Definition ENODATA : Z := 61.
Definition EOPNOTSUPP : Z := 95.

(** Conversion to [u8]: an assignment to a [u8] object or a [(u8)] cast. *)
Definition u8 (x : Z) : Z := x mod 256.

(** Conversion to a 32-bit [unsigned int] and to a 64-bit
    [unsigned long long]. *)
Definition u32 (x : Z) : Z := x mod 2 ^ 32.
Definition u64 (x : Z) : Z := x mod 2 ^ 64.

(** The value of a 32-bit object read as a (signed) [int]. *)
Definition as_int (x : Z) : Z :=
  if u32 x <? 2 ^ 31 then u32 x else u32 x - 2 ^ 32.

(** [BIT(n)] *)
Definition BIT (n : Z) : Z := Z.shiftl 1 n.

(** Arrays are lists; [a[i]] reads with [aget] and [a[i] = v] writes
    with [aset].  Every index the driver uses on a curve buffer is below
    [CURVE_MAX_ENTRIES] when the curve is allowed, so the out-of-range
    behaviour of these two functions (read 0, write nothing) is never
    relied on by the properties below. *)
Definition aget (a : list Z) (i : nat) : Z := nth i a 0.

Fixpoint aset (a : list Z) (i : nat) (v : Z) : list Z :=
  match a, i with
  | [], _ => []
  | _ :: t, O => v :: t
  | h :: t, S i' => h :: aset t i' v
  end.

(* ================================================================= *)
(** ** ec_memory_configuration.h *)

Definition MSI_EC_ADDR_UNKNOWN : Z := 0xff01.
Definition MSI_EC_ADDR_UNSUPP : Z := 0xff01.

Definition MSI_EC_FW_VERSION_ADDRESS : Z := 0xa0.
Definition MSI_EC_FW_VERSION_LENGTH : Z := 12.

Record msi_ec_cooler_boost_conf := {
  cb_address : Z;
  cb_bit : Z
}.

(** [name] is a [const char *]: [None] is the null pointer. *)
Record msi_ec_mode := {
  name : option string;
  value : Z
}.

Definition MSI_EC_MODE_NULL : msi_ec_mode := {| name := None; value := 0 |}.

(** [struct msi_ec_mode modes[5]]: an initialiser shorter than the array
    leaves the remaining elements zero, that is [MSI_EC_MODE_NULL]. *)
Definition array5 (l : list msi_ec_mode) : list msi_ec_mode :=
  firstn 5 (l ++ repeat MSI_EC_MODE_NULL 5).

Record msi_ec_fan_mode_conf := {
  fm_address : Z;
  modes : list msi_ec_mode
}.

Definition CURVE_MAX_ENTRIES : Z := 16.
Definition CURVE_APPLY_STRATEGY_NORMAL : Z := 0.
Definition CURVE_APPLY_STRATEGY_RESET_ON_AUTO : Z := 1.

Record msi_ec_fan_curve := {
  speed_start_address : Z;
  temperature_start_address : Z;
  entries_count : Z;
  apply_strategy : Z;
  max_speed : Z
}.

(** A [fan_curve] member that a profile does not initialise. *)
Definition fan_curve_zero : msi_ec_fan_curve :=
  {| speed_start_address := 0; temperature_start_address := 0;
     entries_count := 0; apply_strategy := 0; max_speed := 0 |}.

(** [struct msi_ec_cpu_conf] and [struct msi_ec_gpu_conf] have the same
    members; one record serves both. *)
Record msi_ec_cpu_conf := {
  rt_temp_address : Z;
  rt_fan_speed_address : Z;
  fan_curve : msi_ec_fan_curve
}.

(** [struct msi_ec_conf], restricted to the members the fan-control
    engine reads.  [allowed_fw] is a pointer to a NULL-terminated array
    of strings; [None] is the null pointer. *)
Record msi_ec_conf := {
  allowed_fw : option (list string);
  cooler_boost : msi_ec_cooler_boost_conf;
  fan_mode : msi_ec_fan_mode_conf;
  cpu : msi_ec_cpu_conf;
  gpu : msi_ec_cpu_conf
}.

(* ================================================================= *)
(** ** msi-ec.c: mode names and the profile registry *)

Definition FM_AUTO_NAME : string := "auto".
Definition FM_SILENT_NAME : string := "silent".
Definition FM_BASIC_NAME : string := "basic".
Definition FM_ADVANCED_NAME : string := "advanced".

Definition ALLOWED_FW_0 : list string :=
  ["14C1EMS1.012"; "14C1EMS1.101"; "14C1EMS1.102"].

Definition CONF0 : msi_ec_conf := {|
  allowed_fw := Some ALLOWED_FW_0;
  cooler_boost := {| cb_address := 0x98; cb_bit := 7 |};
  fan_mode := {| fm_address := 0xf4;
    modes := array5 [{| name := Some FM_AUTO_NAME; value := 0x0d |};
      {| name := Some FM_SILENT_NAME; value := 0x1d |};
      {| name := Some FM_BASIC_NAME; value := 0x4d |};
      {| name := Some FM_ADVANCED_NAME; value := 0x8d |};
      MSI_EC_MODE_NULL] |};
  cpu := {| rt_temp_address := 0x68; rt_fan_speed_address := 0x71;
    fan_curve := fan_curve_zero |};
  gpu := {| rt_temp_address := 0x80; rt_fan_speed_address := 0x89;
    fan_curve := fan_curve_zero |} |}.

Definition ALLOWED_FW_1 : list string :=
  ["17F2EMS1.103"; "17F2EMS1.104"; "17F2EMS1.106"; "17F2EMS1.107"].

Definition CONF1 : msi_ec_conf := {|
  allowed_fw := Some ALLOWED_FW_1;
  cooler_boost := {| cb_address := 0x98; cb_bit := 7 |};
  fan_mode := {| fm_address := 0xf4;
    modes := array5 [{| name := Some FM_AUTO_NAME; value := 0x0d |};
      {| name := Some FM_BASIC_NAME; value := 0x4d |};
      {| name := Some FM_ADVANCED_NAME; value := 0x8d |};
      MSI_EC_MODE_NULL] |};
  cpu := {| rt_temp_address := 0x68; rt_fan_speed_address := 0x71;
    fan_curve := fan_curve_zero |};
  gpu := {| rt_temp_address := 0x80; rt_fan_speed_address := 0x89;
    fan_curve := fan_curve_zero |} |}.

Definition ALLOWED_FW_2 : list string :=
  ["1552EMS1.115"; "1552EMS1.118"; "1552EMS1.119"; "1552EMS1.120"].

Definition CONF2 : msi_ec_conf := {|
  allowed_fw := Some ALLOWED_FW_2;
  cooler_boost := {| cb_address := 0x98; cb_bit := 7 |};
  fan_mode := {| fm_address := 0xd4;
    modes := array5 [{| name := Some FM_AUTO_NAME; value := 0x0d |};
      {| name := Some FM_SILENT_NAME; value := 0x1d |};
      {| name := Some FM_BASIC_NAME; value := 0x4d |};
      {| name := Some FM_ADVANCED_NAME; value := 0x8d |};
      MSI_EC_MODE_NULL] |};
  cpu := {| rt_temp_address := 0x68; rt_fan_speed_address := 0x71;
    fan_curve := fan_curve_zero |};
  gpu := {| rt_temp_address := 0x80; rt_fan_speed_address := 0x89;
    fan_curve := fan_curve_zero |} |}.

Definition ALLOWED_FW_3 : list string :=
  ["1592EMS1.111"].

Definition CONF3 : msi_ec_conf := {|
  allowed_fw := Some ALLOWED_FW_3;
  cooler_boost := {| cb_address := 0x98; cb_bit := 7 |};
  fan_mode := {| fm_address := 0xd4;
    modes := array5 [{| name := Some FM_AUTO_NAME; value := 0x0d |};
      {| name := Some FM_SILENT_NAME; value := 0x1d |};
      {| name := Some FM_BASIC_NAME; value := 0x4d |};
      {| name := Some FM_ADVANCED_NAME; value := 0x8d |};
      MSI_EC_MODE_NULL] |};
  cpu := {| rt_temp_address := 0x68; rt_fan_speed_address := 0x71;
    fan_curve := fan_curve_zero |};
  gpu := {| rt_temp_address := 0x80; rt_fan_speed_address := 0x89;
    fan_curve := fan_curve_zero |} |}.

Definition ALLOWED_FW_4 : list string :=
  ["16V4EMS1.114"].

Definition CONF4 : msi_ec_conf := {|
  allowed_fw := Some ALLOWED_FW_4;
  cooler_boost := {| cb_address := 0x98; cb_bit := 7 |};
  fan_mode := {| fm_address := 0xd4;
    modes := array5 [{| name := Some FM_AUTO_NAME; value := 0x0d |};
      {| name := Some FM_SILENT_NAME; value := 0x1d |};
      {| name := Some FM_ADVANCED_NAME; value := 0x8d |};
      MSI_EC_MODE_NULL] |};
  cpu := {| rt_temp_address := 0x68; rt_fan_speed_address := 0x71;
    fan_curve := fan_curve_zero |};
  gpu := {| rt_temp_address := 0x80; rt_fan_speed_address := 0x89;
    fan_curve := fan_curve_zero |} |}.

Definition ALLOWED_FW_5 : list string :=
  ["158LEMS1.103"; "158LEMS1.105"; "158LEMS1.106"].

Definition CONF5 : msi_ec_conf := {|
  allowed_fw := Some ALLOWED_FW_5;
  cooler_boost := {| cb_address := 0x98; cb_bit := 7 |};
  fan_mode := {| fm_address := 0xf4;
    modes := array5 [{| name := Some FM_AUTO_NAME; value := 0x0d |};
      {| name := Some FM_SILENT_NAME; value := 0x1d |};
      {| name := Some FM_ADVANCED_NAME; value := 0x8d |};
      MSI_EC_MODE_NULL] |};
  cpu := {| rt_temp_address := 0x68; rt_fan_speed_address := 0x71;
    fan_curve := fan_curve_zero |};
  gpu := {| rt_temp_address := MSI_EC_ADDR_UNKNOWN; rt_fan_speed_address := MSI_EC_ADDR_UNKNOWN;
    fan_curve := fan_curve_zero |} |}.

Definition ALLOWED_FW_6 : list string :=
  ["1542EMS1.102"; "1542EMS1.104"].

Definition CONF6 : msi_ec_conf := {|
  allowed_fw := Some ALLOWED_FW_6;
  cooler_boost := {| cb_address := 0x98; cb_bit := 7 |};
  fan_mode := {| fm_address := 0xf4;
    modes := array5 [{| name := Some FM_AUTO_NAME; value := 0x0d |};
      {| name := Some FM_SILENT_NAME; value := 0x1d |};
      {| name := Some FM_ADVANCED_NAME; value := 0x8d |};
      MSI_EC_MODE_NULL] |};
  cpu := {| rt_temp_address := 0x68; rt_fan_speed_address := 0x71;
    fan_curve := fan_curve_zero |};
  gpu := {| rt_temp_address := 0x80; rt_fan_speed_address := 0x89;
    fan_curve := fan_curve_zero |} |}.

Definition ALLOWED_FW_7 : list string :=
  ["17FKEMS1.108"; "17FKEMS1.109"; "17FKEMS1.10A"].

Definition CONF7 : msi_ec_conf := {|
  allowed_fw := Some ALLOWED_FW_7;
  cooler_boost := {| cb_address := 0x98; cb_bit := 7 |};
  fan_mode := {| fm_address := 0xf4;
    modes := array5 [{| name := Some FM_AUTO_NAME; value := 0x0d |};
      {| name := Some FM_SILENT_NAME; value := 0x1d |};
      {| name := Some FM_ADVANCED_NAME; value := 0x8d |};
      MSI_EC_MODE_NULL] |};
  cpu := {| rt_temp_address := 0x68; rt_fan_speed_address := 0x71;
    fan_curve := fan_curve_zero |};
  gpu := {| rt_temp_address := MSI_EC_ADDR_UNKNOWN; rt_fan_speed_address := MSI_EC_ADDR_UNKNOWN;
    fan_curve := fan_curve_zero |} |}.

Definition ALLOWED_FW_8 : list string :=
  ["14F1EMS1.114"; "14F1EMS1.115"; "14F1EMS1.116"; "14F1EMS1.117"; "14F1EMS1.118"; "14F1EMS1.119"; "14F1EMS1.120"].

Definition CONF8 : msi_ec_conf := {|
  allowed_fw := Some ALLOWED_FW_8;
  cooler_boost := {| cb_address := 0x98; cb_bit := 7 |};
  fan_mode := {| fm_address := 0xd4;
    modes := array5 [{| name := Some FM_AUTO_NAME; value := 0x0d |};
      {| name := Some FM_SILENT_NAME; value := 0x1d |};
      {| name := Some FM_ADVANCED_NAME; value := 0x8d |};
      MSI_EC_MODE_NULL] |};
  cpu := {| rt_temp_address := 0x68; rt_fan_speed_address := 0x71;
    fan_curve := fan_curve_zero |};
  gpu := {| rt_temp_address := 0x80; rt_fan_speed_address := 0x89;
    fan_curve := fan_curve_zero |} |}.

Definition ALLOWED_FW_9 : list string :=
  ["14JKEMS1.104"].

Definition CONF9 : msi_ec_conf := {|
  allowed_fw := Some ALLOWED_FW_9;
  cooler_boost := {| cb_address := 0x98; cb_bit := 7 |};
  fan_mode := {| fm_address := 0xf4;
    modes := array5 [{| name := Some FM_AUTO_NAME; value := 0x0d |};
      {| name := Some FM_SILENT_NAME; value := 0x1d |};
      {| name := Some FM_ADVANCED_NAME; value := 0x8d |};
      MSI_EC_MODE_NULL] |};
  cpu := {| rt_temp_address := 0x68; rt_fan_speed_address := 0x71;
    fan_curve := fan_curve_zero |};
  gpu := {| rt_temp_address := MSI_EC_ADDR_UNSUPP; rt_fan_speed_address := MSI_EC_ADDR_UNSUPP;
    fan_curve := fan_curve_zero |} |}.

Definition ALLOWED_FW_10 : list string :=
  ["1582EMS1.107"].

Definition CONF10 : msi_ec_conf := {|
  allowed_fw := Some ALLOWED_FW_10;
  cooler_boost := {| cb_address := 0x98; cb_bit := 7 |};
  fan_mode := {| fm_address := 0xd4;
    modes := array5 [{| name := Some FM_AUTO_NAME; value := 0x0d |};
      {| name := Some FM_SILENT_NAME; value := 0x1d |};
      {| name := Some FM_ADVANCED_NAME; value := 0x8d |};
      MSI_EC_MODE_NULL] |};
  cpu := {| rt_temp_address := 0x68; rt_fan_speed_address := 0x71;
    fan_curve := fan_curve_zero |};
  gpu := {| rt_temp_address := 0x80; rt_fan_speed_address := 0x89;
    fan_curve := fan_curve_zero |} |}.

Definition ALLOWED_FW_11 : list string :=
  ["16S6EMS1.111"].

Definition CONF11 : msi_ec_conf := {|
  allowed_fw := Some ALLOWED_FW_11;
  cooler_boost := {| cb_address := 0x98; cb_bit := 7 |};
  fan_mode := {| fm_address := 0xd4;
    modes := array5 [{| name := Some FM_AUTO_NAME; value := 0x0d |};
      {| name := Some FM_SILENT_NAME; value := 0x1d |};
      {| name := Some FM_ADVANCED_NAME; value := 0x4d |};
      MSI_EC_MODE_NULL] |};
  cpu := {| rt_temp_address := 0x68; rt_fan_speed_address := 0x71;
    fan_curve := fan_curve_zero |};
  gpu := {| rt_temp_address := MSI_EC_ADDR_UNSUPP; rt_fan_speed_address := MSI_EC_ADDR_UNSUPP;
    fan_curve := fan_curve_zero |} |}.

Definition ALLOWED_FW_12 : list string :=
  ["16R6EMS1.104"; "16R6EMS1.106"; "16R6EMS1.107"].

Definition CONF12 : msi_ec_conf := {|
  allowed_fw := Some ALLOWED_FW_12;
  cooler_boost := {| cb_address := 0x98; cb_bit := 7 |};
  fan_mode := {| fm_address := 0xd4;
    modes := array5 [{| name := Some FM_AUTO_NAME; value := 0x0d |};
      {| name := Some FM_SILENT_NAME; value := 0x1d |};
      {| name := Some FM_ADVANCED_NAME; value := 0x8d |};
      MSI_EC_MODE_NULL] |};
  cpu := {| rt_temp_address := 0x68; rt_fan_speed_address := 0x71;
    fan_curve := fan_curve_zero |};
  gpu := {| rt_temp_address := 0x80; rt_fan_speed_address := 0x89;
    fan_curve := fan_curve_zero |} |}.

Definition ALLOWED_FW_13 : list string :=
  ["1594EMS1.109"].

Definition CONF13 : msi_ec_conf := {|
  allowed_fw := Some ALLOWED_FW_13;
  cooler_boost := {| cb_address := 0x98; cb_bit := 7 |};
  fan_mode := {| fm_address := 0xd4;
    modes := array5 [{| name := Some FM_AUTO_NAME; value := 0x0d |};
      {| name := Some FM_SILENT_NAME; value := 0x1d |};
      {| name := Some FM_ADVANCED_NAME; value := 0x8d |};
      MSI_EC_MODE_NULL] |};
  cpu := {| rt_temp_address := 0x68; rt_fan_speed_address := 0x71;
    fan_curve := fan_curve_zero |};
  gpu := {| rt_temp_address := 0x80; rt_fan_speed_address := 0x89;
    fan_curve := fan_curve_zero |} |}.

Definition ALLOWED_FW_14 : list string :=
  ["17L2EMS1.108"].

Definition CONF14 : msi_ec_conf := {|
  allowed_fw := Some ALLOWED_FW_14;
  cooler_boost := {| cb_address := 0x98; cb_bit := 7 |};
  fan_mode := {| fm_address := 0xd4;
    modes := array5 [{| name := Some FM_AUTO_NAME; value := 0x0d |};
      {| name := Some FM_SILENT_NAME; value := 0x1d |};
      {| name := Some FM_ADVANCED_NAME; value := 0x8d |};
      MSI_EC_MODE_NULL] |};
  cpu := {| rt_temp_address := 0x68; rt_fan_speed_address := 0x71;
    fan_curve := fan_curve_zero |};
  gpu := {| rt_temp_address := 0x80; rt_fan_speed_address := 0x89;
    fan_curve := fan_curve_zero |} |}.

Definition ALLOWED_FW_15 : list string :=
  ["15CKEMS1.108"].

Definition CONF15 : msi_ec_conf := {|
  allowed_fw := Some ALLOWED_FW_15;
  cooler_boost := {| cb_address := 0x98; cb_bit := 7 |};
  fan_mode := {| fm_address := 0xf4;
    modes := array5 [{| name := Some FM_AUTO_NAME; value := 0x0d |};
      {| name := Some FM_SILENT_NAME; value := 0x1d |};
      {| name := Some FM_ADVANCED_NAME; value := 0x8d |};
      MSI_EC_MODE_NULL] |};
  cpu := {| rt_temp_address := 0x68; rt_fan_speed_address := 0x71;
    fan_curve := fan_curve_zero |};
  gpu := {| rt_temp_address := 0x80; rt_fan_speed_address := 0x89;
    fan_curve := fan_curve_zero |} |}.

Definition ALLOWED_FW_16 : list string :=
  ["155LEMS1.105"; "155LEMS1.106"].

Definition CONF16 : msi_ec_conf := {|
  allowed_fw := Some ALLOWED_FW_16;
  cooler_boost := {| cb_address := 0x98; cb_bit := 7 |};
  fan_mode := {| fm_address := 0xf4;
    modes := array5 [{| name := Some FM_AUTO_NAME; value := 0x0d |};
      {| name := Some FM_SILENT_NAME; value := 0x1d |};
      {| name := Some FM_ADVANCED_NAME; value := 0x8d |};
      MSI_EC_MODE_NULL] |};
  cpu := {| rt_temp_address := 0x68; rt_fan_speed_address := 0x71;
    fan_curve := fan_curve_zero |};
  gpu := {| rt_temp_address := MSI_EC_ADDR_UNKNOWN; rt_fan_speed_address := MSI_EC_ADDR_UNKNOWN;
    fan_curve := fan_curve_zero |} |}.

Definition ALLOWED_FW_17 : list string :=
  ["15K1IMS1.110"; "15K1IMS1.112"; "15K1IMS1.113"].

Definition CONF17 : msi_ec_conf := {|
  allowed_fw := Some ALLOWED_FW_17;
  cooler_boost := {| cb_address := 0x98; cb_bit := 7 |};
  fan_mode := {| fm_address := 0xd4;
    modes := array5 [{| name := Some FM_AUTO_NAME; value := 0x0d |};
      {| name := Some FM_SILENT_NAME; value := 0x1d |};
      {| name := Some FM_ADVANCED_NAME; value := 0x8d |};
      MSI_EC_MODE_NULL] |};
  cpu := {| rt_temp_address := 0x68; rt_fan_speed_address := 0x71;
    fan_curve := fan_curve_zero |};
  gpu := {| rt_temp_address := 0x80; rt_fan_speed_address := 0x89;
    fan_curve := fan_curve_zero |} |}.

Definition ALLOWED_FW_18 : list string :=
  ["15HKEMS1.104"].

Definition CONF18 : msi_ec_conf := {|
  allowed_fw := Some ALLOWED_FW_18;
  cooler_boost := {| cb_address := 0x98; cb_bit := 7 |};
  fan_mode := {| fm_address := 0xf4;
    modes := array5 [{| name := Some FM_AUTO_NAME; value := 0x0d |};
      {| name := Some FM_SILENT_NAME; value := 0x1d |};
      {| name := Some FM_ADVANCED_NAME; value := 0x8d |};
      MSI_EC_MODE_NULL] |};
  cpu := {| rt_temp_address := 0x68; rt_fan_speed_address := 0x71;
    fan_curve := fan_curve_zero |};
  gpu := {| rt_temp_address := MSI_EC_ADDR_UNSUPP; rt_fan_speed_address := MSI_EC_ADDR_UNSUPP;
    fan_curve := fan_curve_zero |} |}.

Definition ALLOWED_FW_19 : list string :=
  ["1543EMS1.113"].

Definition CONF19 : msi_ec_conf := {|
  allowed_fw := Some ALLOWED_FW_19;
  cooler_boost := {| cb_address := 0x98; cb_bit := 7 |};
  fan_mode := {| fm_address := 0xd4;
    modes := array5 [{| name := Some FM_AUTO_NAME; value := 0x0d |};
      {| name := Some FM_SILENT_NAME; value := 0x1d |};
      {| name := Some FM_ADVANCED_NAME; value := 0x8d |};
      MSI_EC_MODE_NULL] |};
  cpu := {| rt_temp_address := 0x68; rt_fan_speed_address := 0x71;
    fan_curve := fan_curve_zero |};
  gpu := {| rt_temp_address := 0x80; rt_fan_speed_address := 0x89;
    fan_curve := fan_curve_zero |} |}.

Definition ALLOWED_FW_20 : list string :=
  ["1581EMS1.107"].

Definition CONF20 : msi_ec_conf := {|
  allowed_fw := Some ALLOWED_FW_20;
  cooler_boost := {| cb_address := 0x98; cb_bit := 7 |};
  fan_mode := {| fm_address := 0xd4;
    modes := array5 [{| name := Some FM_AUTO_NAME; value := 0x0d |};
      {| name := Some FM_SILENT_NAME; value := 0x1d |};
      {| name := Some FM_ADVANCED_NAME; value := 0x8d |};
      MSI_EC_MODE_NULL] |};
  cpu := {| rt_temp_address := 0x68; rt_fan_speed_address := 0x71;
    fan_curve := fan_curve_zero |};
  gpu := {| rt_temp_address := 0x80; rt_fan_speed_address := 0x89;
    fan_curve := fan_curve_zero |} |}.

Definition ALLOWED_FW_21 : list string :=
  ["16R3EMS1.102"; "16R3EMS1.104"].

Definition CONF21 : msi_ec_conf := {|
  allowed_fw := Some ALLOWED_FW_21;
  cooler_boost := {| cb_address := 0x98; cb_bit := 7 |};
  fan_mode := {| fm_address := 0xf4;
    modes := array5 [{| name := Some FM_AUTO_NAME; value := 0x0d |};
      {| name := Some FM_BASIC_NAME; value := 0x4d |};
      {| name := Some FM_ADVANCED_NAME; value := 0x8d |};
      MSI_EC_MODE_NULL] |};
  cpu := {| rt_temp_address := 0x68; rt_fan_speed_address := 0x71;
    fan_curve := fan_curve_zero |};
  gpu := {| rt_temp_address := 0x80; rt_fan_speed_address := 0x89;
    fan_curve := fan_curve_zero |} |}.

Definition ALLOWED_FW_22 : list string :=
  ["17LLEMS1.106"].

Definition CONF22 : msi_ec_conf := {|
  allowed_fw := Some ALLOWED_FW_22;
  cooler_boost := {| cb_address := 0x98; cb_bit := 7 |};
  fan_mode := {| fm_address := 0xf4;
    modes := array5 [{| name := Some FM_AUTO_NAME; value := 0x0d |};
      {| name := Some FM_SILENT_NAME; value := 0x1d |};
      {| name := Some FM_ADVANCED_NAME; value := 0x8d |};
      MSI_EC_MODE_NULL] |};
  cpu := {| rt_temp_address := 0x68; rt_fan_speed_address := 0x71;
    fan_curve := fan_curve_zero |};
  gpu := {| rt_temp_address := 0x80; rt_fan_speed_address := 0x89;
    fan_curve := fan_curve_zero |} |}.

Definition ALLOWED_FW_23 : list string :=
  ["16WKEMS1.105"].

Definition CONF23 : msi_ec_conf := {|
  allowed_fw := Some ALLOWED_FW_23;
  cooler_boost := {| cb_address := 0x98; cb_bit := 7 |};
  fan_mode := {| fm_address := 0xf4;
    modes := array5 [{| name := Some FM_AUTO_NAME; value := 0x0d |};
      {| name := Some FM_SILENT_NAME; value := 0x1d |};
      {| name := Some FM_ADVANCED_NAME; value := 0x8d |};
      MSI_EC_MODE_NULL] |};
  cpu := {| rt_temp_address := 0x68; rt_fan_speed_address := 0x71;
    fan_curve := fan_curve_zero |};
  gpu := {| rt_temp_address := 0x80; rt_fan_speed_address := 0x89;
    fan_curve := fan_curve_zero |} |}.

Definition ALLOWED_FW_24 : list string :=
  ["14D1EMS1.103"].

Definition CONF24 : msi_ec_conf := {|
  allowed_fw := Some ALLOWED_FW_24;
  cooler_boost := {| cb_address := 0x98; cb_bit := 7 |};
  fan_mode := {| fm_address := 0xf4;
    modes := array5 [{| name := Some FM_AUTO_NAME; value := 0x0d |};
      {| name := Some FM_SILENT_NAME; value := 0x1d |};
      {| name := Some FM_ADVANCED_NAME; value := 0x8d |};
      MSI_EC_MODE_NULL] |};
  cpu := {| rt_temp_address := 0x68; rt_fan_speed_address := 0x71;
    fan_curve := fan_curve_zero |};
  gpu := {| rt_temp_address := MSI_EC_ADDR_UNSUPP; rt_fan_speed_address := MSI_EC_ADDR_UNSUPP;
    fan_curve := fan_curve_zero |} |}.

Definition ALLOWED_FW_25 : list string :=
  ["14F1EMS1.209"; "14F1EMS1.211"].

Definition CONF25 : msi_ec_conf := {|
  allowed_fw := Some ALLOWED_FW_25;
  cooler_boost := {| cb_address := 0x98; cb_bit := 7 |};
  fan_mode := {| fm_address := 0xd4;
    modes := array5 [{| name := Some FM_AUTO_NAME; value := 0x0d |};
      {| name := Some FM_SILENT_NAME; value := 0x1d |};
      {| name := Some FM_ADVANCED_NAME; value := 0x8d |};
      MSI_EC_MODE_NULL] |};
  cpu := {| rt_temp_address := 0x68; rt_fan_speed_address := 0x71;
    fan_curve := fan_curve_zero |};
  gpu := {| rt_temp_address := 0x80; rt_fan_speed_address := 0x89;
    fan_curve := fan_curve_zero |} |}.

Definition ALLOWED_FW_26 : list string :=
  ["14DLEMS1.105"].

Definition CONF26 : msi_ec_conf := {|
  allowed_fw := Some ALLOWED_FW_26;
  cooler_boost := {| cb_address := 0x98; cb_bit := 7 |};
  fan_mode := {| fm_address := 0xd4;
    modes := array5 [{| name := Some FM_AUTO_NAME; value := 0x0d |};
      {| name := Some FM_SILENT_NAME; value := 0x1d |};
      {| name := Some FM_ADVANCED_NAME; value := 0x8d |};
      MSI_EC_MODE_NULL] |};
  cpu := {| rt_temp_address := 0x68; rt_fan_speed_address := 0x71;
    fan_curve := fan_curve_zero |};
  gpu := {| rt_temp_address := MSI_EC_ADDR_UNSUPP; rt_fan_speed_address := MSI_EC_ADDR_UNSUPP;
    fan_curve := fan_curve_zero |} |}.

Definition ALLOWED_FW_27 : list string :=
  ["17S2IMS1.113"].

Definition CONF27 : msi_ec_conf := {|
  allowed_fw := Some ALLOWED_FW_27;
  cooler_boost := {| cb_address := 0x98; cb_bit := 7 |};
  fan_mode := {| fm_address := 0xd4;
    modes := array5 [{| name := Some FM_AUTO_NAME; value := 0x0d |};
      {| name := Some FM_SILENT_NAME; value := 0x1d |};
      {| name := Some FM_ADVANCED_NAME; value := 0x8d |};
      MSI_EC_MODE_NULL] |};
  cpu := {| rt_temp_address := 0x68; rt_fan_speed_address := 0x71;
    fan_curve := fan_curve_zero |};
  gpu := {| rt_temp_address := 0x80; rt_fan_speed_address := 0x89;
    fan_curve := fan_curve_zero |} |}.

Definition ALLOWED_FW_28 : list string :=
  ["1822EMS1.105"; "1822EMS1.109"; "1822EMS1.111"; "1822EMS1.112"; "1822EMS1.114"; "1822EMS1.115"].

Definition CONF28 : msi_ec_conf := {|
  allowed_fw := Some ALLOWED_FW_28;
  cooler_boost := {| cb_address := 0x98; cb_bit := 7 |};
  fan_mode := {| fm_address := 0xd4;
    modes := array5 [{| name := Some FM_AUTO_NAME; value := 0x0d |};
      {| name := Some FM_SILENT_NAME; value := 0x1d |};
      {| name := Some FM_ADVANCED_NAME; value := 0x8d |};
      MSI_EC_MODE_NULL] |};
  cpu := {| rt_temp_address := 0x68; rt_fan_speed_address := 0x71;
    fan_curve := fan_curve_zero |};
  gpu := {| rt_temp_address := 0x80; rt_fan_speed_address := 0x89;
    fan_curve := fan_curve_zero |} |}.

Definition ALLOWED_FW_29 : list string :=
  ["16V5EMS1.107"].

Definition CONF29 : msi_ec_conf := {|
  allowed_fw := Some ALLOWED_FW_29;
  cooler_boost := {| cb_address := 0x98; cb_bit := 7 |};
  fan_mode := {| fm_address := 0xd4;
    modes := array5 [{| name := Some FM_AUTO_NAME; value := 0x0d |};
      {| name := Some FM_SILENT_NAME; value := 0x1d |};
      {| name := Some FM_ADVANCED_NAME; value := 0x8d |};
      MSI_EC_MODE_NULL] |};
  cpu := {| rt_temp_address := 0x68; rt_fan_speed_address := 0x71;
    fan_curve := fan_curve_zero |};
  gpu := {| rt_temp_address := 0x80; rt_fan_speed_address := 0x89;
    fan_curve := fan_curve_zero |} |}.

Definition ALLOWED_FW_30 : list string :=
  ["17Q2IMS1.10D"].

Definition CONF30 : msi_ec_conf := {|
  allowed_fw := Some ALLOWED_FW_30;
  cooler_boost := {| cb_address := 0x98; cb_bit := 7 |};
  fan_mode := {| fm_address := 0xd4;
    modes := array5 [{| name := Some FM_AUTO_NAME; value := 0x0d |};
      {| name := Some FM_SILENT_NAME; value := 0x1d |};
      {| name := Some FM_ADVANCED_NAME; value := 0x8d |};
      MSI_EC_MODE_NULL] |};
  cpu := {| rt_temp_address := 0x68; rt_fan_speed_address := 0x71;
    fan_curve := fan_curve_zero |};
  gpu := {| rt_temp_address := 0x80; rt_fan_speed_address := 0x89;
    fan_curve := fan_curve_zero |} |}.

Definition ALLOWED_FW_31 : list string :=
  ["16Q4EMS1.110"].

Definition CONF31 : msi_ec_conf := {|
  allowed_fw := Some ALLOWED_FW_31;
  cooler_boost := {| cb_address := 0x98; cb_bit := 7 |};
  fan_mode := {| fm_address := 0xf4;
    modes := array5 [{| name := Some FM_BASIC_NAME; value := 0x4c |};
      {| name := Some FM_AUTO_NAME; value := 0x0c |};
      {| name := Some FM_ADVANCED_NAME; value := 0x8c |};
      MSI_EC_MODE_NULL] |};
  cpu := {| rt_temp_address := 0x68; rt_fan_speed_address := 0x71;
    fan_curve := fan_curve_zero |};
  gpu := {| rt_temp_address := 0x80; rt_fan_speed_address := 0x89;
    fan_curve := fan_curve_zero |} |}.

Definition ALLOWED_FW_32 : list string :=
  ["158PIMS1.207"; "158PIMS1.112"].

Definition CONF32 : msi_ec_conf := {|
  allowed_fw := Some ALLOWED_FW_32;
  cooler_boost := {| cb_address := 0x98; cb_bit := 7 |};
  fan_mode := {| fm_address := 0xd4;
    modes := array5 [{| name := Some FM_AUTO_NAME; value := 0x0d |};
      {| name := Some FM_SILENT_NAME; value := 0x1d |};
      {| name := Some FM_ADVANCED_NAME; value := 0x8d |};
      MSI_EC_MODE_NULL] |};
  cpu := {| rt_temp_address := 0x68; rt_fan_speed_address := 0x71;
    fan_curve := fan_curve_zero |};
  gpu := {| rt_temp_address := MSI_EC_ADDR_UNSUPP; rt_fan_speed_address := MSI_EC_ADDR_UNSUPP;
    fan_curve := fan_curve_zero |} |}.

Definition ALLOWED_FW_33 : list string :=
  ["17N1EMS1.109"].

Definition CONF33 : msi_ec_conf := {|
  allowed_fw := Some ALLOWED_FW_33;
  cooler_boost := {| cb_address := 0x98; cb_bit := 7 |};
  fan_mode := {| fm_address := 0xd4;
    modes := array5 [{| name := Some FM_AUTO_NAME; value := 0x0d |};
      {| name := Some FM_SILENT_NAME; value := 0x1d |};
      {| name := Some FM_ADVANCED_NAME; value := 0x4d |};
      MSI_EC_MODE_NULL] |};
  cpu := {| rt_temp_address := 0x68; rt_fan_speed_address := 0x71;
    fan_curve := fan_curve_zero |};
  gpu := {| rt_temp_address := 0x80; rt_fan_speed_address := 0x89;
    fan_curve := fan_curve_zero |} |}.

Definition ALLOWED_FW_34 : list string :=
  ["14C6EMS1.109"].

Definition CONF34 : msi_ec_conf := {|
  allowed_fw := Some ALLOWED_FW_34;
  cooler_boost := {| cb_address := 0x98; cb_bit := 7 |};
  fan_mode := {| fm_address := 0xd4;
    modes := array5 [{| name := Some FM_AUTO_NAME; value := 0x0d |};
      {| name := Some FM_SILENT_NAME; value := 0x1d |};
      {| name := Some FM_ADVANCED_NAME; value := 0x4d |};
      MSI_EC_MODE_NULL] |};
  cpu := {| rt_temp_address := 0x68; rt_fan_speed_address := 0x71;
    fan_curve := fan_curve_zero |};
  gpu := {| rt_temp_address := MSI_EC_ADDR_UNKNOWN; rt_fan_speed_address := MSI_EC_ADDR_UNKNOWN;
    fan_curve := fan_curve_zero |} |}.

Definition ALLOWED_FW_35 : list string :=
  ["15M2IMS1.113"].

Definition CONF35 : msi_ec_conf := {|
  allowed_fw := Some ALLOWED_FW_35;
  cooler_boost := {| cb_address := 0x98; cb_bit := 7 |};
  fan_mode := {| fm_address := 0xd4;
    modes := array5 [{| name := Some FM_AUTO_NAME; value := 0x0d |};
      {| name := Some FM_SILENT_NAME; value := 0x1d |};
      {| name := Some FM_ADVANCED_NAME; value := 0x8d |};
      MSI_EC_MODE_NULL] |};
  cpu := {| rt_temp_address := 0x68; rt_fan_speed_address := 0x71;
    fan_curve := fan_curve_zero |};
  gpu := {| rt_temp_address := 0x80; rt_fan_speed_address := 0x89;
    fan_curve := fan_curve_zero |} |}.

Definition ALLOWED_FW_36 : list string :=
  ["1585EMS1.115"].

Definition CONF36 : msi_ec_conf := {|
  allowed_fw := Some ALLOWED_FW_36;
  cooler_boost := {| cb_address := 0x98; cb_bit := 7 |};
  fan_mode := {| fm_address := 0xd4;
    modes := array5 [{| name := Some FM_AUTO_NAME; value := 0x0d |};
      {| name := Some FM_SILENT_NAME; value := 0x1d |};
      {| name := Some FM_ADVANCED_NAME; value := 0x8d |};
      MSI_EC_MODE_NULL] |};
  cpu := {| rt_temp_address := 0x68; rt_fan_speed_address := 0x71;
    fan_curve := fan_curve_zero |};
  gpu := {| rt_temp_address := 0x80; rt_fan_speed_address := 0x89;
    fan_curve := fan_curve_zero |} |}.

Definition ALLOWED_FW_37 : list string :=
  ["15M1IMS1.113"].

Definition CONF37 : msi_ec_conf := {|
  allowed_fw := Some ALLOWED_FW_37;
  cooler_boost := {| cb_address := 0x98; cb_bit := 7 |};
  fan_mode := {| fm_address := 0xd4;
    modes := array5 [{| name := Some FM_AUTO_NAME; value := 0x0d |};
      {| name := Some FM_SILENT_NAME; value := 0x1d |};
      {| name := Some FM_ADVANCED_NAME; value := 0x8d |};
      MSI_EC_MODE_NULL] |};
  cpu := {| rt_temp_address := 0x68; rt_fan_speed_address := 0x71;
    fan_curve := fan_curve_zero |};
  gpu := {| rt_temp_address := 0x80; rt_fan_speed_address := 0x89;
    fan_curve := fan_curve_zero |} |}.

Definition ALLOWED_FW_38 : list string :=
  ["17E8IMS1.106"; "17E8EMS1.101"].

Definition CONF38 : msi_ec_conf := {|
  allowed_fw := Some ALLOWED_FW_38;
  cooler_boost := {| cb_address := 0x98; cb_bit := 7 |};
  fan_mode := {| fm_address := 0xf4;
    modes := array5 [{| name := Some FM_AUTO_NAME; value := 0x00 |};
      {| name := Some FM_ADVANCED_NAME; value := 0x80 |};
      MSI_EC_MODE_NULL] |};
  cpu := {| rt_temp_address := 0x68; rt_fan_speed_address := 0x71;
    fan_curve := fan_curve_zero |};
  gpu := {| rt_temp_address := 0x80; rt_fan_speed_address := 0x89;
    fan_curve := fan_curve_zero |} |}.

Definition ALLOWED_FW_39 : list string :=
  ["16R8IMS1.117"].

Definition CONF39 : msi_ec_conf := {|
  allowed_fw := Some ALLOWED_FW_39;
  cooler_boost := {| cb_address := 0x98; cb_bit := 7 |};
  fan_mode := {| fm_address := 0xd4;
    modes := array5 [{| name := Some FM_AUTO_NAME; value := 0x0d |};
      {| name := Some FM_SILENT_NAME; value := 0x1d |};
      {| name := Some FM_ADVANCED_NAME; value := 0x8d |};
      MSI_EC_MODE_NULL] |};
  cpu := {| rt_temp_address := 0x68; rt_fan_speed_address := 0x71;
    fan_curve := fan_curve_zero |};
  gpu := {| rt_temp_address := 0x80; rt_fan_speed_address := 0x89;
    fan_curve := fan_curve_zero |} |}.

Definition ALLOWED_FW_40 : list string :=
  ["17S1IMS1.105"].

Definition CONF40 : msi_ec_conf := {|
  allowed_fw := Some ALLOWED_FW_40;
  cooler_boost := {| cb_address := 0x98; cb_bit := 7 |};
  fan_mode := {| fm_address := 0xd4;
    modes := array5 [{| name := Some FM_AUTO_NAME; value := 0x0d |};
      {| name := Some FM_SILENT_NAME; value := 0x1d |};
      {| name := Some FM_ADVANCED_NAME; value := 0x8d |};
      MSI_EC_MODE_NULL] |};
  cpu := {| rt_temp_address := 0x68; rt_fan_speed_address := 0x71;
    fan_curve := fan_curve_zero |};
  gpu := {| rt_temp_address := 0x80; rt_fan_speed_address := 0x89;
    fan_curve := fan_curve_zero |} |}.

Definition ALLOWED_FW_401 : list string :=
  ["1T52EMS1.104"].

Definition CONF401 : msi_ec_conf := {|
  allowed_fw := Some ALLOWED_FW_401;
  cooler_boost := {| cb_address := 0x98; cb_bit := 7 |};
  fan_mode := {| fm_address := 0xd4;
    modes := array5 [{| name := Some FM_AUTO_NAME; value := 0x00 |};
      {| name := Some FM_SILENT_NAME; value := 0x10 |};
      {| name := Some FM_ADVANCED_NAME; value := 0x80 |};
      MSI_EC_MODE_NULL] |};
  cpu := {| rt_temp_address := 0x68; rt_fan_speed_address := 0x71;
    fan_curve := {| speed_start_address := 0x72; temperature_start_address := 0x6a;
         entries_count := 7; apply_strategy := CURVE_APPLY_STRATEGY_RESET_ON_AUTO; max_speed := 150 |} |};
  gpu := {| rt_temp_address := 0x80; rt_fan_speed_address := 0x89;
    fan_curve := {| speed_start_address := 0x8a; temperature_start_address := 0x82;
         entries_count := 7; apply_strategy := CURVE_APPLY_STRATEGY_RESET_ON_AUTO; max_speed := 150 |} |} |}.

Definition ALLOWED_FW_41 : list string :=
  ["15M1IMS2.111"].

Definition CONF41 : msi_ec_conf := {|
  allowed_fw := Some ALLOWED_FW_41;
  cooler_boost := {| cb_address := 0x98; cb_bit := 7 |};
  fan_mode := {| fm_address := 0xd4;
    modes := array5 [{| name := Some FM_AUTO_NAME; value := 0x0d |};
      {| name := Some FM_ADVANCED_NAME; value := 0x8d |};
      MSI_EC_MODE_NULL] |};
  cpu := {| rt_temp_address := 0x68; rt_fan_speed_address := 0x71;
    fan_curve := fan_curve_zero |};
  gpu := {| rt_temp_address := 0x80; rt_fan_speed_address := 0x89;
    fan_curve := fan_curve_zero |} |}.

Definition ALLOWED_FW_42 : list string :=
  ["14L1EMS1.307"; "14L1EMS1.308"].

Definition CONF42 : msi_ec_conf := {|
  allowed_fw := Some ALLOWED_FW_42;
  cooler_boost := {| cb_address := 0x98; cb_bit := 7 |};
  fan_mode := {| fm_address := 0xd4;
    modes := array5 [{| name := Some FM_AUTO_NAME; value := 0x0d |};
      {| name := Some FM_SILENT_NAME; value := 0x1d |};
      {| name := Some FM_ADVANCED_NAME; value := 0x8d |};
      MSI_EC_MODE_NULL] |};
  cpu := {| rt_temp_address := 0x68; rt_fan_speed_address := 0x71;
    fan_curve := fan_curve_zero |};
  gpu := {| rt_temp_address := MSI_EC_ADDR_UNSUPP; rt_fan_speed_address := MSI_EC_ADDR_UNSUPP;
    fan_curve := fan_curve_zero |} |}.

Definition ALLOWED_FW_43 : list string :=
  ["14DKEMS1.104"].

Definition CONF43 : msi_ec_conf := {|
  allowed_fw := Some ALLOWED_FW_43;
  cooler_boost := {| cb_address := 0x98; cb_bit := 7 |};
  fan_mode := {| fm_address := 0xd4;
    modes := array5 [{| name := Some FM_AUTO_NAME; value := 0x0d |};
      {| name := Some FM_SILENT_NAME; value := 0x1d |};
      {| name := Some FM_ADVANCED_NAME; value := 0x8d |};
      MSI_EC_MODE_NULL] |};
  cpu := {| rt_temp_address := 0x68; rt_fan_speed_address := 0x71;
    fan_curve := fan_curve_zero |};
  gpu := {| rt_temp_address := MSI_EC_ADDR_UNSUPP; rt_fan_speed_address := MSI_EC_ADDR_UNSUPP;
    fan_curve := fan_curve_zero |} |}.

Definition ALLOWED_FW_44 : list string :=
  ["17LNIMS1.505"].

Definition CONF44 : msi_ec_conf := {|
  allowed_fw := Some ALLOWED_FW_44;
  cooler_boost := {| cb_address := 0x98; cb_bit := 7 |};
  fan_mode := {| fm_address := 0xd4;
    modes := array5 [{| name := Some FM_AUTO_NAME; value := 0x0d |};
      {| name := Some FM_SILENT_NAME; value := 0x1d |};
      {| name := Some FM_ADVANCED_NAME; value := 0x8d |};
      MSI_EC_MODE_NULL] |};
  cpu := {| rt_temp_address := 0x68; rt_fan_speed_address := 0x71;
    fan_curve := fan_curve_zero |};
  gpu := {| rt_temp_address := 0x80; rt_fan_speed_address := 0x89;
    fan_curve := fan_curve_zero |} |}.

Definition CONFIGURATIONS : list msi_ec_conf :=
  [CONF0; CONF1; CONF2; CONF3; CONF4; CONF5; CONF6; CONF7;
   CONF8; CONF9; CONF10; CONF11; CONF12; CONF13; CONF14; CONF15;
   CONF16; CONF17; CONF18; CONF19; CONF20; CONF21; CONF22; CONF23;
   CONF24; CONF25; CONF26; CONF27; CONF28; CONF29; CONF30; CONF31;
   CONF32; CONF33; CONF34; CONF35; CONF36; CONF37; CONF38; CONF39;
   CONF40; CONF401; CONF41; CONF42; CONF43; CONF44].

(** The static configuration object [conf] before a profile is copied
    into it: all members zero. *)
Definition conf_zero : msi_ec_conf :=
  {| allowed_fw := None;
     cooler_boost := {| cb_address := 0; cb_bit := 0 |};
     fan_mode := {| fm_address := 0; modes := array5 [] |};
     cpu := {| rt_temp_address := 0; rt_fan_speed_address := 0;
               fan_curve := fan_curve_zero |};
     gpu := {| rt_temp_address := 0; rt_fan_speed_address := 0;
               fan_curve := fan_curve_zero |} |}.

(* ================================================================= *)
(** ** Results of code that can dereference a null pointer *)

(** [fan_mode_is_available], [match_string] and the PWM-enable read hand
    a [const char *] to [strcmp] without a null check on some paths.
    [NullDeref] records that the call dereferences a null pointer (a
    kernel oops); [Returns a] is a normal return. *)
Inductive run (A : Type) : Type :=
| Returns (a : A)
| NullDeref.
Arguments Returns {A} a.
Arguments NullDeref {A}.

Definition bind {A B : Type} (m : run A) (k : A -> run B) : run B :=
  match m with
  | Returns a => k a
  | NullDeref => NullDeref
  end.

Notation "'do' x <- m ; k" := (bind m (fun x => k))
  (at level 10, x pattern, m at level 100, k at level 200).

(** [strcmp(a, b) == 0] for a possibly null [a]. *)
Definition strcmp_eq (a : option string) (b : string) : run bool :=
  match a with
  | Some s => Returns (String.eqb s b)
  | None => NullDeref
  end.

(* ================================================================= *)
(** ** The embedded controller behind [ec_read] and [ec_write]

    [ec_read] and [ec_write] are the kernel's ACPI EC accessors; the
    driver only calls them.  They are modelled as a bank of 256 byte
    registers.  A transaction either succeeds, or fails with a negative
    status and no effect.  [ec_faults] schedules the outcome of the
    coming transactions: each transaction consumes the head of the list,
    and fails with that status when it is negative (an empty list, or a
    non-negative head, lets the transaction succeed).  [ec_writes] logs
    the successful writes, most recent first. *)

Record ec_state := {
  ec_regs : Z -> Z;
  ec_faults : list Z;
  ec_writes : list (Z * Z)
}.

Definition ec_next (e : ec_state) : Z :=
  match ec_faults e with
  | r :: _ => if r <? 0 then r else 0
  | [] => 0
  end.

Definition ec_consume (e : ec_state) : ec_state :=
  {| ec_regs := ec_regs e; ec_faults := tl (ec_faults e);
     ec_writes := ec_writes e |}.

(** [ec_read(addr, &val)]: [old] is the content of [val] before the call;
    the result is the status, the content of [val] after the call and the
    EC after the call. *)
Definition ec_read (addr old : Z) (e : ec_state) : Z * Z * ec_state :=
  let r := ec_next e in
  if r <? 0 then (r, old, ec_consume e)
  else (0, u8 (ec_regs e (u8 addr)), ec_consume e).

(** [ec_write(addr, val)] *)
Definition ec_write (addr val : Z) (e : ec_state) : Z * ec_state :=
  let r := ec_next e in
  if r <? 0 then (r, ec_consume e)
  else (0, {| ec_regs := fun a => if a =? u8 addr then u8 val else ec_regs e a;
              ec_faults := tl (ec_faults e);
              ec_writes := (u8 addr, u8 val) :: ec_writes e |}).

(** No transaction is scheduled to fail. *)
Definition ec_healthy (e : ec_state) : Prop :=
  Forall (fun r => 0 <= r) (ec_faults e).

(* ================================================================= *)
(** ** Helper functions *)

Fixpoint ec_read_seq_loop (n : nat) (i : nat) (addr : Z) (buf : list Z)
    (e : ec_state) : Z * list Z * ec_state :=
  match n with
  | O => (0, buf, e)
  | S n' =>
      let '(result, v, e') := ec_read (addr + Z.of_nat i) (aget buf i) e in
      if result <? 0 then (result, aset buf i v, e')
      else ec_read_seq_loop n' (S i) addr (aset buf i v) e'
  end.

Definition ec_read_seq (addr : Z) (buf : list Z) (len : Z) (e : ec_state)
    : Z * list Z * ec_state :=
  ec_read_seq_loop (Z.to_nat (u8 len)) 0 (u8 addr) buf e.

Definition ec_set_bit (addr bit : Z) (value : bool) (e : ec_state)
    : Z * ec_state :=
  let '(result, stored, e1) := ec_read addr 0 e in
  if result <? 0 then (result, e1)
  else
    let stored' :=
      if value then u8 (Z.lor stored (BIT (u8 bit)))
      else u8 (Z.land stored (Z.lnot (BIT (u8 bit)))) in
    ec_write addr stored' e1.

Definition ec_check_bit (addr bit : Z) (output : bool) (e : ec_state)
    : Z * bool * ec_state :=
  let '(result, stored, e1) := ec_read addr 0 e in
  if result <? 0 then (result, output, e1)
  else (0, negb (Z.land stored (BIT (u8 bit)) =? 0), e1).

(** A NUL-terminated byte buffer read as a C string. *)
Fixpoint c_string_of (bytes : list Z) : string :=
  match bytes with
  | [] => ""
  | b :: bs =>
      if b =? 0 then ""
      else String (ascii_of_N (Z.to_N b)) (c_string_of bs)
  end.

Definition ec_get_firmware_version (e : ec_state) : Z * list Z * ec_state :=
  let buf := repeat 0 (Z.to_nat (MSI_EC_FW_VERSION_LENGTH + 1)) in
  let '(result, buf', e') :=
    ec_read_seq MSI_EC_FW_VERSION_ADDRESS buf MSI_EC_FW_VERSION_LENGTH e in
  if result <? 0 then (result, buf', e')
  else (MSI_EC_FW_VERSION_LENGTH + 1, buf', e').

(* ================================================================= *)
(** ** Fan mode *)

(** The loop of [fan_mode_get]: it runs while [modes[i].name] is not
    null.  Every profile of the registry has a null entry among its five
    slots, so the loop ends inside the array. *)
Fixpoint fan_mode_lookup (ms : list msi_ec_mode) (rdata : Z)
    : option string :=
  match ms with
  | [] => None
  | m :: ms' =>
      match name m with
      | None => None
      | Some n => if rdata =? value m then Some n else fan_mode_lookup ms' rdata
      end
  end.

(** [fan_mode_get(&dst)]: [dst] is the content of the pointer before the
    call. *)
Definition fan_mode_get (c : msi_ec_conf) (dst : option string)
    (e : ec_state) : Z * option string * ec_state :=
  let '(result, rdata, e') := ec_read (fm_address (fan_mode c)) 0 e in
  if result <? 0 then (result, dst, e')
  else
    match fan_mode_lookup (modes (fan_mode c)) rdata with
    | Some n => (0, Some n, e')
    | None =>
        if rdata =? 0 then (MSI_EC_ADDR_UNSUPP, dst, e') else (rdata, dst, e')
    end.

(* ================================================================= *)
(** ** Fan curves: synchronisation with the EC *)

Definition is_curve_allowed (curve : msi_ec_fan_curve) : bool :=
  if (speed_start_address curve =? MSI_EC_ADDR_UNSUPP)
     || (speed_start_address curve =? 0)
     || (temperature_start_address curve =? MSI_EC_ADDR_UNSUPP)
     || (temperature_start_address curve =? 0)
     || (entries_count curve <=? 0)
     || (entries_count curve >? CURVE_MAX_ENTRIES)
  then false else true.

(** One [for] loop of [sync_ec_curve]: [n] iterations are left, [i] is
    the buffer index and [j] the register address. *)
Fixpoint sync_loop (n : nat) (i : nat) (j : Z) (buf : list Z) (e : ec_state)
    : Z * list Z * ec_state :=
  match n with
  | O => (0, buf, e)
  | S n' =>
      let '(r, v, e') := ec_read j (aget buf i) e in
      if r =? 0 then sync_loop n' (S i) (j + 1) (aset buf i v) e'
      else (- EIO, aset buf i v, e')
  end.

Definition sync_ec_curve (curve : msi_ec_fan_curve)
    (fan_speed_buf temperature_buf : list Z) (e : ec_state)
    : Z * list Z * list Z * ec_state :=
  if negb (is_curve_allowed curve) then
    (- EINVAL, fan_speed_buf, temperature_buf, e)
  else
    let '(r1, sbuf, e1) :=
      sync_loop (Z.to_nat (entries_count curve)) 0
        (speed_start_address curve) fan_speed_buf e in
    if r1 =? 0 then
      let '(r2, tbuf, e2) :=
        sync_loop (Z.to_nat (entries_count curve - 1)) 0
          (temperature_start_address curve) temperature_buf e1 in
      (r2, sbuf, tbuf, e2)
    else (r1, sbuf, temperature_buf, e1).

(** One [for] loop of [push_ec_curve]. *)
Fixpoint push_loop (n : nat) (i : nat) (j : Z) (buf : list Z) (e : ec_state)
    : Z * ec_state :=
  match n with
  | O => (0, e)
  | S n' =>
      let '(r, e') := ec_write j (aget buf i) e in
      if r =? 0 then push_loop n' (S i) (j + 1) buf e'
      else (- EIO, e')
  end.

Definition push_ec_curve (curve : msi_ec_fan_curve)
    (fan_speed_buf temperature_buf : list Z) (e : ec_state)
    : Z * ec_state :=
  if negb (is_curve_allowed curve) then (- EINVAL, e)
  else
    let '(r1, e1) :=
      push_loop (Z.to_nat (entries_count curve)) 0
        (speed_start_address curve) fan_speed_buf e in
    if r1 =? 0 then
      push_loop (Z.to_nat (entries_count curve - 1)) 0
        (temperature_start_address curve) temperature_buf e1
    else (r1, e1).

(** [sync_ec_curve_safe]: with the reset-on-auto strategy the curve is
    read only while the fan mode is "advanced". *)
Definition sync_ec_curve_safe (c : msi_ec_conf) (curve : msi_ec_fan_curve)
    (fan_speed_buf temperature_buf : list Z) (e : ec_state)
    : Z * list Z * list Z * ec_state :=
  if apply_strategy curve =? CURVE_APPLY_STRATEGY_RESET_ON_AUTO then
    let '(r, fm, e1) := fan_mode_get c None e in
    if negb (r =? 0) then (- ENODATA, fan_speed_buf, temperature_buf, e1)
    else
      match fm with
      | Some n =>
          if negb (String.eqb n FM_ADVANCED_NAME)
          then (0, fan_speed_buf, temperature_buf, e1)
          else sync_ec_curve curve fan_speed_buf temperature_buf e1
      | None =>
          (* not reached: [fan_mode_get] sets the name when it returns 0 *)
          (- ENODATA, fan_speed_buf, temperature_buf, e1)
      end
  else sync_ec_curve curve fan_speed_buf temperature_buf e.

(** [push_ec_curve_safe] *)
Definition push_ec_curve_safe (c : msi_ec_conf) (curve : msi_ec_fan_curve)
    (fan_speed_buf temperature_buf : list Z) (e : ec_state) : Z * ec_state :=
  if apply_strategy curve =? CURVE_APPLY_STRATEGY_RESET_ON_AUTO then
    let '(r, fm, e1) := fan_mode_get c None e in
    if negb (r =? 0) then (- ENODATA, e1)
    else
      match fm with
      | Some n =>
          if negb (String.eqb n FM_ADVANCED_NAME) then (0, e1)
          else push_ec_curve curve fan_speed_buf temperature_buf e1
      | None =>
          (* not reached: [fan_mode_get] sets the name when it returns 0 *)
          (- ENODATA, e1)
      end
  else push_ec_curve curve fan_speed_buf temperature_buf e.

(* ================================================================= *)
(** ** Text conversions of the kernel library

    [sscanf], [sprintf] and [kstrtoul] are the kernel's (lib/vsprintf.c,
    lib/kstrtox.c).  A buffer handed to a sysfs store callback is a
    [string] whose [length] is [count]; the byte after it is NUL. *)

Definition code (c : ascii) : Z := Z.of_N (N_of_ascii c).

(** [isspace] of the kernel's ctype table: 9 to 13, 32 and 160. *)
Definition isspace (c : ascii) : bool :=
  ((9 <=? code c) && (code c <=? 13)) || (code c =? 32) || (code c =? 160).

Definition isdigit (c : ascii) : bool :=
  (48 <=? code c) && (code c <=? 57).

Fixpoint skip_spaces (s : string) : string :=
  match s with
  | String c s' => if isspace c then skip_spaces s' else s
  | EmptyString => s
  end.

(** The digit loop of [_parse_integer_limit] in base 10: the result is
    accumulated in an [unsigned long long] and wraps. *)
Fixpoint parse_integer (s : string) (res : Z) : Z * string :=
  match s with
  | String c s' =>
      if isdigit c then parse_integer s' (u64 (res * 10 + (code c - 48)))
      else (res, s)
  | EmptyString => (res, s)
  end.

(** [sscanf(s, "%u%n", &x, &offset)].  [None]: the call does not return
    1.  [Some (x, rest)]: it returns 1, [x] is the [unsigned int] stored
    and [rest] is the input at [s + offset].  The conversion stops at
    once on an empty input, skips white space, requires a decimal digit
    (no sign), and converts the run of digits. *)
Definition sscanf_u (s : string) : option (Z * string) :=
  match s with
  | EmptyString => None
  | String _ _ =>
      match skip_spaces s with
      | String c s' =>
          if isdigit c then
            let '(v, rest) := parse_integer (String c s') 0 in
            Some (u32 v, rest)
          else None
      | EmptyString => None
      end
  end.

(** [sprintf(p, "%d", v)] *)
Definition sprintf_d (v : Z) : string := NilZero.string_of_int (Z.to_int v).

(** The text before the first NUL byte. *)
Fixpoint c_str (s : string) : string :=
  match s with
  | String c s' => if code c =? 0 then "" else String c (c_str s')
  | EmptyString => ""
  end.

(** The digit loop of [_parse_integer]: number of digits, value and rest
    of the input.  The value is kept exact here; the C code wraps it and
    raises its overflow flag exactly when the exact value leaves the
    range of [unsigned long long]. *)
Fixpoint parse_integer_ovf (s : string) (rv : Z) (res : Z) : Z * Z * string :=
  match s with
  | String c s' =>
      if isdigit c then parse_integer_ovf s' (rv + 1) (res * 10 + (code c - 48))
      else (rv, res, s)
  | EmptyString => (rv, res, s)
  end.

(** [kstrtoul(s, 10, &val)] on a 64-bit kernel: status and value. *)
Definition kstrtoul (s : string) (val : Z) : Z * Z :=
  let s0 := c_str s in
  let s1 := match s0 with
            | String c s' => if code c =? 43 then s' else s0
            | EmptyString => s0
            end in
  let '(rv, res, rest) := parse_integer_ovf s1 0 0 in
  if res >=? 2 ^ 64 then (- ERANGE, val)
  else if rv =? 0 then (- EINVAL, val)
  else
    let rest' := match rest with
                 | String c r => if code c =? 10 then r else rest
                 | EmptyString => rest
                 end in
    match rest' with
    | EmptyString => (0, res)
    | String _ _ => (- EINVAL, val)
    end.

(* ================================================================= *)
(** ** Curve text codec *)

(** The loop of [print_curve]: [n] iterations left, [j] the loop
    counter, [sc] and [tc] the two read indices, [str] the text so far. *)
Fixpoint print_loop (n : nat) (j sc tc : nat) (fan_speed_buf temperature_buf : list Z)
    (str : string) : string :=
  match n with
  | O => str
  | S n' =>
      if Nat.even j then
        print_loop n' (S j) (S sc) tc fan_speed_buf temperature_buf
          (str ++ sprintf_d (aget fan_speed_buf sc) ++ " ")%string
      else
        print_loop n' (S j) sc (S tc) fan_speed_buf temperature_buf
          (str ++ sprintf_d (aget temperature_buf tc) ++ " ")%string
  end.

(** [str[i - 1] = 0]: the last character is cut off. *)
Fixpoint cut_last (s : string) : string :=
  match s with
  | EmptyString => ""
  | String c EmptyString => ""
  | String c s' => String c (cut_last s')
  end.

(** [print_curve]: the text emitted by [sysfs_emit(buf, "%s\n", str)];
    the return value is its length.  With [entries <= 0] nothing is
    printed and [str[i - 1]] is a store before the array: [None]. *)
Definition print_curve (fan_speed_buf temperature_buf : list Z) (entries : Z)
    : option string :=
  let sz := 2 * entries - 1 in
  let str := print_loop (Z.to_nat sz) 0 0 0 fan_speed_buf temperature_buf "" in
  match str with
  | EmptyString => None
  | String _ _ => Some (cut_last str ++ String "010" "")%string
  end.

(** The scanning loop of [read_curve]: [None] is [return -EINVAL].
    [data] is [int data[]] filled so far, [sdata] the input left. *)
Fixpoint read_ints (n : nat) (sdata : string) (data : list Z)
    : option (list Z * string) :=
  match n with
  | O => Some (data, sdata)
  | S n' =>
      match sdata with
      | EmptyString => None
      | String _ _ =>
          match sscanf_u sdata with
          | None => None
          | Some (x, rest) =>
              if as_int x >=? 256 then None
              else read_ints n' rest (data ++ [as_int x])
          end
      end
  end.

(** The loop that splits [data] into the two local arrays. *)
Fixpoint split_loop (n : nat) (j sc tc : nat) (data : list Z)
    (temp_speed_buf temp_temperature_buf : list Z) : list Z * list Z :=
  match n with
  | O => (temp_speed_buf, temp_temperature_buf)
  | S n' =>
      if Nat.even j then
        split_loop n' (S j) (S sc) tc data
          (aset temp_speed_buf sc (u8 (aget data j))) temp_temperature_buf
      else
        split_loop n' (S j) sc (S tc) data
          temp_speed_buf (aset temp_temperature_buf tc (u8 (aget data j)))
  end.

(** The two validation loops: [false] is [return -EINVAL]. *)
Fixpoint temps_loop (n : nat) (i : nat) (late_temp : Z)
    (temp_temperature_buf : list Z) : bool :=
  match n with
  | O => true
  | S n' =>
      if (late_temp >=? aget temp_temperature_buf i)
         || (aget temp_temperature_buf i >? 100) then false
      else temps_loop n' (S i) (aget temp_temperature_buf i) temp_temperature_buf
  end.

Fixpoint speeds_loop (n : nat) (i : nat) (temp_speed_buf : list Z) : bool :=
  match n with
  | O => true
  | S n' =>
      if aget temp_speed_buf i >? 150 then false
      else speeds_loop n' (S i) temp_speed_buf
  end.

(** The final copy loop: both buffers are written at every [i < entries]. *)
Fixpoint copy_loop (n : nat) (i : nat) (temp_speed_buf temp_temperature_buf : list Z)
    (fan_speed_buf temperature_buf : list Z) : list Z * list Z :=
  match n with
  | O => (fan_speed_buf, temperature_buf)
  | S n' =>
      copy_loop n' (S i) temp_speed_buf temp_temperature_buf
        (aset fan_speed_buf i (aget temp_speed_buf i))
        (aset temperature_buf i (aget temp_temperature_buf i))
  end.

(** The content of an uninitialised local [u8] array of
    [CURVE_MAX_ENTRIES] elements that lies at offset [off] of the stack
    content [stack]. *)
Definition local_array (stack : nat -> Z) (off : nat) : list Z :=
  map (fun i => u8 (stack (off + i)%nat)) (seq 0 (Z.to_nat CURVE_MAX_ENTRIES)).

(** [read_curve(fan_speed_buf, temperature_buf, entries, buf, count)]
    with [count = length buf].  The locals [temp_speed_buf] and
    [temp_temperature_buf] are not initialised; [stack] gives the bytes
    they hold at entry.  The result is the return value and the two
    buffers after the call. *)
Definition read_curve (fan_speed_buf temperature_buf : list Z) (entries : Z)
    (buf : string) (stack : nat -> Z) : Z * list Z * list Z :=
  let count := Z.of_nat (String.length buf) in
  let sz := 2 * entries - 1 in
  match read_ints (Z.to_nat sz) buf [] with
  | None => (- EINVAL, fan_speed_buf, temperature_buf)
  | Some (data, sdata) =>
      let sdata' := match sdata with
                    | String c r => if code c =? 10 then r else sdata
                    | EmptyString => sdata
                    end in
      match sdata' with
      | String _ _ => (- EINVAL, fan_speed_buf, temperature_buf)
      | EmptyString =>
          let '(temp_speed_buf, temp_temperature_buf) :=
            split_loop (Z.to_nat sz) 0 0 0 data
              (local_array stack 0) (local_array stack 16) in
          if negb (temps_loop (Z.to_nat (entries - 1)) 0 0 temp_temperature_buf)
          then (- EINVAL, fan_speed_buf, temperature_buf)
          else if negb (speeds_loop (Z.to_nat entries) 0 temp_speed_buf)
          then (- EINVAL, fan_speed_buf, temperature_buf)
          else
            let '(sbuf, tbuf) :=
              copy_loop (Z.to_nat entries) 0 temp_speed_buf temp_temperature_buf
                fan_speed_buf temperature_buf in
            (count, sbuf, tbuf)
      end
  end.

(* ================================================================= *)
(** ** Driver state *)

(** The four arrays a [struct curve_pack] points to.  Its [curve] member
    points into [conf] and is found with [pack_curve]. *)
Record curve_pack := {
  curve_temp : list Z;
  curve_temp_default : list Z;
  curve_fan_speed : list Z;
  curve_fan_speed_default : list Z
}.

(** The two elements of [all_curves]. *)
Inductive fan : Type := CPU | GPU.

(** The globals of the driver that the engine reads and writes, and the
    EC it talks to.  [virtual_hwmon_pwm_enable] is the two-element array,
    channel 0 first. *)
Record driver := {
  conf : msi_ec_conf;
  conf_loaded : bool;
  cpu_curve_package : curve_pack;
  gpu_curve_package : curve_pack;
  virtual_hwmon_pwm_enable : Z * Z;
  ec : ec_state
}.

Definition pack (d : driver) (f : fan) : curve_pack :=
  match f with CPU => cpu_curve_package d | GPU => gpu_curve_package d end.

Definition pack_curve (c : msi_ec_conf) (f : fan) : msi_ec_fan_curve :=
  match f with CPU => fan_curve (cpu c) | GPU => fan_curve (gpu c) end.

Definition set_ec (d : driver) (e : ec_state) : driver :=
  {| conf := conf d; conf_loaded := conf_loaded d;
     cpu_curve_package := cpu_curve_package d;
     gpu_curve_package := gpu_curve_package d;
     virtual_hwmon_pwm_enable := virtual_hwmon_pwm_enable d; ec := e |}.

Definition set_virtual (d : driver) (v : Z * Z) : driver :=
  {| conf := conf d; conf_loaded := conf_loaded d;
     cpu_curve_package := cpu_curve_package d;
     gpu_curve_package := gpu_curve_package d;
     virtual_hwmon_pwm_enable := v; ec := ec d |}.

Definition set_conf (d : driver) (c : msi_ec_conf) (loaded : bool) : driver :=
  {| conf := c; conf_loaded := loaded;
     cpu_curve_package := cpu_curve_package d;
     gpu_curve_package := gpu_curve_package d;
     virtual_hwmon_pwm_enable := virtual_hwmon_pwm_enable d; ec := ec d |}.

(** Writing the active arrays [curve_fan_speed] and [curve_temp] of a
    pack. *)
Definition set_active (d : driver) (f : fan) (speed temp : list Z) : driver :=
  let p := pack d f in
  let p' := {| curve_temp := temp; curve_temp_default := curve_temp_default p;
               curve_fan_speed := speed;
               curve_fan_speed_default := curve_fan_speed_default p |} in
  {| conf := conf d; conf_loaded := conf_loaded d;
     cpu_curve_package := match f with CPU => p' | GPU => cpu_curve_package d end;
     gpu_curve_package := match f with CPU => gpu_curve_package d | GPU => p' end;
     virtual_hwmon_pwm_enable := virtual_hwmon_pwm_enable d; ec := ec d |}.

(* ================================================================= *)
(** ** Whole-curve store *)

Definition curve_store (d : driver) (f : fan) (buf : string) (stack : nat -> Z)
    : Z * driver :=
  let '(scount, sbuf, tbuf) :=
    read_curve (curve_fan_speed (pack d f)) (curve_temp (pack d f))
      (entries_count (fan_curve (cpu (conf d)))) buf stack in
  let d1 := set_active d f sbuf tbuf in
  if scount <? 0 then (scount, d1)
  else
    let '(status, e') :=
      push_ec_curve_safe (conf d) (pack_curve (conf d) f) sbuf tbuf (ec d) in
    if status <? 0 then (status, set_ec d1 e') else (scount, set_ec d1 e').

(* ================================================================= *)
(** ** Fan mode change hook *)

Definition all_curves_list : list fan := [CPU; GPU].

(** The loop of the "advanced" branch of [curve_fan_mode_change]. *)
Fixpoint mode_change_advanced (l : list fan) (d : driver) : Z * driver :=
  match l with
  | [] => (0, d)
  | f :: l' =>
      let curve := pack_curve (conf d) f in
      if (apply_strategy curve =? CURVE_APPLY_STRATEGY_RESET_ON_AUTO)
         && is_curve_allowed curve then
        let '(status, e') :=
          push_ec_curve curve (curve_fan_speed (pack d f)) (curve_temp (pack d f))
            (ec d) in
        if status <? 0 then (status, set_ec d e')
        else mode_change_advanced l' (set_ec d e')
      else mode_change_advanced l' d
  end.

(** The loop of the other branch: the status of [sync_ec_curve_safe] is
    not looked at. *)
Fixpoint mode_change_other (l : list fan) (d : driver) : Z * driver :=
  match l with
  | [] => (0, d)
  | f :: l' =>
      let curve := pack_curve (conf d) f in
      if (apply_strategy curve =? CURVE_APPLY_STRATEGY_RESET_ON_AUTO)
         && is_curve_allowed curve then
        let '(_, sbuf, tbuf, e1) :=
          sync_ec_curve_safe (conf d) curve
            (curve_fan_speed (pack d f)) (curve_temp (pack d f)) (ec d) in
        let d1 := set_ec (set_active d f sbuf tbuf) e1 in
        let '(status, e2) :=
          push_ec_curve curve (curve_fan_speed_default (pack d1 f))
            (curve_temp_default (pack d1 f)) e1 in
        if status <? 0 then (status, set_ec d1 e2)
        else mode_change_other l' (set_ec d1 e2)
      else mode_change_other l' d
  end.

Definition curve_fan_mode_change (d : driver) (mode : string) : Z * driver :=
  if String.eqb mode FM_ADVANCED_NAME then mode_change_advanced all_curves_list d
  else mode_change_other all_curves_list d.

(* ================================================================= *)
(** ** Per-point store *)

(** [curve_attr_store] for the attribute [(fan, point, is_pwm)]; [buf] is
    the text written, [count] its length.  [stored] is the pair of
    active buffers after the branch that stores the value, or [None]
    when the branch returns [-EINVAL]. *)
Definition curve_attr_store (d : driver) (fan_idx point is_pwm : Z) (buf : string)
    : Z * driver :=
  let count := Z.of_nat (String.length buf) in
  let f := if fan_idx =? 0 then CPU else GPU in
  let curve := pack_curve (conf d) f in
  let fan_speed_buf := curve_fan_speed (pack d f) in
  let temp_buf := curve_temp (pack d f) in
  let max_speed := if u32 (max_speed curve) >? 0 then u32 (max_speed curve) else 100 in
  let '(ret, val) := kstrtoul buf 0 in
  if ret <? 0 then (ret, d)
  else
    let stored : option (list Z * list Z) :=
      if fan_idx =? 0 then
        if negb (is_pwm =? 0) then
          if (point <? 1) || (point >? entries_count (fan_curve (cpu (conf d))))
          then None
          else if val >? 255 then None
          else
            let val' := u64 (val * max_speed) / 255 in
            Some (aset fan_speed_buf (Z.to_nat (point - 1)) (u8 val'), temp_buf)
        else
          if (point <? 1) || (point >=? entries_count (fan_curve (cpu (conf d))))
          then None
          else if val >? 100 then None
          else Some (fan_speed_buf, aset temp_buf (Z.to_nat (point - 1)) (u8 val))
      else
        if negb (is_pwm =? 0) then
          if (point <? 1) || (point >? entries_count (fan_curve (gpu (conf d))))
          then None
          else if val >? 255 then None
          else
            let val' := u64 (val * max_speed) / 255 in
            Some (aset fan_speed_buf (Z.to_nat (point - 1)) (u8 val'), temp_buf)
        else
          if (point <? 1) || (point >=? entries_count (fan_curve (gpu (conf d))))
          then None
          else if val >? 100 then None
          else Some (fan_speed_buf, aset temp_buf (Z.to_nat (point - 1)) (u8 val)) in
    match stored with
    | None => (- EINVAL, d)
    | Some (sbuf, tbuf) =>
        let d1 := set_active d f sbuf tbuf in
        let '(ret, e') := push_ec_curve_safe (conf d) curve sbuf tbuf (ec d) in
        if ret <? 0 then (ret, set_ec d1 e') else (count, set_ec d1 e')
    end.

(* ================================================================= *)
(** ** hwmon: PWM enable *)

Definition PWM_ENABLE_FULL : Z := 0.
Definition PWM_ENABLE_MANUAL : Z := 1.
Definition PWM_ENABLE_AUTO : Z := 2.
Definition PWM_ENABLE_SILENT : Z := 3.
Definition PWM_ENABLE_BASIC : Z := 4.

(** [a[channel]] and [a[channel] = x] on the two-element array, for
    [channel] 0 or 1. *)
Definition vget (a : Z * Z) (channel : Z) : Z :=
  if channel =? 0 then fst a else snd a.

Definition vset (a : Z * Z) (channel : Z) (x : Z) : Z * Z :=
  if channel =? 0 then (x, snd a) else (fst a, x).

(** The loop of [fan_mode_is_available] over the five slots of
    [conf.fan_mode.modes]: [strcmp] receives the name without a null
    check. *)
Fixpoint fan_mode_scan (ms : list msi_ec_mode) (mode : string) : run bool :=
  match ms with
  | [] => Returns false
  | m :: ms' =>
      do same <- strcmp_eq (name m) mode;
      if same then Returns true else fan_mode_scan ms' mode
  end.

Definition fan_mode_is_available (c : msi_ec_conf) (mode : string) : run bool :=
  fan_mode_scan (firstn 5 (modes (fan_mode c))) mode.

(** The loop of [set_fan_mode]: null names are skipped. *)
Fixpoint set_fan_mode_loop (ms : list msi_ec_mode) (mode : string) (d : driver)
    : Z * driver :=
  match ms with
  | [] => (- EINVAL, d)
  | m :: ms' =>
      match name m with
      | Some n =>
          if String.eqb n mode then
            let '(result, d1) := curve_fan_mode_change d mode in
            if result <? 0 then (result, d1)
            else
              let '(result, e') :=
                ec_write (fm_address (fan_mode (conf d))) (value m) (ec d1) in
              if result <? 0 then (result, set_ec d1 e') else (0, set_ec d1 e')
          else set_fan_mode_loop ms' mode d
      | None => set_fan_mode_loop ms' mode d
      end
  end.

Definition set_fan_mode (d : driver) (mode : string) : Z * driver :=
  set_fan_mode_loop (firstn 5 (modes (fan_mode (conf d)))) mode d.

Definition set_cooler_boost (d : driver) (enable : bool) : Z * driver :=
  if cb_address (cooler_boost (conf d)) =? MSI_EC_ADDR_UNSUPP then (- EINVAL, d)
  else
    let '(result, e') :=
      ec_set_bit (cb_address (cooler_boost (conf d)))
        (cb_bit (cooler_boost (conf d))) enable (ec d) in
    if result <? 0 then (result, set_ec d e') else (0, set_ec d e').

(** [msi_ec_hwmon_write] for [type == hwmon_pwm] and
    [attr == hwmon_pwm_enable]. *)
Definition msi_ec_hwmon_write (d : driver) (channel val : Z) : run (Z * driver) :=
  if (channel =? 0) || (channel =? 1) then
    let d0 := set_virtual d (vset (virtual_hwmon_pwm_enable d) channel (as_int val)) in
    if val =? PWM_ENABLE_FULL then
      if negb (cb_address (cooler_boost (conf d0)) =? MSI_EC_ADDR_UNSUPP) then
        let '(result, d1) := set_cooler_boost d0 true in
        Returns (result, set_virtual d1 (PWM_ENABLE_FULL, PWM_ENABLE_FULL))
      else Returns (- EINVAL, d0)
    else if val =? PWM_ENABLE_MANUAL then
      let '(_, d1) := set_cooler_boost d0 false in
      do avail <- fan_mode_is_available (conf d1) FM_ADVANCED_NAME;
      if avail then
        let '(result, d2) := set_fan_mode d1 FM_ADVANCED_NAME in
        Returns (result, set_virtual d2 (PWM_ENABLE_MANUAL, PWM_ENABLE_MANUAL))
      else Returns (- EINVAL, d1)
    else if val =? PWM_ENABLE_AUTO then
      let '(result, d1) := set_cooler_boost d0 false in
      if (snd (virtual_hwmon_pwm_enable d1) =? PWM_ENABLE_AUTO)
         && (fst (virtual_hwmon_pwm_enable d1) =? PWM_ENABLE_AUTO) then
        do avail <- fan_mode_is_available (conf d1) FM_AUTO_NAME;
        if avail then Returns (set_fan_mode d1 FM_AUTO_NAME)
        else Returns (- EINVAL, d1)
      else Returns (result, d1)
    else if val =? PWM_ENABLE_SILENT then
      let '(_, d1) := set_cooler_boost d0 false in
      do avail <- fan_mode_is_available (conf d1) FM_SILENT_NAME;
      if avail then
        let '(result, d2) := set_fan_mode d1 FM_SILENT_NAME in
        Returns (result, set_virtual d2 (PWM_ENABLE_SILENT, PWM_ENABLE_SILENT))
      else Returns (- EINVAL, d1)
    else if val =? PWM_ENABLE_BASIC then
      let '(_, d1) := set_cooler_boost d0 false in
      do avail <- fan_mode_is_available (conf d1) FM_BASIC_NAME;
      if avail then
        let '(result, d2) := set_fan_mode d1 FM_BASIC_NAME in
        Returns (result, set_virtual d2 (PWM_ENABLE_BASIC, PWM_ENABLE_BASIC))
      else Returns (- EINVAL, d1)
    else Returns (- EINVAL, d0)
  else Returns (0, d).

(** The chain of [strcmp]s that turns a mode name into a PWM-enable
    value. *)
Definition pwm_enable_of_name (mode_name : option string) : run Z :=
  do a <- strcmp_eq mode_name FM_ADVANCED_NAME;
  if a then Returns PWM_ENABLE_MANUAL else
  do b <- strcmp_eq mode_name FM_AUTO_NAME;
  if b then Returns PWM_ENABLE_AUTO else
  do c <- strcmp_eq mode_name FM_SILENT_NAME;
  if c then Returns PWM_ENABLE_SILENT else
  do e <- strcmp_eq mode_name FM_BASIC_NAME;
  if e then Returns PWM_ENABLE_BASIC else Returns (-1).

(** [msi_ec_hwmon_read] for [type == hwmon_pwm] and
    [attr == hwmon_pwm_enable]; [val] is the content of [*val] before the
    call.  The result is the status, [*val] and the driver state. *)
Definition msi_ec_hwmon_read (d : driver) (channel val : Z)
    : run (Z * Z * driver) :=
  if (channel =? 0) || (channel =? 1) then
    if vget (virtual_hwmon_pwm_enable d) channel >=? 0 then
      Returns (0, vget (virtual_hwmon_pwm_enable d) channel, d)
    else
      let '(result, cooler_boost_enabled, e1) :=
        if negb (cb_address (cooler_boost (conf d)) =? MSI_EC_ADDR_UNSUPP) then
          ec_check_bit (cb_address (cooler_boost (conf d)))
            (cb_bit (cooler_boost (conf d))) false (ec d)
        else (0, false, ec d) in
      if result <? 0 then Returns (result, val, set_ec d e1)
      else if cooler_boost_enabled then
        Returns (0, PWM_ENABLE_FULL,
                 set_virtual (set_ec d e1) (PWM_ENABLE_FULL, PWM_ENABLE_FULL))
      else
        let '(result, mode_name, e2) := fan_mode_get (conf d) None e1 in
        if result <? 0 then Returns (result, val, set_ec d e2)
        else
          do v <- pwm_enable_of_name mode_name;
          Returns (0, v, set_virtual (set_ec d e2) (v, v))
  else Returns (- EOPNOTSUPP, val, d).

(* ================================================================= *)
(** ** Profile resolution *)

(** [match_string(array, -1, string)]: the index of the first element
    equal to [string], or [-EINVAL] at the terminating null. *)
Fixpoint match_string_loop (l : list string) (index : Z) (s : string) : Z :=
  match l with
  | [] => - EINVAL
  | item :: l' =>
      if String.eqb item s then index else match_string_loop l' (index + 1) s
  end.

Definition match_string (array : option (list string)) (s : string) : run Z :=
  match array with
  | None => NullDeref
  | Some l => Returns (match_string_loop l 0 s)
  end.

(** [memcpy(&conf, p, sizeof conf); conf.allowed_fw = NULL;] *)
Definition copy_conf (p : msi_ec_conf) : msi_ec_conf :=
  {| allowed_fw := None; cooler_boost := cooler_boost p;
     fan_mode := fan_mode p; cpu := cpu p; gpu := gpu p |}.

(** The scan of [load_configuration] over a profile table: [Some d'] when
    a profile was copied into [conf]. *)
Fixpoint load_scan (table : list msi_ec_conf) (ver : string) (d : driver)
    : run (option driver) :=
  match table with
  | [] => Returns None
  | p :: table' =>
      do r <- match_string (allowed_fw p) ver;
      if negb (r =? - EINVAL) then Returns (Some (set_conf d (copy_conf p) true))
      else load_scan table' ver d
  end.

(** The first part of [load_configuration]: the firmware identifier, from
    the module parameter or from the EC.  The result is the status, the
    identifier and the driver state. *)
Definition firmware_version (firmware : option string) (d : driver)
    : Z * string * driver :=
  match firmware with
  | Some fw => (0, fw, d)
  | None =>
      let '(result, ver_by_ec, e') := ec_get_firmware_version (ec d) in
      (result, c_string_of ver_by_ec, set_ec d e')
  end.

(** [load_configuration]; [firmware] and [debug] are the module
    parameters ([firmware] is [None] when it was not given). *)
Definition load_configuration (firmware : option string) (debug : bool)
    (d : driver) : run (Z * driver) :=
  let '(result, ver, d1) := firmware_version firmware d in
  if result <? 0 then Returns (result, d1)
  else
    do found <- load_scan CONFIGURATIONS ver d1;
    match found with
    | Some d2 => Returns (0, d2)
    | None => if debug then Returns (0, d1) else Returns (- EOPNOTSUPP, d1)
    end.

(* ================================================================= *)
(** ** Vocabulary of the properties *)

(** A value of type [u8]. *)
Definition is_byte (x : Z) : Prop := 0 <= x < 256.

(** A [u8] array. *)
Definition bytes (a : list Z) : Prop := Forall is_byte a.

(** A curve buffer: a [u8] array of [CURVE_MAX_ENTRIES] elements. *)
Definition curve_buffer (a : list Z) : Prop :=
  bytes a /\ List.length a = Z.to_nat CURVE_MAX_ENTRIES.

(** The condition under which [curve_fan_mode_change] handles a curve. *)
Definition reset_on_auto (curve : msi_ec_fan_curve) : bool :=
  (apply_strategy curve =? CURVE_APPLY_STRATEGY_RESET_ON_AUTO)
  && is_curve_allowed curve.

(** The register addresses [start], [start + 1], ... of [n] consecutive
    transfers, as [ec_read] and [ec_write] receive them. *)
Definition region (start : Z) (n : nat) : list Z :=
  map (fun i => u8 (start + Z.of_nat i)) (seq 0 n).

(** The registers of a curve: speeds, then temperatures. *)
Definition curve_regs (curve : msi_ec_fan_curve) : list Z :=
  region (speed_start_address curve) (Z.to_nat (entries_count curve))
  ++ region (temperature_start_address curve)
       (Z.to_nat (entries_count curve - 1)).

(** The EC curve registers hold the speed and temperature values of the
    two buffers. *)
Definition ec_holds (e : ec_state) (curve : msi_ec_fan_curve)
    (speed temp : list Z) : Prop :=
  (forall i, (i < Z.to_nat (entries_count curve))%nat ->
     ec_regs e (u8 (speed_start_address curve + Z.of_nat i)) = u8 (aget speed i))
  /\ (forall i, (i < Z.to_nat (entries_count curve - 1))%nat ->
     ec_regs e (u8 (temperature_start_address curve + Z.of_nat i))
     = u8 (aget temp i)).

Fixpoint nodupb (l : list Z) : bool :=
  match l with
  | [] => true
  | x :: l' => negb (existsb (Z.eqb x) l') && nodupb l'
  end.

(** The registers the fan-mode engine writes under a configuration: the
    registers of the reset-on-auto curves and the fan-mode register. *)
Definition engine_regs (c : msi_ec_conf) : list Z :=
  (if reset_on_auto (pack_curve c CPU) then curve_regs (pack_curve c CPU) else [])
  ++ (if reset_on_auto (pack_curve c GPU) then curve_regs (pack_curve c GPU) else [])
  ++ [u8 (fm_address (fan_mode c))].

(** No register is used twice by the engine. *)
Definition layout_ok (c : msi_ec_conf) : bool := nodupb (engine_regs c).

(** The register value of the first named slot called [mode]. *)
Fixpoint mode_value (ms : list msi_ec_mode) (mode : string) : option Z :=
  match ms with
  | [] => None
  | m :: ms' =>
      match name m with
      | Some n => if String.eqb n mode then Some (value m) else mode_value ms' mode
      | None => mode_value ms' mode
      end
  end.

Definition fan_mode_value (c : msi_ec_conf) (mode : string) : option Z :=
  mode_value (firstn 5 (modes (fan_mode c))) mode.

(** The [j]-th number of the curve text: speeds at even positions,
    temperatures at odd positions. *)
Definition curve_item (speed temp : list Z) (j : nat) : Z :=
  if Nat.even j then aget speed (Nat.div2 j) else aget temp (Nat.div2 j).

(** The stored-curve invariant on the first [n] speeds and [n - 1]
    temperatures: speeds at most 150, temperatures at most 100 and
    strictly increasing. *)
Definition curve_invariant (n : nat) (speed temp : list Z) : Prop :=
  (forall i, (i < n)%nat -> aget speed i <= 150)
  /\ (forall i, (S i < n)%nat -> aget temp i <= 100)
  /\ (forall i, (S (S i) < n)%nat -> aget temp i < aget temp (S i)).

(** What the validation loops of [read_curve] accept: the invariant, and
    a first breakpoint above 0. *)
Definition curve_accepted (n : nat) (speed temp : list Z) : Prop :=
  curve_invariant n speed temp /\ ((1 < n)%nat -> 0 < aget temp 0).

(** The names of the named slots of a mode array. *)
Definition mode_names (ms : list msi_ec_mode) : list string :=
  flat_map (fun m => match name m with Some n => [n] | None => [] end) ms.

(** Some slot of the mode array is the null entry. *)
Definition has_null_slot (ms : list msi_ec_mode) : bool :=
  existsb (fun m => match name m with None => true | Some _ => false end) ms.

(** The accepted firmware identifiers of a profile. *)
Definition fw_list (p : msi_ec_conf) : list string :=
  match allowed_fw p with Some l => l | None => [] end.

Fixpoint nodup_strings (l : list string) : bool :=
  match l with
  | [] => true
  | x :: l' => negb (existsb (String.eqb x) l') && nodup_strings l'
  end.

(** An example state: the driver with the profile CONF401 (MSI Claw 8
    AI+) loaded, both active curves and both default curves as below, and
    an EC with registers [regs] and fault schedule [faults]. *)
Definition curve_example : list Z :=
  [10; 20; 30; 40; 50; 60; 70; 0; 0; 0; 0; 0; 0; 0; 0; 0].
Definition temp_example : list Z :=
  [40; 50; 60; 70; 80; 90; 0; 0; 0; 0; 0; 0; 0; 0; 0; 0].
Definition default_speed_example : list Z :=
  [0; 25; 35; 45; 55; 65; 75; 0; 0; 0; 0; 0; 0; 0; 0; 0].
Definition default_temp_example : list Z :=
  [45; 55; 65; 75; 85; 95; 0; 0; 0; 0; 0; 0; 0; 0; 0; 0].

Definition pack_example : curve_pack :=
  {| curve_temp := temp_example; curve_temp_default := default_temp_example;
     curve_fan_speed := curve_example;
     curve_fan_speed_default := default_speed_example |}.

Definition driver_example (regs : Z -> Z) (faults : list Z) (v : Z * Z) : driver :=
  {| conf := copy_conf CONF401; conf_loaded := true;
     cpu_curve_package := pack_example; gpu_curve_package := pack_example;
     virtual_hwmon_pwm_enable := v;
     ec := {| ec_regs := regs; ec_faults := faults; ec_writes := [] |} |}.

(** The driver state at module load, before [load_configuration]. *)
Definition driver_initial (regs : Z -> Z) : driver :=
  let zero := repeat 0 (Z.to_nat CURVE_MAX_ENTRIES) in
  let p := {| curve_temp := zero; curve_temp_default := zero;
              curve_fan_speed := zero; curve_fan_speed_default := zero |} in
  {| conf := conf_zero; conf_loaded := false;
     cpu_curve_package := p; gpu_curve_package := p;
     virtual_hwmon_pwm_enable := (-1, -1);
     ec := {| ec_regs := regs; ec_faults := []; ec_writes := [] |} |}.


(* ================================================================= *)
(** ** Vocabulary of the proofs *)

(** Closed goals are settled by evaluation, conjunct by conjunct. *)
Ltac by_evaluation :=
  intros;
  repeat match goal with |- _ /\ _ => split end;
  vm_compute; reflexivity.

(** Splits the conjunctions that are written in a goal. *)
Ltac conj_split := repeat match goal with |- _ /\ _ => split end.

(** A configuration outside the registry in which the two fans differ:
    3 entries on the CPU curve, 2 on the GPU curve. *)
Definition conf_uneven : msi_ec_conf :=
  {| allowed_fw := None;
     cooler_boost := {| cb_address := 0x98; cb_bit := 7 |};
     fan_mode := {| fm_address := 0xd4;
       modes := array5 [{| name := Some FM_AUTO_NAME; value := 0x00 |};
         {| name := Some FM_ADVANCED_NAME; value := 0x80 |};
         MSI_EC_MODE_NULL] |};
     cpu := {| rt_temp_address := 0x68; rt_fan_speed_address := 0x71;
       fan_curve := {| speed_start_address := 0x72;
         temperature_start_address := 0x6a; entries_count := 3;
         apply_strategy := CURVE_APPLY_STRATEGY_NORMAL; max_speed := 150 |} |};
     gpu := {| rt_temp_address := 0x80; rt_fan_speed_address := 0x89;
       fan_curve := {| speed_start_address := 0x8a;
         temperature_start_address := 0x82; entries_count := 2;
         apply_strategy := CURVE_APPLY_STRATEGY_NORMAL; max_speed := 150 |} |} |}.

Fixpoint all_digits (s : string) : bool :=
  match s with
  | EmptyString => true
  | String c s' => isdigit c && all_digits s'
  end.

(** The text of [v] is a non-empty run of digits that reads back as [v]. *)
Definition dec_ok (v : Z) : bool :=
  match sprintf_d v with
  | EmptyString => false
  | String c s => all_digits (String c s) && (fst (parse_integer (String c s) 0) =? v)
  end.

(** A character that ends a number: the first character of [s], if any,
    is not a digit. *)
Definition stops (s : string) : bool :=
  match s with
  | EmptyString => true
  | String c _ => negb (isdigit c)
  end.

(** The three counters of the print and split loops: [sc] speeds and
    [tc] temperatures have been handled when the loop counter is [j]. *)
Definition counters (j sc tc : nat) : Prop :=
  (Nat.even j = true /\ j = (2 * sc)%nat /\ tc = sc)
  \/ (Nat.even j = false /\ j = S (2 * tc) /\ sc = S tc).

(** The numbers of a curve text, each followed by a blank. *)
Fixpoint items_text (l : list Z) : string :=
  match l with
  | [] => ""
  | v :: l' => (sprintf_d v ++ " " ++ items_text l')%string
  end.

(** The curve text as it is written: numbers separated by one blank, a
    newline after the last. *)
Fixpoint curve_text (l : list Z) : string :=
  match l with
  | [] => String "010" ""
  | [v] => (sprintf_d v ++ String "010" "")%string
  | v :: l' => (sprintf_d v ++ " " ++ curve_text l')%string
  end.

(** Boolean versions of [curve_invariant] and [curve_accepted]. *)
Definition curve_invariantb (n : nat) (speed temp : list Z) : bool :=
  forallb (fun i => aget speed i <=? 150) (seq 0 n)
  && forallb (fun i => aget temp i <=? 100) (seq 0 (n - 1))
  && forallb (fun i => aget temp i <? aget temp (S i)) (seq 0 (n - 2)).

Definition curve_acceptedb (n : nat) (speed temp : list Z) : bool :=
  curve_invariantb n speed temp && ((n <=? 1)%nat || (0 <? aget temp 0)).

Definition bytesb (a : list Z) : bool :=
  forallb (fun x => (0 <=? x) && (x <? 256)) a.

(** A curve buffer that holds zeros. *)
Definition zero_buffer : list Z := repeat 0 (Z.to_nat CURVE_MAX_ENTRIES).

(** Between [e] and [e'] the EC was written at most at address [a]: the
    other registers are the same, and the write log grew by entries for
    [a] only. *)
Definition ec_only_writes (a : Z) (e e' : ec_state) : Prop :=
  (forall b, b <> a -> ec_regs e' b = ec_regs e b)
  /\ exists new,
       ec_writes e' = new ++ ec_writes e
       /\ forall x, In x new -> fst x = a.

(* ================================================================= *)
(** * The rest of the driver

    The sysfs attributes of the platform device, the battery thresholds,
    the LEDs, the curve life cycle ([curve_init], [curve_destroy],
    [curve_show]), the per-point read and the remaining hwmon callbacks. *)

(* ================================================================= *)
(** ** ec_memory_configuration.h: the other members of [struct msi_ec_conf]

    [msi_ec_conf] above holds the members the fan-control engine reads.
    A function below that reads another member of [conf] takes that
    member as an argument. *)

Record msi_ec_webcam_conf := {
  wc_address : Z;
  wc_block_address : Z;
  wc_bit : Z
}.

Record msi_ec_fn_win_swap_conf := {
  fws_address : Z;
  fws_bit : Z;
  fws_invert : bool
}.

Record msi_ec_shift_mode_conf := {
  sm_address : Z;
  sm_modes : list msi_ec_mode
}.

Record msi_ec_super_battery_conf := {
  sb_address : Z;
  sb_mask : Z
}.

Record msi_ec_led_conf := {
  micmute_led_address : Z;
  mute_led_address : Z;
  led_bit : Z
}.

Definition MSI_EC_KBD_BL_STATE_MASK : Z := 0x3.

Record msi_ec_kbd_bl_conf := {
  bl_mode_address : Z;
  bl_modes : list Z;
  max_mode : Z;
  bl_state_address : Z;
  state_base_value : Z;
  max_state : Z
}.

(* ================================================================= *)
(** ** Kernel library: sysfs output and text to value conversions

    [sysfs_emit], [sysfs_emit_at] (fs/sysfs/file.c), [vscnprintf]
    (lib/vsprintf.c), [sysfs_streq] (lib/string_helpers.c), [kstrtobool],
    [kstrtou8] (lib/kstrtox.c) and [str_on_off]
    (include/linux/string_choices.h). *)

(** What a [show] callback leaves: the text in the page buffer, its
    return value being the length of that text, or a negative status. *)
Inductive sysfs_out : Type :=
| Emit (text : string)
| Fail (status : Z).

(** The [ssize_t] a [show] callback returns. *)
Definition ssize (o : sysfs_out) : Z :=
  match o with
  | Emit text => Z.of_nat (String.length text)
  | Fail status => status
  end.

Definition PAGE_SIZE : Z := 4096.

(** [vscnprintf(buf, size, fmt, ...)] where [text] is the formatted
    output: the characters stored, at most [size - 1]. *)
Definition vscnprintf (size : Z) (text : string) : string :=
  substring 0 (Z.to_nat (size - 1)) text.

(** [sysfs_emit(buf, fmt, ...)] *)
Definition sysfs_emit (text : string) : string := vscnprintf PAGE_SIZE text.

(** [sysfs_emit_at(buf, at, fmt, ...)] on a page that holds [page] in its
    first [at] bytes: the content of the page after the call.  The
    return value is the number of characters added. *)
Definition sysfs_emit_at (page : string) (text : string) : string :=
  let at' := Z.of_nat (String.length page) in
  if at' >=? PAGE_SIZE then page
  else (page ++ vscnprintf (PAGE_SIZE - at') text)%string.

(** [sprintf(p, "%u", v)] for an [unsigned int] (or promoted [u8]) [v]. *)
Definition sprintf_u (v : Z) : string := sprintf_d (u32 v).

Definition str_on_off (v : bool) : string := if v then "on" else "off".

(** [sysfs_streq(s1, s2)] on two C strings: equal, or equal up to one
    trailing newline on either side. *)
Fixpoint sysfs_streq_loop (s1 s2 : string) : bool :=
  match s1, s2 with
  | String c1 r1, String c2 r2 =>
      if Ascii.eqb c1 c2 then sysfs_streq_loop r1 r2 else false
  | EmptyString, EmptyString => true
  | EmptyString, String c2 r2 =>
      Ascii.eqb c2 "010" && match r2 with EmptyString => true | _ => false end
  | String c1 r1, EmptyString =>
      Ascii.eqb c1 "010" && match r1 with EmptyString => true | _ => false end
  end.

Definition sysfs_streq (s1 s2 : string) : bool :=
  sysfs_streq_loop (c_str s1) (c_str s2).

(** [kstrtobool(s, &res)]: status and [res] after the call. *)
Definition kstrtobool (s : string) (res : bool) : Z * bool :=
  let among c l := existsb (Ascii.eqb c) (list_ascii_of_string l) in
  match c_str s with
  | EmptyString => (- EINVAL, res)
  | String c0 rest =>
      if among c0 "eEyYtT1" then (0, true)
      else if among c0 "dDnNfF0" then (0, false)
      else if among c0 "oO" then
        match rest with
        | EmptyString => (- EINVAL, res)
        | String c1 _ =>
            if among c1 "nN" then (0, true)
            else if among c1 "fF" then (0, false)
            else (- EINVAL, res)
        end
      else (- EINVAL, res)
  end.

(** [kstrtou8(s, 10, &res)]: [kstrtoull], then the range test. *)
Definition kstrtou8 (s : string) (res : Z) : Z * Z :=
  let '(rv, tmp) := kstrtoul s 0 in
  if rv <? 0 then (rv, res)
  else if negb (tmp =? u8 tmp) then (- ERANGE, res)
  else (0, tmp).

(* ================================================================= *)
(** ** Helper functions (continued) *)

Definition ec_set_by_mask (addr mask : Z) (e : ec_state) : Z * ec_state :=
  let '(result, stored, e1) := ec_read addr 0 e in
  if result <? 0 then (result, e1)
  else ec_write addr (u8 (Z.lor stored (u8 mask))) e1.

Definition ec_unset_by_mask (addr mask : Z) (e : ec_state) : Z * ec_state :=
  let '(result, stored, e1) := ec_read addr 0 e in
  if result <? 0 then (result, e1)
  else ec_write addr (u8 (Z.land stored (Z.lnot (u8 mask)))) e1.

Definition ec_check_by_mask (addr mask : Z) (output : bool) (e : ec_state)
    : Z * bool * ec_state :=
  let '(result, stored, e1) := ec_read addr 0 e in
  if result <? 0 then (result, output, e1)
  else (0, Z.land stored (u8 mask) =? u8 mask, e1).

Definition str_left_right (v : bool) : string := if v then "left" else "right".

(** [direction_is_left(s, &res)] for a non-null [s]. *)
Definition direction_is_left (s : string) (res : bool) : Z * bool :=
  match c_str s with
  | EmptyString => (- EINVAL, res)
  | String c _ =>
      if Ascii.eqb c "l" || Ascii.eqb c "L" then (0, true)
      else if Ascii.eqb c "r" || Ascii.eqb c "R" then (0, false)
      else (- EINVAL, res)
  end.

(* ================================================================= *)
(** ** Sysfs power_supply subsystem *)

(** [get_end_threshold(&out)]; [charge_control_address] is
    [conf.charge_control_address]. *)
Definition get_end_threshold (charge_control_address : Z) (out : Z)
    (e : ec_state) : Z * Z * ec_state :=
  let '(result, rdata, e') := ec_read charge_control_address 0 e in
  if result <? 0 then (result, out, e')
  else
    let rdata := u8 (Z.land rdata (Z.lnot (BIT 7))) in
    if rdata =? 0 then (- ENODATA, out, e')
    else if (rdata <? 10) || (rdata >? 100) then (- EINVAL, out, e')
    else (0, rdata, e').

Definition set_end_threshold (charge_control_address : Z) (value : Z)
    (e : ec_state) : Z * ec_state :=
  let value := u8 value in
  if (value <? 10) || (value >? 100) then (- EINVAL, e)
  else ec_write charge_control_address (Z.lor value (BIT 7)) e.

Definition charge_control_start_threshold_show (charge_control_address : Z)
    (e : ec_state) : sysfs_out * ec_state :=
  let '(result, threshold, e') := get_end_threshold charge_control_address 0 e in
  if result =? - ENODATA then (Emit (sysfs_emit ("0" ++ String "010" "")), e')
  else if result <? 0 then (Fail result, e')
  else (Emit (sysfs_emit (sprintf_u (threshold - 10) ++ String "010" "")), e').

Definition charge_control_start_threshold_store (charge_control_address : Z)
    (buf : string) (e : ec_state) : Z * ec_state :=
  let count := Z.of_nat (String.length buf) in
  let '(result, threshold) := kstrtou8 buf 0 in
  if result <? 0 then (result, e)
  else
    let '(result, e') :=
      set_end_threshold charge_control_address (threshold + 10) e in
    if result <? 0 then (result, e') else (count, e').

Definition charge_control_end_threshold_show (charge_control_address : Z)
    (e : ec_state) : sysfs_out * ec_state :=
  let '(result, threshold, e') := get_end_threshold charge_control_address 0 e in
  if result =? - ENODATA then (Emit (sysfs_emit ("0" ++ String "010" "")), e')
  else if result <? 0 then (Fail result, e')
  else (Emit (sysfs_emit (sprintf_u threshold ++ String "010" "")), e').

Definition charge_control_end_threshold_store (charge_control_address : Z)
    (buf : string) (e : ec_state) : Z * ec_state :=
  let count := Z.of_nat (String.length buf) in
  let '(result, threshold) := kstrtou8 buf 0 in
  if result <? 0 then (result, e)
  else
    let '(result, e') := set_end_threshold charge_control_address threshold e in
    if result <? 0 then (result, e') else (count, e').

(* ================================================================= *)
(** ** Sysfs platform device attributes (root) *)

Definition webcam_common_show (webcam : msi_ec_webcam_conf) (address : Z)
    (inverted : bool) (e : ec_state) : sysfs_out * ec_state :=
  let '(result, value, e') := ec_check_bit address (wc_bit webcam) false e in
  if result <? 0 then (Fail result, e')
  else
    (Emit (sysfs_emit (str_on_off (xorb value inverted) ++ String "010" "")), e').

Definition webcam_common_store (webcam : msi_ec_webcam_conf) (address : Z)
    (buf : string) (inverted : bool) (e : ec_state) : Z * ec_state :=
  let count := Z.of_nat (String.length buf) in
  let '(result, value) := kstrtobool buf false in
  if negb (result =? 0) then (result, e)
  else
    let '(result, e') :=
      ec_set_bit address (wc_bit webcam) (xorb value inverted) e in
    if result <? 0 then (result, e') else (count, e').

Definition webcam_show (webcam : msi_ec_webcam_conf) (e : ec_state)
    : sysfs_out * ec_state :=
  webcam_common_show webcam (wc_address webcam) false e.

Definition webcam_store (webcam : msi_ec_webcam_conf) (buf : string)
    (e : ec_state) : Z * ec_state :=
  webcam_common_store webcam (wc_address webcam) buf false e.

Definition webcam_block_show (webcam : msi_ec_webcam_conf) (e : ec_state)
    : sysfs_out * ec_state :=
  webcam_common_show webcam (wc_block_address webcam) true e.

Definition webcam_block_store (webcam : msi_ec_webcam_conf) (buf : string)
    (e : ec_state) : Z * ec_state :=
  webcam_common_store webcam (wc_block_address webcam) buf true e.

Definition fn_key_show (fn_win_swap : msi_ec_fn_win_swap_conf) (e : ec_state)
    : sysfs_out * ec_state :=
  let '(result, value, e') :=
    ec_check_bit (fws_address fn_win_swap) (fws_bit fn_win_swap) false e in
  if result <? 0 then (Fail result, e')
  else
    let value := xorb value (fws_invert fn_win_swap) in
    let value := negb value in
    (Emit (sysfs_emit (str_left_right value ++ String "010" "")), e').

Definition fn_key_store (fn_win_swap : msi_ec_fn_win_swap_conf) (buf : string)
    (e : ec_state) : Z * ec_state :=
  let count := Z.of_nat (String.length buf) in
  let '(result, value) := direction_is_left buf false in
  if result <? 0 then (result, e)
  else
    let value := xorb value (fws_invert fn_win_swap) in
    let value := negb value in
    let '(result, e') :=
      ec_set_bit (fws_address fn_win_swap) (fws_bit fn_win_swap) value e in
    if result <? 0 then (result, e') else (count, e').

Definition win_key_show (fn_win_swap : msi_ec_fn_win_swap_conf) (e : ec_state)
    : sysfs_out * ec_state :=
  let '(result, value, e') :=
    ec_check_bit (fws_address fn_win_swap) (fws_bit fn_win_swap) false e in
  if result <? 0 then (Fail result, e')
  else
    let value := xorb value (fws_invert fn_win_swap) in
    (Emit (sysfs_emit (str_left_right value ++ String "010" "")), e').

Definition win_key_store (fn_win_swap : msi_ec_fn_win_swap_conf) (buf : string)
    (e : ec_state) : Z * ec_state :=
  let count := Z.of_nat (String.length buf) in
  let '(result, value) := direction_is_left buf false in
  if result <? 0 then (result, e)
  else
    let value := xorb value (fws_invert fn_win_swap) in
    let '(result, e') :=
      ec_set_bit (fws_address fn_win_swap) (fws_bit fn_win_swap) value e in
    if result <? 0 then (result, e') else (count, e').

Definition cooler_boost_show (c : msi_ec_conf) (e : ec_state)
    : sysfs_out * ec_state :=
  let '(result, value, e') :=
    ec_check_bit (cb_address (cooler_boost c)) (cb_bit (cooler_boost c)) false e in
  if result <? 0 then (Fail result, e')
  else (Emit (sysfs_emit (str_on_off value ++ String "010" "")), e').

Definition cooler_boost_store (c : msi_ec_conf) (buf : string) (e : ec_state)
    : Z * ec_state :=
  let count := Z.of_nat (String.length buf) in
  let '(result, value) := kstrtobool buf false in
  if negb (result =? 0) then (result, e)
  else
    let '(result, e') :=
      ec_set_bit (cb_address (cooler_boost c)) (cb_bit (cooler_boost c)) value e in
    if result <? 0 then (result, e') else (count, e').

(** The loop of [available_shift_modes_show] and of
    [available_fan_modes_show] (the same code on the two mode arrays):
    it runs while [modes[i].name] is not null, and [page] is the text
    emitted so far.  A mode array with a null slot ends the loop inside
    the array. *)
Fixpoint available_modes_loop (ms : list msi_ec_mode) (page : string) : string :=
  match ms with
  | [] => page
  | m :: ms' =>
      match name m with
      | None => page
      | Some n =>
          available_modes_loop ms' (sysfs_emit_at page (n ++ String "010" ""))
      end
  end.

Definition available_shift_modes_show (shift_mode : msi_ec_shift_mode_conf)
    : sysfs_out :=
  Emit (available_modes_loop (sm_modes shift_mode) "").

(** The lookup loop of [shift_mode_show]. *)
Fixpoint shift_mode_lookup (ms : list msi_ec_mode) (rdata : Z) : option string :=
  match ms with
  | [] => None
  | m :: ms' =>
      match name m with
      | None => None
      | Some n => if rdata =? value m then Some n else shift_mode_lookup ms' rdata
      end
  end.

Definition shift_mode_show (shift_mode : msi_ec_shift_mode_conf) (e : ec_state)
    : sysfs_out * ec_state :=
  let '(result, rdata, e') := ec_read (sm_address shift_mode) 0 e in
  if result <? 0 then (Fail result, e')
  else if rdata =? 0x80 then
    (Emit (sysfs_emit ("unspecified" ++ String "010" "")), e')
  else
    match shift_mode_lookup (sm_modes shift_mode) rdata with
    | Some n => (Emit (sysfs_emit (n ++ String "010" "")), e')
    | None =>
        (Emit (sysfs_emit ("unknown (" ++ sprintf_d rdata ++ ")"
                           ++ String "010" "")), e')
    end.

(** The loop of [shift_mode_store]. *)
Fixpoint shift_mode_store_loop (ms : list msi_ec_mode) (address : Z)
    (buf : string) (e : ec_state) : Z * ec_state :=
  match ms with
  | [] => (- EINVAL, e)
  | m :: ms' =>
      match name m with
      | None => (- EINVAL, e)
      | Some n =>
          if sysfs_streq n buf then
            let '(result, e') := ec_write address (value m) e in
            if result <? 0 then (result, e')
            else (Z.of_nat (String.length buf), e')
          else shift_mode_store_loop ms' address buf e
      end
  end.

Definition shift_mode_store (shift_mode : msi_ec_shift_mode_conf) (buf : string)
    (e : ec_state) : Z * ec_state :=
  shift_mode_store_loop (sm_modes shift_mode) (sm_address shift_mode) buf e.

Definition super_battery_show (super_battery : msi_ec_super_battery_conf)
    (e : ec_state) : sysfs_out * ec_state :=
  let '(result, enabled, e') :=
    ec_check_by_mask (sb_address super_battery) (sb_mask super_battery) false e in
  if result <? 0 then (Fail result, e')
  else (Emit (sysfs_emit (str_on_off enabled ++ String "010" "")), e').

Definition super_battery_store (super_battery : msi_ec_super_battery_conf)
    (buf : string) (e : ec_state) : Z * ec_state :=
  let count := Z.of_nat (String.length buf) in
  let '(result, value) := kstrtobool buf false in
  if negb (result =? 0) then (result, e)
  else
    let '(result, e') :=
      if value then
        ec_set_by_mask (sb_address super_battery) (sb_mask super_battery) e
      else
        ec_unset_by_mask (sb_address super_battery) (sb_mask super_battery) e in
    if result <? 0 then (result, e') else (count, e').

Definition available_fan_modes_show (c : msi_ec_conf) : sysfs_out :=
  Emit (available_modes_loop (modes (fan_mode c)) "").

Definition fan_mode_show (c : msi_ec_conf) (e : ec_state)
    : sysfs_out * ec_state :=
  let '(status, attr_name, e') := fan_mode_get c None e in
  if status <? 0 then (Fail status, e')
  else if status =? 0 then
    match attr_name with
    | Some n => (Emit (sysfs_emit (n ++ String "010" "")), e')
    | None =>
        (* not reached: [fan_mode_get] sets the name when it returns 0 *)
        (Fail (- ENODATA), e')
    end
  else
    (Emit (sysfs_emit ("unknown (" ++ sprintf_d status ++ ")"
                       ++ String "010" "")), e').

(** The loop of [fan_mode_store]: it runs while [modes[i].name] is not
    null. *)
Fixpoint fan_mode_store_loop (ms : list msi_ec_mode) (buf : string) (d : driver)
    : Z * driver :=
  match ms with
  | [] => (- EINVAL, d)
  | m :: ms' =>
      match name m with
      | None => (- EINVAL, d)
      | Some mode =>
          if sysfs_streq mode buf then
            let '(result, d1) := curve_fan_mode_change d mode in
            if result <? 0 then (result, d1)
            else
              let '(result, e') :=
                ec_write (fm_address (fan_mode (conf d))) (value m) (ec d1) in
              if result <? 0 then (result, set_ec d1 e')
              else (Z.of_nat (String.length buf), set_ec d1 e')
          else fan_mode_store_loop ms' buf d
      end
  end.

Definition fan_mode_store (d : driver) (buf : string) : Z * driver :=
  fan_mode_store_loop (modes (fan_mode (conf d))) buf d.

Definition fw_version_show (e : ec_state) : sysfs_out * ec_state :=
  let '(result, rdata, e') := ec_get_firmware_version e in
  if result <? 0 then (Fail result, e')
  else (Emit (sysfs_emit (c_string_of rdata ++ String "010" "")), e').

(* ================================================================= *)
(** ** Sysfs platform device attributes (fan curves, continued) *)

(** Writing the arrays [curve_fan_speed_default] and
    [curve_temp_default] of a pack. *)
Definition set_default (d : driver) (f : fan) (speed temp : list Z) : driver :=
  let p := pack d f in
  let p' := {| curve_temp := curve_temp p; curve_temp_default := temp;
               curve_fan_speed := curve_fan_speed p;
               curve_fan_speed_default := speed |} in
  {| conf := conf d; conf_loaded := conf_loaded d;
     cpu_curve_package := match f with CPU => p' | GPU => cpu_curve_package d end;
     gpu_curve_package := match f with CPU => gpu_curve_package d | GPU => p' end;
     virtual_hwmon_pwm_enable := virtual_hwmon_pwm_enable d; ec := ec d |}.

(** [curve_show]: [None] is the store before [str] that [print_curve]
    makes when [entries_count] is not positive. *)
Definition curve_show (d : driver) (f : fan) : option sysfs_out * driver :=
  let '(status, sbuf, tbuf, e') :=
    sync_ec_curve_safe (conf d) (pack_curve (conf d) f)
      (curve_fan_speed (pack d f)) (curve_temp (pack d f)) (ec d) in
  let d1 := set_ec (set_active d f sbuf tbuf) e' in
  if status <? 0 then (Some (Fail status), d1)
  else
    match print_curve sbuf tbuf (entries_count (pack_curve (conf d) f)) with
    | Some text => (Some (Emit text), d1)
    | None => (None, d1)
    end.

(** [curve_init]: the curve is read into the default arrays, which are
    then copied, all [CURVE_MAX_ENTRIES] elements, into the active
    arrays. *)
Definition curve_init (d : driver) (f : fan) : Z * driver :=
  let curve := pack_curve (conf d) f in
  if is_curve_allowed curve then
    let '(status, sdef, tdef, e') :=
      sync_ec_curve curve (curve_fan_speed_default (pack d f))
        (curve_temp_default (pack d f)) (ec d) in
    let d1 := set_ec (set_default d f sdef tdef) e' in
    if status <? 0 then (status, d1)
    else
      let '(sbuf, tbuf) :=
        copy_loop (Z.to_nat CURVE_MAX_ENTRIES) 0 sdef tdef
          (curve_fan_speed (pack d1 f)) (curve_temp (pack d1 f)) in
      (0, set_active d1 f sbuf tbuf)
  else (0, d).

(** [curve_destroy]: the default arrays are written to the EC and copied
    into the active arrays. *)
Definition curve_destroy (d : driver) (f : fan) : Z * driver :=
  let curve := pack_curve (conf d) f in
  if is_curve_allowed curve then
    let '(status, e') :=
      push_ec_curve curve (curve_fan_speed_default (pack d f))
        (curve_temp_default (pack d f)) (ec d) in
    let d1 := set_ec d e' in
    if status <? 0 then (status, d1)
    else
      let '(sbuf, tbuf) :=
        copy_loop (Z.to_nat CURVE_MAX_ENTRIES) 0
          (curve_fan_speed_default (pack d1 f)) (curve_temp_default (pack d1 f))
          (curve_fan_speed (pack d1 f)) (curve_temp (pack d1 f)) in
      (0, set_active d1 f sbuf tbuf)
  else (0, d).

(** [msi_platform_probe]; [debug] is the module parameter and
    [sysfs_create_group] the status of that call. *)
Definition msi_platform_probe (debug : bool) (sysfs_create_group : Z)
    (d : driver) : Z * driver :=
  if debug && (sysfs_create_group <? 0) then (sysfs_create_group, d)
  else
    let '(status, d1) := curve_init d CPU in
    if status <? 0 then (status, d1)
    else
      let '(status, d2) := curve_init d1 GPU in
      if status <? 0 then (status, d2) else (0, d2).

(** The two [curve_destroy] calls of [msi_ec_exit]; their status is not
    looked at. *)
Definition msi_ec_exit_curves (d : driver) : driver :=
  let '(_, d1) := curve_destroy d CPU in
  let '(_, d2) := curve_destroy d1 GPU in
  d2.

(* ================================================================= *)
(** ** Sysfs platform device attributes (cpu, gpu) *)

Definition cpu_realtime_temperature_show (c : msi_ec_conf) (e : ec_state)
    : sysfs_out * ec_state :=
  let '(result, rdata, e') := ec_read (rt_temp_address (cpu c)) 0 e in
  if result <? 0 then (Fail result, e')
  else (Emit (sysfs_emit (sprintf_d rdata ++ String "010" "")), e').

Definition cpu_realtime_fan_speed_show (c : msi_ec_conf) (e : ec_state)
    : sysfs_out * ec_state :=
  let '(result, rdata, e') := ec_read (rt_fan_speed_address (cpu c)) 0 e in
  if result <? 0 then (Fail result, e')
  else (Emit (sysfs_emit (sprintf_d rdata ++ String "010" "")), e').

Definition gpu_realtime_temperature_show (c : msi_ec_conf) (e : ec_state)
    : sysfs_out * ec_state :=
  let '(result, rdata, e') := ec_read (rt_temp_address (gpu c)) 0 e in
  if result <? 0 then (Fail result, e')
  else (Emit (sysfs_emit (sprintf_d rdata ++ String "010" "")), e').

Definition gpu_realtime_fan_speed_show (c : msi_ec_conf) (e : ec_state)
    : sysfs_out * ec_state :=
  let '(result, rdata, e') := ec_read (rt_fan_speed_address (gpu c)) 0 e in
  if result <? 0 then (Fail result, e')
  else (Emit (sysfs_emit (sprintf_d rdata ++ String "010" "")), e').

(* ================================================================= *)
(** ** Sysfs leds subsystem *)

(** [micmute_led_sysfs_set] and [mute_led_sysfs_set]: the brightness is
    converted to the [bool] parameter of [ec_set_bit]. *)
Definition micmute_led_sysfs_set (leds : msi_ec_led_conf) (brightness : Z)
    (e : ec_state) : Z * ec_state :=
  let '(result, e') :=
    ec_set_bit (micmute_led_address leds) (led_bit leds)
      (negb (brightness =? 0)) e in
  if result <? 0 then (result, e') else (0, e').

Definition mute_led_sysfs_set (leds : msi_ec_led_conf) (brightness : Z)
    (e : ec_state) : Z * ec_state :=
  let '(result, e') :=
    ec_set_bit (mute_led_address leds) (led_bit leds)
      (negb (brightness =? 0)) e in
  if result <? 0 then (result, e') else (0, e').

Definition kbd_bl_sysfs_get (kbd_bl : msi_ec_kbd_bl_conf) (e : ec_state)
    : Z * ec_state :=
  let '(result, rdata, e') := ec_read (bl_state_address kbd_bl) 0 e in
  if result <? 0 then (0, e')
  else (Z.land rdata MSI_EC_KBD_BL_STATE_MASK, e').

(** [kbd_bl_sysfs_set]; [unregistering] is
    [led_cdev->flags & LED_UNREGISTERING]. *)
Definition kbd_bl_sysfs_set (kbd_bl : msi_ec_kbd_bl_conf) (unregistering : bool)
    (brightness : Z) (e : ec_state) : Z * ec_state :=
  if unregistering then (0, e)
  else if (brightness <? 0) || (brightness >? 3) then (-1, e)
  else
    let wdata := u8 (Z.lor (state_base_value kbd_bl) brightness) in
    ec_write (bl_state_address kbd_bl) wdata e.

(* ================================================================= *)
(** ** Hwmon functions (curve, continued) *)

Definition pwm1_auto_points_count_show (c : msi_ec_conf) : sysfs_out :=
  Emit (sysfs_emit (sprintf_d (entries_count (fan_curve (cpu c)))
                    ++ String "010" "")).

Definition pwm2_auto_points_count_show (c : msi_ec_conf) : sysfs_out :=
  Emit (sysfs_emit (sprintf_d (entries_count (fan_curve (gpu c)))
                    ++ String "010" "")).

(** [curve_attr_show] for the attribute [(fan, point, is_pwm)]. *)
Definition curve_attr_show (d : driver) (fan_idx point is_pwm : Z) : sysfs_out :=
  let f := if fan_idx =? 0 then CPU else GPU in
  let conf_curve := pack_curve (conf d) f in
  let max_speed :=
    if max_speed conf_curve >? 0 then max_speed conf_curve else 100 in
  if negb (is_pwm =? 0) then
    if (point <? 1) || (point >? entries_count conf_curve) then Fail (- EINVAL)
    else
      let value := u8 (aget (curve_fan_speed (pack d f)) (Z.to_nat (point - 1))) in
      let value := u8 (Z.quot (value * 255) max_speed) in
      Emit (sysfs_emit (sprintf_u value ++ String "010" ""))
  else
    if (point <? 1) || (point >=? entries_count conf_curve) then Fail (- EINVAL)
    else
      let value := u8 (aget (curve_temp (pack d f)) (Z.to_nat (point - 1))) in
      Emit (sysfs_emit (sprintf_u value ++ String "010" "")).

(* ================================================================= *)
(** ** Hwmon functions (other, continued) *)

(** [enum hwmon_sensor_types] and the attribute numbers the driver uses
    (include/linux/hwmon.h). *)
Inductive hwmon_sensor_types : Type :=
| hwmon_chip | hwmon_temp | hwmon_in | hwmon_curr | hwmon_power
| hwmon_energy | hwmon_humidity | hwmon_fan | hwmon_pwm | hwmon_intrusion.

Definition hwmon_temp_input : Z := 1.
Definition hwmon_fan_input : Z := 1.
Definition hwmon_fan_label : Z := 2.
Definition hwmon_pwm_enable : Z := 1.

(** [msi_ec_hwmon_is_visible]: the mode returned, 0444 (292) or 0644
    (420), or 0. *)
Definition msi_ec_hwmon_is_visible (c : msi_ec_conf) (type : hwmon_sensor_types)
    (attr channel : Z) : Z :=
  match type with
  | hwmon_temp =>
      if (attr =? hwmon_temp_input)
         && (((channel =? 0)
              && negb (rt_temp_address (cpu c) =? MSI_EC_ADDR_UNSUPP))
             || ((channel =? 1)
                 && negb (rt_temp_address (gpu c) =? MSI_EC_ADDR_UNSUPP)))
      then 292 else 0
  | hwmon_fan =>
      if (attr =? hwmon_fan_input)
         && (((channel =? 0)
              && negb (rt_fan_speed_address (cpu c) =? MSI_EC_ADDR_UNSUPP))
             || ((channel =? 1)
                 && negb (rt_fan_speed_address (gpu c) =? MSI_EC_ADDR_UNSUPP)))
      then 292
      else if (attr =? hwmon_fan_label)
         && (((channel =? 0)
              && negb (rt_fan_speed_address (cpu c) =? MSI_EC_ADDR_UNSUPP))
             || ((channel =? 1)
                 && negb (rt_fan_speed_address (gpu c) =? MSI_EC_ADDR_UNSUPP)))
      then 292 else 0
  | hwmon_pwm =>
      if (attr =? hwmon_pwm_enable)
         && (((channel =? 0)
              && negb (rt_fan_speed_address (cpu c) =? MSI_EC_ADDR_UNSUPP))
             || ((channel =? 1)
                 && negb (rt_fan_speed_address (gpu c) =? MSI_EC_ADDR_UNSUPP)))
      then 420 else 0
  | _ => 0
  end.

(** [msi_ec_hwmon_read_string]: status and [*str] after the call. *)
Definition msi_ec_hwmon_read_string (type : hwmon_sensor_types)
    (attr channel : Z) (str : option string) : Z * option string :=
  match type with
  | hwmon_fan =>
      if attr =? hwmon_fan_label then
        if channel =? 0 then (0, Some "cpu_fan")
        else if channel =? 1 then (0, Some "gpu_fan")
        else (- EINVAL, str)
      else (- EINVAL, str)
  | _ => (- EINVAL, str)
  end.

(** One temperature branch of [msi_ec_hwmon_read]: [address] is the
    [rt_temp_address] of the channel. *)
Definition hwmon_read_temp (address : Z) (val : Z) (e : ec_state)
    : Z * Z * ec_state :=
  let '(result, value, e') := ec_read_seq address [0] 1 e in
  if result <? 0 then (result, val, e')
  else (0, aget value 0 * 1000, e').

(** One fan branch of [msi_ec_hwmon_read]: the two bytes at [high] and
    [low] are combined and turned into a number of revolutions per
    minute. *)
Definition hwmon_read_fan (high low : Z) (val : Z) (e : ec_state)
    : Z * Z * ec_state :=
  let '(result, high_byte, e1) := ec_read_seq high [0] 1 e in
  if result <? 0 then (result, val, e1)
  else
    let '(result, low_byte, e2) := ec_read_seq low [0] 1 e1 in
    if result <? 0 then (result, val, e2)
    else
      let fan_value :=
        Z.lor (Z.shiftl (aget high_byte 0) 8) (aget low_byte 0) mod 2 ^ 16 in
      if fan_value =? 0 then (0, 0, e2)
      else (0, Z.quot 480000 fan_value, e2).

(** [msi_ec_hwmon_read] for every [type] and [attr]; the PWM-enable
    branch is [msi_ec_hwmon_read] above. *)
Definition msi_ec_hwmon_ops_read (d : driver) (type : hwmon_sensor_types)
    (attr channel val : Z) : run (Z * Z * driver) :=
  match type with
  | hwmon_temp =>
      if attr =? hwmon_temp_input then
        if (channel =? 0)
           && negb (rt_temp_address (cpu (conf d)) =? MSI_EC_ADDR_UNSUPP) then
          let '(result, val', e') :=
            hwmon_read_temp (rt_temp_address (cpu (conf d))) val (ec d) in
          Returns (result, val', set_ec d e')
        else if (channel =? 1)
           && negb (rt_temp_address (gpu (conf d)) =? MSI_EC_ADDR_UNSUPP) then
          let '(result, val', e') :=
            hwmon_read_temp (rt_temp_address (gpu (conf d))) val (ec d) in
          Returns (result, val', set_ec d e')
        else Returns (- EOPNOTSUPP, val, d)
      else Returns (- EOPNOTSUPP, val, d)
  | hwmon_fan =>
      if attr =? hwmon_fan_input then
        if channel =? 0 then
          let '(result, val', e') := hwmon_read_fan 0xC8 0xC9 val (ec d) in
          Returns (result, val', set_ec d e')
        else if channel =? 1 then
          let '(result, val', e') := hwmon_read_fan 0xCA 0xCB val (ec d) in
          Returns (result, val', set_ec d e')
        else Returns (- EOPNOTSUPP, val, d)
      else Returns (- EOPNOTSUPP, val, d)
  | hwmon_pwm =>
      if attr =? hwmon_pwm_enable then msi_ec_hwmon_read d channel val
      else Returns (- EOPNOTSUPP, val, d)
  | _ => Returns (- EOPNOTSUPP, val, d)
  end.

(** [msi_ec_hwmon_write] for every [type] and [attr]; the PWM-enable
    branch is [msi_ec_hwmon_write] above. *)
Definition msi_ec_hwmon_ops_write (d : driver) (type : hwmon_sensor_types)
    (attr channel val : Z) : run (Z * driver) :=
  match type with
  | hwmon_pwm =>
      if attr =? hwmon_pwm_enable then msi_ec_hwmon_write d channel val
      else Returns (- EINVAL, d)
  | _ => Returns (- EINVAL, d)
  end.

(** The first loop of [pwm_enable_available_show]: the local array
    [mode_names], index 0 first. *)
Fixpoint pwm_mode_names (ms : list msi_ec_mode) (mode_names : list (option string))
    : list (option string) :=
  match ms with
  | [] => mode_names
  | m :: ms' =>
      match name m with
      | None => mode_names
      | Some n =>
          let set i := firstn i mode_names ++ [Some n] ++ skipn (S i) mode_names in
          if String.eqb n FM_ADVANCED_NAME then pwm_mode_names ms' (set 1%nat)
          else if String.eqb n FM_AUTO_NAME then pwm_mode_names ms' (set 2%nat)
          else if String.eqb n FM_SILENT_NAME then pwm_mode_names ms' (set 3%nat)
          else if String.eqb n FM_BASIC_NAME then pwm_mode_names ms' (set 4%nat)
          else pwm_mode_names ms' mode_names
      end
  end.

(** The output loop: [i] is the loop counter and [page] the text so far
    ([len] is its length). *)
Fixpoint pwm_enable_lines (mode_names : list (option string)) (i : Z)
    (page : string) : string :=
  match mode_names with
  | [] => page
  | None :: rest => pwm_enable_lines rest (i + 1) page
  | Some n :: rest =>
      let len := Z.of_nat (String.length page) in
      pwm_enable_lines rest (i + 1)
        (page ++ vscnprintf (PAGE_SIZE - len)
                   (sprintf_d i ++ ": " ++ n ++ String "010" ""))%string
  end.

Definition pwm_enable_available_show (c : msi_ec_conf) : sysfs_out :=
  let mode_names := pwm_mode_names (modes (fan_mode c)) (repeat None 5) in
  let mode_names :=
    if negb (cb_address (cooler_boost c) =? MSI_EC_ADDR_UNSUPP)
    then Some "full" :: skipn 1 mode_names else mode_names in
  Emit (pwm_enable_lines mode_names 0 "").

(* ================================================================= *)
(** ** Vocabulary of the properties (continued) *)

(** The byte [ec_set_bit] writes back. *)
Definition with_bit (stored bit : Z) (value : bool) : Z :=
  if value then u8 (Z.lor stored (BIT (u8 bit)))
  else u8 (Z.land stored (Z.lnot (BIT (u8 bit)))).

(** The slot [fan_mode_store] stops at: the name and the value of the
    first slot, before the first null one, whose name matches [buf]. *)
Fixpoint store_slot (ms : list msi_ec_mode) (buf : string) : option (string * Z) :=
  match ms with
  | [] => None
  | m :: ms' =>
      match name m with
      | None => None
      | Some n =>
          if sysfs_streq n buf then Some (n, value m) else store_slot ms' buf
      end
  end.

(** The named slot [m] of the mode array [ms] can be selected by its
    name, through [set_fan_mode] and through [fan_mode_store] (with and
    without a trailing newline), and its value reads back as its name. *)
Definition slot_ok (ms : list msi_ec_mode) (m : msi_ec_mode) : bool :=
  match name m with
  | None => true
  | Some n =>
      match mode_value (firstn 5 ms) n, fan_mode_lookup ms (u8 (value m)),
            store_slot ms n, store_slot ms (n ++ String "010" "") with
      | Some v, Some n1, Some (n2, v2), Some (n3, v3) =>
          (v =? value m) && String.eqb n1 n
          && String.eqb n2 n && (v2 =? value m)
          && String.eqb n3 n && (v3 =? value m)
      | _, _, _, _ => false
      end
  end.

Definition modes_ok (p : msi_ec_conf) : bool :=
  forallb (slot_ok (modes (fan_mode p))) (modes (fan_mode p)).

(** A text made of lines. *)
Definition lines (l : list string) : string :=
  String.concat "" (map (fun n => (n ++ String "010" "")%string) l).

(** [available_fan_modes_show] emits the names of the mode array, one
    per line. *)
Definition modes_listed (p : msi_ec_conf) : bool :=
  match available_fan_modes_show (copy_conf p) with
  | Emit text => String.eqb text (lines (mode_names (modes (fan_mode p))))
  | Fail _ => false
  end.

(** The lines of [pwm_enable_available]: one per value and name. *)
Definition pwm_lines (l : list (Z * string)) : string :=
  String.concat ""
    (map (fun x => (sprintf_d (fst x) ++ ": " ++ snd x ++ String "010" "")%string) l).

(** The entries of the array [mode_names] of [pwm_enable_available_show]
    that are not null, with their index. *)
Fixpoint pwm_enable_entries (mode_names : list (option string)) (i : Z)
    : list (Z * string) :=
  match mode_names with
  | [] => []
  | None :: rest => pwm_enable_entries rest (i + 1)
  | Some n :: rest => (i, n) :: pwm_enable_entries rest (i + 1)
  end.

Definition pwm_enable_list (c : msi_ec_conf) : list (Z * string) :=
  let mode_names := pwm_mode_names (modes (fan_mode c)) (repeat None 5) in
  let mode_names :=
    if negb (cb_address (cooler_boost c) =? MSI_EC_ADDR_UNSUPP)
    then Some "full" :: skipn 1 mode_names else mode_names in
  pwm_enable_entries mode_names 0.

(** The PWM-enable values and the names they are shown with. *)
Definition pwm_table : list (Z * string) :=
  [(PWM_ENABLE_FULL, "full"); (PWM_ENABLE_MANUAL, FM_ADVANCED_NAME);
   (PWM_ENABLE_AUTO, FM_AUTO_NAME); (PWM_ENABLE_SILENT, FM_SILENT_NAME);
   (PWM_ENABLE_BASIC, FM_BASIC_NAME)].

Definition pwm_listed (c : msi_ec_conf) (v : Z) : bool :=
  existsb (Z.eqb v) (map fst (pwm_enable_list c)).

(** For the PWM-enable value [v] and the mode name it stands for: the
    value is listed exactly when the availability lookup returns true,
    and the lookup never returns false. *)
Definition pwm_mode_ok (c : msi_ec_conf) (v : Z) (mode : string) : bool :=
  match fan_mode_is_available c mode with
  | Returns true =>
      pwm_listed c v
      && match fan_mode_value c mode with Some _ => true | None => false end
  | Returns false => false
  | NullDeref => negb (pwm_listed c v)
  end.

Definition pwm_ok (p : msi_ec_conf) : bool :=
  let c := copy_conf p in
  match pwm_enable_available_show c with
  | Emit text => String.eqb text (pwm_lines (pwm_enable_list c))
  | Fail _ => false
  end
  && forallb (fun x => existsb (fun y => (fst x =? fst y)
                                        && String.eqb (snd x) (snd y)) pwm_table)
       (pwm_enable_list c)
  && Bool.eqb (pwm_listed c 0)
       (negb (cb_address (cooler_boost c) =? MSI_EC_ADDR_UNSUPP))
  && pwm_mode_ok c PWM_ENABLE_MANUAL FM_ADVANCED_NAME
  && pwm_mode_ok c PWM_ENABLE_AUTO FM_AUTO_NAME
  && pwm_mode_ok c PWM_ENABLE_SILENT FM_SILENT_NAME
  && pwm_mode_ok c PWM_ENABLE_BASIC FM_BASIC_NAME.

(** The cooler-boost bit of a profile is a bit of a register of its own. *)
Definition cb_ok (p : msi_ec_conf) : bool :=
  negb (cb_address (cooler_boost p) =? MSI_EC_ADDR_UNSUPP)
  && (0 <=? cb_bit (cooler_boost p)) && (cb_bit (cooler_boost p) <? 8)
  && negb (existsb (Z.eqb (u8 (cb_address (cooler_boost p))))
             (engine_regs (copy_conf p))).

(** The configuration and the default buffers of both fans are the same
    in [d] and [d']. *)
Definition same_defaults (d d' : driver) : Prop :=
  conf d' = conf d
  /\ forall f,
       curve_fan_speed_default (pack d' f) = curve_fan_speed_default (pack d f)
       /\ curve_temp_default (pack d' f) = curve_temp_default (pack d f).


(** The text of the first [n] speeds and [n - 1] temperatures of two
    buffers, as the curve attribute shows it. *)
Definition curve_text_of (speed temp : list Z) (n : Z) : string :=
  curve_text (map (curve_item speed temp) (seq 0 (Z.to_nat (2 * n - 1)))).

(** The hwmon channel of a fan, the part of the configuration and the
    realtime temperature attribute that belong to it. *)
Definition fan_channel (f : fan) : Z := match f with CPU => 0 | GPU => 1 end.

Definition fan_conf (c : msi_ec_conf) (f : fan) : msi_ec_cpu_conf :=
  match f with CPU => cpu c | GPU => gpu c end.

Definition realtime_temperature_show (f : fan) (c : msi_ec_conf) (e : ec_state)
    : sysfs_out * ec_state :=
  match f with
  | CPU => cpu_realtime_temperature_show c e
  | GPU => gpu_realtime_temperature_show c e
  end.

(** The 16-bit fan counter that the hwmon fan channel of a fan reads:
    high byte at 0xC8 (CPU) or 0xCA (GPU), low byte at the next
    address. *)
Definition fan_counter (f : fan) (e : ec_state) : Z :=
  match f with
  | CPU => 256 * u8 (ec_regs e 0xC8) + u8 (ec_regs e 0xC9)
  | GPU => 256 * u8 (ec_regs e 0xCA) + u8 (ec_regs e 0xCB)
  end.

(** The four buffers of a pack are curve buffers. *)
Definition pack_ok (p : curve_pack) : Prop :=
  curve_buffer (curve_fan_speed p) /\ curve_buffer (curve_temp p)
  /\ curve_buffer (curve_fan_speed_default p)
  /\ curve_buffer (curve_temp_default p).

(** The registers of the curve of a fan when the curve is allowed, none
    otherwise: the registers [curve_init] reads and [curve_destroy]
    writes. *)
Definition used_curve_regs (c : msi_ec_conf) (f : fan) : list Z :=
  if is_curve_allowed (pack_curve c f) then curve_regs (pack_curve c f) else [].

(** A profile whose curve for a fan is not allowed has no entries for
    it and none for the CPU, and its apply strategy is the normal
    one. *)
Definition curve_less_ok (p : msi_ec_conf) : bool :=
  forallb (fun f =>
             is_curve_allowed (pack_curve p f)
             || ((entries_count (pack_curve p f) =? 0)
                 && (entries_count (fan_curve (cpu p)) =? 0)
                 && (apply_strategy (pack_curve p f)
                     =? CURVE_APPLY_STRATEGY_NORMAL)))
    [CPU; GPU].

(* ================================================================= *)
(** * Properties *)

(** ** Arithmetic and arrays *)

Lemma u8_range (x : Z) : is_byte (u8 x).
Proof. unfold is_byte, u8. apply Z.mod_pos_bound. lia. Qed.

Lemma u8_small (x : Z) : is_byte x -> u8 x = x.
Proof. unfold is_byte, u8. intros H. apply Z.mod_small. exact H. Qed.

Lemma u8_u8 (x : Z) : u8 (u8 x) = u8 x.
Proof. apply u8_small, u8_range. Qed.

Lemma aset_length (a : list Z) (i : nat) (v : Z) :
  List.length (aset a i v) = List.length a.
Proof.
  revert i. induction a as [|h t IH]; intros [|i]; simpl; auto.
Qed.

Lemma aget_aset (a : list Z) (i k : nat) (v : Z) :
  (i < List.length a)%nat ->
  aget (aset a i v) k = if Nat.eqb k i then v else aget a k.
Proof.
  unfold aget. revert i k.
  induction a as [|h t IH]; intros i k Hi; simpl in Hi; [lia|].
  destruct i as [|i]; destruct k as [|k]; simpl; auto.
  apply IH. lia.
Qed.

Lemma aset_same (a : list Z) (i : nat) : aset a i (aget a i) = a.
Proof.
  unfold aget. revert i.
  induction a as [|h t IH]; intros [|i]; simpl; auto.
  now rewrite IH.
Qed.

Lemma aget_bytes (a : list Z) (i : nat) : bytes a -> is_byte (aget a i).
Proof.
  unfold bytes, aget. intros H.
  destruct (Nat.lt_ge_cases i (List.length a)) as [Hlt|Hge].
  - rewrite Forall_forall in H. apply H, nth_In, Hlt.
  - rewrite nth_overflow by exact Hge. unfold is_byte. lia.
Qed.

Lemma aset_bytes (a : list Z) (i : nat) (v : Z) :
  bytes a -> is_byte v -> bytes (aset a i v).
Proof.
  unfold bytes. revert i.
  induction a as [|h t IH]; intros i Ha Hv; simpl; auto.
  inversion Ha; subst.
  destruct i; constructor; auto.
Qed.


(* ================================================================= *)
(** ** Facts about the registry, checked by evaluation *)

Lemma registry_forall (f : msi_ec_conf -> bool) :
  forallb f CONFIGURATIONS = true ->
  forall p, In p CONFIGURATIONS -> f p = true.
Proof. intros H p Hp. exact (proj1 (forallb_forall f CONFIGURATIONS) H p Hp). Qed.

Lemma registry_null_slot (p : msi_ec_conf) :
  In p CONFIGURATIONS -> has_null_slot (firstn 5 (modes (fan_mode p))) = true.
Proof.
  apply (registry_forall (fun p => has_null_slot (firstn 5 (modes (fan_mode p))))).
  vm_compute. reflexivity.
Qed.

Lemma registry_allowed_fw (p : msi_ec_conf) :
  In p CONFIGURATIONS -> allowed_fw p = Some (fw_list p).
Proof.
  intros Hp.
  assert (H : match allowed_fw p with Some _ => true | None => false end = true).
  { revert p Hp. apply registry_forall. vm_compute. reflexivity. }
  unfold fw_list. destruct (allowed_fw p); [reflexivity | discriminate].
Qed.

Lemma registry_fw_nodup :
  nodup_strings (flat_map fw_list CONFIGURATIONS) = true.
Proof. vm_compute. reflexivity. Qed.

Lemma registry_layout (p : msi_ec_conf) :
  In p CONFIGURATIONS -> layout_ok (copy_conf p) = true.
Proof.
  apply (registry_forall (fun p => layout_ok (copy_conf p))).
  vm_compute. reflexivity.
Qed.

Lemma registry_cooler_boost (p : msi_ec_conf) :
  In p CONFIGURATIONS ->
  u8 (cb_address (cooler_boost p)) <> u8 (fm_address (fan_mode p)).
Proof.
  intros Hp.
  assert (H : negb (u8 (cb_address (cooler_boost p))
                    =? u8 (fm_address (fan_mode p))) = true).
  { revert p Hp. apply registry_forall. vm_compute. reflexivity. }
  apply negb_true_iff, Z.eqb_neq in H. exact H.
Qed.

Lemma registry_auto (p : msi_ec_conf) :
  In p CONFIGURATIONS ->
  fan_mode_is_available (copy_conf p) FM_AUTO_NAME = Returns true
  /\ exists v, fan_mode_value (copy_conf p) FM_AUTO_NAME = Some v.
Proof.
  intros Hp.
  assert (H : match fan_mode_is_available (copy_conf p) FM_AUTO_NAME,
                    fan_mode_value (copy_conf p) FM_AUTO_NAME with
              | Returns true, Some _ => true
              | _, _ => false
              end = true).
  { revert p Hp. apply registry_forall. vm_compute. reflexivity. }
  destruct (fan_mode_is_available (copy_conf p) FM_AUTO_NAME) as [[|]|];
    try discriminate.
  destruct (fan_mode_value (copy_conf p) FM_AUTO_NAME) as [v|];
    try discriminate.
  split; [reflexivity | exists v; reflexivity].
Qed.

Lemma registry_advanced (p : msi_ec_conf) :
  In p CONFIGURATIONS ->
  exists v, fan_mode_value (copy_conf p) FM_ADVANCED_NAME = Some v.
Proof.
  intros Hp.
  assert (H : match fan_mode_value (copy_conf p) FM_ADVANCED_NAME with
              | Some _ => true
              | None => false
              end = true).
  { revert p Hp. apply registry_forall. vm_compute. reflexivity. }
  destruct (fan_mode_value (copy_conf p) FM_ADVANCED_NAME) as [v|];
    try discriminate.
  exists v; reflexivity.
Qed.

(* ================================================================= *)
(** ** Fan-mode availability *)

Lemma fan_mode_scan_missing (ms : list msi_ec_mode) (mode : string) :
  has_null_slot ms = true -> ~ In mode (mode_names ms) ->
  fan_mode_scan ms mode = NullDeref.
Proof.
  induction ms as [|m ms IH]; simpl; [discriminate|].
  intros Hnull Hnot.
  destruct (name m) as [n|] eqn:En; simpl; [|reflexivity].
  destruct (String.eqb_spec n mode) as [->|Hne].
  - exfalso. apply Hnot. simpl. now left.
  - apply IH; [exact Hnull|].
    intros Hin. apply Hnot. simpl. now right.
Qed.

Lemma fan_mode_scan_present (ms : list msi_ec_mode) (mode : string) (b : bool) :
  fan_mode_scan ms mode = Returns b ->
  b = true <-> In mode (mode_names ms).
Proof.
  induction ms as [|m ms IH]; simpl.
  - intros [= <-]. split; [discriminate | contradiction].
  - destruct (name m) as [n|] eqn:En; simpl; [|discriminate].
    destruct (String.eqb_spec n mode) as [->|Hne].
    + intros [= <-]. split; [now left | reflexivity].
    + intros H. rewrite (IH H). simpl. split; [now right|].
      intros [Heq|Hin]; [contradiction | exact Hin].
Qed.

(** For every profile of the registry, a name that is not among the
    named fan modes makes the availability lookup dereference the null
    name of the sentinel entry. *)
Lemma fan_mode_is_available_missing (p : msi_ec_conf) (mode : string) :
  In p CONFIGURATIONS ->
  ~ In mode (mode_names (firstn 5 (modes (fan_mode p)))) ->
  fan_mode_is_available (copy_conf p) mode = NullDeref.
Proof.
  intros Hp Hnot. unfold fan_mode_is_available. simpl.
  apply fan_mode_scan_missing; [apply registry_null_slot, Hp | exact Hnot].
Qed.

(** C10 (code defect).  The profile CONF401 names the modes "auto",
    "silent" and "advanced".  Asking [fan_mode_is_available] for "basic"
    (a PWM-enable write of 4) compares the three names, then hands the
    null name of the sentinel slot to [strcmp]: the lookup does not
    return false, it dereferences a null pointer.  The sibling loop of
    [set_fan_mode] checks the name first and returns [-EINVAL] for the
    same request. *)
Theorem fan_mode_is_available_null_deref :
  fan_mode_is_available (copy_conf CONF401) FM_BASIC_NAME = NullDeref
  /\ msi_ec_hwmon_write (driver_example (fun _ => 0) [] (1, 1)) 0 PWM_ENABLE_BASIC
     = NullDeref
  /\ fst (set_fan_mode (driver_example (fun _ => 0) [] (1, 1)) FM_BASIC_NAME)
     = - EINVAL.
Proof. by_evaluation. Qed.

(* ================================================================= *)
(** ** Profile resolution *)

Lemma match_string_loop_hit (l : list string) (index : Z) (s : string) :
  0 <= index -> In s l -> 0 <= match_string_loop l index s.
Proof.
  revert index. induction l as [|item l IH]; intros index Hi Hin; simpl.
  - contradiction.
  - destruct (String.eqb_spec item s) as [->|Hne]; [exact Hi|].
    destruct Hin as [Heq|Hin]; [contradiction|].
    apply IH; [lia | exact Hin].
Qed.

Lemma match_string_loop_miss (l : list string) (index : Z) (s : string) :
  ~ In s l -> match_string_loop l index s = - EINVAL.
Proof.
  revert index. induction l as [|item l IH]; intros index Hnot; simpl.
  - reflexivity.
  - destruct (String.eqb_spec item s) as [->|Hne].
    + exfalso. apply Hnot. now left.
    + apply IH. intros Hin. apply Hnot. now right.
Qed.

Lemma load_scan_miss (table : list msi_ec_conf) (ver : string) (d : driver) :
  (forall q, In q table -> allowed_fw q = Some (fw_list q) /\ ~ In ver (fw_list q)) ->
  load_scan table ver d = Returns None.
Proof.
  induction table as [|q table IH]; intros H; simpl; [reflexivity|].
  destruct (H q (or_introl eq_refl)) as [Hq Hnot].
  rewrite Hq. simpl. rewrite (match_string_loop_miss _ _ _ Hnot).
  rewrite Z.eqb_refl. simpl.
  apply IH. intros q' Hq'. apply H. now right.
Qed.

Lemma load_scan_hit (pre post : list msi_ec_conf) (p : msi_ec_conf)
    (ver : string) (d : driver) :
  (forall q, In q pre -> allowed_fw q = Some (fw_list q) /\ ~ In ver (fw_list q)) ->
  allowed_fw p = Some (fw_list p) -> In ver (fw_list p) ->
  load_scan (pre ++ p :: post) ver d
  = Returns (Some (set_conf d (copy_conf p) true)).
Proof.
  induction pre as [|q pre IH]; intros H Hp Hin; simpl.
  - rewrite Hp. simpl.
    pose proof (match_string_loop_hit (fw_list p) 0 ver (Z.le_refl 0) Hin) as Hge.
    match goal with
    | |- context [?x =? ?y] => destruct (Z.eqb_spec x y) as [E|E]
    end; [lia | reflexivity].
  - destruct (H q (or_introl eq_refl)) as [Hq Hnot].
    rewrite Hq. simpl. rewrite (match_string_loop_miss _ _ _ Hnot).
    rewrite Z.eqb_refl. simpl.
    apply IH; auto. intros q' Hq'. apply H. now right.
Qed.

Lemma nodup_strings_NoDup (l : list string) :
  nodup_strings l = true -> NoDup l.
Proof.
  induction l as [|x l IH]; simpl; intros H; constructor.
  - apply andb_true_iff in H. destruct H as [H _].
    apply negb_true_iff in H. intros Hin.
    assert (E : existsb (String.eqb x) l = true).
    { apply existsb_exists. exists x. split; [exact Hin | apply String.eqb_refl]. }
    congruence.
  - apply IH. apply andb_true_iff in H. tauto.
Qed.

Lemma NoDup_app_disjoint {A : Type} (a b : list A) (x : A) :
  NoDup (a ++ b) -> In x a -> In x b -> False.
Proof.
  induction a as [|h a IH]; simpl; intros Hnd Ha Hb; [contradiction|].
  inversion Hnd as [|? ? Hnotin Hnd']; subst.
  destruct Ha as [->|Ha].
  - apply Hnotin. apply in_or_app. now right.
  - exact (IH Hnd' Ha Hb).
Qed.

(** No firmware identifier is accepted by two profiles: a profile that
    accepts [ver] is the first one that does. *)
Lemma registry_first_match (pre post : list msi_ec_conf) (p : msi_ec_conf)
    (ver : string) :
  CONFIGURATIONS = pre ++ p :: post -> In ver (fw_list p) ->
  forall q, In q pre -> ~ In ver (fw_list q).
Proof.
  intros Hsplit Hin q Hq Hinq.
  pose proof (nodup_strings_NoDup _ registry_fw_nodup) as Hnd.
  rewrite Hsplit, flat_map_app in Hnd. simpl in Hnd.
  apply (NoDup_app_disjoint _ _ ver Hnd).
  - apply in_flat_map. exists q. split; assumption.
  - apply in_or_app. now left.
Qed.

(** C7.  [load_configuration] scans [CONFIGURATIONS] in declared order.
    Once the firmware identifier [ver] is known (module parameter or EC
    read): the first profile one of whose accepted identifiers equals
    [ver] is copied into [conf] (with [allowed_fw] cleared),
    [conf_loaded] is set and the result is 0; every profile that accepts
    [ver] is that first one; and when no profile accepts [ver] the result
    is [-EOPNOTSUPP] with debug off, and 0 with [conf] and [conf_loaded]
    untouched with debug on.  After a match the members of [conf] are
    those of the profile, [allowed_fw] is null, [conf_loaded] is true,
    and the rest of the driver state is as the identifier lookup left
    it. *)
Theorem load_configuration_first_match (firmware : option string) (debug : bool)
    (d d1 : driver) (result : Z) (ver : string) :
  firmware_version firmware d = (result, ver, d1) -> 0 <= result ->
  (forall pre p post, CONFIGURATIONS = pre ++ p :: post ->
     In ver (fw_list p) -> (forall q, In q pre -> ~ In ver (fw_list q)) ->
     exists d',
       load_configuration firmware debug d = Returns (0, d')
       /\ d' = set_conf d1 (copy_conf p) true
       /\ conf_loaded d' = true
       /\ allowed_fw (conf d') = None
       /\ cooler_boost (conf d') = cooler_boost p
       /\ fan_mode (conf d') = fan_mode p
       /\ cpu (conf d') = cpu p /\ gpu (conf d') = gpu p
       /\ ec d' = ec d1
       /\ cpu_curve_package d' = cpu_curve_package d1
       /\ gpu_curve_package d' = gpu_curve_package d1
       /\ virtual_hwmon_pwm_enable d' = virtual_hwmon_pwm_enable d1)
  /\ (forall p, In p CONFIGURATIONS -> In ver (fw_list p) ->
     exists d',
       load_configuration firmware debug d = Returns (0, d')
       /\ d' = set_conf d1 (copy_conf p) true
       /\ conf_loaded d' = true
       /\ allowed_fw (conf d') = None
       /\ cooler_boost (conf d') = cooler_boost p
       /\ fan_mode (conf d') = fan_mode p
       /\ cpu (conf d') = cpu p /\ gpu (conf d') = gpu p
       /\ ec d' = ec d1
       /\ cpu_curve_package d' = cpu_curve_package d1
       /\ gpu_curve_package d' = gpu_curve_package d1
       /\ virtual_hwmon_pwm_enable d' = virtual_hwmon_pwm_enable d1)
  /\ ((forall q, In q CONFIGURATIONS -> ~ In ver (fw_list q)) ->
     load_configuration firmware debug d
     = Returns (if debug then 0 else - EOPNOTSUPP, d1)
     /\ conf d1 = conf d /\ conf_loaded d1 = conf_loaded d).
Proof.
  intros Hver Hres.
  assert (Hfirst : forall pre p post, CONFIGURATIONS = pre ++ p :: post ->
     In ver (fw_list p) -> (forall q, In q pre -> ~ In ver (fw_list q)) ->
     load_configuration firmware debug d
     = Returns (0, set_conf d1 (copy_conf p) true)).
  { intros pre p post Hsplit Hin Hpre.
    unfold load_configuration. rewrite Hver.
    destruct (Z.ltb_spec result 0) as [Hlt|_]; [lia|].
    rewrite Hsplit. rewrite load_scan_hit; [reflexivity | | | exact Hin].
    - intros q Hq. split; [|now apply Hpre].
      apply registry_allowed_fw. rewrite Hsplit. apply in_or_app. now left.
    - apply registry_allowed_fw. rewrite Hsplit. apply in_or_app. right. now left. }
  split; [|split].
  - intros pre p post Hsplit Hin Hpre.
    exists (set_conf d1 (copy_conf p) true).
    split; [exact (Hfirst pre p post Hsplit Hin Hpre)|].
    repeat split.
  - intros p Hp Hin.
    destruct (in_split _ _ Hp) as [pre [post Hsplit]].
    exists (set_conf d1 (copy_conf p) true).
    split; [|repeat split].
    apply (Hfirst pre p post Hsplit Hin).
    exact (registry_first_match pre post p ver Hsplit Hin).
  - intros Hnone. split.
    + unfold load_configuration. rewrite Hver.
      destruct (Z.ltb_spec result 0) as [Hlt|_]; [lia|].
      rewrite load_scan_miss; [destruct debug; reflexivity|].
      intros q Hq. split; [now apply registry_allowed_fw | now apply Hnone].
    + unfold firmware_version in Hver. destruct firmware as [fw|].
      * inversion Hver; subst. split; reflexivity.
      * destruct (ec_get_firmware_version (ec d)) as [[r b] e'].
        inversion Hver; subst. split; reflexivity.
Qed.

Lemma load_configuration_first_match_witness :
  firmware_version (Some "1T52EMS1.104") (driver_initial (fun _ => 0))
  = (0, "1T52EMS1.104", driver_initial (fun _ => 0))
  /\ 0 <= 0
  /\ exists d',
       load_configuration (Some "1T52EMS1.104") false
         (driver_initial (fun _ => 0)) = Returns (0, d')
       /\ conf_loaded (driver_initial (fun _ => 0)) = false
       /\ conf_loaded d' = true
       /\ allowed_fw (conf d') = None
       /\ fan_mode (conf (driver_initial (fun _ => 0))) <> fan_mode CONF401
       /\ fan_mode (conf d') = fan_mode CONF401
       /\ cooler_boost (conf d') = cooler_boost CONF401
       /\ cpu (conf d') = cpu CONF401 /\ gpu (conf d') = gpu CONF401.
Proof.
  split; [reflexivity|]. split; [lia|].
  destruct (proj1 (proj2 (load_configuration_first_match
              (Some "1T52EMS1.104") false (driver_initial (fun _ => 0))
              (driver_initial (fun _ => 0)) 0 "1T52EMS1.104"
              eq_refl (Z.le_refl 0))) CONF401)
    as [d' [Hload [_ [Hl [Hfw [Hcb [Hfm [Hcpu [Hgpu _]]]]]]]]].
  - unfold CONFIGURATIONS. simpl. tauto.
  - simpl. now left.
  - exists d'. split; [exact Hload|]. split; [reflexivity|].
    split; [exact Hl|]. split; [exact Hfw|].
    split; [vm_compute; discriminate|]. split; [exact Hfm|].
    split; [exact Hcb|]. split; [exact Hcpu | exact Hgpu].
Defined.

(* ================================================================= *)
(** ** Whole-curve store: rejection and entry count *)

Lemma set_active_same (d : driver) (f : fan) :
  set_active d f (curve_fan_speed (pack d f)) (curve_temp (pack d f)) = d.
Proof.
  destruct d as [c l [ct ctd cs csd] [gt gtd gs gsd] v e].
  destruct f; reflexivity.
Qed.

Lemma pack_set_active (d : driver) (f : fan) (s t : list Z) :
  curve_fan_speed (pack (set_active d f s t) f) = s
  /\ curve_temp (pack (set_active d f s t) f) = t
  /\ curve_fan_speed_default (pack (set_active d f s t) f)
     = curve_fan_speed_default (pack d f)
  /\ curve_temp_default (pack (set_active d f s t) f)
     = curve_temp_default (pack d f).
Proof. destruct f; simpl; auto. Qed.

(** A failing [read_curve] returns [-EINVAL] and both buffers as they
    were. *)
Lemma read_curve_reject (fan_speed_buf temperature_buf : list Z) (entries : Z)
    (buf : string) (stack : nat -> Z) :
  fst (fst (read_curve fan_speed_buf temperature_buf entries buf stack)) < 0 ->
  read_curve fan_speed_buf temperature_buf entries buf stack
  = (- EINVAL, fan_speed_buf, temperature_buf).
Proof.
  unfold read_curve.
  destruct (read_ints _ buf []) as [[data sdata]|]; [|reflexivity].
  match goal with
  | |- context [match ?x with EmptyString => _ | String _ _ => _ end] =>
      destruct x
  end; [|reflexivity].
  destruct (split_loop _ _ _ _ _ _ _) as [ts tt].
  destruct (negb (temps_loop _ _ _ _)); [reflexivity|].
  destruct (negb (speeds_loop _ _ _)); [reflexivity|].
  destruct (copy_loop _ _ _ _ _ _) as [sb tb]. simpl. lia.
Qed.

(** C5.  When the parse-and-validate stage of the whole-curve store
    rejects the text (it returns a negative value: malformed text, a
    number of 256 or more, a temperature that is not above its
    predecessor or is over 100, a speed over 150), the stage returns
    [-EINVAL] with both active buffers as they were, and the store
    returns [-EINVAL] with the whole driver state, EC included,
    unchanged: the copy into the active buffers is the last step and is
    reached only after every check. *)
Theorem curve_store_rejected_leaves_buffers (d : driver) (f : fan)
    (buf : string) (stack : nat -> Z) :
  fst (fst (read_curve (curve_fan_speed (pack d f)) (curve_temp (pack d f))
              (entries_count (fan_curve (cpu (conf d)))) buf stack)) < 0 ->
  read_curve (curve_fan_speed (pack d f)) (curve_temp (pack d f))
    (entries_count (fan_curve (cpu (conf d)))) buf stack
  = (- EINVAL, curve_fan_speed (pack d f), curve_temp (pack d f))
  /\ curve_store d f buf stack = (- EINVAL, d).
Proof.
  intros H. pose proof (read_curve_reject _ _ _ _ _ H) as E.
  split; [exact E|].
  unfold curve_store. rewrite E. simpl. now rewrite set_active_same.
Qed.

Lemma curve_store_rejected_leaves_buffers_witness :
  fst (fst (read_curve
              (curve_fan_speed (pack (driver_example (fun _ => 0) [] (1, 1)) CPU))
              (curve_temp (pack (driver_example (fun _ => 0) [] (1, 1)) CPU))
              (entries_count
                 (fan_curve (cpu (conf (driver_example (fun _ => 0) [] (1, 1))))))
              "10 40 20 50 30 60 40 70 50 80 60 90 151" (fun _ => 0))) < 0
  /\ curve_store (driver_example (fun _ => 0) [] (1, 1)) CPU
       "10 40 20 50 30 60 40 70 50 80 60 90 151" (fun _ => 0)
     = (- EINVAL, driver_example (fun _ => 0) [] (1, 1)).
Proof.
  assert (H : fst (fst (read_curve
              (curve_fan_speed (pack (driver_example (fun _ => 0) [] (1, 1)) CPU))
              (curve_temp (pack (driver_example (fun _ => 0) [] (1, 1)) CPU))
              (entries_count
                 (fan_curve (cpu (conf (driver_example (fun _ => 0) [] (1, 1))))))
              "10 40 20 50 30 60 40 70 50 80 60 90 151" (fun _ => 0))) < 0).
  { vm_compute. reflexivity. }
  split; [exact H|].
  exact (proj2 (curve_store_rejected_leaves_buffers
                  (driver_example (fun _ => 0) [] (1, 1)) CPU
                  "10 40 20 50 30 60 40 70 50 80 60 90 151" (fun _ => 0) H)).
Defined.

(** The four kinds of rejection on the example state: malformed text, a
    number of 256 or more, a temperature not above its predecessor, a
    speed over 150.  Each returns [-EINVAL] and leaves the driver as it
    was. *)
Example curve_store_rejections :
  let d := driver_example (fun _ => 0) [] (1, 1) in
  curve_store d CPU "10 40 20 50 30 60 40 70 50 80 60 90 x" (fun _ => 0)
  = (- EINVAL, d)
  /\ curve_store d CPU "10 40 20 50 30 60 40 70 50 80 60 90 256" (fun _ => 0)
     = (- EINVAL, d)
  /\ curve_store d CPU "10 40 20 40 30 60 40 70 50 80 60 90 70" (fun _ => 0)
     = (- EINVAL, d)
  /\ curve_store d GPU "10 40 20 50 30 60 40 70 50 80 60 90 151" (fun _ => 0)
     = (- EINVAL, d).
Proof. cbv zeta. by_evaluation. Qed.

Lemma read_ints_length (n : nat) (sdata rest : string) (data data' : list Z) :
  read_ints n sdata data = Some (data', rest) ->
  List.length data' = (List.length data + n)%nat.
Proof.
  revert sdata data. induction n as [|n IH]; intros sdata data; simpl.
  - intros [= <- _]. lia.
  - destruct sdata as [|c s]; [discriminate|].
    destruct (sscanf_u (String c s)) as [[x r]|]; [|discriminate].
    destruct (as_int x >=? 256); [discriminate|].
    intros H. apply IH in H. rewrite H, length_app. simpl. lia.
Qed.

(** A successful [read_curve] has scanned exactly [2 * entries - 1]
    numbers and found nothing after them but an optional newline. *)
Lemma read_curve_accept (fan_speed_buf temperature_buf : list Z) (entries : Z)
    (buf : string) (stack : nat -> Z) (r : Z) (s t : list Z) :
  read_curve fan_speed_buf temperature_buf entries buf stack = (r, s, t) ->
  0 <= r ->
  exists data rest,
    read_ints (Z.to_nat (2 * entries - 1)) buf [] = Some (data, rest)
    /\ List.length data = Z.to_nat (2 * entries - 1)
    /\ (rest = "" \/ rest = String "010" "").
Proof.
  unfold read_curve. intros H Hr.
  destruct (read_ints _ buf []) as [[data sdata]|] eqn:E;
    [|inversion H; subst; unfold EINVAL in Hr; lia].
  exists data, sdata. split; [reflexivity|].
  split; [exact (read_ints_length _ _ _ _ _ E)|].
  destruct sdata as [|c rest]; [now left|].
  destruct (Z.eqb_spec (code c) 10) as [Hc|Hc].
  - destruct rest as [|c' rest'].
    + right. f_equal.
      unfold code in Hc.
      assert (Hn : N_of_ascii c = 10%N) by lia.
      rewrite <- (ascii_N_embedding c), Hn. reflexivity.
    + inversion H; subst; unfold EINVAL in Hr; lia.
  - inversion H; subst; unfold EINVAL in Hr; lia.
Qed.

(** C9.  A whole-curve store that succeeds, on either fan, has scanned
    exactly [2 * n - 1] numbers where [n] is the entry count of the CPU
    curve, and its parse-and-validate stage is [read_curve] run with
    that [n]; the count agrees with the one of the stored curve exactly
    when the two entry counts are equal. *)
Theorem curve_store_counts_from_cpu (d d' : driver) (f : fan) (buf : string)
    (stack : nat -> Z) (r : Z) :
  curve_store d f buf stack = (r, d') -> 0 <= r ->
  (exists data rest,
     read_ints (Z.to_nat (2 * entries_count (fan_curve (cpu (conf d))) - 1)) buf []
     = Some (data, rest)
     /\ List.length data
        = Z.to_nat (2 * entries_count (fan_curve (cpu (conf d))) - 1)
     /\ (rest = "" \/ rest = String "010" ""))
  /\ read_curve (curve_fan_speed (pack d f)) (curve_temp (pack d f))
       (entries_count (fan_curve (cpu (conf d)))) buf stack
     = (r, curve_fan_speed (pack d' f), curve_temp (pack d' f))
  /\ (2 * entries_count (fan_curve (cpu (conf d))) - 1
      = 2 * entries_count (pack_curve (conf d) f) - 1
      <-> entries_count (fan_curve (cpu (conf d)))
          = entries_count (pack_curve (conf d) f)).
Proof.
  unfold curve_store. intros H Hr.
  destruct (read_curve (curve_fan_speed (pack d f)) (curve_temp (pack d f))
              (entries_count (fan_curve (cpu (conf d)))) buf stack)
    as [[scount sbuf] tbuf] eqn:E.
  assert (Hs : r = scount /\ curve_fan_speed (pack d' f) = sbuf
               /\ curve_temp (pack d' f) = tbuf).
  { destruct (Z.ltb_spec scount 0) as [Hlt|Hge].
    - inversion H; subst. lia.
    - destruct (push_ec_curve_safe _ _ _ _ _) as [status e'].
      destruct (Z.ltb_spec status 0) as [Hlt|Hge'];
        inversion H; subst; [lia|].
      split; [reflexivity|]. destruct f; simpl; auto. }
  destruct Hs as [-> [-> ->]].
  split; [exact (read_curve_accept _ _ _ _ _ _ _ _ E Hr)|].
  split; [reflexivity | lia].
Qed.

Lemma curve_store_counts_from_cpu_witness :
  exists d' : driver,
    curve_store (driver_example (fun _ => 0) [] (2, 2)) GPU
      "10 40 20 50 30 60 40 70 50 80 60 90 70" (fun _ => 0) = (38, d')
    /\ 0 <= 38
    /\ exists data rest,
         read_ints (Z.to_nat (2 * 7 - 1))
           "10 40 20 50 30 60 40 70 50 80 60 90 70" [] = Some (data, rest)
         /\ List.length data = Z.to_nat (2 * 7 - 1)
         /\ (rest = "" \/ rest = String "010" "").
Proof.
  eexists. split; [vm_compute; reflexivity|]. split; [lia|].
  refine (proj1 (curve_store_counts_from_cpu
                   (driver_example (fun _ => 0) [] (2, 2)) _ GPU
                   "10 40 20 50 30 60 40 70 50 80 60 90 70" (fun _ => 0) 38
                   _ _)).
  - vm_compute. reflexivity.
  - lia.
Defined.


(** On the GPU fan of [conf_uneven] the store wants the five numbers of
    a CPU curve and rejects the three numbers of a GPU curve. *)
Example curve_store_gpu_uneven :
  let d := set_conf (driver_example (fun _ => 0) [] (1, 1)) conf_uneven true in
  fst (curve_store d GPU "10 40 60 70 90" (fun _ => 0)) = 14
  /\ fst (curve_store d GPU "10 40 60" (fun _ => 0)) = - EINVAL.
Proof. by_evaluation. Qed.

(* ================================================================= *)
(** ** Numbers that do not fit an [int] *)

(** C4 (code defect).  The scanning loop stores the [unsigned int] that
    [sscanf] converts into an [int] and compares it with 256 as a signed
    number.  2147483658 is [2^31 + 10]: as an [int] it is negative, so
    the check [data[i] >= 256] lets it through and the cast to [u8]
    stores 10.  The store of the 13 numbers below on the CPU curve of
    CONF401 succeeds instead of failing with [-EINVAL]. *)
Theorem read_curve_accepts_large_number :
  let d := driver_example (fun _ => 0) [] (2, 2) in
  let r := curve_store d CPU
             "2147483658 41 21 51 31 61 41 71 51 81 61 91 71" (fun _ => 0) in
  fst r = 46
  /\ curve_fan_speed (pack (snd r) CPU)
     = [10; 21; 31; 41; 51; 61; 71; 0; 0; 0; 0; 0; 0; 0; 0; 0]
  /\ curve_temp (pack (snd r) CPU)
     = [41; 51; 61; 71; 81; 91; 0; 0; 0; 0; 0; 0; 0; 0; 0; 0]
  /\ sscanf_u "2147483658 41" = Some (2147483658, " 41")
  /\ as_int 2147483658 = -2147483638.
Proof. by_evaluation. Qed.

(* ================================================================= *)
(** ** I/O failures that are not reported *)

(** C8 (code defect).  With CONF401 loaded and the fan mode register
    holding "advanced" (0x80 at 0xd4), let the second EC transaction
    fail.  Leaving manual mode first reads the fan mode (transaction 1),
    then pulls the CPU curve: the first curve read (transaction 2) fails
    and [sync_ec_curve_safe] returns [-EIO].  [curve_fan_mode_change]
    drops that status, pushes the default curves and returns 0.  In the
    same way a PWM-enable write of Manual returns 0 although clearing the
    cooler-boost bit failed (transaction 1 fails): the status of
    [set_cooler_boost] is overwritten by the one of [set_fan_mode]. *)
Theorem io_failure_not_reported :
  let regs := fun a => if a =? 0xd4 then 0x80 else 0 in
  let d := driver_example regs [0; - EIO] (1, 1) in
  let d2 := driver_example regs [- EIO] (1, 1) in
  fst (fst (fst (sync_ec_curve_safe (conf d) (pack_curve (conf d) CPU)
                   (curve_fan_speed (pack d CPU)) (curve_temp (pack d CPU))
                   (ec d)))) = - EIO
  /\ fst (curve_fan_mode_change d FM_AUTO_NAME) = 0
  /\ fst (set_cooler_boost d2 false) = - EIO
  /\ match msi_ec_hwmon_write d2 0 PWM_ENABLE_MANUAL with
     | Returns (result, _) => result = 0
     | NullDeref => False
     end.
Proof. by_evaluation. Qed.

(* ================================================================= *)
(** ** Decimal text of a byte *)

Lemma string_app_assoc (a b c : string) :
  ((a ++ b) ++ c)%string = (a ++ (b ++ c))%string.
Proof. induction a as [|x a IH]; simpl; [reflexivity | now rewrite IH]. Qed.

Lemma string_app_nil_r (a : string) : (a ++ "")%string = a.
Proof. induction a as [|x a IH]; simpl; [reflexivity | now rewrite IH]. Qed.



Lemma dec_ok_bytes : forallb dec_ok (map Z.of_nat (seq 0 256)) = true.
Proof. vm_compute. reflexivity. Qed.

Lemma dec_ok_byte (v : Z) : is_byte v -> dec_ok v = true.
Proof.
  intros [Hlo Hhi].
  apply (proj1 (forallb_forall dec_ok _) dec_ok_bytes).
  apply in_map_iff. exists (Z.to_nat v). split; [lia|].
  apply in_seq. lia.
Qed.

Lemma isdigit_not_space (c : ascii) : isdigit c = true -> isspace c = false.
Proof.
  unfold isdigit, isspace. intros H.
  apply andb_true_iff in H. destruct H as [H1 H2].
  apply Z.leb_le in H1. apply Z.leb_le in H2.
  destruct (Z.leb_spec 9 (code c)); destruct (Z.leb_spec (code c) 13);
    destruct (Z.eqb_spec (code c) 32); destruct (Z.eqb_spec (code c) 160);
    simpl; try reflexivity; lia.
Qed.


Lemma parse_integer_app (ds rest : string) (res : Z) :
  all_digits ds = true -> stops rest = true ->
  parse_integer (ds ++ rest) res = (fst (parse_integer ds res), rest).
Proof.
  revert res. induction ds as [|c ds IH]; intros res Hd Hs; simpl.
  - destruct rest as [|c r]; simpl; [reflexivity|].
    simpl in Hs. apply negb_true_iff in Hs. now rewrite Hs.
  - simpl in Hd. apply andb_true_iff in Hd. destruct Hd as [Hc Hd].
    rewrite Hc. now apply IH.
Qed.

(** [sscanf] reads the text of a byte back, after at most one blank, and
    stops where the digits stop. *)
Lemma sscanf_u_byte (v : Z) (blank : bool) (rest : string) :
  is_byte v -> stops rest = true ->
  sscanf_u ((if blank then " " else "") ++ sprintf_d v ++ rest)%string
  = Some (v, rest).
Proof.
  intros Hv Hs. pose proof (dec_ok_byte v Hv) as Hok.
  unfold dec_ok in Hok.
  destruct (sprintf_d v) as [|c ds] eqn:E; [discriminate|].
  apply andb_true_iff in Hok. destruct Hok as [Hd Hval].
  apply Z.eqb_eq in Hval.
  assert (Hc : isdigit c = true).
  { simpl in Hd. apply andb_true_iff in Hd. tauto. }
  assert (Hskip : skip_spaces
            ((if blank then " " else "") ++ String c ds ++ rest)%string
          = String c (ds ++ rest)).
  { destruct blank; simpl; now rewrite (isdigit_not_space c Hc). }
  assert (Hparse : parse_integer (String c (ds ++ rest)) 0 = (v, rest)).
  { change (String c (ds ++ rest)) with (String c ds ++ rest)%string.
    rewrite (parse_integer_app _ _ _ Hd Hs). now rewrite Hval. }
  unfold sscanf_u. rewrite Hskip, Hc, Hparse.
  assert (Hu : u32 v = v).
  { unfold u32. apply Z.mod_small. unfold is_byte in Hv. lia. }
  rewrite Hu. destruct blank; reflexivity.
Qed.

Lemma as_int_byte (v : Z) : is_byte v -> as_int v = v.
Proof.
  unfold is_byte, as_int, u32. intros H.
  rewrite Z.mod_small by lia.
  destruct (Z.ltb_spec v (2 ^ 31)); lia.
Qed.

(* ================================================================= *)
(** ** The loops of the codec *)


Lemma even_S (j : nat) : Nat.even (S j) = negb (Nat.even j).
Proof. rewrite Nat.even_succ. unfold Nat.odd. reflexivity. Qed.

Lemma counters_even (j sc tc : nat) :
  counters j sc tc -> Nat.even j = true ->
  j = (2 * sc)%nat /\ tc = sc /\ counters (S j) (S sc) tc.
Proof.
  intros [[He [Hj Ht]]|[He _]] E; [|congruence].
  repeat split; auto. right. rewrite even_S, E. simpl. lia.
Qed.

Lemma counters_odd (j sc tc : nat) :
  counters j sc tc -> Nat.even j = false ->
  j = S (2 * tc) /\ sc = S tc /\ counters (S j) sc (S tc).
Proof.
  intros [[He _]|[He [Hj Hs]]] E; [congruence|].
  repeat split; auto. left. rewrite even_S, E. simpl. lia.
Qed.

Lemma curve_item_even (speed temp : list Z) (k : nat) :
  curve_item speed temp (2 * k) = aget speed k.
Proof.
  unfold curve_item.
  replace (Nat.even (2 * k)) with true.
  - now rewrite Nat.div2_double.
  - symmetry. apply Nat.even_spec. exists k. reflexivity.
Qed.

Lemma curve_item_odd (speed temp : list Z) (k : nat) :
  curve_item speed temp (S (2 * k)) = aget temp k.
Proof.
  unfold curve_item.
  replace (Nat.even (S (2 * k))) with false.
  - now rewrite Nat.div2_succ_double.
  - symmetry. rewrite even_S. apply negb_false_iff.
    apply Nat.even_spec. exists k. reflexivity.
Qed.


Lemma items_text_app (a b : list Z) :
  items_text (a ++ b) = (items_text a ++ items_text b)%string.
Proof.
  induction a as [|v a IH]; simpl; [reflexivity|].
  now rewrite IH, !string_app_assoc.
Qed.

Lemma print_loop_items (n j sc tc : nat) (speed temp : list Z) (str : string) :
  counters j sc tc ->
  print_loop n j sc tc speed temp str
  = (str ++ items_text (map (curve_item speed temp) (seq j n)))%string.
Proof.
  revert j sc tc str. induction n as [|n IH]; intros j sc tc str Hc; simpl.
  - now rewrite string_app_nil_r.
  - destruct (Nat.even j) eqn:E.
    + destruct (counters_even _ _ _ Hc E) as [Hj [Ht Hc']].
      rewrite (IH _ _ _ _ Hc'). rewrite !string_app_assoc. simpl.
      rewrite Hj at 2. now rewrite curve_item_even.
    + destruct (counters_odd _ _ _ Hc E) as [Hj [Hs Hc']].
      rewrite (IH _ _ _ _ Hc'). rewrite !string_app_assoc. simpl.
      rewrite Hj at 2. now rewrite curve_item_odd.
Qed.


Lemma cut_last_app (a b : string) :
  b <> "" -> cut_last (a ++ b) = (a ++ cut_last b)%string.
Proof.
  intros Hb. induction a as [|c a IH]; simpl; [reflexivity|].
  rewrite IH. destruct (a ++ b)%string eqn:E; [|reflexivity].
  destruct a; simpl in E; [contradiction | discriminate].
Qed.

Lemma items_text_nonempty (v : Z) (l : list Z) : items_text (v :: l) <> "".
Proof.
  simpl. destruct (sprintf_d v); simpl; discriminate.
Qed.

Lemma cut_last_items (v : Z) (l : list Z) :
  (cut_last (items_text (v :: l)) ++ String "010" "")%string = curve_text (v :: l).
Proof.
  revert v. induction l as [|w l IH]; intros v.
  - simpl. rewrite cut_last_app by discriminate. simpl.
    now rewrite string_app_nil_r.
  - change (items_text (v :: w :: l))
      with (sprintf_d v ++ " " ++ items_text (w :: l))%string.
    rewrite <- (string_app_assoc (sprintf_d v) " ").
    rewrite cut_last_app by apply items_text_nonempty.
    rewrite !string_app_assoc. rewrite IH.
    destruct l; reflexivity.
Qed.

Lemma sscanf_u_nonempty (s : string) (r : Z * string) :
  sscanf_u s = Some r -> exists c s', s = String c s'.
Proof. destruct s as [|c s']; [discriminate | eauto]. Qed.

Lemma read_ints_curve_text (vs data : list Z) (blank : bool) :
  vs <> [] -> bytes vs ->
  read_ints (List.length vs)
    ((if blank then " " else "") ++ curve_text vs)%string data
  = Some (data ++ vs, String "010" "").
Proof.
  revert data blank. induction vs as [|v vs IH]; intros data blank Hne Hb;
    [contradiction|].
  inversion Hb as [|? ? Hv Hvs]; subst.
  destruct vs as [|w vs].
  - pose proof (sscanf_u_byte v blank (String "010" "") Hv eq_refl) as Hs.
    cbn [List.length read_ints curve_text].
    destruct (sscanf_u_nonempty _ _ Hs) as [c [s' E]].
    rewrite E. rewrite <- E, Hs, (as_int_byte v Hv).
    destruct (Z.geb_spec v 256) as [Hge|_]; [unfold is_byte in Hv; lia|].
    reflexivity.
  - pose proof (sscanf_u_byte v blank (" " ++ curve_text (w :: vs))%string
                  Hv eq_refl) as Hs.
    change (curve_text (v :: w :: vs))
      with (sprintf_d v ++ " " ++ curve_text (w :: vs))%string.
    change (List.length (v :: w :: vs)) with (S (List.length (w :: vs))).
    cbn [read_ints].
    destruct (sscanf_u_nonempty _ _ Hs) as [c [s' E]].
    rewrite E. rewrite <- E, Hs, (as_int_byte v Hv).
    destruct (Z.geb_spec v 256) as [Hge|_]; [unfold is_byte in Hv; lia|].
    rewrite (IH (data ++ [v]) true); [|discriminate | exact Hvs].
    now rewrite <- app_assoc.
Qed.

(** What the split loop leaves in the two local arrays. *)
Lemma split_loop_spec (n j sc tc : nat) (data sb tb : list Z) :
  counters j sc tc -> (j + n <= 2 * List.length sb)%nat ->
  (j + n <= 2 * List.length tb + 1)%nat ->
  let '(sb', tb') := split_loop n j sc tc data sb tb in
  List.length sb' = List.length sb /\ List.length tb' = List.length tb
  /\ (forall k, aget sb' k
        = if (sc <=? k)%nat && (2 * k <? j + n)%nat
          then u8 (aget data (2 * k)) else aget sb k)
  /\ (forall k, aget tb' k
        = if (tc <=? k)%nat && (S (2 * k) <? j + n)%nat
          then u8 (aget data (S (2 * k))) else aget tb k).
Proof.
  revert j sc tc sb tb. induction n as [|n IH]; intros j sc tc sb tb Hc HS HT.
  - cbn [split_loop]. repeat split; auto; intros k.
    + destruct (Nat.leb_spec sc k); destruct (Nat.ltb_spec (2 * k) (j + 0));
        simpl; auto.
      destruct Hc as [[_ [Hj Ht]]|[_ [Hj Hs]]]; lia.
    + destruct (Nat.leb_spec tc k); destruct (Nat.ltb_spec (S (2 * k)) (j + 0));
        simpl; auto.
      destruct Hc as [[_ [Hj Ht]]|[_ [Hj Hs]]]; lia.
  - cbn [split_loop]. destruct (Nat.even j) eqn:E.
    + destruct (counters_even _ _ _ Hc E) as [Hj [Ht Hc']].
      specialize (IH (S j) (S sc) tc (aset sb sc (u8 (aget data j))) tb Hc').
      rewrite aset_length in IH.
      destruct (split_loop n (S j) (S sc) tc data _ tb) as [sb' tb'].
      destruct IH as [HlS [HlT [HS' HT']]]; try lia.
      repeat split; auto; intros k.
      * rewrite HS'. rewrite aget_aset by lia.
        destruct (Nat.leb_spec (S sc) k); destruct (Nat.leb_spec sc k);
          destruct (Nat.ltb_spec (2 * k) (S j + n));
          destruct (Nat.ltb_spec (2 * k) (j + S n));
          destruct (Nat.eqb_spec k sc); simpl; try reflexivity; try lia.
        subst k. rewrite Hj. reflexivity.
      * rewrite HT'.
        destruct (Nat.leb_spec tc k);
          destruct (Nat.ltb_spec (S (2 * k)) (S j + n));
          destruct (Nat.ltb_spec (S (2 * k)) (j + S n));
          simpl; try reflexivity; lia.
    + destruct (counters_odd _ _ _ Hc E) as [Hj [Hs Hc']].
      specialize (IH (S j) sc (S tc) sb (aset tb tc (u8 (aget data j))) Hc').
      rewrite aset_length in IH.
      destruct (split_loop n (S j) sc (S tc) data sb _) as [sb' tb'].
      destruct IH as [HlS [HlT [HS' HT']]]; try lia.
      repeat split; auto; intros k.
      * rewrite HS'.
        destruct (Nat.leb_spec sc k);
          destruct (Nat.ltb_spec (2 * k) (S j + n));
          destruct (Nat.ltb_spec (2 * k) (j + S n));
          simpl; try reflexivity; lia.
      * rewrite HT'. rewrite aget_aset by lia.
        destruct (Nat.leb_spec (S tc) k); destruct (Nat.leb_spec tc k);
          destruct (Nat.ltb_spec (S (2 * k)) (S j + n));
          destruct (Nat.ltb_spec (S (2 * k)) (j + S n));
          destruct (Nat.eqb_spec k tc); simpl; try reflexivity; try lia.
        subst k. rewrite Hj. reflexivity.
Qed.

Lemma temps_loop_spec (n i : nat) (late_temp : Z) (tb : list Z) :
  temps_loop n i late_temp tb = true
  <-> (forall k, (k < n)%nat -> aget tb (i + k) <= 100)
      /\ ((0 < n)%nat -> late_temp < aget tb i)
      /\ (forall k, (S k < n)%nat -> aget tb (i + k) < aget tb (i + S k)).
Proof.
  revert i late_temp. induction n as [|n IH]; intros i late_temp.
  - simpl. split; [|reflexivity]. intros _. repeat split; intros; lia.
  - cbn [temps_loop].
    destruct (Z.geb_spec late_temp (aget tb i)) as [Hge|Hlt]; simpl.
    + split; [discriminate|]. intros [_ [H _]]. specialize (H ltac:(lia)). lia.
    + destruct (Z.gtb_spec (aget tb i) 100) as [Hgt|Hle].
      * split; [discriminate|]. intros [H _].
        specialize (H 0%nat ltac:(lia)). rewrite Nat.add_0_r in H. lia.
      * rewrite IH. split.
        -- intros [H1 [H2 H3]]. repeat split.
           ++ intros [|k] Hk; [now rewrite Nat.add_0_r|].
              replace (i + S k)%nat with (S i + k)%nat by lia. apply H1. lia.
           ++ intros _. exact Hlt.
           ++ intros [|k] Hk.
              ** rewrite Nat.add_0_r. replace (i + 1)%nat with (S i) by lia.
                 apply H2. lia.
              ** replace (i + S k)%nat with (S i + k)%nat by lia.
                 replace (i + S (S k))%nat with (S i + S k)%nat by lia.
                 apply H3. lia.
        -- intros [H1 [H2 H3]]. repeat split.
           ++ intros k Hk. replace (S i + k)%nat with (i + S k)%nat by lia.
              apply H1. lia.
           ++ intros Hn. specialize (H3 0%nat ltac:(lia)).
              rewrite Nat.add_0_r in H3.
              replace (i + 1)%nat with (S i) in H3 by lia. exact H3.
           ++ intros k Hk.
              replace (S i + k)%nat with (i + S k)%nat by lia.
              replace (S i + S k)%nat with (i + S (S k))%nat by lia.
              apply H3. lia.
Qed.

Lemma speeds_loop_spec (n i : nat) (sb : list Z) :
  speeds_loop n i sb = true <-> (forall k, (k < n)%nat -> aget sb (i + k) <= 150).
Proof.
  revert i. induction n as [|n IH]; intros i.
  - simpl. split; [|reflexivity]. intros _ k Hk. lia.
  - cbn [speeds_loop].
    destruct (Z.gtb_spec (aget sb i) 150) as [Hgt|Hle].
    + split; [discriminate|]. intros H.
      specialize (H 0%nat ltac:(lia)). rewrite Nat.add_0_r in H. lia.
    + rewrite IH. split.
      * intros H [|k] Hk; [now rewrite Nat.add_0_r|].
        replace (i + S k)%nat with (S i + k)%nat by lia.
        apply H. lia.
      * intros H k Hk.
        replace (S i + k)%nat with (i + S k)%nat by lia.
        apply H. lia.
Qed.

Lemma copy_loop_spec (n i : nat) (ts tt sb tb : list Z) :
  (i + n <= List.length sb)%nat -> (i + n <= List.length tb)%nat ->
  let '(sb', tb') := copy_loop n i ts tt sb tb in
  List.length sb' = List.length sb /\ List.length tb' = List.length tb
  /\ (forall k, aget sb' k
        = if (i <=? k)%nat && (k <? i + n)%nat then aget ts k else aget sb k)
  /\ (forall k, aget tb' k
        = if (i <=? k)%nat && (k <? i + n)%nat then aget tt k else aget tb k).
Proof.
  revert i sb tb. induction n as [|n IH]; intros i sb tb HS HT.
  - simpl. repeat split; auto; intros k;
      destruct (Nat.leb_spec i k); destruct (Nat.ltb_spec k (i + 0));
      simpl; auto; lia.
  - cbn [copy_loop].
    specialize (IH (S i) (aset sb i (aget ts i)) (aset tb i (aget tt i))).
    rewrite !aset_length in IH.
    destruct (copy_loop n (S i) ts tt _ _) as [sb' tb'].
    destruct IH as [HlS [HlT [HS' HT']]]; try lia.
    repeat split; auto; intros k.
    + rewrite HS'. rewrite aget_aset by lia.
      destruct (Nat.leb_spec (S i) k); destruct (Nat.leb_spec i k);
        destruct (Nat.ltb_spec k (S i + n));
        destruct (Nat.ltb_spec k (i + S n));
        destruct (Nat.eqb_spec k i); simpl; try reflexivity; try lia.
      now subst.
    + rewrite HT'. rewrite aget_aset by lia.
      destruct (Nat.leb_spec (S i) k); destruct (Nat.leb_spec i k);
        destruct (Nat.ltb_spec k (S i + n));
        destruct (Nat.ltb_spec k (i + S n));
        destruct (Nat.eqb_spec k i); simpl; try reflexivity; try lia.
      now subst.
Qed.

Lemma local_array_length (stack : nat -> Z) (off : nat) :
  List.length (local_array stack off) = 16%nat.
Proof. unfold local_array. rewrite length_map, length_seq. reflexivity. Qed.

(* ================================================================= *)
(** ** Validity of curves, decided *)

Lemma curve_invariantb_spec (n : nat) (speed temp : list Z) :
  curve_invariantb n speed temp = true <-> curve_invariant n speed temp.
Proof.
  unfold curve_invariantb, curve_invariant.
  rewrite !andb_true_iff, !forallb_forall.
  split.
  - intros [[H1 H2] H3]. repeat split; intros i Hi.
    + apply Z.leb_le, H1, in_seq. lia.
    + apply Z.leb_le, H2, in_seq. lia.
    + apply Z.ltb_lt, H3, in_seq. lia.
  - intros [H1 [H2 H3]]. repeat split; intros i Hi; apply in_seq in Hi.
    + apply Z.leb_le, H1. lia.
    + apply Z.leb_le, H2. lia.
    + apply Z.ltb_lt, H3. lia.
Qed.

Lemma curve_acceptedb_spec (n : nat) (speed temp : list Z) :
  curve_acceptedb n speed temp = true <-> curve_accepted n speed temp.
Proof.
  unfold curve_acceptedb, curve_accepted.
  rewrite andb_true_iff, curve_invariantb_spec, orb_true_iff.
  rewrite Nat.leb_le, Z.ltb_lt.
  split; intros [H1 H2]; (split; [exact H1|]).
  - intros Hn. destruct H2; [lia | assumption].
  - destruct (Nat.le_gt_cases n 1); [now left | right; auto].
Qed.

Lemma bytesb_spec (a : list Z) : bytesb a = true -> bytes a.
Proof.
  unfold bytesb, bytes. rewrite forallb_forall, Forall_forall.
  intros H x Hx. specialize (H x Hx).
  apply andb_true_iff in H. destruct H as [H1 H2].
  apply Z.leb_le in H1. apply Z.ltb_lt in H2. split; assumption.
Qed.

Lemma aget_map_seq (f : nat -> Z) (n k : nat) :
  (k < n)%nat -> aget (map f (seq 0 n)) k = f k.
Proof.
  intros Hk. unfold aget.
  rewrite (nth_indep _ 0 (f 0%nat)) by (rewrite length_map, length_seq; exact Hk).
  rewrite map_nth, seq_nth by exact Hk. reflexivity.
Qed.

(* ================================================================= *)
(** ** What [read_curve] stores, and what it accepts *)

(** A successful [read_curve] leaves an accepted curve in the buffers. *)
Lemma read_curve_stores_accepted (sbuf tbuf : list Z) (entries : Z)
    (buf : string) (stack : nat -> Z) (r : Z) (s t : list Z) :
  read_curve sbuf tbuf entries buf stack = (r, s, t) -> 0 <= r ->
  entries <= CURVE_MAX_ENTRIES ->
  List.length sbuf = 16%nat -> List.length tbuf = 16%nat ->
  curve_accepted (Z.to_nat entries) s t.
Proof.
  unfold read_curve, CURVE_MAX_ENTRIES. intros H Hr Hn Hls Hlt.
  destruct (read_ints _ buf []) as [[data sdata]|];
    [|inversion H; subst; unfold EINVAL in Hr; lia].
  match type of H with
  | context [match ?x with EmptyString => _ | String _ _ => _ end] =>
      destruct x
  end; [|inversion H; subst; unfold EINVAL in Hr; lia].
  pose proof (split_loop_spec (Z.to_nat (2 * entries - 1)) 0 0 0 data
                (local_array stack 0) (local_array stack 16)) as Hsplit.
  destruct (split_loop _ _ _ _ _ _ _) as [ts tt].
  rewrite !local_array_length in Hsplit.
  destruct Hsplit as [Hlts [Hltt [Hts Htt]]];
    [left; repeat split; reflexivity | lia | lia |].
  destruct (temps_loop _ 0 0 tt) eqn:Etemps;
    [|inversion H; subst; unfold EINVAL in Hr; lia].
  destruct (speeds_loop _ 0 ts) eqn:Espeeds;
    [|inversion H; subst; unfold EINVAL in Hr; lia].
  simpl in H.
  pose proof (copy_loop_spec (Z.to_nat entries) 0 ts tt sbuf tbuf) as Hcopy.
  destruct (copy_loop _ _ _ _ _ _) as [sb' tb'].
  destruct Hcopy as [_ [_ [Hs' Ht']]]; [lia | lia |].
  inversion H; subst r s t.
  apply temps_loop_spec in Etemps. destruct Etemps as [T1 [T2 T3]].
  rewrite speeds_loop_spec in Espeeds.
  assert (Hin : forall k, (k < Z.to_nat entries)%nat ->
            aget sb' k = aget ts k /\ aget tb' k = aget tt k).
  { intros k Hk. rewrite Hs', Ht'.
    destruct (Nat.leb_spec 0 k); destruct (Nat.ltb_spec k (0 + Z.to_nat entries));
      simpl; try lia; auto. }
  repeat split.
  - intros i Hi. rewrite (proj1 (Hin i Hi)). apply (Espeeds i). exact Hi.
  - intros i Hi. rewrite (proj2 (Hin i ltac:(lia))). apply (T1 i). lia.
  - intros i Hi. rewrite (proj2 (Hin i ltac:(lia))).
    rewrite (proj2 (Hin (S i) ltac:(lia))). apply (T3 i). lia.
  - intros Hi. rewrite (proj2 (Hin 0%nat ltac:(lia))). apply T2. lia.
Qed.

(** The text of an accepted curve is accepted, and decodes to the curve. *)
Lemma read_curve_of_curve_text (speed temp sbuf tbuf : list Z) (n : Z)
    (stack : nat -> Z) :
  1 <= n <= CURVE_MAX_ENTRIES -> bytes speed -> bytes temp ->
  List.length sbuf = 16%nat -> List.length tbuf = 16%nat ->
  curve_accepted (Z.to_nat n) speed temp ->
  exists s' t',
    read_curve sbuf tbuf n
      (curve_text (map (curve_item speed temp) (seq 0 (Z.to_nat (2 * n - 1)))))
      stack
    = (Z.of_nat (String.length
         (curve_text (map (curve_item speed temp) (seq 0 (Z.to_nat (2 * n - 1)))))),
       s', t')
    /\ (forall i, (i < Z.to_nat n)%nat -> aget s' i = aget speed i)
    /\ (forall i, (S i < Z.to_nat n)%nat -> aget t' i = aget temp i).
Proof.
  unfold CURVE_MAX_ENTRIES. intros Hn Hbs Hbt Hls Hlt [[A1 [A2 A3]] A4].
  set (vs := map (curve_item speed temp) (seq 0 (Z.to_nat (2 * n - 1)))).
  assert (Hlen : List.length vs = Z.to_nat (2 * n - 1)).
  { unfold vs. now rewrite length_map, length_seq. }
  assert (Hvs : vs <> []).
  { intros E. rewrite E in Hlen.
    change (0%nat = Z.to_nat (2 * n - 1)) in Hlen. lia. }
  assert (Hbytes : bytes vs).
  { unfold vs, bytes. apply Forall_forall. intros x Hx.
    apply in_map_iff in Hx. destruct Hx as [j [<- _]].
    unfold curve_item. destruct (Nat.even j); now apply aget_bytes. }
  pose proof (read_ints_curve_text vs [] false Hvs Hbytes) as Hread.
  rewrite Hlen in Hread. cbn [append app] in Hread.
  unfold read_curve. rewrite Hread.
  change (code "010" =? 10) with true. cbv iota.
  pose proof (split_loop_spec (Z.to_nat (2 * n - 1)) 0 0 0 vs
                (local_array stack 0) (local_array stack 16)) as Hsplit.
  destruct (split_loop _ _ _ _ _ _ _) as [ts tt].
  rewrite !local_array_length in Hsplit.
  destruct Hsplit as [Hlts [Hltt [Hts Htt]]];
    [left; repeat split; reflexivity | lia | lia |].
  assert (Ets : forall k, (k < Z.to_nat n)%nat -> aget ts k = aget speed k).
  { intros k Hk. rewrite Hts.
    destruct (Nat.leb_spec 0 k);
      destruct (Nat.ltb_spec (2 * k) (0 + Z.to_nat (2 * n - 1)));
      cbn [andb]; try lia.
    unfold vs. rewrite aget_map_seq by lia.
    rewrite curve_item_even. apply u8_small. now apply aget_bytes. }
  assert (Ett : forall k, (S k < Z.to_nat n)%nat -> aget tt k = aget temp k).
  { intros k Hk. rewrite Htt.
    destruct (Nat.leb_spec 0 k);
      destruct (Nat.ltb_spec (S (2 * k)) (0 + Z.to_nat (2 * n - 1)));
      cbn [andb]; try lia.
    unfold vs. rewrite aget_map_seq by lia.
    rewrite curve_item_odd. apply u8_small. now apply aget_bytes. }
  assert (Etemps : temps_loop (Z.to_nat (n - 1)) 0 0 tt = true).
  { apply temps_loop_spec. repeat split.
    - intros k Hk. simpl. rewrite Ett by lia. apply A2. lia.
    - intros Hk. rewrite Ett by lia. apply A4. lia.
    - intros k Hk. simpl. rewrite !Ett by lia. apply A3. lia. }
  assert (Espeeds : speeds_loop (Z.to_nat n) 0 ts = true).
  { apply speeds_loop_spec. intros k Hk. simpl. rewrite Ets by lia.
    apply A1. lia. }
  rewrite Etemps, Espeeds. simpl.
  pose proof (copy_loop_spec (Z.to_nat n) 0 ts tt sbuf tbuf) as Hcopy.
  destruct (copy_loop _ _ _ _ _ _) as [sb' tb'].
  destruct Hcopy as [_ [_ [Hs' Ht']]]; [lia | lia |].
  exists sb', tb'. split; [reflexivity|]. split.
  - intros i Hi. rewrite Hs'.
    destruct (Nat.leb_spec 0 i); destruct (Nat.ltb_spec i (0 + Z.to_nat n));
      simpl; try lia; now apply Ets.
  - intros i Hi. rewrite Ht'.
    destruct (Nat.leb_spec 0 i); destruct (Nat.ltb_spec i (0 + Z.to_nat n));
      simpl; try lia; now apply Ett.
Qed.

Lemma print_curve_curve_text (speed temp : list Z) (n : Z) :
  1 <= n ->
  print_curve speed temp n
  = Some (curve_text (map (curve_item speed temp) (seq 0 (Z.to_nat (2 * n - 1))))).
Proof.
  intros Hn. unfold print_curve.
  rewrite print_loop_items by (left; repeat split; reflexivity).
  cbn [append].
  destruct (Z.to_nat (2 * n - 1)) as [|m] eqn:E; [lia|].
  cbn [seq map].
  pose proof (items_text_nonempty (curve_item speed temp 0)
                (map (curve_item speed temp) (seq 1 m))) as Hne.
  pose proof (cut_last_items (curve_item speed temp 0)
                (map (curve_item speed temp) (seq 1 m))) as Hcut.
  destruct (items_text _) as [|c s]; [contradiction|].
  now rewrite Hcut.
Qed.

(* ================================================================= *)
(** ** Round trip of the curve text *)

(** C6 (as amended).  For a curve accepted by the validation loops of
    [read_curve] (speeds at most 150; temperatures above 0, strictly
    increasing and at most 100) with [1 <= n <= CURVE_MAX_ENTRIES]
    entries, [print_curve] emits a text that [read_curve] accepts, and
    decoding it into any pair of buffers reproduces the [n] speeds and
    the [n - 1] temperatures.  For [n = 3] the text "10 40 60 70 90"
    decodes to speeds 10, 60, 90 and temperatures 40, 70, and encoding
    these yields that text followed by the newline that [sysfs_emit]
    appends. *)
Theorem curve_text_round_trip (speed temp sbuf tbuf : list Z) (n : Z)
    (stack : nat -> Z) :
  1 <= n <= CURVE_MAX_ENTRIES ->
  curve_buffer speed -> curve_buffer temp ->
  curve_buffer sbuf -> curve_buffer tbuf ->
  curve_accepted (Z.to_nat n) speed temp ->
  (exists text s' t',
     print_curve speed temp n = Some text
     /\ read_curve sbuf tbuf n text stack
        = (Z.of_nat (String.length text), s', t')
     /\ (forall i, (i < Z.to_nat n)%nat -> aget s' i = aget speed i)
     /\ (forall i, (S i < Z.to_nat n)%nat -> aget t' i = aget temp i))
  /\ (exists s t,
     read_curve zero_buffer zero_buffer 3 "10 40 60 70 90" stack = (14, s, t)
     /\ firstn 3 s = [10; 60; 90] /\ firstn 2 t = [40; 70]
     /\ print_curve s t 3
        = Some ("10 40 60 70 90" ++ String "010" "")%string).
Proof.
  intros Hn [Hbs _] [Hbt _] [_ Hls] [_ Hlt] Hacc. split.
  - destruct (read_curve_of_curve_text speed temp sbuf tbuf n stack
                Hn Hbs Hbt Hls Hlt Hacc) as [s' [t' [Hread [Hs Ht]]]].
    eexists. exists s', t'.
    split; [apply print_curve_curve_text; lia|].
    split; [exact Hread|]. split; assumption.
  - exists [10; 60; 90; 0; 0; 0; 0; 0; 0; 0; 0; 0; 0; 0; 0; 0],
           [40; 70; u8 (stack 18%nat); 0; 0; 0; 0; 0; 0; 0; 0; 0; 0; 0; 0; 0].
    repeat match goal with |- _ /\ _ => split end; vm_compute; reflexivity.
Qed.

Lemma curve_text_round_trip_witness :
  curve_accepted (Z.to_nat 7) curve_example temp_example
  /\ exists text s' t',
       print_curve curve_example temp_example 7 = Some text
       /\ read_curve zero_buffer zero_buffer 7 text (fun _ => 0)
          = (Z.of_nat (String.length text), s', t')
       /\ (forall i, (i < Z.to_nat 7)%nat -> aget s' i = aget curve_example i)
       /\ (forall i, (S i < Z.to_nat 7)%nat -> aget t' i = aget temp_example i).
Proof.
  assert (Hacc : curve_accepted (Z.to_nat 7) curve_example temp_example).
  { apply curve_acceptedb_spec. vm_compute. reflexivity. }
  split; [exact Hacc|].
  refine (proj1 (curve_text_round_trip curve_example temp_example
                   zero_buffer zero_buffer 7 (fun _ => 0) _ _ _ _ _ Hacc)).
  - unfold CURVE_MAX_ENTRIES. lia.
  - split; [apply bytesb_spec; vm_compute; reflexivity | reflexivity].
  - split; [apply bytesb_spec; vm_compute; reflexivity | reflexivity].
  - split; [apply bytesb_spec; vm_compute; reflexivity | reflexivity].
  - split; [apply bytesb_spec; vm_compute; reflexivity | reflexivity].
Defined.

(** Encoding the curve decoded from "10 40 60 70 90" does not give that
    string back: the emitted text ends with a newline. *)
Lemma reencoding_appends_newline :
  let r := read_curve zero_buffer zero_buffer 3 "10 40 60 70 90" (fun _ => 0) in
  fst (fst r) = 14
  /\ print_curve (snd (fst r)) (snd r) 3
     = Some ("10 40 60 70 90" ++ String "010" "")%string
  /\ print_curve (snd (fst r)) (snd r) 3 <> Some "10 40 60 70 90".
Proof.
  intros r. split; [vm_compute; reflexivity|].
  split; [vm_compute; reflexivity|].
  vm_compute. discriminate.
Qed.

(* ================================================================= *)
(** ** The stored-curve invariant *)

(** C3 (as amended).  A whole-curve store that succeeds leaves, in the
    active buffers of the stored fan, temperatures that are strictly
    increasing and at most 100 and speeds that are at most 150, over the
    first [n] speeds and [n - 1] temperatures, where [n] is the entry
    count of the CPU curve; no condition on [max_speed] is involved. *)
Theorem curve_store_establishes_invariant (d d' : driver) (f : fan)
    (buf : string) (stack : nat -> Z) (r : Z) :
  curve_store d f buf stack = (r, d') -> 0 <= r ->
  entries_count (fan_curve (cpu (conf d))) <= CURVE_MAX_ENTRIES ->
  List.length (curve_fan_speed (pack d f)) = Z.to_nat CURVE_MAX_ENTRIES ->
  List.length (curve_temp (pack d f)) = Z.to_nat CURVE_MAX_ENTRIES ->
  curve_invariant (Z.to_nat (entries_count (fan_curve (cpu (conf d)))))
    (curve_fan_speed (pack d' f)) (curve_temp (pack d' f)).
Proof.
  unfold curve_store. intros H Hr Hn Hls Hlt.
  destruct (read_curve (curve_fan_speed (pack d f)) (curve_temp (pack d f))
              (entries_count (fan_curve (cpu (conf d)))) buf stack)
    as [[scount sbuf] tbuf] eqn:E.
  assert (Hs : 0 <= scount /\ curve_fan_speed (pack d' f) = sbuf
               /\ curve_temp (pack d' f) = tbuf).
  { destruct (Z.ltb_spec scount 0) as [Hlt0|Hge].
    - inversion H; subst. lia.
    - destruct (push_ec_curve_safe _ _ _ _ _) as [status e'].
      destruct (Z.ltb_spec status 0) as [Hlt0|Hge'];
        inversion H; subst; [lia|].
      split; [exact Hge|]. destruct f; simpl; auto. }
  destruct Hs as [Hsc [-> ->]].
  exact (proj1 (read_curve_stores_accepted _ _ _ _ _ _ _ _ E Hsc Hn Hls Hlt)).
Qed.

Lemma curve_store_establishes_invariant_witness :
  exists d' : driver,
    curve_store (driver_example (fun _ => 0) [] (2, 2)) GPU
      "15 41 25 51 35 61 45 71 55 81 65 91 150" (fun _ => 0) = (39, d')
    /\ 0 <= 39
    /\ curve_invariant 7 (curve_fan_speed (pack d' GPU)) (curve_temp (pack d' GPU)).
Proof.
  eexists. split; [vm_compute; reflexivity|]. split; [lia|].
  refine (curve_store_establishes_invariant
            (driver_example (fun _ => 0) [] (2, 2)) _ GPU
            "15 41 25 51 35 61 45 71 55 81 65 91 150" (fun _ => 0) 39
            _ _ _ _ _).
  - vm_compute. reflexivity.
  - lia.
  - vm_compute. discriminate.
  - reflexivity.
  - reflexivity.
Defined.

(** The per-point store and the pull do not keep the invariant.  On the
    CPU curve of CONF401 with an active curve that satisfies it, storing
    10 into the second temperature point succeeds and leaves the
    temperatures 40, 10, 60, ...; and a pull from an EC whose registers
    all hold 200 succeeds and leaves speeds of 200. *)
Lemma per_point_store_breaks_order :
  let d := driver_example (fun _ => 0) [] (2, 2) in
  let r := curve_attr_store d 0 2 0 "10" in
  let p := sync_ec_curve (pack_curve (conf d) CPU) zero_buffer zero_buffer
             {| ec_regs := fun _ => 200; ec_faults := []; ec_writes := [] |} in
  is_curve_allowed (pack_curve (conf d) CPU) = true
  /\ curve_invariant 7 (curve_fan_speed (pack d CPU)) (curve_temp (pack d CPU))
  /\ fst r = 2
  /\ curve_temp (pack (snd r) CPU)
     = [40; 10; 60; 70; 80; 90; 0; 0; 0; 0; 0; 0; 0; 0; 0; 0]
  /\ ~ curve_invariant 7 (curve_fan_speed (pack (snd r) CPU))
         (curve_temp (pack (snd r) CPU))
  /\ fst (fst (fst p)) = 0
  /\ ~ curve_invariant 7 (snd (fst (fst p))) (snd (fst p)).
Proof.
  intros d r p.
  split; [vm_compute; reflexivity|].
  split; [apply curve_invariantb_spec; vm_compute; reflexivity|].
  split; [vm_compute; reflexivity|].
  split; [vm_compute; reflexivity|].
  split; [intros H; apply curve_invariantb_spec in H; vm_compute in H;
          discriminate|].
  split; [vm_compute; reflexivity|].
  intros H; apply curve_invariantb_spec in H; vm_compute in H; discriminate.
Qed.

(* ================================================================= *)
(** ** The EC: transactions on a healthy controller *)

Lemma ec_next_healthy (e : ec_state) : ec_healthy e -> ec_next e = 0.
Proof.
  unfold ec_healthy, ec_next. intros H.
  destruct (ec_faults e) as [|r fs]; [reflexivity|].
  inversion H; subst. destruct (Z.ltb_spec r 0); [lia | reflexivity].
Qed.

Lemma ec_consume_healthy (e : ec_state) : ec_healthy e -> ec_healthy (ec_consume e).
Proof.
  unfold ec_healthy, ec_consume. simpl. intros H.
  destruct (ec_faults e) as [|r fs]; simpl; [constructor|].
  now inversion H.
Qed.

Lemma ec_read_healthy (addr old : Z) (e : ec_state) :
  ec_healthy e ->
  ec_read addr old e = (0, u8 (ec_regs e (u8 addr)), ec_consume e).
Proof. intros H. unfold ec_read. now rewrite (ec_next_healthy e H). Qed.

(** A read never changes the registers or the write log. *)
Lemma ec_read_frame (addr old : Z) (e : ec_state) :
  ec_regs (snd (ec_read addr old e)) = ec_regs e
  /\ ec_writes (snd (ec_read addr old e)) = ec_writes e.
Proof. unfold ec_read. destruct (ec_next e <? 0); simpl; auto. Qed.

Lemma ec_write_healthy (addr val : Z) (e : ec_state) :
  ec_healthy e ->
  exists e',
    ec_write addr val e = (0, e') /\ ec_healthy e'
    /\ ec_regs e' = (fun a => if a =? u8 addr then u8 val else ec_regs e a)
    /\ ec_writes e' = (u8 addr, u8 val) :: ec_writes e.
Proof.
  intros H. unfold ec_write. rewrite (ec_next_healthy e H). simpl.
  eexists. split; [reflexivity|]. split; [|split; reflexivity].
  exact (ec_consume_healthy e H).
Qed.

(** A write changes at most the register it addresses and logs at most
    one entry, for that address. *)
Lemma ec_write_frame (addr val : Z) (e : ec_state) :
  (forall a, a <> u8 addr -> ec_regs (snd (ec_write addr val e)) a = ec_regs e a)
  /\ exists new,
       ec_writes (snd (ec_write addr val e)) = new ++ ec_writes e
       /\ forall x, In x new -> fst x = u8 addr.
Proof.
  unfold ec_write. destruct (ec_next e <? 0); simpl.
  - split; [reflexivity|]. exists []. split; [reflexivity | contradiction].
  - split.
    + intros a Ha. destruct (Z.eqb_spec a (u8 addr)); [contradiction | reflexivity].
    + exists [(u8 addr, u8 val)]. split; [reflexivity|].
      intros x [<-|[]]. reflexivity.
Qed.

Lemma region_S (j : Z) (n : nat) :
  region j (S n) = u8 j :: region (j + 1) n.
Proof.
  unfold region. cbn [seq map]. f_equal.
  - f_equal. lia.
  - rewrite <- seq_shift, map_map. apply map_ext. intros k. f_equal. lia.
Qed.

Lemma in_region (j : Z) (n k : nat) :
  (k < n)%nat -> In (u8 (j + Z.of_nat k)) (region j n).
Proof.
  intros Hk. unfold region. apply in_map_iff. exists k.
  split; [reflexivity | apply in_seq; lia].
Qed.

(** The write loop on a healthy EC: it succeeds, leaves the registers
    outside its region alone, and, when its region has no repeated
    address, leaves [buf[i + k]] in register [j + k]. *)
Lemma push_loop_healthy (n i : nat) (j : Z) (buf : list Z) (e : ec_state) :
  ec_healthy e ->
  exists e',
    push_loop n i j buf e = (0, e') /\ ec_healthy e'
    /\ (forall a, ~ In a (region j n) -> ec_regs e' a = ec_regs e a)
    /\ (NoDup (region j n) -> forall k, (k < n)%nat ->
        ec_regs e' (u8 (j + Z.of_nat k)) = u8 (aget buf (i + k))).
Proof.
  revert i j e. induction n as [|n IH]; intros i j e He.
  - exists e. simpl. repeat split; auto. intros _ k Hk. lia.
  - cbn [push_loop].
    destruct (ec_write_healthy j (aget buf i) e He) as [e1 [Hw [He1 [Hr1 _]]]].
    rewrite Hw. cbn [Z.eqb].
    destruct (IH (S i) (j + 1) e1 He1) as [e' [Hp [He' [Hframe Hval]]]].
    exists e'. rewrite region_S.
    split; [exact Hp|]. split; [exact He'|]. split.
    + intros a Ha. rewrite Hframe.
      * rewrite Hr1. destruct (Z.eqb_spec a (u8 j)) as [->|_]; [|reflexivity].
        exfalso. apply Ha. now left.
      * intros Hin. apply Ha. now right.
    + intros Hnd k Hk. inversion Hnd as [|? ? Hnotin Hnd']; subst.
      destruct k as [|k].
      * rewrite Z.add_0_r, Nat.add_0_r. rewrite Hframe by exact Hnotin.
        rewrite Hr1. now rewrite Z.eqb_refl.
      * replace (j + Z.of_nat (S k)) with (j + 1 + Z.of_nat k) by lia.
        replace (i + S k)%nat with (S i + k)%nat by lia.
        apply Hval; [exact Hnd' | lia].
Qed.

(** The read loop on a healthy EC: it succeeds and changes neither the
    registers nor the write log; when the registers already hold the
    bytes of the buffer, the buffer comes back unchanged. *)
Lemma sync_loop_healthy (n i : nat) (j : Z) (buf : list Z) (e : ec_state) :
  ec_healthy e ->
  exists buf' e',
    sync_loop n i j buf e = (0, buf', e') /\ ec_healthy e'
    /\ ec_regs e' = ec_regs e /\ ec_writes e' = ec_writes e
    /\ (bytes buf ->
        (forall k, (k < n)%nat ->
           ec_regs e (u8 (j + Z.of_nat k)) = u8 (aget buf (i + k))) ->
        buf' = buf).
Proof.
  revert i j buf e. induction n as [|n IH]; intros i j buf e He.
  - exists buf, e. simpl. repeat split; auto.
  - cbn [sync_loop]. rewrite (ec_read_healthy j (aget buf i) e He). cbn [Z.eqb].
    destruct (IH (S i) (j + 1) (aset buf i (u8 (ec_regs e (u8 j))))
                (ec_consume e) (ec_consume_healthy e He))
      as [buf' [e' [Hs [He' [Hr [Hw Hsame]]]]]].
    exists buf', e'. split; [exact Hs|]. split; [exact He'|].
    split; [exact Hr|]. split; [exact Hw|].
    intros Hb Hregs.
    assert (E : aset buf i (u8 (ec_regs e (u8 j))) = buf).
    { pose proof (Hregs 0%nat ltac:(lia)) as H0.
      rewrite Z.add_0_r, Nat.add_0_r in H0. rewrite H0, u8_u8.
      rewrite (u8_small _ (aget_bytes buf i Hb)). apply aset_same. }
    rewrite E in Hsame. apply Hsame; [exact Hb|].
    intros k Hk. simpl ec_regs.
    replace (j + 1 + Z.of_nat k) with (j + Z.of_nat (S k)) by lia.
    replace (S i + k)%nat with (i + S k)%nat by lia.
    apply Hregs. lia.
Qed.

Lemma ec_holds_frame (e e' : ec_state) (curve : msi_ec_fan_curve)
    (speed temp : list Z) :
  ec_holds e curve speed temp ->
  (forall a, In a (curve_regs curve) -> ec_regs e' a = ec_regs e a) ->
  ec_holds e' curve speed temp.
Proof.
  intros [Hs Ht] Hsame. split; intros i Hi.
  - rewrite Hsame; [now apply Hs|].
    unfold curve_regs. apply in_or_app. left. now apply in_region.
  - rewrite Hsame; [now apply Ht|].
    unfold curve_regs. apply in_or_app. right. now apply in_region.
Qed.

(** [push_ec_curve] on a healthy EC and an allowed curve. *)
Lemma push_ec_curve_healthy (curve : msi_ec_fan_curve) (speed temp : list Z)
    (e : ec_state) :
  is_curve_allowed curve = true -> ec_healthy e ->
  exists e',
    push_ec_curve curve speed temp e = (0, e') /\ ec_healthy e'
    /\ (forall a, ~ In a (curve_regs curve) -> ec_regs e' a = ec_regs e a)
    /\ (NoDup (curve_regs curve) -> ec_holds e' curve speed temp).
Proof.
  intros Ha He. unfold push_ec_curve. rewrite Ha. cbn [negb].
  destruct (push_loop_healthy (Z.to_nat (entries_count curve)) 0
              (speed_start_address curve) speed e He)
    as [e1 [Hp1 [He1 [Hf1 Hv1]]]].
  rewrite Hp1. cbn [Z.eqb].
  destruct (push_loop_healthy (Z.to_nat (entries_count curve - 1)) 0
              (temperature_start_address curve) temp e1 He1)
    as [e2 [Hp2 [He2 [Hf2 Hv2]]]].
  exists e2. split; [exact Hp2|]. split; [exact He2|]. split.
  - intros a Hnot. rewrite Hf2, Hf1; [reflexivity | |];
      intros Hin; apply Hnot; unfold curve_regs; apply in_or_app; auto.
  - intros Hnd. unfold curve_regs in Hnd. split; intros i Hi.
    + rewrite Hf2.
      * apply (Hv1 (NoDup_app_remove_r _ _ Hnd) i Hi).
      * intros Hin.
        apply (NoDup_app_disjoint _ _ _ Hnd (in_region _ _ _ Hi) Hin).
    + apply (Hv2 (NoDup_app_remove_l _ _ Hnd) i Hi).
Qed.

(** [sync_ec_curve] on a healthy EC. *)
Lemma sync_ec_curve_healthy (curve : msi_ec_fan_curve) (speed temp : list Z)
    (e : ec_state) :
  ec_healthy e ->
  exists r s t e',
    sync_ec_curve curve speed temp e = (r, s, t, e') /\ ec_healthy e'
    /\ ec_regs e' = ec_regs e /\ ec_writes e' = ec_writes e
    /\ (bytes speed -> bytes temp -> ec_holds e curve speed temp ->
        s = speed /\ t = temp).
Proof.
  intros He. unfold sync_ec_curve.
  destruct (negb (is_curve_allowed curve)).
  - exists (- EINVAL), speed, temp, e. repeat split; auto.
  - destruct (sync_loop_healthy (Z.to_nat (entries_count curve)) 0
                (speed_start_address curve) speed e He)
      as [s [e1 [Hs1 [He1 [Hr1 [Hw1 Hsame1]]]]]].
    rewrite Hs1. cbn [Z.eqb].
    destruct (sync_loop_healthy (Z.to_nat (entries_count curve - 1)) 0
                (temperature_start_address curve) temp e1 He1)
      as [t [e2 [Hs2 [He2 [Hr2 [Hw2 Hsame2]]]]]].
    rewrite Hs2. exists 0, s, t, e2.
    split; [reflexivity|]. split; [exact He2|].
    split; [congruence|]. split; [congruence|].
    intros Hbs Hbt [Hhs Hht]. split.
    + apply Hsame1; [exact Hbs|]. intros k Hk. now apply Hhs.
    + apply Hsame2; [exact Hbt|]. intros k Hk. rewrite Hr1. now apply Hht.
Qed.

Lemma fan_mode_get_healthy (c : msi_ec_conf) (dst : option string) (e : ec_state) :
  ec_healthy e ->
  exists r fm e',
    fan_mode_get c dst e = (r, fm, e') /\ ec_healthy e'
    /\ ec_regs e' = ec_regs e /\ ec_writes e' = ec_writes e.
Proof.
  intros He. unfold fan_mode_get.
  rewrite (ec_read_healthy _ 0 e He). cbn [Z.ltb Z.compare].
  destruct (fan_mode_lookup _ _) as [n|].
  - exists 0, (Some n), (ec_consume e).
    repeat split; auto using ec_consume_healthy.
  - destruct (_ =? 0);
      eexists; eexists; exists (ec_consume e);
      repeat split; auto using ec_consume_healthy.
Qed.

(** [sync_ec_curve_safe] on a healthy EC: whatever it returns, it leaves
    the registers alone, and buffers that the registers already hold
    come back unchanged. *)
Lemma sync_ec_curve_safe_healthy (c : msi_ec_conf) (curve : msi_ec_fan_curve)
    (speed temp : list Z) (e : ec_state) :
  ec_healthy e ->
  exists r s t e',
    sync_ec_curve_safe c curve speed temp e = (r, s, t, e') /\ ec_healthy e'
    /\ ec_regs e' = ec_regs e /\ ec_writes e' = ec_writes e
    /\ (bytes speed -> bytes temp -> ec_holds e curve speed temp ->
        s = speed /\ t = temp).
Proof.
  intros He. unfold sync_ec_curve_safe.
  destruct (apply_strategy curve =? CURVE_APPLY_STRATEGY_RESET_ON_AUTO).
  - destruct (fan_mode_get_healthy c None e He) as [r [fm [e1 [Hg [He1 [Hr1 Hw1]]]]]].
    rewrite Hg.
    destruct (negb (r =? 0)); [exists (- ENODATA), speed, temp, e1; auto 10|].
    destruct fm as [n|]; [|exists (- ENODATA), speed, temp, e1; auto 10].
    destruct (negb (String.eqb n FM_ADVANCED_NAME));
      [exists 0, speed, temp, e1; auto 10|].
    destruct (sync_ec_curve_healthy curve speed temp e1 He1)
      as [r' [s [t [e2 [Hs [He2 [Hr2 [Hw2 Hsame]]]]]]]].
    exists r', s, t, e2. split; [exact Hs|]. split; [exact He2|].
    split; [congruence|]. split; [congruence|].
    intros Hbs Hbt Hh. apply Hsame; auto.
    apply (ec_holds_frame e e1 curve speed temp Hh).
    intros a _. now rewrite Hr1.
  - exact (sync_ec_curve_healthy curve speed temp e He).
Qed.

(* ================================================================= *)
(** ** Register layout *)

Lemma nodupb_NoDup (l : list Z) : nodupb l = true -> NoDup l.
Proof.
  induction l as [|x l IH]; simpl; intros H; constructor.
  - apply andb_true_iff in H. destruct H as [H _].
    apply negb_true_iff in H. intros Hin.
    assert (E : existsb (Z.eqb x) l = true).
    { apply existsb_exists. exists x. split; [exact Hin | apply Z.eqb_refl]. }
    congruence.
  - apply IH. apply andb_true_iff in H. tauto.
Qed.

Lemma fan_eq_dec (f g : fan) : {f = g} + {f <> g}.
Proof. decide equality. Defined.

(** What a good layout gives for a curve that the mode change handles:
    its registers are pairwise distinct, they are not registers of the
    other handled curve, and the fan-mode register is not among them. *)
Lemma layout_curve (c : msi_ec_conf) (g : fan) :
  layout_ok c = true -> reset_on_auto (pack_curve c g) = true ->
  NoDup (curve_regs (pack_curve c g))
  /\ ~ In (u8 (fm_address (fan_mode c))) (curve_regs (pack_curve c g))
  /\ (forall h, h <> g -> reset_on_auto (pack_curve c h) = true ->
      forall a, In a (curve_regs (pack_curve c h)) ->
      ~ In a (curve_regs (pack_curve c g))).
Proof.
  unfold layout_ok, engine_regs. intros Hl Hg.
  apply nodupb_NoDup in Hl.
  destruct g; rewrite Hg in Hl.
  - split; [exact (NoDup_app_remove_r _ _ Hl)|]. split.
    + intros Hin. apply (NoDup_app_disjoint _ _ _ Hl Hin).
      apply in_or_app. right. now left.
    + intros [|] Hne Hh a Ha Hin; [contradiction|].
      rewrite Hh in Hl. apply (NoDup_app_disjoint _ _ _ Hl Hin).
      apply in_or_app. now left.
  - pose proof (NoDup_app_remove_l _ _ Hl) as Hl2.
    split; [exact (NoDup_app_remove_r _ _ Hl2)|]. split.
    + intros Hin. apply (NoDup_app_disjoint _ _ _ Hl2 Hin). now left.
    + intros [|] Hne Hh a Ha Hin; [|contradiction].
      rewrite Hh in Hl. apply (NoDup_app_disjoint _ _ _ Hl Ha).
      apply in_or_app. now left.
Qed.

(* ================================================================= *)
(** ** The fan mode change hook on a healthy EC *)

Lemma pack_set_ec (d : driver) (e : ec_state) (f : fan) :
  pack (set_ec d e) f = pack d f.
Proof. destruct f; reflexivity. Qed.

Lemma pack_set_active_other (d : driver) (f g : fan) (s t : list Z) :
  f <> g -> pack (set_active d f s t) g = pack d g.
Proof. destruct f, g; intros H; try reflexivity; contradiction. Qed.

(** Entering the advanced mode: every handled curve of the list is
    pushed.  The hook succeeds; the buffers, the configuration and the
    cached states stay; afterwards the EC holds the active buffers of a
    handled curve [g] of the list, and what it held for a handled curve
    outside the list; the fan-mode register is not written. *)
Lemma mode_change_advanced_healthy (g : fan) (l : list fan) (d : driver) :
  layout_ok (conf d) = true -> ec_healthy (ec d) ->
  reset_on_auto (pack_curve (conf d) g) = true ->
  exists d',
    mode_change_advanced l d = (0, d')
    /\ conf d' = conf d /\ ec_healthy (ec d')
    /\ (forall f, pack d' f = pack d f)
    /\ virtual_hwmon_pwm_enable d' = virtual_hwmon_pwm_enable d
    /\ ec_regs (ec d') (u8 (fm_address (fan_mode (conf d))))
       = ec_regs (ec d) (u8 (fm_address (fan_mode (conf d))))
    /\ (In g l ->
        ec_holds (ec d') (pack_curve (conf d) g)
          (curve_fan_speed (pack d g)) (curve_temp (pack d g)))
    /\ (forall s t, ~ In g l -> ec_holds (ec d) (pack_curve (conf d) g) s t ->
        ec_holds (ec d') (pack_curve (conf d) g) s t).
Proof.
  intros Hl He Hg. revert d Hl He Hg.
  induction l as [|h l IH]; intros d Hl He Hg.
  - exists d. simpl. conj_split; auto; contradiction.
  - cbn [mode_change_advanced].
    fold (reset_on_auto (pack_curve (conf d) h)).
    destruct (reset_on_auto (pack_curve (conf d) h)) eqn:Hh.
    + assert (Hah : is_curve_allowed (pack_curve (conf d) h) = true).
      { unfold reset_on_auto in Hh. apply andb_true_iff in Hh. tauto. }
      destruct (push_ec_curve_healthy (pack_curve (conf d) h)
                  (curve_fan_speed (pack d h)) (curve_temp (pack d h))
                  (ec d) Hah He) as [e1 [Hp [He1 [Hf1 Hh1]]]].
      rewrite Hp. cbn [Z.ltb Z.compare].
      destruct (layout_curve (conf d) h Hl Hh) as [Hnd [Hfm Hdisj]].
      destruct (IH (set_ec d e1) Hl He1 Hg)
        as [d' [Hm [Hc [He' [Hpk [Hv [Hfm' [Hin Hout]]]]]]]].
      exists d'. split; [exact Hm|]. split; [exact Hc|]. split; [exact He'|].
      split; [intros f; rewrite Hpk; apply pack_set_ec|].
      split; [exact Hv|].
      split; [simpl in Hfm'; rewrite Hfm'; simpl; now apply Hf1|].
      simpl conf in Hin, Hout. rewrite pack_set_ec in Hin.
      simpl ec in Hout.
      split.
      * intros Hgl. destruct (in_dec fan_eq_dec g l) as [Hgl'|Hgl'];
          [now apply Hin|].
        destruct Hgl as [->|Hgl]; [|contradiction].
        apply Hout; [exact Hgl'|]. now apply Hh1.
      * intros s t Hnot Hold.
        apply Hout; [intros Hgl; apply Hnot; now right|].
        apply (ec_holds_frame (ec d) e1 _ s t Hold).
        intros a Ha. apply Hf1. intros Hah'.
        assert (Hne : g <> h) by (intros ->; apply Hnot; now left).
        destruct (layout_curve (conf d) h Hl Hh) as [_ [_ Hd]].
        exact (Hd g Hne Hg a Ha Hah').
    + destruct (IH d Hl He Hg)
        as [d' [Hm [Hc [He' [Hpk [Hv [Hfm' [Hin Hout]]]]]]]].
      exists d'. conj_split; auto.
      * intros [->|Hgl]; [congruence | now apply Hin].
      * intros s t Hnot. apply Hout. intros Hgl. apply Hnot. now right.
Qed.

(** Leaving the advanced mode: every handled curve of the list is
    pulled, then its default curve is pushed.  On a healthy EC the hook
    succeeds.  For a handled curve [g] whose active buffers the EC
    holds, the buffers of [g] stay as they are, and afterwards the EC
    holds the default buffers of [g]. *)
Lemma mode_change_other_healthy (g : fan) (l : list fan) (d : driver) :
  layout_ok (conf d) = true -> ec_healthy (ec d) -> NoDup l ->
  reset_on_auto (pack_curve (conf d) g) = true ->
  exists d',
    mode_change_other l d = (0, d')
    /\ conf d' = conf d /\ ec_healthy (ec d')
    /\ virtual_hwmon_pwm_enable d' = virtual_hwmon_pwm_enable d
    /\ ec_regs (ec d') (u8 (fm_address (fan_mode (conf d))))
       = ec_regs (ec d) (u8 (fm_address (fan_mode (conf d))))
    /\ (bytes (curve_fan_speed (pack d g)) -> bytes (curve_temp (pack d g)) ->
        (In g l -> ec_holds (ec d) (pack_curve (conf d) g)
                     (curve_fan_speed (pack d g)) (curve_temp (pack d g))) ->
        pack d' g = pack d g
        /\ (In g l ->
            ec_holds (ec d') (pack_curve (conf d) g)
              (curve_fan_speed_default (pack d g))
              (curve_temp_default (pack d g)))
        /\ (forall s t, ~ In g l ->
            ec_holds (ec d) (pack_curve (conf d) g) s t ->
            ec_holds (ec d') (pack_curve (conf d) g) s t)).
Proof.
  intros Hl He Hnd Hg. revert d Hl He Hg.
  induction l as [|h l IH]; intros d Hl He Hg.
  - exists d. simpl. conj_split; auto.
    intros _ _ _. conj_split; auto; contradiction.
  - inversion Hnd as [|? ? Hhl Hnd']; subst.
    specialize (IH Hnd').
    cbn [mode_change_other].
    fold (reset_on_auto (pack_curve (conf d) h)).
    destruct (reset_on_auto (pack_curve (conf d) h)) eqn:Hh.
    + assert (Hah : is_curve_allowed (pack_curve (conf d) h) = true).
      { unfold reset_on_auto in Hh. apply andb_true_iff in Hh. tauto. }
      destruct (sync_ec_curve_safe_healthy (conf d) (pack_curve (conf d) h)
                  (curve_fan_speed (pack d h)) (curve_temp (pack d h)) (ec d) He)
        as [r [s1 [t1 [e1 [Hs [He1 [Hr1 [Hw1 Hsame]]]]]]]].
      rewrite Hs. cbv zeta.
      rewrite pack_set_ec.
      destruct (proj2 (proj2 (pack_set_active d h s1 t1))) as [Eds Edt].
      rewrite Eds, Edt.
      destruct (push_ec_curve_healthy (pack_curve (conf d) h)
                  (curve_fan_speed_default (pack d h))
                  (curve_temp_default (pack d h)) e1 Hah He1)
        as [e2 [Hp [He2 [Hf2 Hh2]]]].
      change (conf (set_ec (set_active d h s1 t1) e1)) with (conf d).
      rewrite Hp. cbn [Z.ltb Z.compare].
      destruct (layout_curve (conf d) h Hl Hh) as [Hndh [Hfm Hdisj]].
      destruct (IH (set_ec (set_ec (set_active d h s1 t1) e1) e2) Hl He2 Hg)
        as [d' [Hm [Hc [He' [Hv [Hfm' Hrest]]]]]].
      exists d'. split; [exact Hm|]. split; [exact Hc|]. split; [exact He'|].
      split; [exact Hv|].
      split; [simpl in Hfm'; rewrite Hfm'; simpl; rewrite (Hf2 _ Hfm);
              now rewrite Hr1|].
      intros Hbs Hbt Hheld.
      simpl conf in Hrest. simpl ec in Hrest.
      rewrite !pack_set_ec in Hrest.
      destruct (fan_eq_dec h g) as [->|Hne].
      * (* the curve of interest is pulled and reset here *)
        destruct (Hsame Hbs Hbt (Hheld (or_introl eq_refl))) as [-> ->].
        rewrite set_active_same in Hrest.
        destruct (Hrest Hbs Hbt ltac:(intros; contradiction))
          as [Hpk [_ Hout]].
        split; [exact Hpk|]. split; [|intros s t Hnot; exfalso; apply Hnot; now left].
        intros _. apply Hout; [exact Hhl|]. now apply Hh2.
      * (* another curve is handled: the registers of [g] are not used *)
        rewrite (pack_set_active_other d h g s1 t1 Hne) in Hrest.
        assert (Hkeep : forall s t,
                  ec_holds (ec d) (pack_curve (conf d) g) s t ->
                  ec_holds e2 (pack_curve (conf d) g) s t).
        { intros s t Hold. apply (ec_holds_frame (ec d) e2 _ s t Hold).
          intros a Ha. rewrite Hf2; [now rewrite Hr1|].
          intros Hah'.
          assert (Hne' : g <> h) by congruence.
          exact (Hdisj g Hne' Hg a Ha Hah'). }
        destruct (Hrest Hbs Hbt) as [Hpk [Hin Hout]].
        { intros Hgl. apply Hkeep, Hheld. now right. }
        split; [exact Hpk|]. split.
        -- intros [E|Hgl]; [congruence | now apply Hin].
        -- intros s t Hnot Hold.
           apply Hout; [intros Hgl; apply Hnot; now right | now apply Hkeep].
    + destruct (IH d Hl He Hg) as [d' [Hm [Hc [He' [Hv [Hfm' Hrest]]]]]].
      exists d'. conj_split; auto.
      intros Hbs Hbt Hheld.
      destruct (Hrest Hbs Hbt) as [Hpk [Hin Hout]].
      { intros Hgl. apply Hheld. now right. }
      conj_split; auto.
      * intros [->|Hgl]; [congruence | now apply Hin].
      * intros s t Hnot. apply Hout. intros Hgl. apply Hnot. now right.
Qed.

(* ================================================================= *)
(** ** Setting the fan mode *)

Lemma set_fan_mode_loop_found (ms : list msi_ec_mode) (mode : string)
    (d : driver) (v : Z) :
  mode_value ms mode = Some v ->
  set_fan_mode_loop ms mode d
  = let '(result, d1) := curve_fan_mode_change d mode in
    if result <? 0 then (result, d1)
    else
      let '(result, e') := ec_write (fm_address (fan_mode (conf d))) v (ec d1) in
      if result <? 0 then (result, set_ec d1 e') else (0, set_ec d1 e').
Proof.
  induction ms as [|m ms IH]; simpl; [discriminate|].
  destruct (name m) as [n|]; [|exact IH].
  destruct (String.eqb n mode); [|exact IH].
  intros [= <-]. reflexivity.
Qed.

(** Entering manual mode on a healthy EC, seen from a handled curve [g]:
    the active buffers of [g] are pushed and the fan-mode register gets
    the value of "advanced". *)
Lemma enter_manual (g : fan) (d : driver) (v : Z) :
  layout_ok (conf d) = true -> ec_healthy (ec d) ->
  reset_on_auto (pack_curve (conf d) g) = true ->
  fan_mode_value (conf d) FM_ADVANCED_NAME = Some v ->
  exists d',
    set_fan_mode d FM_ADVANCED_NAME = (0, d')
    /\ conf d' = conf d /\ ec_healthy (ec d')
    /\ (forall f, pack d' f = pack d f)
    /\ ec_holds (ec d') (pack_curve (conf d) g)
         (curve_fan_speed (pack d g)) (curve_temp (pack d g)).
Proof.
  intros Hl He Hg Hv. unfold set_fan_mode.
  rewrite (set_fan_mode_loop_found _ _ _ _ Hv).
  unfold curve_fan_mode_change.
  change (String.eqb FM_ADVANCED_NAME FM_ADVANCED_NAME) with true. cbv iota.
  destruct (mode_change_advanced_healthy g all_curves_list d Hl He Hg)
    as [d1 [Hm [Hc [He1 [Hpk [_ [_ [Hin _]]]]]]]].
  rewrite Hm. cbn [Z.ltb Z.compare].
  destruct (ec_write_healthy (fm_address (fan_mode (conf d))) v (ec d1) He1)
    as [e' [Hw [He' [Hr' _]]]].
  rewrite Hw. cbn [Z.ltb Z.compare].
  exists (set_ec d1 e'). split; [reflexivity|]. split; [exact Hc|].
  split; [exact He'|].
  split; [intros f; rewrite pack_set_ec; apply Hpk|].
  destruct (layout_curve (conf d) g Hl Hg) as [_ [Hfm _]].
  apply (ec_holds_frame (ec d1)).
  - apply Hin. unfold all_curves_list. destruct g; simpl; auto.
  - intros a Ha. simpl. rewrite Hr'.
    destruct (Z.eqb_spec a (u8 (fm_address (fan_mode (conf d))))) as [->|_];
      [contradiction | reflexivity].
Qed.

(** Leaving manual mode for "auto" on a healthy EC, seen from a handled
    curve [g] whose active buffers the EC holds: the pull leaves the
    buffers of [g] as they are, and the default buffers are pushed. *)
Lemma leave_manual (g : fan) (d : driver) (v : Z) :
  layout_ok (conf d) = true -> ec_healthy (ec d) ->
  reset_on_auto (pack_curve (conf d) g) = true ->
  fan_mode_value (conf d) FM_AUTO_NAME = Some v ->
  bytes (curve_fan_speed (pack d g)) -> bytes (curve_temp (pack d g)) ->
  ec_holds (ec d) (pack_curve (conf d) g)
    (curve_fan_speed (pack d g)) (curve_temp (pack d g)) ->
  exists d',
    set_fan_mode d FM_AUTO_NAME = (0, d')
    /\ conf d' = conf d /\ ec_healthy (ec d')
    /\ pack d' g = pack d g
    /\ ec_holds (ec d') (pack_curve (conf d) g)
         (curve_fan_speed_default (pack d g)) (curve_temp_default (pack d g)).
Proof.
  intros Hl He Hg Hv Hbs Hbt Hheld. unfold set_fan_mode.
  rewrite (set_fan_mode_loop_found _ _ _ _ Hv).
  unfold curve_fan_mode_change.
  change (String.eqb FM_AUTO_NAME FM_ADVANCED_NAME) with false. cbv iota.
  assert (Hnd : NoDup all_curves_list).
  { unfold all_curves_list. repeat constructor; simpl; intuition discriminate. }
  destruct (mode_change_other_healthy g all_curves_list d Hl He Hnd Hg)
    as [d1 [Hm [Hc [He1 [_ [_ Hrest]]]]]].
  destruct (Hrest Hbs Hbt (fun _ => Hheld)) as [Hpk [Hin _]].
  rewrite Hm. cbn [Z.ltb Z.compare].
  destruct (ec_write_healthy (fm_address (fan_mode (conf d))) v (ec d1) He1)
    as [e' [Hw [He' [Hr' _]]]].
  rewrite Hw. cbn [Z.ltb Z.compare].
  exists (set_ec d1 e'). split; [reflexivity|]. split; [exact Hc|].
  split; [exact He'|].
  split; [rewrite pack_set_ec; exact Hpk|].
  destruct (layout_curve (conf d) g Hl Hg) as [_ [Hfm _]].
  apply (ec_holds_frame (ec d1)).
  - apply Hin. unfold all_curves_list. destruct g; simpl; auto.
  - intros a Ha. simpl. rewrite Hr'.
    destruct (Z.eqb_spec a (u8 (fm_address (fan_mode (conf d))))) as [->|_];
      [contradiction | reflexivity].
Qed.

(* ================================================================= *)
(** ** The PWM-enable state machine *)

Lemma ec_only_writes_refl (a : Z) (e : ec_state) : ec_only_writes a e e.
Proof.
  split; [reflexivity|]. exists []. split; [reflexivity | contradiction].
Qed.

Lemma ec_only_writes_trans (a : Z) (e1 e2 e3 : ec_state) :
  ec_only_writes a e1 e2 -> ec_only_writes a e2 e3 -> ec_only_writes a e1 e3.
Proof.
  intros [Hr1 [n1 [Hw1 Hn1]]] [Hr2 [n2 [Hw2 Hn2]]]. split.
  - intros b Hb. now rewrite Hr2, Hr1.
  - exists (n2 ++ n1). split; [now rewrite Hw2, Hw1, app_assoc|].
    intros x Hx. apply in_app_or in Hx. destruct Hx; auto.
Qed.

Lemma ec_read_only_writes (a addr old : Z) (e : ec_state) :
  ec_only_writes a e (snd (ec_read addr old e)).
Proof.
  destruct (ec_read_frame addr old e) as [Hr Hw]. split.
  - intros b _. now rewrite Hr.
  - exists []. split; [exact Hw | contradiction].
Qed.

Lemma ec_write_only_writes (addr val : Z) (e : ec_state) :
  ec_only_writes (u8 addr) e (snd (ec_write addr val e)).
Proof. exact (ec_write_frame addr val e). Qed.

Lemma ec_read_keeps_healthy (addr old : Z) (e : ec_state) :
  ec_healthy e -> ec_healthy (snd (ec_read addr old e)).
Proof.
  intros H. rewrite (ec_read_healthy addr old e H). simpl.
  now apply ec_consume_healthy.
Qed.

Lemma ec_write_keeps_healthy (addr val : Z) (e : ec_state) :
  ec_healthy e -> ec_healthy (snd (ec_write addr val e)).
Proof.
  intros H. destruct (ec_write_healthy addr val e H) as [e' [Hw [He' _]]].
  now rewrite Hw.
Qed.

(** [set_cooler_boost] touches nothing but the EC, and in the EC nothing
    but the cooler-boost register. *)
Lemma set_cooler_boost_frame (d : driver) (enable : bool) :
  exists r d',
    set_cooler_boost d enable = (r, d')
    /\ conf d' = conf d
    /\ virtual_hwmon_pwm_enable d' = virtual_hwmon_pwm_enable d
    /\ cpu_curve_package d' = cpu_curve_package d
    /\ gpu_curve_package d' = gpu_curve_package d
    /\ (ec_healthy (ec d) -> ec_healthy (ec d'))
    /\ ec_only_writes (u8 (cb_address (cooler_boost (conf d)))) (ec d) (ec d').
Proof.
  unfold set_cooler_boost.
  destruct (cb_address (cooler_boost (conf d)) =? MSI_EC_ADDR_UNSUPP).
  - exists (- EINVAL), d. conj_split; auto. apply ec_only_writes_refl.
  - unfold ec_set_bit.
    pose proof (ec_read_only_writes (u8 (cb_address (cooler_boost (conf d))))
                  (cb_address (cooler_boost (conf d))) 0 (ec d)) as Hro.
    pose proof (ec_read_keeps_healthy (cb_address (cooler_boost (conf d))) 0 (ec d))
      as Hrh.
    destruct (ec_read (cb_address (cooler_boost (conf d))) 0 (ec d))
      as [[result stored] e1].
    simpl in Hro, Hrh.
    destruct (result <? 0) eqn:Eres.
    + rewrite Eres. exists result, (set_ec d e1). conj_split; auto.
    + match goal with
      | |- context [ec_write ?a ?v e1] =>
          pose proof (ec_write_only_writes a v e1) as Hwo;
          pose proof (ec_write_keeps_healthy a v e1) as Hwh;
          destruct (ec_write a v e1) as [r2 e2]
      end.
      simpl in Hwo, Hwh.
      assert (Hall : ec_only_writes (u8 (cb_address (cooler_boost (conf d))))
                       (ec d) e2)
        by (eapply ec_only_writes_trans; eauto).
      destruct (r2 <? 0); eexists; exists (set_ec d e2); conj_split; auto.
Qed.

(** The fan mode change hook succeeds on a healthy EC, whatever the
    layout, and touches neither the configuration nor the cached
    states. *)
Lemma mode_change_other_ok (l : list fan) (d : driver) :
  ec_healthy (ec d) ->
  exists d',
    mode_change_other l d = (0, d')
    /\ conf d' = conf d /\ ec_healthy (ec d')
    /\ virtual_hwmon_pwm_enable d' = virtual_hwmon_pwm_enable d.
Proof.
  revert d. induction l as [|h l IH]; intros d He.
  - exists d. simpl. auto.
  - cbn [mode_change_other].
    fold (reset_on_auto (pack_curve (conf d) h)).
    destruct (reset_on_auto (pack_curve (conf d) h)) eqn:Hh; [|now apply IH].
    assert (Hah : is_curve_allowed (pack_curve (conf d) h) = true).
    { unfold reset_on_auto in Hh. apply andb_true_iff in Hh. tauto. }
    destruct (sync_ec_curve_safe_healthy (conf d) (pack_curve (conf d) h)
                (curve_fan_speed (pack d h)) (curve_temp (pack d h)) (ec d) He)
      as [r [s1 [t1 [e1 [Hs [He1 _]]]]]].
    rewrite Hs. cbv zeta.
    change (conf (set_ec (set_active d h s1 t1) e1)) with (conf d).
    match goal with
    | |- context [push_ec_curve ?c ?s ?t e1] =>
        destruct (push_ec_curve_healthy c s t e1 Hah He1)
          as [e2 [Hp [He2 _]]]
    end.
    rewrite Hp. cbn [Z.ltb Z.compare].
    destruct (IH (set_ec (set_ec (set_active d h s1 t1) e1) e2) He2)
      as [d' [Hm [Hc [He' Hv]]]].
    exists d'. auto.
Qed.

Lemma vset_not_both (a : Z * Z) (channel : Z) :
  channel = 0 \/ channel = 1 ->
  vget a (1 - channel) <> PWM_ENABLE_AUTO ->
  (snd (vset a channel PWM_ENABLE_AUTO) =? PWM_ENABLE_AUTO)
  && (fst (vset a channel PWM_ENABLE_AUTO) =? PWM_ENABLE_AUTO) = false.
Proof.
  destruct a as [v0 v1]. unfold vset, vget.
  intros [->| ->]; simpl; intros H; apply Z.eqb_neq in H; rewrite H; reflexivity.
Qed.

Lemma vset_both (a : Z * Z) (channel : Z) :
  channel = 0 \/ channel = 1 ->
  vget a (1 - channel) = PWM_ENABLE_AUTO ->
  vset a channel PWM_ENABLE_AUTO = (PWM_ENABLE_AUTO, PWM_ENABLE_AUTO).
Proof.
  destruct a as [v0 v1]. unfold vset, vget.
  intros [->| ->]; simpl; intros ->; reflexivity.
Qed.

(* ================================================================= *)
(** * The rest of the driver: properties *)

(* ================================================================= *)
(** ** Bits of a register *)

Lemma u8_testbit (x k : Z) :
  0 <= k -> Z.testbit (u8 x) k = (k <? 8) && Z.testbit x k.
Proof.
  intros Hk. unfold u8. change 256 with (2 ^ 8).
  destruct (Z.ltb_spec k 8).
  - now rewrite Z.mod_pow2_bits_low by lia.
  - now rewrite Z.mod_pow2_bits_high by lia.
Qed.

Lemma BIT_testbit (b k : Z) : 0 <= b -> Z.testbit (BIT b) k = (b =? k).
Proof.
  intros Hb. unfold BIT. rewrite Z.shiftl_1_l. now apply Z.pow2_bits_eqb.
Qed.

(** The test of [ec_check_bit] reads the bit. *)
Lemma land_BIT (s b : Z) :
  0 <= b -> negb (Z.land s (BIT b) =? 0) = Z.testbit s b.
Proof.
  intros Hb. destruct (Z.testbit s b) eqn:E.
  - apply negb_true_iff, Z.eqb_neq. intros H0.
    assert (F : Z.testbit (Z.land s (BIT b)) b = true).
    { rewrite Z.land_spec, E, BIT_testbit, Z.eqb_refl by exact Hb. reflexivity. }
    rewrite H0, Z.bits_0 in F. discriminate.
  - apply negb_false_iff, Z.eqb_eq. apply Z.bits_inj'. intros k Hk.
    rewrite Z.land_spec, BIT_testbit, Z.bits_0 by exact Hb.
    destruct (Z.eqb_spec b k) as [<-|_]; [now rewrite E | apply andb_false_r].
Qed.

Lemma with_bit_testbit (stored bit k : Z) (value : bool) :
  0 <= bit < 8 -> 0 <= k ->
  Z.testbit (with_bit stored bit value) k
  = (k <? 8) && (if bit =? k then value else Z.testbit stored k).
Proof.
  intros Hb Hk. unfold with_bit.
  rewrite (u8_small bit) by (unfold is_byte; lia).
  destruct value; rewrite u8_testbit by exact Hk; f_equal.
  - rewrite Z.lor_spec, BIT_testbit by lia.
    destruct (bit =? k); [apply orb_true_r | apply orb_false_r].
  - rewrite Z.land_spec, Z.lnot_spec, BIT_testbit by lia.
    destruct (bit =? k); [apply andb_false_r | apply andb_true_r].
Qed.

Lemma with_bit_byte (stored bit : Z) (value : bool) :
  is_byte (with_bit stored bit value).
Proof. unfold with_bit. destruct value; apply u8_range. Qed.

(* ================================================================= *)
(** ** Bit helpers on a healthy EC *)

Lemma ec_set_bit_healthy (addr bit : Z) (value : bool) (e : ec_state) :
  ec_healthy e ->
  exists e1,
    ec_set_bit addr bit value e = (0, e1) /\ ec_healthy e1
    /\ (forall a, ec_regs e1 a
                  = if a =? u8 addr
                    then with_bit (u8 (ec_regs e (u8 addr))) bit value
                    else ec_regs e a).
Proof.
  intros He. unfold ec_set_bit. rewrite (ec_read_healthy addr 0 e He).
  cbn [Z.ltb Z.compare]. fold (with_bit (u8 (ec_regs e (u8 addr))) bit value).
  destruct (ec_write_healthy addr (with_bit (u8 (ec_regs e (u8 addr))) bit value)
              (ec_consume e) (ec_consume_healthy e He))
    as [e1 [Hw [He1 [Hr _]]]].
  exists e1. split; [exact Hw|]. split; [exact He1|].
  intros a. rewrite Hr. rewrite (u8_small _ (with_bit_byte _ _ _)). reflexivity.
Qed.

Lemma ec_check_bit_healthy (addr bit : Z) (out : bool) (e : ec_state) :
  ec_healthy e -> 0 <= bit < 8 ->
  ec_check_bit addr bit out e
  = (0, Z.testbit (u8 (ec_regs e (u8 addr))) bit, ec_consume e).
Proof.
  intros He Hb. unfold ec_check_bit. rewrite (ec_read_healthy addr 0 e He).
  cbn [Z.ltb Z.compare]. rewrite (u8_small bit) by (unfold is_byte; lia).
  rewrite land_BIT by lia. reflexivity.
Qed.

(** After [ec_set_bit] the bit reads as it was set. *)
Lemma ec_set_bit_then_check (addr bit : Z) (value out : bool) (e e1 : ec_state) :
  ec_healthy e1 -> 0 <= bit < 8 ->
  (forall a, ec_regs e1 a
             = if a =? u8 addr
               then with_bit (u8 (ec_regs e (u8 addr))) bit value
               else ec_regs e a) ->
  ec_check_bit addr bit out e1 = (0, value, ec_consume e1).
Proof.
  intros He1 Hb Hr. rewrite (ec_check_bit_healthy addr bit out e1 He1 Hb).
  rewrite Hr, Z.eqb_refl. rewrite (u8_small _ (with_bit_byte _ _ _)).
  rewrite with_bit_testbit by lia. rewrite Z.eqb_refl.
  destruct (Z.ltb_spec bit 8); [reflexivity | lia].
Qed.

(** X1.  On an EC that works without failure and for a bit number below
    8, [ec_set_bit] returns 0, and afterwards [ec_check_bit] on the same
    address and bit returns 0 and reports the value that was set.  The
    other registers keep their content, and so do the other bits of the
    register. *)
Theorem ec_set_bit_round_trip (addr bit : Z) (value : bool) (e : ec_state) :
  ec_healthy e -> 0 <= bit < 8 ->
  exists e1,
    ec_set_bit addr bit value e = (0, e1)
    /\ ec_healthy e1
    /\ (forall out, fst (ec_check_bit addr bit out e1) = (0, value))
    /\ (forall a, a <> u8 addr -> ec_regs e1 a = ec_regs e a)
    /\ (forall k, 0 <= k -> k <> bit ->
          Z.testbit (ec_regs e1 (u8 addr)) k
          = Z.testbit (u8 (ec_regs e (u8 addr))) k).
Proof.
  intros He Hb.
  destruct (ec_set_bit_healthy addr bit value e He) as [e1 [Hs [He1 Hr]]].
  exists e1. split; [exact Hs|]. split; [exact He1|]. split; [|split].
  - intros out. now rewrite (ec_set_bit_then_check addr bit value out e e1).
  - intros a Ha. rewrite Hr.
    destruct (Z.eqb_spec a (u8 addr)); [contradiction | reflexivity].
  - intros k Hk Hne. rewrite Hr, Z.eqb_refl, with_bit_testbit by lia.
    destruct (Z.eqb_spec bit k) as [->|_]; [contradiction|].
    rewrite u8_testbit by exact Hk. destruct (k <? 8); reflexivity.
Qed.

Lemma ec_set_bit_round_trip_witness :
  exists e1,
    ec_set_bit 0x98 7 true (ec (driver_example (fun _ => 0x41) [] (1, 1)))
    = (0, e1)
    /\ fst (ec_check_bit 0x98 7 false e1) = (0, true)
    /\ ec_regs e1 0x98 = 0xc1.
Proof.
  destruct (ec_set_bit_round_trip 0x98 7 true
              (ec (driver_example (fun _ => 0x41) [] (1, 1))))
    as [e1 [Hs [_ [Hc _]]]]; [constructor | lia |].
  exists e1. split; [exact Hs|]. split; [apply Hc|].
  vm_compute in Hs. injection Hs as <-. reflexivity.
Defined.

(* ================================================================= *)
(** ** Short texts pass [sysfs_emit] unchanged *)

Lemma substring_all (n : nat) (s : string) :
  (String.length s <= n)%nat -> substring 0 n s = s.
Proof.
  revert n. induction s as [|c s IH]; intros n Hn.
  - destruct n; reflexivity.
  - destruct n as [|n]; simpl in Hn; [lia|]. simpl. f_equal. apply IH. lia.
Qed.

Lemma vscnprintf_short (size : Z) (text : string) :
  Z.of_nat (String.length text) < size -> vscnprintf size text = text.
Proof. intros H. unfold vscnprintf. apply substring_all. lia. Qed.

Lemma sysfs_emit_short (text : string) :
  Z.of_nat (String.length text) < PAGE_SIZE -> sysfs_emit text = text.
Proof. apply vscnprintf_short. Qed.

Lemma sysfs_emit_on_off (v : bool) :
  sysfs_emit (str_on_off v ++ String "010" "") = (str_on_off v ++ String "010" "")%string.
Proof. apply sysfs_emit_short. destruct v; vm_compute; reflexivity. Qed.

Lemma sysfs_emit_left_right (v : bool) :
  sysfs_emit (str_left_right v ++ String "010" "")
  = (str_left_right v ++ String "010" "")%string.
Proof. apply sysfs_emit_short. destruct v; vm_compute; reflexivity. Qed.

(* ================================================================= *)
(** ** Webcam and key position attributes *)

Lemma webcam_common_round_trip (webcam : msi_ec_webcam_conf) (address : Z)
    (inverted : bool) (buf : string) (value : bool) (e : ec_state) :
  ec_healthy e -> 0 <= wc_bit webcam < 8 ->
  kstrtobool buf false = (0, value) ->
  exists e1,
    webcam_common_store webcam address buf inverted e
    = (Z.of_nat (String.length buf), e1)
    /\ ec_healthy e1
    /\ fst (webcam_common_show webcam address inverted e1)
       = Emit (str_on_off value ++ String "010" "")
    /\ Z.testbit (ec_regs e1 (u8 address)) (wc_bit webcam) = xorb value inverted.
Proof.
  intros He Hb Hk. unfold webcam_common_store. rewrite Hk. cbn [Z.eqb negb].
  destruct (ec_set_bit_healthy address (wc_bit webcam) (xorb value inverted) e He)
    as [e1 [Hs [He1 Hr]]].
  rewrite Hs. cbn [Z.ltb Z.compare].
  exists e1. split; [reflexivity|]. split; [exact He1|]. split.
  - unfold webcam_common_show.
    rewrite (ec_set_bit_then_check address (wc_bit webcam) (xorb value inverted)
               false e e1 He1 Hb Hr).
    cbn [Z.ltb Z.compare fst]. rewrite xorb_assoc, xorb_nilpotent, xorb_false_r.
    now rewrite sysfs_emit_on_off.
  - rewrite Hr, Z.eqb_refl, with_bit_testbit, Z.eqb_refl by lia.
    destruct (Z.ltb_spec (wc_bit webcam) 8); [reflexivity | lia].
Qed.

(** X2.  Let the EC work without failure, let the webcam bit number be
    below 8 and let [kstrtobool] read the text written as [value].  A
    write to [webcam] returns the length of the text, leaves the bit
    equal to [value] and a following read shows [value] as "on" or
    "off".  A write to [webcam_block] stores the negated bit at the
    block address, and a following read of [webcam_block] shows [value]
    again. *)
Theorem webcam_round_trip (webcam : msi_ec_webcam_conf) (buf : string)
    (value : bool) (e : ec_state) :
  ec_healthy e -> 0 <= wc_bit webcam < 8 ->
  kstrtobool buf false = (0, value) ->
  (exists e1,
     webcam_store webcam buf e = (Z.of_nat (String.length buf), e1)
     /\ fst (webcam_show webcam e1) = Emit (str_on_off value ++ String "010" "")
     /\ Z.testbit (ec_regs e1 (u8 (wc_address webcam))) (wc_bit webcam) = value)
  /\ (exists e1,
     webcam_block_store webcam buf e = (Z.of_nat (String.length buf), e1)
     /\ fst (webcam_block_show webcam e1)
        = Emit (str_on_off value ++ String "010" "")
     /\ Z.testbit (ec_regs e1 (u8 (wc_block_address webcam))) (wc_bit webcam)
        = negb value).
Proof.
  intros He Hb Hk. split.
  - destruct (webcam_common_round_trip webcam (wc_address webcam) false buf value
                e He Hb Hk) as [e1 [Hs [_ [Hshow Hbit]]]].
    exists e1. split; [exact Hs|]. split; [exact Hshow|].
    now rewrite Hbit, xorb_false_r.
  - destruct (webcam_common_round_trip webcam (wc_block_address webcam) true buf
                value e He Hb Hk) as [e1 [Hs [_ [Hshow Hbit]]]].
    exists e1. split; [exact Hs|]. split; [exact Hshow|].
    now rewrite Hbit, xorb_true_r.
Qed.

Lemma webcam_round_trip_witness :
  let webcam := {| wc_address := 0x2e; wc_block_address := 0x2f; wc_bit := 1 |} in
  let e := ec (driver_example (fun _ => 0) [] (1, 1)) in
  kstrtobool ("on" ++ String "010" "") false = (0, true)
  /\ exists e1,
       webcam_block_store webcam ("on" ++ String "010" "") e = (3, e1)
       /\ fst (webcam_block_show webcam e1) = Emit ("on" ++ String "010" "")
       /\ Z.testbit (ec_regs e1 0x2f) 1 = false.
Proof.
  intros webcam e.
  assert (Hk : kstrtobool ("on" ++ String "010" "") false = (0, true))
    by (vm_compute; reflexivity).
  split; [exact Hk|].
  destruct (webcam_round_trip webcam ("on" ++ String "010" "") true e)
    as [_ [e1 H]]; [constructor | simpl; lia | exact Hk |].
  exists e1. exact H.
Defined.

(** X3.  Let the EC work without failure, let the swap bit number be
    below 8 and let [direction_is_left] read the text written as
    [left].  After a write to [win_key], a read of [win_key] shows that
    direction and a read of [fn_key] shows the opposite one; after a
    write to [fn_key], a read of [fn_key] shows that direction and a read
    of [win_key] the opposite one.  This holds whether or not the profile
    inverts the bit. *)
Theorem fn_win_key_round_trip (fn_win_swap : msi_ec_fn_win_swap_conf)
    (buf : string) (left : bool) (e : ec_state) :
  ec_healthy e -> 0 <= fws_bit fn_win_swap < 8 ->
  direction_is_left buf false = (0, left) ->
  (exists e1,
     win_key_store fn_win_swap buf e = (Z.of_nat (String.length buf), e1)
     /\ fst (win_key_show fn_win_swap e1)
        = Emit (str_left_right left ++ String "010" "")
     /\ fst (fn_key_show fn_win_swap e1)
        = Emit (str_left_right (negb left) ++ String "010" ""))
  /\ (exists e1,
     fn_key_store fn_win_swap buf e = (Z.of_nat (String.length buf), e1)
     /\ fst (fn_key_show fn_win_swap e1)
        = Emit (str_left_right left ++ String "010" "")
     /\ fst (win_key_show fn_win_swap e1)
        = Emit (str_left_right (negb left) ++ String "010" "")).
Proof.
  intros He Hb Hd. split.
  - unfold win_key_store. rewrite Hd. cbn [Z.ltb Z.compare].
    destruct (ec_set_bit_healthy (fws_address fn_win_swap) (fws_bit fn_win_swap)
                (xorb left (fws_invert fn_win_swap)) e He) as [e1 [Hs [He1 Hr]]].
    rewrite Hs. cbn [Z.ltb Z.compare]. exists e1. split; [reflexivity|].
    unfold win_key_show, fn_key_show.
    rewrite (ec_set_bit_then_check _ _ _ false e e1 He1 Hb Hr).
    cbn [Z.ltb Z.compare fst].
    rewrite xorb_assoc, xorb_nilpotent, xorb_false_r, !sysfs_emit_left_right.
    split; reflexivity.
  - unfold fn_key_store. rewrite Hd. cbn [Z.ltb Z.compare].
    destruct (ec_set_bit_healthy (fws_address fn_win_swap) (fws_bit fn_win_swap)
                (negb (xorb left (fws_invert fn_win_swap))) e He)
      as [e1 [Hs [He1 Hr]]].
    rewrite Hs. cbn [Z.ltb Z.compare]. exists e1. split; [reflexivity|].
    unfold win_key_show, fn_key_show.
    rewrite (ec_set_bit_then_check _ _ _ false e e1 He1 Hb Hr).
    cbn [Z.ltb Z.compare fst]. rewrite !sysfs_emit_left_right.
    destruct left, (fws_invert fn_win_swap); split; reflexivity.
Qed.

Lemma fn_win_key_round_trip_witness :
  let fn_win_swap := {| fws_address := 0xe8; fws_bit := 4; fws_invert := true |} in
  let e := ec (driver_example (fun _ => 0) [] (1, 1)) in
  direction_is_left "right" false = (0, false)
  /\ exists e1,
       fn_key_store fn_win_swap "right" e = (5, e1)
       /\ fst (fn_key_show fn_win_swap e1) = Emit ("right" ++ String "010" "")
       /\ fst (win_key_show fn_win_swap e1) = Emit ("left" ++ String "010" "").
Proof.
  intros fn_win_swap e.
  assert (Hd : direction_is_left "right" false = (0, false))
    by (vm_compute; reflexivity).
  split; [exact Hd|].
  destruct (fn_win_key_round_trip fn_win_swap "right" false e)
    as [_ [e1 H]]; [constructor | simpl; lia | exact Hd |].
  exists e1. exact H.
Defined.

(* ================================================================= *)
(** ** Super battery: the mask helpers *)

(** Setting the bits of a mask in a byte makes the test of
    [ec_check_by_mask] succeed. *)
Lemma mask_set_check (s m : Z) :
  Z.land (u8 (Z.lor s (u8 m))) (u8 m) = u8 m.
Proof.
  apply Z.bits_inj'. intros k Hk.
  rewrite Z.land_spec, !u8_testbit, Z.lor_spec, u8_testbit by exact Hk.
  destruct (k <? 8), (Z.testbit s k), (Z.testbit m k); reflexivity.
Qed.

(** Clearing them leaves none of them set. *)
Lemma mask_unset_check (s m : Z) :
  Z.land (u8 (Z.land s (Z.lnot (u8 m)))) (u8 m) = 0.
Proof.
  apply Z.bits_inj'. intros k Hk.
  rewrite Z.land_spec, !u8_testbit, Z.land_spec, Z.lnot_spec, u8_testbit, Z.bits_0
    by exact Hk.
  destruct (k <? 8), (Z.testbit s k), (Z.testbit m k); reflexivity.
Qed.

(** X4.  Let the EC work without failure and let [kstrtobool] read the
    text written as [value].  A write to [super_battery] returns the
    length of the text; it changes no other register, and in the
    super-battery register no bit outside the mask.  A following read
    shows "on" after "on" was written; after "off" was written it shows
    "off", unless the mask has no bit among the low eight, in which case
    the read shows "on" whatever was written. *)
Theorem super_battery_round_trip (super_battery : msi_ec_super_battery_conf)
    (buf : string) (value : bool) (e : ec_state) :
  ec_healthy e -> kstrtobool buf false = (0, value) ->
  exists e1,
    super_battery_store super_battery buf e = (Z.of_nat (String.length buf), e1)
    /\ ec_healthy e1
    /\ fst (super_battery_show super_battery e1)
       = Emit (str_on_off (value || (u8 (sb_mask super_battery) =? 0))
               ++ String "010" "")
    /\ (forall a, a <> u8 (sb_address super_battery) ->
          ec_regs e1 a = ec_regs e a)
    /\ (forall k, 0 <= k -> Z.testbit (u8 (sb_mask super_battery)) k = false ->
          Z.testbit (ec_regs e1 (u8 (sb_address super_battery))) k
          = Z.testbit (u8 (ec_regs e (u8 (sb_address super_battery)))) k).
Proof.
  intros He Hk. unfold super_battery_store. rewrite Hk. cbn [Z.eqb negb].
  set (addr := sb_address super_battery). set (m := sb_mask super_battery).
  set (s := u8 (ec_regs e (u8 addr))).
  assert (Hw : forall v, exists e1,
             ec_write addr v (ec_consume e) = (0, e1) /\ ec_healthy e1
             /\ forall a, ec_regs e1 a = if a =? u8 addr then u8 v else ec_regs e a).
  { intros v.
    destruct (ec_write_healthy addr v (ec_consume e) (ec_consume_healthy e He))
      as [e1 [Hw [He1 [Hr _]]]].
    exists e1. split; [exact Hw|]. split; [exact He1|].
    intros a. now rewrite Hr. }
  assert (Hshow : forall e1 v, ec_healthy e1 ->
             (forall a, ec_regs e1 a = if a =? u8 addr then u8 v else ec_regs e a) ->
             fst (super_battery_show super_battery e1)
             = Emit (str_on_off (Z.land (u8 v) (u8 m) =? u8 m) ++ String "010" "")).
  { intros e1 v He1 Hr. unfold super_battery_show, ec_check_by_mask.
    fold addr m. rewrite (ec_read_healthy addr 0 e1 He1).
    cbn [Z.ltb Z.compare fst]. rewrite Hr, Z.eqb_refl, u8_u8.
    now rewrite sysfs_emit_on_off. }
  destruct value.
  - unfold ec_set_by_mask. fold addr m.
    rewrite (ec_read_healthy addr 0 e He). cbn [Z.ltb Z.compare]. fold s.
    destruct (Hw (u8 (Z.lor s (u8 m)))) as [e1 [Hw1 [He1 Hr]]].
    rewrite Hw1. cbn [Z.ltb Z.compare].
    exists e1. split; [reflexivity|]. split; [exact He1|]. split; [|split].
    + rewrite (Hshow e1 _ He1 Hr), u8_u8, mask_set_check, Z.eqb_refl.
      reflexivity.
    + intros a Ha. rewrite Hr.
      destruct (Z.eqb_spec a (u8 addr)); [contradiction | reflexivity].
    + intros k Hk0 Hm. rewrite Hr, Z.eqb_refl, u8_u8.
      rewrite u8_testbit, Z.lor_spec, Hm, orb_false_r by exact Hk0.
      unfold s. rewrite u8_testbit by exact Hk0.
      destruct (k <? 8); reflexivity.
  - unfold ec_unset_by_mask. fold addr m.
    rewrite (ec_read_healthy addr 0 e He). cbn [Z.ltb Z.compare]. fold s.
    destruct (Hw (u8 (Z.land s (Z.lnot (u8 m))))) as [e1 [Hw1 [He1 Hr]]].
    rewrite Hw1. cbn [Z.ltb Z.compare].
    exists e1. split; [reflexivity|]. split; [exact He1|]. split; [|split].
    + rewrite (Hshow e1 _ He1 Hr), u8_u8, mask_unset_check. cbn [orb].
      now rewrite Z.eqb_sym.
    + intros a Ha. rewrite Hr.
      destruct (Z.eqb_spec a (u8 addr)); [contradiction | reflexivity].
    + intros k Hk0 Hm. rewrite Hr, Z.eqb_refl, u8_u8.
      rewrite u8_testbit, Z.land_spec, Z.lnot_spec, Hm, andb_true_r by exact Hk0.
      unfold s. rewrite u8_testbit by exact Hk0.
      destruct (k <? 8); reflexivity.
Qed.

Lemma super_battery_round_trip_witness :
  let super_battery := {| sb_address := 0xeb; sb_mask := 0x0f |} in
  let e := ec (driver_example (fun _ => 0xa5) [] (1, 1)) in
  kstrtobool "off" false = (0, false)
  /\ exists e1,
       super_battery_store super_battery "off" e = (3, e1)
       /\ fst (super_battery_show super_battery e1)
          = Emit ("off" ++ String "010" "")
       /\ ec_regs e1 0xeb = 0xa0.
Proof.
  intros super_battery e.
  assert (Hk : kstrtobool "off" false = (0, false)) by (vm_compute; reflexivity).
  split; [exact Hk|].
  destruct (super_battery_round_trip super_battery "off" false e)
    as [e1 [Hs [_ [Hshow _]]]]; [constructor | exact Hk |].
  exists e1. split; [exact Hs|]. split; [exact Hshow|].
  vm_compute in Hs. injection Hs as <-. reflexivity.
Defined.

(* ================================================================= *)
(** ** Battery charge thresholds *)

Lemma kstrtou8_byte (buf : string) (res v : Z) :
  kstrtou8 buf res = (0, v) -> is_byte v.
Proof.
  unfold kstrtou8. destruct (kstrtoul buf 0) as [rv tmp].
  destruct (Z.ltb_spec rv 0); [intros [= E _]; lia|].
  destruct (Z.eqb_spec tmp (u8 tmp)) as [E|_]; cbn [negb].
  - intros [= <-]. rewrite E. apply u8_range.
  - intros H0. inversion H0.
Qed.

Lemma sysfs_emit_byte (v : Z) :
  is_byte v ->
  sysfs_emit (sprintf_u v ++ String "010" "") = (sprintf_u v ++ String "010" "")%string.
Proof.
  intros Hv.
  assert (H : forallb (fun v => Z.of_nat (String.length
                                  (sprintf_u v ++ String "010" "")) <? PAGE_SIZE)
                (map Z.of_nat (seq 0 256)) = true) by (vm_compute; reflexivity).
  apply sysfs_emit_short. apply Z.ltb_lt.
  apply (proj1 (forallb_forall _ _) H). apply in_map_iff.
  exists (Z.to_nat v). unfold is_byte in Hv.
  split; [lia | apply in_seq; lia].
Qed.

(** The threshold bits of a register: the low seven. *)
Lemma threshold_bits_set (value : Z) :
  0 <= value < 128 ->
  u8 (Z.land (u8 (u8 (Z.lor value (BIT 7)))) (Z.lnot (BIT 7))) = value.
Proof.
  intros Hv. rewrite u8_u8. apply Z.bits_inj'. intros k Hk.
  rewrite u8_testbit, Z.land_spec, u8_testbit, Z.lor_spec, Z.lnot_spec,
    BIT_testbit by lia.
  destruct (Z.ltb_spec k 8) as [Hk8|Hk8]; cbn [andb].
  - destruct (Z.eqb_spec 7 k) as [<-|Hne]; cbn [negb].
    + rewrite orb_true_r. cbn [andb]. symmetry.
      apply Z.bits_above_log2; [lia|].
      destruct (Z.eq_dec value 0) as [->|Hnz]; [reflexivity|].
      assert (Z.log2 value < 7) by (apply Z.log2_lt_pow2; lia). lia.
    + now rewrite orb_false_r, andb_true_r.
  - symmetry. apply Z.bits_above_log2; [lia|].
    destruct (Z.eq_dec value 0) as [->|Hnz]; [simpl; lia|].
    assert (Z.log2 value < 7) by (apply Z.log2_lt_pow2; lia). lia.
Qed.

Lemma end_threshold_set_get (addr value out : Z) (e : ec_state) :
  ec_healthy e -> 10 <= value <= 100 ->
  exists e1,
    set_end_threshold addr value e = (0, e1) /\ ec_healthy e1
    /\ get_end_threshold addr out e1 = (0, value, ec_consume e1).
Proof.
  intros He Hv. unfold set_end_threshold.
  rewrite (u8_small value) by (unfold is_byte; lia).
  destruct (Z.ltb_spec value 10); [lia|].
  destruct (Z.gtb_spec value 100); [lia|]. cbn [orb].
  destruct (ec_write_healthy addr (Z.lor value (BIT 7)) e He)
    as [e1 [Hw [He1 [Hr _]]]].
  exists e1. split; [exact Hw|]. split; [exact He1|].
  unfold get_end_threshold. rewrite (ec_read_healthy addr 0 e1 He1).
  cbn [Z.ltb Z.compare]. rewrite Hr, Z.eqb_refl.
  rewrite threshold_bits_set by lia.
  destruct (Z.eqb_spec value 0); [lia|].
  destruct (Z.ltb_spec value 10); [lia|].
  destruct (Z.gtb_spec value 100); [lia|]. reflexivity.
Qed.

(** X5.  Let the EC work without failure and let [kstrtou8] read the
    text written as the number [s].  A write of [s] to
    [charge_control_start_threshold] succeeds when [s] is at most 90;
    afterwards the start threshold reads as [s] and the end threshold as
    [s + 10].  A write of [s] to [charge_control_end_threshold] succeeds
    when [s] lies between 10 and 100; afterwards the end threshold reads
    as [s] and the start threshold as [s - 10].  Every other number is
    rejected with [-EINVAL] and nothing is sent to the EC. *)
Theorem charge_control_store_show (charge_control_address : Z) (buf : string)
    (s : Z) (e : ec_state) :
  ec_healthy e -> kstrtou8 buf 0 = (0, s) ->
  (s <= 90 ->
   exists e1,
     charge_control_start_threshold_store charge_control_address buf e
     = (Z.of_nat (String.length buf), e1)
     /\ fst (charge_control_start_threshold_show charge_control_address e1)
        = Emit (sprintf_u s ++ String "010" "")
     /\ fst (charge_control_end_threshold_show charge_control_address e1)
        = Emit (sprintf_u (s + 10) ++ String "010" ""))
  /\ (90 < s ->
      charge_control_start_threshold_store charge_control_address buf e
      = (- EINVAL, e))
  /\ (10 <= s <= 100 ->
      exists e1,
        charge_control_end_threshold_store charge_control_address buf e
        = (Z.of_nat (String.length buf), e1)
        /\ fst (charge_control_end_threshold_show charge_control_address e1)
           = Emit (sprintf_u s ++ String "010" "")
        /\ fst (charge_control_start_threshold_show charge_control_address e1)
           = Emit (sprintf_u (s - 10) ++ String "010" ""))
  /\ (s < 10 \/ 100 < s ->
      charge_control_end_threshold_store charge_control_address buf e
      = (- EINVAL, e)).
Proof.
  intros He Hk. pose proof (kstrtou8_byte buf 0 s Hk) as Hs. unfold is_byte in Hs.
  assert (Hshow : forall v e1, 10 <= v <= 100 -> ec_healthy e1 ->
            get_end_threshold charge_control_address 0 e1 = (0, v, ec_consume e1) ->
            fst (charge_control_end_threshold_show charge_control_address e1)
            = Emit (sprintf_u v ++ String "010" "")
            /\ fst (charge_control_start_threshold_show charge_control_address e1)
               = Emit (sprintf_u (v - 10) ++ String "010" "")).
  { intros v e1 Hv He1 Hg.
    unfold charge_control_end_threshold_show, charge_control_start_threshold_show.
    rewrite Hg. change (0 =? - ENODATA) with false. cbn [Z.ltb Z.compare fst].
    rewrite !sysfs_emit_byte by (unfold is_byte; lia). split; reflexivity. }
  split; [|split; [|split]].
  - intros Hle. unfold charge_control_start_threshold_store. rewrite Hk.
    cbn [Z.ltb Z.compare].
    destruct (end_threshold_set_get charge_control_address (s + 10) 0 e He
                ltac:(lia)) as [e1 [Hset [He1 Hget]]].
    rewrite Hset. cbn [Z.ltb Z.compare]. exists e1. split; [reflexivity|].
    destruct (Hshow (s + 10) e1 ltac:(lia) He1 Hget) as [H1 H2].
    replace (s + 10 - 10) with s in H2 by lia. split; assumption.
  - intros Hgt. unfold charge_control_start_threshold_store. rewrite Hk.
    cbn [Z.ltb Z.compare]. unfold set_end_threshold.
    assert (E : (u8 (s + 10) <? 10) || (u8 (s + 10) >? 100) = true).
    { unfold u8. destruct (Z.ltb_spec (s + 10) 256).
      - rewrite Z.mod_small by lia. apply orb_true_iff. right.
        apply Z.gtb_lt. lia.
      - replace (s + 10) with (s + 10 - 256 + 1 * 256) by lia.
        rewrite Z.mod_add, Z.mod_small by lia. apply orb_true_iff. left.
        apply Z.ltb_lt. lia. }
    rewrite E. reflexivity.
  - intros Hr. unfold charge_control_end_threshold_store. rewrite Hk.
    cbn [Z.ltb Z.compare].
    destruct (end_threshold_set_get charge_control_address s 0 e He Hr)
      as [e1 [Hset [He1 Hget]]].
    rewrite Hset. cbn [Z.ltb Z.compare]. exists e1. split; [reflexivity|].
    exact (Hshow s e1 Hr He1 Hget).
  - intros Hout. unfold charge_control_end_threshold_store. rewrite Hk.
    cbn [Z.ltb Z.compare]. unfold set_end_threshold.
    rewrite (u8_small s) by (unfold is_byte; lia).
    assert (E : (s <? 10) || (s >? 100) = true).
    { apply orb_true_iff. destruct Hout; [left; apply Z.ltb_lt | right; apply Z.gtb_lt];
        lia. }
    rewrite E. reflexivity.
Qed.

Lemma charge_control_store_show_witness :
  kstrtou8 ("70" ++ String "010" "") 0 = (0, 70)
  /\ exists e1,
       charge_control_start_threshold_store 0xd7 ("70" ++ String "010" "")
         (ec (driver_example (fun _ => 0) [] (1, 1))) = (3, e1)
       /\ fst (charge_control_start_threshold_show 0xd7 e1)
          = Emit ("70" ++ String "010" "")
       /\ fst (charge_control_end_threshold_show 0xd7 e1)
          = Emit ("80" ++ String "010" "").
Proof.
  assert (Hk : kstrtou8 ("70" ++ String "010" "") 0 = (0, 70))
    by (vm_compute; reflexivity).
  split; [exact Hk|].
  destruct (charge_control_store_show 0xd7 ("70" ++ String "010" "") 70
              (ec (driver_example (fun _ => 0) [] (1, 1))))
    as [H _]; [constructor | exact Hk |].
  exact (H ltac:(lia)).
Defined.

(** X6.  Whatever the EC holds and whether or not it fails, the two
    threshold attributes read on the same EC state agree: both fail
    with the same negative status; or both show 0 (no threshold is
    known: the seven threshold bits are zero, or the read failed with
    [-ENODATA]); or the end threshold shows a number [t] between 10 and
    100 and the start threshold shows [t - 10]. *)
Theorem charge_control_show_cases (charge_control_address : Z) (e : ec_state) :
  (exists r, r < 0
     /\ fst (charge_control_end_threshold_show charge_control_address e) = Fail r
     /\ fst (charge_control_start_threshold_show charge_control_address e) = Fail r)
  \/ (fst (charge_control_end_threshold_show charge_control_address e)
      = Emit ("0" ++ String "010" "")
      /\ fst (charge_control_start_threshold_show charge_control_address e)
         = Emit ("0" ++ String "010" ""))
  \/ (exists t, 10 <= t <= 100
      /\ fst (charge_control_end_threshold_show charge_control_address e)
         = Emit (sprintf_u t ++ String "010" "")
      /\ fst (charge_control_start_threshold_show charge_control_address e)
         = Emit (sprintf_u (t - 10) ++ String "010" "")).
Proof.
  unfold charge_control_end_threshold_show, charge_control_start_threshold_show.
  destruct (get_end_threshold charge_control_address 0 e) as [[result t] e'] eqn:Hg.
  assert (Hcases : result < 0 \/ (result = 0 /\ 10 <= t <= 100)).
  { unfold get_end_threshold in Hg.
    destruct (ec_read charge_control_address 0 e) as [[r rdata] e1].
    destruct (Z.ltb_spec r 0); [injection Hg as <- _ _; left; lia|].
    destruct (_ =? 0); [injection Hg as <- _ _; left; unfold ENODATA; lia|].
    match type of Hg with
    | context [(?x <? 10) || (?x >? 100)] =>
        destruct (Z.ltb_spec x 10) as [|Hlo]; destruct (Z.gtb_spec x 100) as [|Hhi];
        cbn [orb] in Hg;
        injection Hg as <- <- _; try (left; unfold EINVAL; lia)
    end.
    right. split; [reflexivity | exact (conj Hlo Hhi)]. }
  destruct (Z.eqb_spec result (- ENODATA)) as [->|Hne].
  - right. left. split; reflexivity.
  - destruct Hcases as [Hneg|[-> Ht]].
    + left. exists result. destruct (Z.ltb_spec result 0); [|lia].
      split; [exact Hneg|]. split; reflexivity.
    + right. right. exists t. cbn [Z.ltb Z.compare fst].
      rewrite !sysfs_emit_byte by (unfold is_byte; lia).
      split; [exact Ht|]. split; reflexivity.
Qed.

(* ================================================================= *)
(** ** Keyboard backlight *)

Lemma small_testbit_high (b k : Z) : 0 <= b < 4 -> 2 <= k -> Z.testbit b k = false.
Proof.
  intros Hb Hk. destruct (Z.eq_dec b 0) as [->|Hnz]; [apply Z.bits_0|].
  apply Z.bits_above_log2; [lia|].
  assert (Z.log2 b < 2) by (apply Z.log2_lt_pow2; lia). lia.
Qed.

Lemma kbd_bl_state_bits (base b : Z) :
  0 <= b <= 3 ->
  Z.land (u8 (u8 (Z.lor base b))) MSI_EC_KBD_BL_STATE_MASK
  = Z.lor (Z.land base MSI_EC_KBD_BL_STATE_MASK) b.
Proof.
  intros Hb. rewrite u8_u8. change MSI_EC_KBD_BL_STATE_MASK with (Z.ones 2).
  apply Z.bits_inj'. intros k Hk.
  rewrite Z.land_spec, u8_testbit, !Z.lor_spec, Z.land_spec,
    Z.testbit_ones_nonneg by lia.
  destruct (Z.ltb_spec k 2) as [Hk2|Hk2].
  - destruct (Z.ltb_spec k 8); [|lia]. cbn [andb].
    now rewrite !andb_true_r.
  - rewrite (small_testbit_high b k) by lia.
    now rewrite !andb_false_r.
Qed.

(** X7.  On an EC that works without failure, setting the keyboard
    backlight to a brightness between 0 and 3 returns 0, and a following
    read returns the brightness combined with the two low bits of the
    profile's [state_base_value]: the brightness itself when these bits
    are clear (as in 0x80), and the brightness with bit 0 set when the
    base value is 0x81.  A brightness outside 0..3 is refused with -1,
    and a call made while the LED is being unregistered returns 0; both
    without any EC transaction. *)
Theorem kbd_bl_round_trip (kbd_bl : msi_ec_kbd_bl_conf) (brightness : Z)
    (e : ec_state) :
  ec_healthy e ->
  (0 <= brightness <= 3 ->
   exists e1,
     kbd_bl_sysfs_set kbd_bl false brightness e = (0, e1)
     /\ fst (kbd_bl_sysfs_get kbd_bl e1)
        = Z.lor (Z.land (state_base_value kbd_bl) MSI_EC_KBD_BL_STATE_MASK)
            brightness
     /\ (Z.land (state_base_value kbd_bl) MSI_EC_KBD_BL_STATE_MASK = 0 ->
         fst (kbd_bl_sysfs_get kbd_bl e1) = brightness))
  /\ (brightness < 0 \/ 3 < brightness ->
      kbd_bl_sysfs_set kbd_bl false brightness e = (-1, e))
  /\ kbd_bl_sysfs_set kbd_bl true brightness e = (0, e).
Proof.
  intros He. split; [|split].
  - intros Hb. unfold kbd_bl_sysfs_set.
    destruct (Z.ltb_spec brightness 0); [lia|].
    destruct (Z.gtb_spec brightness 3); [lia|]. cbn [orb].
    destruct (ec_write_healthy (bl_state_address kbd_bl)
                (u8 (Z.lor (state_base_value kbd_bl) brightness)) e He)
      as [e1 [Hw [He1 [Hr _]]]].
    exists e1. split; [exact Hw|].
    assert (Hget : fst (kbd_bl_sysfs_get kbd_bl e1)
                   = Z.lor (Z.land (state_base_value kbd_bl)
                              MSI_EC_KBD_BL_STATE_MASK) brightness).
    { unfold kbd_bl_sysfs_get.
      rewrite (ec_read_healthy (bl_state_address kbd_bl) 0 e1 He1).
      cbn [Z.ltb Z.compare fst]. rewrite Hr, Z.eqb_refl, u8_u8.
      now apply kbd_bl_state_bits. }
    split; [exact Hget|]. intros Hz. rewrite Hget, Hz. apply Z.lor_0_l.
  - intros Hb. unfold kbd_bl_sysfs_set.
    assert (E : (brightness <? 0) || (brightness >? 3) = true).
    { apply orb_true_iff.
      destruct Hb; [left; apply Z.ltb_lt | right; apply Z.gtb_lt]; lia. }
    now rewrite E.
  - reflexivity.
Qed.

Lemma kbd_bl_round_trip_witness :
  exists e1,
    kbd_bl_sysfs_set
      {| bl_mode_address := MSI_EC_ADDR_UNSUPP; bl_modes := [0x00; 0x08];
         max_mode := 1; bl_state_address := 0xd3; state_base_value := 0x80;
         max_state := 3 |} false 2
      (ec (driver_example (fun _ => 0) [] (1, 1))) = (0, e1)
    /\ fst (kbd_bl_sysfs_get
              {| bl_mode_address := MSI_EC_ADDR_UNSUPP; bl_modes := [0x00; 0x08];
                 max_mode := 1; bl_state_address := 0xd3; state_base_value := 0x80;
                 max_state := 3 |} e1) = 2.
Proof.
  destruct (kbd_bl_round_trip
              {| bl_mode_address := MSI_EC_ADDR_UNSUPP; bl_modes := [0x00; 0x08];
                 max_mode := 1; bl_state_address := 0xd3; state_base_value := 0x80;
                 max_state := 3 |} 2
              (ec (driver_example (fun _ => 0) [] (1, 1))))
    as [H _]; [constructor|].
  destruct (H ltac:(lia)) as [e1 [Hs [_ Hg]]].
  exists e1. split; [exact Hs | apply Hg; reflexivity].
Defined.

(* ================================================================= *)
(** ** Shift mode *)

Lemma shift_mode_store_loop_found (pre post : list msi_ec_mode) (m : msi_ec_mode)
    (n : string) (address : Z) (buf : string) (e : ec_state) :
  (forall x, In x pre ->
     exists nx, name x = Some nx /\ sysfs_streq nx buf = false) ->
  name m = Some n -> sysfs_streq n buf = true ->
  shift_mode_store_loop (pre ++ m :: post) address buf e
  = let '(result, e') := ec_write address (value m) e in
    if result <? 0 then (result, e') else (Z.of_nat (String.length buf), e').
Proof.
  intros Hpre Hm Hn. induction pre as [|x pre IH]; cbn [app shift_mode_store_loop].
  - now rewrite Hm, Hn.
  - destruct (Hpre x (or_introl eq_refl)) as [nx [Hx Hs]]. rewrite Hx, Hs.
    apply IH. intros y Hy. apply Hpre. now right.
Qed.

Lemma shift_mode_lookup_found (pre post : list msi_ec_mode) (m : msi_ec_mode)
    (n : string) (rdata : Z) :
  (forall x, In x pre -> exists nx, name x = Some nx /\ value x <> rdata) ->
  name m = Some n -> value m = rdata ->
  shift_mode_lookup (pre ++ m :: post) rdata = Some n.
Proof.
  intros Hpre Hm Hv. induction pre as [|x pre IH]; cbn [app shift_mode_lookup].
  - now rewrite Hm, Hv, Z.eqb_refl.
  - destruct (Hpre x (or_introl eq_refl)) as [nx [Hx Hne]]. rewrite Hx.
    destruct (Z.eqb_spec rdata (value x)) as [E|_]; [now symmetry in E|].
    apply IH. intros y Hy. apply Hpre. now right.
Qed.

(** X8.  Let the EC work without failure.  Let the slot [m] of the shift
    mode array have the name [n] and a value that fits a byte, let every
    slot before it be named, and let none of the earlier names match the
    text written, while [n] matches it ([sysfs_streq]: equal up to one
    trailing newline).  Then the write returns the length of the text and
    leaves the value of [m] in the shift-mode register.  A following read
    shows "unspecified" when that value is 0x80; otherwise, when no
    earlier slot has the same value, it shows [n]. *)
Theorem shift_mode_round_trip (shift_mode : msi_ec_shift_mode_conf)
    (pre post : list msi_ec_mode) (m : msi_ec_mode) (n buf : string)
    (e : ec_state) :
  ec_healthy e ->
  sm_modes shift_mode = pre ++ m :: post ->
  (forall x, In x pre ->
     exists nx, name x = Some nx /\ sysfs_streq nx buf = false) ->
  name m = Some n -> sysfs_streq n buf = true -> is_byte (value m) ->
  exists e1,
    shift_mode_store shift_mode buf e = (Z.of_nat (String.length buf), e1)
    /\ ec_regs e1 (u8 (sm_address shift_mode)) = value m
    /\ (value m = 0x80 ->
        fst (shift_mode_show shift_mode e1)
        = Emit ("unspecified" ++ String "010" ""))
    /\ (value m <> 0x80 -> (forall x, In x pre -> value x <> value m) ->
        fst (shift_mode_show shift_mode e1)
        = Emit (sysfs_emit (n ++ String "010" ""))).
Proof.
  intros He Hms Hpre Hm Hn Hv. unfold shift_mode_store. rewrite Hms.
  rewrite (shift_mode_store_loop_found pre post m n _ buf e Hpre Hm Hn).
  destruct (ec_write_healthy (sm_address shift_mode) (value m) e He)
    as [e1 [Hw [He1 [Hr _]]]].
  rewrite Hw. cbn [Z.ltb Z.compare]. exists e1. split; [reflexivity|].
  assert (Hreg : ec_regs e1 (u8 (sm_address shift_mode)) = value m).
  { rewrite Hr, Z.eqb_refl. now apply u8_small. }
  split; [exact Hreg|].
  assert (Hread : ec_read (sm_address shift_mode) 0 e1
                  = (0, value m, ec_consume e1)).
  { rewrite (ec_read_healthy _ 0 e1 He1), Hreg. now rewrite (u8_small _ Hv). }
  split.
  - intros H80. unfold shift_mode_show. rewrite Hread. cbn [Z.ltb Z.compare].
    rewrite H80. reflexivity.
  - intros H80 Hvals. unfold shift_mode_show. rewrite Hread.
    cbn [Z.ltb Z.compare].
    destruct (Z.eqb_spec (value m) 128) as [E|_]; [contradiction|].
    rewrite Hms.
    rewrite (shift_mode_lookup_found pre post m n (value m)); [reflexivity| |
      exact Hm | reflexivity].
    intros x Hx. destruct (Hpre x Hx) as [nx [Hnx _]].
    exists nx. split; [exact Hnx | now apply Hvals].
Qed.

Lemma shift_mode_round_trip_witness :
  exists e1,
    shift_mode_store
      {| sm_address := 0xd2;
         sm_modes := [{| name := Some "eco"; value := 0xc2 |};
                      {| name := Some "comfort"; value := 0xc1 |};
                      {| name := Some "sport"; value := 0xc0 |};
                      MSI_EC_MODE_NULL; MSI_EC_MODE_NULL] |}
      ("sport" ++ String "010" "")
      (ec (driver_example (fun _ => 0) [] (1, 1))) = (6, e1)
    /\ fst (shift_mode_show
              {| sm_address := 0xd2;
                 sm_modes := [{| name := Some "eco"; value := 0xc2 |};
                              {| name := Some "comfort"; value := 0xc1 |};
                              {| name := Some "sport"; value := 0xc0 |};
                              MSI_EC_MODE_NULL; MSI_EC_MODE_NULL] |} e1)
       = Emit ("sport" ++ String "010" "").
Proof.
  destruct (shift_mode_round_trip
              {| sm_address := 0xd2;
                 sm_modes := [{| name := Some "eco"; value := 0xc2 |};
                              {| name := Some "comfort"; value := 0xc1 |};
                              {| name := Some "sport"; value := 0xc0 |};
                              MSI_EC_MODE_NULL; MSI_EC_MODE_NULL] |}
              [{| name := Some "eco"; value := 0xc2 |};
               {| name := Some "comfort"; value := 0xc1 |}]
              [MSI_EC_MODE_NULL; MSI_EC_MODE_NULL]
              {| name := Some "sport"; value := 0xc0 |}
              "sport" ("sport" ++ String "010" "")
              (ec (driver_example (fun _ => 0) [] (1, 1))))
    as [e1 [Hs [_ [_ Hshow]]]].
  - constructor.
  - reflexivity.
  - intros x [<-|[<-|[]]]; eexists; split; reflexivity.
  - reflexivity.
  - reflexivity.
  - unfold is_byte. simpl. lia.
  - exists e1. split; [exact Hs|]. apply Hshow.
    + simpl. lia.
    + intros x [<-|[<-|[]]]; simpl; lia.
Defined.

(* ================================================================= *)
(** ** Fan mode: the two setters and the two readers *)

Lemma registry_modes (p : msi_ec_conf) (m : msi_ec_mode) (n : string) :
  In p CONFIGURATIONS -> In m (modes (fan_mode p)) -> name m = Some n ->
  mode_value (firstn 5 (modes (fan_mode p))) n = Some (value m)
  /\ fan_mode_lookup (modes (fan_mode p)) (u8 (value m)) = Some n
  /\ store_slot (modes (fan_mode p)) n = Some (n, value m)
  /\ store_slot (modes (fan_mode p)) (n ++ String "010" "") = Some (n, value m).
Proof.
  intros Hp Hm Hn.
  assert (H : modes_ok p = true).
  { apply (registry_forall modes_ok); [vm_compute; reflexivity | exact Hp]. }
  unfold modes_ok in H.
  pose proof (proj1 (forallb_forall _ _) H m Hm) as Hs. clear H.
  unfold slot_ok in Hs. rewrite Hn in Hs.
  destruct (mode_value _ n) as [v|]; [|discriminate].
  destruct (fan_mode_lookup _ _) as [n1|]; [|discriminate].
  destruct (store_slot _ n) as [[n2 v2]|]; [|discriminate].
  destruct (store_slot _ (n ++ String "010" "")) as [[n3 v3]|]; [|discriminate].
  repeat (apply andb_true_iff in Hs; destruct Hs as [Hs ?]).
  repeat match goal with
         | H : (_ =? _) = true |- _ => apply Z.eqb_eq in H; subst
         | H : String.eqb _ _ = true |- _ => apply String.eqb_eq in H; subst
         end.
  auto.
Qed.

(** The "advanced" branch of the hook on a healthy EC: it succeeds and
    leaves everything but the EC as it was. *)
Lemma mode_change_advanced_ok (l : list fan) (d : driver) :
  ec_healthy (ec d) ->
  exists d',
    mode_change_advanced l d = (0, d')
    /\ conf d' = conf d /\ ec_healthy (ec d')
    /\ virtual_hwmon_pwm_enable d' = virtual_hwmon_pwm_enable d
    /\ (forall f, pack d' f = pack d f).
Proof.
  revert d. induction l as [|h l IH]; intros d He.
  - exists d. simpl. auto.
  - cbn [mode_change_advanced].
    fold (reset_on_auto (pack_curve (conf d) h)).
    destruct (reset_on_auto (pack_curve (conf d) h)) eqn:Hh; [|now apply IH].
    assert (Hah : is_curve_allowed (pack_curve (conf d) h) = true).
    { unfold reset_on_auto in Hh. apply andb_true_iff in Hh. tauto. }
    destruct (push_ec_curve_healthy (pack_curve (conf d) h)
                (curve_fan_speed (pack d h)) (curve_temp (pack d h))
                (ec d) Hah He) as [e1 [Hp [He1 _]]].
    rewrite Hp. cbn [Z.ltb Z.compare].
    destruct (IH (set_ec d e1) He1) as [d' [Hm [Hc [He' [Hv Hpk]]]]].
    exists d'. split; [exact Hm|]. split; [exact Hc|]. split; [exact He'|].
    split; [exact Hv|]. intros f. rewrite Hpk. apply pack_set_ec.
Qed.

Lemma curve_fan_mode_change_ok (d : driver) (mode : string) :
  ec_healthy (ec d) ->
  exists d',
    curve_fan_mode_change d mode = (0, d')
    /\ conf d' = conf d /\ ec_healthy (ec d')
    /\ virtual_hwmon_pwm_enable d' = virtual_hwmon_pwm_enable d.
Proof.
  intros He. unfold curve_fan_mode_change.
  destruct (String.eqb mode FM_ADVANCED_NAME).
  - destruct (mode_change_advanced_ok all_curves_list d He)
      as [d' [Hm [Hc [He' [Hv _]]]]].
    exists d'. auto.
  - exact (mode_change_other_ok all_curves_list d He).
Qed.

Lemma fan_mode_store_loop_slot (ms : list msi_ec_mode) (buf : string) (d : driver) :
  fan_mode_store_loop ms buf d
  = match store_slot ms buf with
    | None => (- EINVAL, d)
    | Some (mode, v) =>
        let '(result, d1) := curve_fan_mode_change d mode in
        if result <? 0 then (result, d1)
        else
          let '(result, e') := ec_write (fm_address (fan_mode (conf d))) v (ec d1) in
          if result <? 0 then (result, set_ec d1 e')
          else (Z.of_nat (String.length buf), set_ec d1 e')
    end.
Proof.
  induction ms as [|m ms IH]; cbn [fan_mode_store_loop store_slot]; [reflexivity|].
  destruct (name m) as [n|]; [|reflexivity].
  destruct (sysfs_streq n buf); [reflexivity | exact IH].
Qed.

(** Selecting a mode on a healthy EC: the hook runs, then the value is
    written to the fan-mode register, where [fan_mode_get] finds it. *)
Lemma select_mode_healthy (p : msi_ec_conf) (d : driver) (m : msi_ec_mode)
    (n : string) (ret : Z) :
  In p CONFIGURATIONS -> conf d = copy_conf p -> ec_healthy (ec d) ->
  In m (modes (fan_mode p)) -> name m = Some n ->
  exists d',
    (let '(result, d1) := curve_fan_mode_change d n in
     if result <? 0 then (result, d1)
     else
       let '(result, e') :=
         ec_write (fm_address (fan_mode (conf d))) (value m) (ec d1) in
       if result <? 0 then (result, set_ec d1 e') else (ret, set_ec d1 e'))
    = (ret, d')
    /\ conf d' = conf d /\ ec_healthy (ec d')
    /\ virtual_hwmon_pwm_enable d' = virtual_hwmon_pwm_enable d
    /\ ec_regs (ec d') (u8 (fm_address (fan_mode (conf d)))) = u8 (value m)
    /\ (forall dst, fan_mode_get (conf d') dst (ec d')
                    = (0, Some n, ec_consume (ec d'))).
Proof.
  intros Hp Hc He Hm Hn.
  destruct (curve_fan_mode_change_ok d n He) as [d1 [Hch [Hc1 [He1 Hv1]]]].
  rewrite Hch. cbn [Z.ltb Z.compare].
  destruct (ec_write_healthy (fm_address (fan_mode (conf d))) (value m) (ec d1) He1)
    as [e' [Hw [He' [Hr _]]]].
  rewrite Hw. cbn [Z.ltb Z.compare].
  exists (set_ec d1 e'). split; [reflexivity|]. split; [exact Hc1|].
  split; [exact He'|]. split; [exact Hv1|].
  assert (Hreg : ec_regs e' (u8 (fm_address (fan_mode (conf d)))) = u8 (value m)).
  { rewrite Hr. now rewrite Z.eqb_refl. }
  split; [exact Hreg|].
  intros dst. unfold fan_mode_get. cbn [conf set_ec ec]. rewrite Hc1.
  rewrite (ec_read_healthy _ 0 e' He'). cbn [Z.ltb Z.compare].
  rewrite Hreg, u8_u8, Hc. cbn [copy_conf fan_mode].
  destruct (registry_modes p m n Hp Hm Hn) as [_ [Hl _]]. now rewrite Hl.
Qed.

Lemma fan_mode_store_healthy (p : msi_ec_conf) (d : driver) (m : msi_ec_mode)
    (n buf : string) :
  In p CONFIGURATIONS -> conf d = copy_conf p -> ec_healthy (ec d) ->
  In m (modes (fan_mode p)) -> name m = Some n ->
  buf = n \/ buf = (n ++ String "010" "")%string ->
  exists d',
    fan_mode_store d buf = (Z.of_nat (String.length buf), d')
    /\ conf d' = conf d
    /\ ec_regs (ec d') (u8 (fm_address (fan_mode (conf d)))) = u8 (value m)
    /\ fst (fan_mode_show (conf d') (ec d')) = Emit (sysfs_emit (n ++ String "010" "")).
Proof.
  intros Hp Hc He Hm Hn Hbuf.
  destruct (registry_modes p m n Hp Hm Hn) as [_ [_ [Hs1 Hs2]]].
  assert (Hs : store_slot (modes (fan_mode (conf d))) buf = Some (n, value m)).
  { rewrite Hc. cbn [copy_conf fan_mode]. destruct Hbuf; subst buf; assumption. }
  unfold fan_mode_store. rewrite fan_mode_store_loop_slot, Hs.
  destruct (select_mode_healthy p d m n (Z.of_nat (String.length buf))
              Hp Hc He Hm Hn) as [d' [Hsel [Hc' [He' [_ [Hreg Hget]]]]]].
  exists d'. split; [exact Hsel|]. split; [exact Hc'|]. split; [exact Hreg|].
  unfold fan_mode_show. rewrite Hget. reflexivity.
Qed.

(** X9.  Let a profile of the registry be loaded and let the EC work
    without failure.  Writing the name [n] of one of the profile's fan
    modes to [fan_mode], with or without a trailing newline, returns the
    length of the text written, and a following read of [fan_mode] shows
    [n]. *)
Theorem fan_mode_store_show (p : msi_ec_conf) (d : driver) (m : msi_ec_mode)
    (n buf : string) :
  In p CONFIGURATIONS -> conf d = copy_conf p -> ec_healthy (ec d) ->
  In m (modes (fan_mode p)) -> name m = Some n ->
  buf = n \/ buf = (n ++ String "010" "")%string ->
  exists d',
    fan_mode_store d buf = (Z.of_nat (String.length buf), d')
    /\ conf d' = conf d
    /\ ec_regs (ec d') (u8 (fm_address (fan_mode (conf d)))) = u8 (value m)
    /\ fst (fan_mode_show (conf d') (ec d')) = Emit (sysfs_emit (n ++ String "010" "")).
Proof. exact (fan_mode_store_healthy p d m n buf). Qed.

Lemma fan_mode_store_show_witness :
  exists d',
    fan_mode_store (driver_example (fun _ => 0) [] (1, 1))
      ("silent" ++ String "010" "") = (7, d')
    /\ ec_regs (ec d') 0xd4 = 0x10
    /\ fst (fan_mode_show (conf d') (ec d')) = Emit ("silent" ++ String "010" "").
Proof.
  destruct (fan_mode_store_show CONF401 (driver_example (fun _ => 0) [] (1, 1))
              {| name := Some FM_SILENT_NAME; value := 0x10 |}
              "silent" ("silent" ++ String "010" ""))
    as [d' [Hs [_ [Hreg Hshow]]]].
  - unfold CONFIGURATIONS. simpl. tauto.
  - reflexivity.
  - constructor.
  - simpl. tauto.
  - reflexivity.
  - right. reflexivity.
  - exists d'. split; [exact Hs|]. split; [exact Hreg | exact Hshow].
Defined.

(** X10.  Let a profile of the registry be loaded, and let [n] be the
    name of one of its fan modes.  Whatever the EC does, the sysfs write
    of [n] (with or without a trailing newline) and the helper
    [set_fan_mode] used by the hwmon interface leave the same driver and
    EC state, and fail with the same status; on success the first
    returns the length of the text and the second 0.  After either of
    them succeeded on an EC without failure, [fan_mode_get] returns the
    name [n]. *)
Theorem fan_mode_setters_agree (p : msi_ec_conf) (d : driver) (m : msi_ec_mode)
    (n buf : string) :
  In p CONFIGURATIONS -> conf d = copy_conf p ->
  In m (modes (fan_mode p)) -> name m = Some n ->
  buf = n \/ buf = (n ++ String "010" "")%string ->
  snd (fan_mode_store d buf) = snd (set_fan_mode d n)
  /\ fst (fan_mode_store d buf)
     = (if fst (set_fan_mode d n) <? 0 then fst (set_fan_mode d n)
        else Z.of_nat (String.length buf))
  /\ (fst (set_fan_mode d n) < 0 \/ fst (set_fan_mode d n) = 0)
  /\ (ec_healthy (ec d) ->
      fst (set_fan_mode d n) = 0
      /\ forall dst,
           fst (fan_mode_get (conf (snd (set_fan_mode d n))) dst
                  (ec (snd (set_fan_mode d n))))
           = (0, Some n)).
Proof.
  intros Hp Hc Hm Hn Hbuf.
  destruct (registry_modes p m n Hp Hm Hn) as [Hv [_ [Hs1 Hs2]]].
  assert (Hs : store_slot (modes (fan_mode (conf d))) buf = Some (n, value m)).
  { rewrite Hc. cbn [copy_conf fan_mode]. destruct Hbuf; subst buf; assumption. }
  assert (Hset : set_fan_mode d n
                 = let '(result, d1) := curve_fan_mode_change d n in
                   if result <? 0 then (result, d1)
                   else
                     let '(result, e') :=
                       ec_write (fm_address (fan_mode (conf d))) (value m) (ec d1) in
                     if result <? 0 then (result, set_ec d1 e')
                     else (0, set_ec d1 e')).
  { unfold set_fan_mode. apply set_fan_mode_loop_found.
    rewrite Hc. cbn [copy_conf fan_mode]. exact Hv. }
  split; [|split; [|split]].
  - unfold fan_mode_store. rewrite fan_mode_store_loop_slot, Hs, Hset.
    destruct (curve_fan_mode_change d n) as [r1 d1].
    destruct (r1 <? 0); [reflexivity|].
    destruct (ec_write _ _ _) as [r2 e'].
    destruct (r2 <? 0); reflexivity.
  - unfold fan_mode_store. rewrite fan_mode_store_loop_slot, Hs, Hset.
    destruct (curve_fan_mode_change d n) as [r1 d1].
    destruct (r1 <? 0) eqn:E1; cbn [fst]; [now rewrite E1|].
    destruct (ec_write _ _ _) as [r2 e'].
    destruct (r2 <? 0) eqn:E2; cbn [fst]; [now rewrite E2 | reflexivity].
  - rewrite Hset.
    destruct (curve_fan_mode_change d n) as [r1 d1].
    destruct (Z.ltb_spec r1 0); cbn [fst]; [left; assumption|].
    destruct (ec_write _ _ _) as [r2 e'].
    destruct (Z.ltb_spec r2 0); cbn [fst]; [left; assumption | right; reflexivity].
  - intros He.
    destruct (select_mode_healthy p d m n 0 Hp Hc He Hm Hn)
      as [d' [Hsel [_ [_ [_ [_ Hget]]]]]].
    rewrite Hset, Hsel. cbn [fst snd]. split; [reflexivity|].
    intros dst. now rewrite Hget.
Qed.

Lemma fan_mode_setters_agree_witness :
  snd (fan_mode_store (driver_example (fun _ => 0) [-5] (1, 1)) "advanced")
  = snd (set_fan_mode (driver_example (fun _ => 0) [-5] (1, 1)) "advanced")
  /\ fst (fan_mode_store (driver_example (fun _ => 0) [-5] (1, 1)) "advanced")
     = - EIO.
Proof.
  destruct (fan_mode_setters_agree CONF401
              (driver_example (fun _ => 0) [-5] (1, 1))
              {| name := Some FM_ADVANCED_NAME; value := 0x80 |}
              "advanced" "advanced")
    as [H1 [H2 _]].
  - unfold CONFIGURATIONS. simpl. tauto.
  - reflexivity.
  - simpl. tauto.
  - reflexivity.
  - left. reflexivity.
  - split; [exact H1|]. rewrite H2. vm_compute. reflexivity.
Defined.

Lemma mode_names_in (ms : list msi_ec_mode) (n : string) :
  In n (mode_names ms) <-> exists m, In m ms /\ name m = Some n.
Proof.
  unfold mode_names. rewrite in_flat_map. split.
  - intros [m [Hm Hn]]. exists m. split; [exact Hm|].
    destruct (name m) as [n'|]; [|contradiction].
    destruct Hn as [->|[]]. reflexivity.
  - intros [m [Hm Hn]]. exists m. split; [exact Hm|]. rewrite Hn. now left.
Qed.

Lemma store_slot_none (ms : list msi_ec_mode) (buf : string) :
  (forall n, In n (mode_names ms) -> sysfs_streq n buf = false) ->
  store_slot ms buf = None.
Proof.
  induction ms as [|m ms IH]; intros H; cbn [store_slot]; [reflexivity|].
  destruct (name m) as [n|] eqn:Hn; [|reflexivity].
  rewrite (H n) by (apply mode_names_in; exists m; split; [now left | exact Hn]).
  apply IH. intros n' Hn'. apply H. apply mode_names_in.
  apply mode_names_in in Hn'. destruct Hn' as [m' [Hm' Hnm']].
  exists m'. split; [now right | exact Hnm'].
Qed.

(** X11.  Let a profile of the registry be loaded.  A read of
    [available_fan_modes] shows the names of the profile's fan modes, one
    per line and in the order of the profile.  Each name shown is
    accepted by a write to [fan_mode] on an EC that works without
    failure.  A text that matches none of the names shown (up to one
    trailing newline, [sysfs_streq]) is refused with [-EINVAL], and the
    refusal changes nothing and involves no EC transaction. *)
Theorem available_fan_modes_accepted (p : msi_ec_conf) (d : driver) :
  In p CONFIGURATIONS -> conf d = copy_conf p ->
  available_fan_modes_show (conf d)
  = Emit (lines (mode_names (modes (fan_mode p))))
  /\ (forall n, In n (mode_names (modes (fan_mode p))) -> ec_healthy (ec d) ->
        exists d', fan_mode_store d n = (Z.of_nat (String.length n), d'))
  /\ (forall buf,
        (forall n, In n (mode_names (modes (fan_mode p))) ->
           sysfs_streq n buf = false) ->
        fan_mode_store d buf = (- EINVAL, d)).
Proof.
  intros Hp Hc. split; [|split].
  - assert (H : modes_listed p = true).
    { apply (registry_forall modes_listed); [vm_compute; reflexivity | exact Hp]. }
    unfold modes_listed in H. rewrite Hc.
    destruct (available_fan_modes_show (copy_conf p)) as [text|]; [|discriminate].
    apply String.eqb_eq in H. now rewrite H.
  - intros n Hn He. apply mode_names_in in Hn. destruct Hn as [m [Hm Hnm]].
    destruct (fan_mode_store_healthy p d m n n Hp Hc He Hm Hnm (or_introl eq_refl))
      as [d' [Hs _]].
    exists d'. exact Hs.
  - intros buf Hnone. unfold fan_mode_store.
    rewrite fan_mode_store_loop_slot, Hc. cbn [copy_conf fan_mode].
    now rewrite (store_slot_none _ buf Hnone).
Qed.

Lemma available_fan_modes_accepted_witness :
  available_fan_modes_show (conf (driver_example (fun _ => 0) [] (1, 1)))
  = Emit (lines ["auto"; "silent"; "advanced"])
  /\ fan_mode_store (driver_example (fun _ => 0) [] (1, 1)) "basic"
     = (- EINVAL, driver_example (fun _ => 0) [] (1, 1)).
Proof.
  destruct (available_fan_modes_accepted CONF401
              (driver_example (fun _ => 0) [] (1, 1)))
    as [H1 [_ H3]].
  - unfold CONFIGURATIONS. simpl. tauto.
  - reflexivity.
  - split; [exact H1|]. apply H3.
    intros n [<-|[<-|[<-|[]]]]; reflexivity.
Defined.

(* ================================================================= *)
(** ** hwmon: the PWM-enable values *)

(** The hook leaves alone every register outside the curves it handles. *)
Lemma mode_change_advanced_regs (l : list fan) (d : driver) (a : Z) :
  ec_healthy (ec d) ->
  (forall f, In f l -> reset_on_auto (pack_curve (conf d) f) = true ->
     ~ In a (curve_regs (pack_curve (conf d) f))) ->
  ec_regs (ec (snd (mode_change_advanced l d))) a = ec_regs (ec d) a.
Proof.
  revert d. induction l as [|h l IH]; intros d He Hout; [reflexivity|].
  cbn [mode_change_advanced].
  fold (reset_on_auto (pack_curve (conf d) h)).
  destruct (reset_on_auto (pack_curve (conf d) h)) eqn:Hh.
  - assert (Hah : is_curve_allowed (pack_curve (conf d) h) = true).
    { unfold reset_on_auto in Hh. apply andb_true_iff in Hh. tauto. }
    destruct (push_ec_curve_healthy (pack_curve (conf d) h)
                (curve_fan_speed (pack d h)) (curve_temp (pack d h))
                (ec d) Hah He) as [e1 [Hp [He1 [Hf1 _]]]].
    rewrite Hp. cbn [Z.ltb Z.compare].
    rewrite (IH (set_ec d e1) He1).
    + cbn [set_ec ec]. apply Hf1. apply Hout; [now left | exact Hh].
    + intros f Hf. apply Hout. now right.
  - apply IH; [exact He|]. intros f Hf. apply Hout. now right.
Qed.

Lemma mode_change_other_regs (l : list fan) (d : driver) (a : Z) :
  ec_healthy (ec d) ->
  (forall f, In f l -> reset_on_auto (pack_curve (conf d) f) = true ->
     ~ In a (curve_regs (pack_curve (conf d) f))) ->
  ec_regs (ec (snd (mode_change_other l d))) a = ec_regs (ec d) a.
Proof.
  revert d. induction l as [|h l IH]; intros d He Hout; [reflexivity|].
  cbn [mode_change_other].
  fold (reset_on_auto (pack_curve (conf d) h)).
  destruct (reset_on_auto (pack_curve (conf d) h)) eqn:Hh.
  - assert (Hah : is_curve_allowed (pack_curve (conf d) h) = true).
    { unfold reset_on_auto in Hh. apply andb_true_iff in Hh. tauto. }
    destruct (sync_ec_curve_safe_healthy (conf d) (pack_curve (conf d) h)
                (curve_fan_speed (pack d h)) (curve_temp (pack d h)) (ec d) He)
      as [r [s1 [t1 [e1 [Hs [He1 [Hr1 _]]]]]]].
    rewrite Hs. cbv zeta.
    match goal with
    | |- context [push_ec_curve ?c ?s ?t e1] =>
        destruct (push_ec_curve_healthy c s t e1 Hah He1)
          as [e2 [Hp [He2 [Hf2 _]]]]
    end.
    rewrite Hp. cbn [Z.ltb Z.compare].
    rewrite (IH (set_ec (set_ec (set_active d h s1 t1) e1) e2) He2).
    + cbn [set_ec ec]. rewrite Hf2, Hr1; [reflexivity|].
      apply Hout; [now left | exact Hh].
    + intros f Hf. apply Hout. now right.
  - apply IH; [exact He|]. intros f Hf. apply Hout. now right.
Qed.

Lemma curve_fan_mode_change_regs (d : driver) (mode : string) (a : Z) :
  ec_healthy (ec d) ->
  (forall f, reset_on_auto (pack_curve (conf d) f) = true ->
     ~ In a (curve_regs (pack_curve (conf d) f))) ->
  ec_regs (ec (snd (curve_fan_mode_change d mode))) a = ec_regs (ec d) a.
Proof.
  intros He Hout. unfold curve_fan_mode_change.
  destruct (String.eqb mode FM_ADVANCED_NAME).
  - apply mode_change_advanced_regs; [exact He|]. intros f _. apply Hout.
  - apply mode_change_other_regs; [exact He|]. intros f _. apply Hout.
Qed.

(** [set_fan_mode] on a healthy EC, for a mode of the loaded profile. *)
Lemma set_fan_mode_healthy (p : msi_ec_conf) (d : driver) (m : msi_ec_mode)
    (n : string) :
  In p CONFIGURATIONS -> conf d = copy_conf p -> ec_healthy (ec d) ->
  In m (modes (fan_mode p)) -> name m = Some n ->
  exists d',
    set_fan_mode d n = (0, d')
    /\ conf d' = conf d /\ ec_healthy (ec d')
    /\ virtual_hwmon_pwm_enable d' = virtual_hwmon_pwm_enable d
    /\ ec_regs (ec d') (u8 (fm_address (fan_mode (conf d)))) = u8 (value m)
    /\ (forall a, a <> u8 (fm_address (fan_mode (conf d))) ->
          (forall f, reset_on_auto (pack_curve (conf d) f) = true ->
             ~ In a (curve_regs (pack_curve (conf d) f))) ->
          ec_regs (ec d') a = ec_regs (ec d) a).
Proof.
  intros Hp Hc He Hm Hn.
  destruct (registry_modes p m n Hp Hm Hn) as [Hv _].
  unfold set_fan_mode.
  rewrite (set_fan_mode_loop_found _ n d (value m))
    by (rewrite Hc; cbn [copy_conf fan_mode]; exact Hv).
  destruct (curve_fan_mode_change_ok d n He) as [d1 [Hch [Hc1 [He1 Hv1]]]].
  pose proof (curve_fan_mode_change_regs d n) as Hregs.
  rewrite Hch in *. cbn [snd] in Hregs. cbn [Z.ltb Z.compare].
  destruct (ec_write_healthy (fm_address (fan_mode (conf d))) (value m) (ec d1) He1)
    as [e' [Hw [He' [Hr _]]]].
  rewrite Hw. cbn [Z.ltb Z.compare].
  exists (set_ec d1 e'). split; [reflexivity|]. split; [exact Hc1|].
  split; [exact He'|]. split; [exact Hv1|]. cbn [set_ec ec]. split.
  - rewrite Hr. now rewrite Z.eqb_refl.
  - intros a Ha Hout. rewrite Hr.
    destruct (Z.eqb_spec a (u8 (fm_address (fan_mode (conf d)))));
      [contradiction|].
    now apply Hregs.
Qed.

Lemma set_cooler_boost_healthy (d : driver) (enable : bool) :
  ec_healthy (ec d) ->
  cb_address (cooler_boost (conf d)) <> MSI_EC_ADDR_UNSUPP ->
  exists d',
    set_cooler_boost d enable = (0, d')
    /\ conf d' = conf d /\ ec_healthy (ec d')
    /\ virtual_hwmon_pwm_enable d' = virtual_hwmon_pwm_enable d
    /\ (forall a, ec_regs (ec d') a
          = if a =? u8 (cb_address (cooler_boost (conf d)))
            then with_bit (u8 (ec_regs (ec d)
                                 (u8 (cb_address (cooler_boost (conf d))))))
                   (cb_bit (cooler_boost (conf d))) enable
            else ec_regs (ec d) a).
Proof.
  intros He Hcb. unfold set_cooler_boost.
  destruct (Z.eqb_spec (cb_address (cooler_boost (conf d))) MSI_EC_ADDR_UNSUPP);
    [contradiction|].
  destruct (ec_set_bit_healthy (cb_address (cooler_boost (conf d)))
              (cb_bit (cooler_boost (conf d))) enable (ec d) He)
    as [e1 [Hs [He1 Hr]]].
  rewrite Hs. cbn [Z.ltb Z.compare].
  exists (set_ec d e1). repeat split; auto.
Qed.

Lemma registry_cb (p : msi_ec_conf) :
  In p CONFIGURATIONS ->
  cb_address (cooler_boost p) <> MSI_EC_ADDR_UNSUPP
  /\ 0 <= cb_bit (cooler_boost p) < 8
  /\ u8 (cb_address (cooler_boost p)) <> u8 (fm_address (fan_mode p))
  /\ (forall f, reset_on_auto (pack_curve (copy_conf p) f) = true ->
        ~ In (u8 (cb_address (cooler_boost p)))
             (curve_regs (pack_curve (copy_conf p) f))).
Proof.
  intros Hp.
  assert (H : cb_ok p = true).
  { apply (registry_forall cb_ok); [vm_compute; reflexivity | exact Hp]. }
  unfold cb_ok in H.
  repeat (apply andb_true_iff in H; destruct H as [H ?]).
  apply negb_true_iff, Z.eqb_neq in H.
  match goal with
  | Hx : negb (existsb _ _) = true |- _ =>
      apply negb_true_iff in Hx;
      assert (Hnot : ~ In (u8 (cb_address (cooler_boost p)))
                       (engine_regs (copy_conf p)))
  end.
  { intros Hin.
    match goal with
    | Hx : existsb _ _ = false |- _ =>
        rewrite (proj2 (existsb_exists _ _)) in Hx; [discriminate|]
    end.
    exists (u8 (cb_address (cooler_boost p))). split; [exact Hin | apply Z.eqb_refl]. }
  split; [exact H|]. split; [lia|]. split.
  - intros E. apply Hnot. unfold engine_regs. apply in_or_app. right.
    apply in_or_app. right. cbn [copy_conf fan_mode]. rewrite E. now left.
  - intros f Hf Hin. apply Hnot. unfold engine_regs.
    destruct f.
    + apply in_or_app. left. rewrite Hf. exact Hin.
    + apply in_or_app. right. apply in_or_app. left. rewrite Hf. exact Hin.
Qed.

Lemma In_firstn {A : Type} (n : nat) (l : list A) (x : A) :
  In x (firstn n l) -> In x l.
Proof.
  revert l. induction n as [|n IH]; intros l H; [contradiction|].
  destruct l as [|y l]; [contradiction|].
  destruct H as [->|H]; [now left | right; now apply IH].
Qed.

(** A name the availability lookup finds is the name of a slot. *)
Lemma fan_mode_available_slot (p : msi_ec_conf) (mode : string) :
  fan_mode_is_available (copy_conf p) mode = Returns true ->
  exists m, In m (modes (fan_mode p)) /\ name m = Some mode.
Proof.
  unfold fan_mode_is_available. cbn [copy_conf fan_mode]. intros H.
  pose proof (proj1 (fan_mode_scan_present _ _ _ H) eq_refl) as Hin.
  apply mode_names_in in Hin. destruct Hin as [m [Hm Hn]].
  exists m. split; [exact (In_firstn _ _ _ Hm) | exact Hn].
Qed.

(** The common part of the Manual, Silent and Basic cases of
    [msi_ec_hwmon_write], on a healthy EC and for an available mode. *)
Lemma boost_off_then_mode (p : msi_ec_conf) (d0 : driver) (mode : string) (V : Z) :
  In p CONFIGURATIONS -> conf d0 = copy_conf p -> ec_healthy (ec d0) ->
  fan_mode_is_available (copy_conf p) mode = Returns true ->
  exists d2 m,
    (let '(_, d1) := set_cooler_boost d0 false in
     do avail <- fan_mode_is_available (conf d1) mode;
     if avail then
       let '(result, d2) := set_fan_mode d1 mode in
       Returns (result, set_virtual d2 (V, V))
     else Returns (- EINVAL, d1))
    = Returns (0, set_virtual d2 (V, V))
    /\ conf d2 = conf d0 /\ ec_healthy (ec d2)
    /\ In m (modes (fan_mode p)) /\ name m = Some mode
    /\ ec_regs (ec d2) (u8 (fm_address (fan_mode p))) = u8 (value m)
    /\ Z.testbit (u8 (ec_regs (ec d2) (u8 (cb_address (cooler_boost p)))))
         (cb_bit (cooler_boost p)) = false.
Proof.
  intros Hp Hc He Hav.
  destruct (registry_cb p Hp) as [Hcb [Hbit [Hne Hout]]].
  destruct (set_cooler_boost_healthy d0 false He) as [d1 [Hs [Hc1 [He1 [Hv1 Hr1]]]]].
  { rewrite Hc. exact Hcb. }
  rewrite Hs, Hc1, Hc, Hav. cbn [bind].
  destruct (fan_mode_available_slot p mode Hav) as [m [Hm Hn]].
  destruct (set_fan_mode_healthy p d1 m mode Hp (eq_trans Hc1 Hc) He1 Hm Hn)
    as [d2 [Hset [Hc2 [He2 [Hv2 [Hfm Hframe]]]]]].
  rewrite Hset. exists d2, m. split; [reflexivity|].
  split; [congruence|]. split; [exact He2|]. split; [exact Hm|].
  split; [exact Hn|].
  rewrite Hc1, Hc in Hfm, Hframe. cbn [copy_conf fan_mode] in Hfm, Hframe.
  split; [exact Hfm|].
  rewrite Hframe by (auto; intros f Hf; now apply Hout).
  rewrite Hr1, Hc. cbn [copy_conf cooler_boost]. rewrite Z.eqb_refl.
  rewrite (u8_small _ (with_bit_byte _ _ _)), with_bit_testbit, Z.eqb_refl by lia.
  apply andb_false_r.
Qed.

(** The read that finds no cached state derives the value from the EC. *)
Lemma hwmon_cold_read (p : msi_ec_conf) (d : driver) (m : msi_ec_mode)
    (mode : string) (channel val : Z) :
  In p CONFIGURATIONS -> conf d = copy_conf p -> ec_healthy (ec d) ->
  channel = 0 \/ channel = 1 ->
  virtual_hwmon_pwm_enable d = (-1, -1) ->
  In m (modes (fan_mode p)) -> name m = Some mode ->
  ec_regs (ec d) (u8 (fm_address (fan_mode p))) = u8 (value m) ->
  Z.testbit (u8 (ec_regs (ec d) (u8 (cb_address (cooler_boost p)))))
    (cb_bit (cooler_boost p)) = false ->
  exists d',
    msi_ec_hwmon_read d channel val
    = bind (pwm_enable_of_name (Some mode))
        (fun v => Returns (0, v, set_virtual d' (v, v))).
Proof.
  intros Hp Hc He Hch Hv Hm Hn Hfm Hbit.
  destruct (registry_cb p Hp) as [Hcb [Hb _]].
  unfold msi_ec_hwmon_read.
  assert (Hcond : (channel =? 0) || (channel =? 1) = true)
    by (destruct Hch; subst; reflexivity).
  rewrite Hcond, Hv.
  assert (E : (vget (-1, -1) channel >=? 0) = false)
    by (destruct Hch; subst; reflexivity).
  rewrite E, Hc. cbn [copy_conf cooler_boost].
  destruct (Z.eqb_spec (cb_address (cooler_boost p)) MSI_EC_ADDR_UNSUPP);
    [contradiction|]. cbn [negb].
  rewrite (ec_check_bit_healthy _ _ false (ec d) He Hb), Hbit.
  cbn [Z.ltb Z.compare].
  unfold fan_mode_get. cbn [copy_conf fan_mode].
  rewrite (ec_read_healthy _ 0 _ (ec_consume_healthy _ He)).
  cbn [Z.ltb Z.compare ec_consume ec_regs]. rewrite Hfm, u8_u8.
  destruct (registry_modes p m mode Hp Hm Hn) as [_ [Hl _]]. rewrite Hl.
  cbn [Z.ltb Z.compare].
  eexists. reflexivity.
Qed.

(** The cases of [msi_ec_hwmon_write] on a healthy EC. *)
Lemma hwmon_write_full (p : msi_ec_conf) (d : driver) (channel : Z) :
  In p CONFIGURATIONS -> conf d = copy_conf p -> ec_healthy (ec d) ->
  channel = 0 \/ channel = 1 ->
  exists d1,
    msi_ec_hwmon_write d channel PWM_ENABLE_FULL
    = Returns (0, set_virtual d1 (PWM_ENABLE_FULL, PWM_ENABLE_FULL))
    /\ conf d1 = conf d /\ ec_healthy (ec d1)
    /\ Z.testbit (u8 (ec_regs (ec d1) (u8 (cb_address (cooler_boost p)))))
         (cb_bit (cooler_boost p)) = true.
Proof.
  intros Hp Hc He Hch.
  destruct (registry_cb p Hp) as [Hcb [Hbit _]].
  assert (Hcond : (channel =? 0) || (channel =? 1) = true)
    by (destruct Hch; subst; reflexivity).
  unfold msi_ec_hwmon_write. rewrite Hcond.
  change (PWM_ENABLE_FULL =? PWM_ENABLE_FULL) with true. cbv iota.
  cbn [set_virtual conf]. rewrite Hc.
  destruct (Z.eqb_spec (cb_address (cooler_boost (copy_conf p))) MSI_EC_ADDR_UNSUPP)
    as [E|_]; [contradiction|]. cbn [negb]. rewrite <- Hc.
  match goal with
  | |- context [set_cooler_boost ?d0 true] =>
      destruct (set_cooler_boost_healthy d0 true He)
        as [d1 [Hs [Hc1 [He1 [_ Hr1]]]]]
  end.
  { cbn [conf set_virtual]. rewrite Hc. exact Hcb. }
  rewrite Hs. exists d1. split; [reflexivity|]. split; [exact Hc1|].
  split; [exact He1|].
  rewrite Hr1. cbn [conf ec set_virtual]. rewrite Hc.
  cbn [copy_conf cooler_boost].
  rewrite Z.eqb_refl.
  rewrite (u8_small _ (with_bit_byte _ _ _)), with_bit_testbit, Z.eqb_refl by lia.
  destruct (Z.ltb_spec (cb_bit (cooler_boost p)) 8); [reflexivity | lia].
Qed.

Lemma hwmon_write_mode (p : msi_ec_conf) (d : driver) (channel v : Z)
    (mode : string) :
  In p CONFIGURATIONS -> conf d = copy_conf p -> ec_healthy (ec d) ->
  channel = 0 \/ channel = 1 ->
  (v = PWM_ENABLE_MANUAL /\ mode = FM_ADVANCED_NAME)
  \/ (v = PWM_ENABLE_SILENT /\ mode = FM_SILENT_NAME)
  \/ (v = PWM_ENABLE_BASIC /\ mode = FM_BASIC_NAME) ->
  fan_mode_is_available (copy_conf p) mode = Returns true ->
  exists d2 m,
    msi_ec_hwmon_write d channel v = Returns (0, set_virtual d2 (v, v))
    /\ conf d2 = conf d /\ ec_healthy (ec d2)
    /\ In m (modes (fan_mode p)) /\ name m = Some mode
    /\ ec_regs (ec d2) (u8 (fm_address (fan_mode p))) = u8 (value m)
    /\ Z.testbit (u8 (ec_regs (ec d2) (u8 (cb_address (cooler_boost p)))))
         (cb_bit (cooler_boost p)) = false.
Proof.
  intros Hp Hc He Hch Hcase Hav.
  assert (Hcond : (channel =? 0) || (channel =? 1) = true)
    by (destruct Hch; subst; reflexivity).
  unfold msi_ec_hwmon_write. rewrite Hcond.
  destruct Hcase as [[-> ->]|[[-> ->]|[-> ->]]].
  - change (as_int PWM_ENABLE_MANUAL) with PWM_ENABLE_MANUAL.
    change (PWM_ENABLE_MANUAL =? PWM_ENABLE_FULL) with false.
    change (PWM_ENABLE_MANUAL =? PWM_ENABLE_MANUAL) with true. cbv iota.
    destruct (boost_off_then_mode p
                (set_virtual d (vset (virtual_hwmon_pwm_enable d) channel
                                  PWM_ENABLE_MANUAL))
                FM_ADVANCED_NAME PWM_ENABLE_MANUAL Hp Hc He Hav)
      as [d2 [m [Heq H]]].
    exists d2, m. split; [exact Heq | exact H].
  - change (as_int PWM_ENABLE_SILENT) with PWM_ENABLE_SILENT.
    change (PWM_ENABLE_SILENT =? PWM_ENABLE_FULL) with false.
    change (PWM_ENABLE_SILENT =? PWM_ENABLE_MANUAL) with false.
    change (PWM_ENABLE_SILENT =? PWM_ENABLE_AUTO) with false.
    change (PWM_ENABLE_SILENT =? PWM_ENABLE_SILENT) with true. cbv iota.
    destruct (boost_off_then_mode p
                (set_virtual d (vset (virtual_hwmon_pwm_enable d) channel
                                  PWM_ENABLE_SILENT))
                FM_SILENT_NAME PWM_ENABLE_SILENT Hp Hc He Hav)
      as [d2 [m [Heq H]]].
    exists d2, m. split; [exact Heq | exact H].
  - change (as_int PWM_ENABLE_BASIC) with PWM_ENABLE_BASIC.
    change (PWM_ENABLE_BASIC =? PWM_ENABLE_FULL) with false.
    change (PWM_ENABLE_BASIC =? PWM_ENABLE_MANUAL) with false.
    change (PWM_ENABLE_BASIC =? PWM_ENABLE_AUTO) with false.
    change (PWM_ENABLE_BASIC =? PWM_ENABLE_SILENT) with false.
    change (PWM_ENABLE_BASIC =? PWM_ENABLE_BASIC) with true. cbv iota.
    destruct (boost_off_then_mode p
                (set_virtual d (vset (virtual_hwmon_pwm_enable d) channel
                                  PWM_ENABLE_BASIC))
                FM_BASIC_NAME PWM_ENABLE_BASIC Hp Hc He Hav)
      as [d2 [m [Heq H]]].
    exists d2, m. split; [exact Heq | exact H].
Qed.

Lemma hwmon_write_auto_both (p : msi_ec_conf) (d : driver) (channel : Z) :
  In p CONFIGURATIONS -> conf d = copy_conf p -> ec_healthy (ec d) ->
  channel = 0 \/ channel = 1 ->
  vget (virtual_hwmon_pwm_enable d) (1 - channel) = PWM_ENABLE_AUTO ->
  exists d2 m,
    msi_ec_hwmon_write d channel PWM_ENABLE_AUTO = Returns (0, d2)
    /\ conf d2 = conf d /\ ec_healthy (ec d2)
    /\ virtual_hwmon_pwm_enable d2 = (PWM_ENABLE_AUTO, PWM_ENABLE_AUTO)
    /\ In m (modes (fan_mode p)) /\ name m = Some FM_AUTO_NAME
    /\ ec_regs (ec d2) (u8 (fm_address (fan_mode p))) = u8 (value m)
    /\ Z.testbit (u8 (ec_regs (ec d2) (u8 (cb_address (cooler_boost p)))))
         (cb_bit (cooler_boost p)) = false.
Proof.
  intros Hp Hc He Hch Hother.
  destruct (registry_cb p Hp) as [Hcb [Hbit [Hne Hout]]].
  destruct (registry_auto p Hp) as [Hav _].
  assert (Hcond : (channel =? 0) || (channel =? 1) = true)
    by (destruct Hch; subst; reflexivity).
  unfold msi_ec_hwmon_write. rewrite Hcond.
  change (as_int PWM_ENABLE_AUTO) with PWM_ENABLE_AUTO.
  change (PWM_ENABLE_AUTO =? PWM_ENABLE_FULL) with false.
  change (PWM_ENABLE_AUTO =? PWM_ENABLE_MANUAL) with false.
  change (PWM_ENABLE_AUTO =? PWM_ENABLE_AUTO) with true. cbv iota.
  rewrite (vset_both _ _ Hch Hother).
  match goal with
  | |- context [set_cooler_boost ?d0 false] =>
      destruct (set_cooler_boost_healthy d0 false He)
        as [d1 [Hs [Hc1 [He1 [Hv1 Hr1]]]]]
  end.
  { cbn [conf set_virtual]. rewrite Hc. exact Hcb. }
  rewrite Hs, Hv1. cbn [set_virtual virtual_hwmon_pwm_enable fst snd].
  change (PWM_ENABLE_AUTO =? PWM_ENABLE_AUTO) with true. cbn [andb].
  cbn [conf set_virtual] in Hc1. rewrite Hc1, Hc, Hav. cbn [bind].
  destruct (fan_mode_available_slot p FM_AUTO_NAME Hav) as [m [Hm Hn]].
  destruct (set_fan_mode_healthy p d1 m FM_AUTO_NAME Hp (eq_trans Hc1 Hc) He1 Hm Hn)
    as [d2 [Hset [Hc2 [He2 [Hv2 [Hfm Hframe]]]]]].
  rewrite Hset. exists d2, m. split; [reflexivity|].
  split; [congruence|]. split; [exact He2|].
  split; [rewrite Hv2; exact Hv1|]. split; [exact Hm|]. split; [exact Hn|].
  rewrite Hc1, Hc in Hfm, Hframe. cbn [copy_conf fan_mode] in Hfm, Hframe.
  split; [exact Hfm|].
  rewrite Hframe by (auto; intros f Hf; now apply Hout).
  rewrite Hr1. cbn [conf set_virtual ec]. rewrite Hc.
  cbn [copy_conf cooler_boost]. rewrite Z.eqb_refl.
  rewrite (u8_small _ (with_bit_byte _ _ _)), with_bit_testbit, Z.eqb_refl by lia.
  apply andb_false_r.
Qed.

Lemma registry_pwm (p : msi_ec_conf) :
  In p CONFIGURATIONS -> pwm_ok p = true.
Proof. apply (registry_forall pwm_ok). vm_compute. reflexivity. Qed.

(** For a profile of the registry the availability lookup either finds
    the name, and the value is listed, or runs into the null slot, and
    the value is not listed. *)
Lemma registry_pwm_mode (p : msi_ec_conf) (v : Z) (mode : string) :
  In p CONFIGURATIONS ->
  (v = PWM_ENABLE_MANUAL /\ mode = FM_ADVANCED_NAME)
  \/ (v = PWM_ENABLE_AUTO /\ mode = FM_AUTO_NAME)
  \/ (v = PWM_ENABLE_SILENT /\ mode = FM_SILENT_NAME)
  \/ (v = PWM_ENABLE_BASIC /\ mode = FM_BASIC_NAME) ->
  (fan_mode_is_available (copy_conf p) mode = Returns true
   /\ pwm_listed (copy_conf p) v = true)
  \/ (fan_mode_is_available (copy_conf p) mode = NullDeref
      /\ pwm_listed (copy_conf p) v = false).
Proof.
  intros Hp Hcase. pose proof (registry_pwm p Hp) as H. unfold pwm_ok in H.
  repeat (apply andb_true_iff in H; destruct H as [H ?]).
  assert (Hm : pwm_mode_ok (copy_conf p) v mode = true)
    by (destruct Hcase as [[-> ->]|[[-> ->]|[[-> ->]|[-> ->]]]]; assumption).
  unfold pwm_mode_ok in Hm.
  destruct (fan_mode_is_available (copy_conf p) mode) as [[|]|].
  - left. apply andb_true_iff in Hm. split; [reflexivity | tauto].
  - discriminate.
  - right. apply negb_true_iff in Hm. split; [reflexivity | exact Hm].
Qed.

Lemma pwm_listed_in (c : msi_ec_conf) (v : Z) :
  pwm_listed c v = true <-> In v (map fst (pwm_enable_list c)).
Proof.
  unfold pwm_listed. rewrite existsb_exists. split.
  - intros [x [Hx E]]. apply Z.eqb_eq in E. now subst.
  - intros H. exists v. split; [exact H | apply Z.eqb_refl].
Qed.

Lemma hwmon_write_unavailable (p : msi_ec_conf) (d : driver) (channel v : Z)
    (mode : string) :
  conf d = copy_conf p -> channel = 0 \/ channel = 1 ->
  (v = PWM_ENABLE_MANUAL /\ mode = FM_ADVANCED_NAME)
  \/ (v = PWM_ENABLE_SILENT /\ mode = FM_SILENT_NAME)
  \/ (v = PWM_ENABLE_BASIC /\ mode = FM_BASIC_NAME) ->
  fan_mode_is_available (copy_conf p) mode = NullDeref ->
  msi_ec_hwmon_write d channel v = NullDeref.
Proof.
  intros Hc Hch Hcase Hav.
  assert (Hcond : (channel =? 0) || (channel =? 1) = true)
    by (destruct Hch; subst; reflexivity).
  unfold msi_ec_hwmon_write. rewrite Hcond.
  destruct Hcase as [[-> ->]|[[-> ->]|[-> ->]]];
    match goal with
    | |- context [set_cooler_boost ?d0 false] =>
        destruct (set_cooler_boost_frame d0 false) as [r [d1 [Hs [Hc1 _]]]];
        cbn [conf set_virtual] in Hc1
    end.
  - change (PWM_ENABLE_MANUAL =? PWM_ENABLE_FULL) with false.
    change (PWM_ENABLE_MANUAL =? PWM_ENABLE_MANUAL) with true. cbv iota.
    rewrite Hs, Hc1, Hc, Hav. reflexivity.
  - change (PWM_ENABLE_SILENT =? PWM_ENABLE_FULL) with false.
    change (PWM_ENABLE_SILENT =? PWM_ENABLE_MANUAL) with false.
    change (PWM_ENABLE_SILENT =? PWM_ENABLE_AUTO) with false.
    change (PWM_ENABLE_SILENT =? PWM_ENABLE_SILENT) with true. cbv iota.
    rewrite Hs, Hc1, Hc, Hav. reflexivity.
  - change (PWM_ENABLE_BASIC =? PWM_ENABLE_FULL) with false.
    change (PWM_ENABLE_BASIC =? PWM_ENABLE_MANUAL) with false.
    change (PWM_ENABLE_BASIC =? PWM_ENABLE_AUTO) with false.
    change (PWM_ENABLE_BASIC =? PWM_ENABLE_SILENT) with false.
    change (PWM_ENABLE_BASIC =? PWM_ENABLE_BASIC) with true. cbv iota.
    rewrite Hs, Hc1, Hc, Hav. reflexivity.
Qed.

Lemma hwmon_write_other (d : driver) (channel v : Z) :
  channel = 0 \/ channel = 1 ->
  v <> PWM_ENABLE_FULL -> v <> PWM_ENABLE_MANUAL -> v <> PWM_ENABLE_AUTO ->
  v <> PWM_ENABLE_SILENT -> v <> PWM_ENABLE_BASIC ->
  exists d', msi_ec_hwmon_write d channel v = Returns (- EINVAL, d').
Proof.
  intros Hch H0 H1 H2 H3 H4.
  assert (Hcond : (channel =? 0) || (channel =? 1) = true)
    by (destruct Hch; subst; reflexivity).
  unfold msi_ec_hwmon_write. rewrite Hcond.
  apply Z.eqb_neq in H0, H1, H2, H3, H4. rewrite H0, H1, H2, H3, H4.
  eexists. reflexivity.
Qed.

Lemma hwmon_write_auto_single (p : msi_ec_conf) (d : driver) (channel : Z) :
  In p CONFIGURATIONS -> conf d = copy_conf p -> ec_healthy (ec d) ->
  channel = 0 \/ channel = 1 ->
  vget (virtual_hwmon_pwm_enable d) (1 - channel) <> PWM_ENABLE_AUTO ->
  exists d', msi_ec_hwmon_write d channel PWM_ENABLE_AUTO = Returns (0, d').
Proof.
  intros Hp Hc He Hch Hother.
  destruct (registry_cb p Hp) as [Hcb _].
  assert (Hcond : (channel =? 0) || (channel =? 1) = true)
    by (destruct Hch; subst; reflexivity).
  unfold msi_ec_hwmon_write. rewrite Hcond.
  change (as_int PWM_ENABLE_AUTO) with PWM_ENABLE_AUTO.
  change (PWM_ENABLE_AUTO =? PWM_ENABLE_FULL) with false.
  change (PWM_ENABLE_AUTO =? PWM_ENABLE_MANUAL) with false.
  change (PWM_ENABLE_AUTO =? PWM_ENABLE_AUTO) with true. cbv iota.
  match goal with
  | |- context [set_cooler_boost ?d0 false] =>
      destruct (set_cooler_boost_healthy d0 false He)
        as [d1 [Hs [Hc1 [He1 [Hv1 Hr1]]]]]
  end.
  { cbn [conf set_virtual]. rewrite Hc. exact Hcb. }
  rewrite Hs, Hv1. cbn [set_virtual virtual_hwmon_pwm_enable].
  rewrite (vset_not_both _ _ Hch Hother). exists d1. reflexivity.
Qed.

(** X12.  Let a profile of the registry be loaded, let the EC work
    without failure and let [channel] be 0 or 1.  [pwm_enable_available]
    shows lines "value: name", and a PWM-enable write of [v] returns 0
    exactly for the values [v] shown.  A write of a value that is not
    shown either returns [-EINVAL] or, for the values 1, 3 and 4 whose
    mode the profile does not have, dereferences the null name of the
    sentinel slot. *)
Theorem pwm_enable_available_accepted (p : msi_ec_conf) (d : driver)
    (channel : Z) :
  In p CONFIGURATIONS -> conf d = copy_conf p -> ec_healthy (ec d) ->
  channel = 0 \/ channel = 1 ->
  exists l,
    pwm_enable_available_show (conf d) = Emit (pwm_lines l)
    /\ (forall x, In x l -> In x pwm_table)
    /\ forall v,
         (In v (map fst l) ->
          exists d', msi_ec_hwmon_write d channel v = Returns (0, d'))
         /\ (~ In v (map fst l) ->
             msi_ec_hwmon_write d channel v = NullDeref
             \/ exists d', msi_ec_hwmon_write d channel v = Returns (- EINVAL, d')).
Proof.
  intros Hp Hc He Hch. exists (pwm_enable_list (copy_conf p)).
  pose proof (registry_pwm p Hp) as Hok. unfold pwm_ok in Hok.
  apply andb_true_iff in Hok. destruct Hok as [Hok _].
  apply andb_true_iff in Hok. destruct Hok as [Hok _].
  apply andb_true_iff in Hok. destruct Hok as [Hok _].
  apply andb_true_iff in Hok. destruct Hok as [Hok _].
  apply andb_true_iff in Hok. destruct Hok as [Hok Hfull].
  apply andb_true_iff in Hok. destruct Hok as [Hok Hrange].
  assert (Hknown : forall x, In x (pwm_enable_list (copy_conf p)) -> In x pwm_table).
  { intros x Hx. pose proof (proj1 (forallb_forall _ _) Hrange x Hx) as Hex.
    apply existsb_exists in Hex. destruct Hex as [y [Hy Hxy]].
    apply andb_true_iff in Hxy. destruct Hxy as [E1 E2].
    apply Z.eqb_eq in E1. apply String.eqb_eq in E2.
    destruct x, y. cbn [fst snd] in E1, E2. now subst. }
  split; [|split].
  - rewrite Hc.
    destruct (pwm_enable_available_show (copy_conf p)) as [text|]; [|discriminate].
    apply String.eqb_eq in Hok. now rewrite Hok.
  - exact Hknown.
  - intros v.
    assert (Hnamed : forall mode,
              (v = PWM_ENABLE_MANUAL /\ mode = FM_ADVANCED_NAME)
              \/ (v = PWM_ENABLE_SILENT /\ mode = FM_SILENT_NAME)
              \/ (v = PWM_ENABLE_BASIC /\ mode = FM_BASIC_NAME) ->
              (In v (map fst (pwm_enable_list (copy_conf p))) ->
               exists d', msi_ec_hwmon_write d channel v = Returns (0, d'))
              /\ (~ In v (map fst (pwm_enable_list (copy_conf p))) ->
                  msi_ec_hwmon_write d channel v = NullDeref
                  \/ exists d',
                       msi_ec_hwmon_write d channel v = Returns (- EINVAL, d'))).
    { intros mode Hcase.
      assert (Hcase4 : (v = PWM_ENABLE_MANUAL /\ mode = FM_ADVANCED_NAME)
                       \/ (v = PWM_ENABLE_AUTO /\ mode = FM_AUTO_NAME)
                       \/ (v = PWM_ENABLE_SILENT /\ mode = FM_SILENT_NAME)
                       \/ (v = PWM_ENABLE_BASIC /\ mode = FM_BASIC_NAME)) by tauto.
      destruct (registry_pwm_mode p v mode Hp Hcase4) as [[Hav Hl]|[Hav Hl]].
      - split.
        + intros _.
          destruct (hwmon_write_mode p d channel v mode Hp Hc He Hch Hcase Hav)
            as [d2 [m [Hw _]]].
          eexists. exact Hw.
        + intros Hnot. exfalso. apply Hnot. now apply pwm_listed_in.
      - split.
        + intros Hin. apply pwm_listed_in in Hin. congruence.
        + intros _. left.
          exact (hwmon_write_unavailable p d channel v mode Hc Hch Hcase Hav). }
    destruct (Z.eq_dec v PWM_ENABLE_MANUAL) as [E1|N1];
      [apply (Hnamed FM_ADVANCED_NAME); auto|].
    destruct (Z.eq_dec v PWM_ENABLE_SILENT) as [E3|N3];
      [apply (Hnamed FM_SILENT_NAME); auto|].
    destruct (Z.eq_dec v PWM_ENABLE_BASIC) as [E4|N4];
      [apply (Hnamed FM_BASIC_NAME); auto|].
    destruct (Z.eq_dec v PWM_ENABLE_FULL) as [->|N0].
    { split.
      - intros _. destruct (hwmon_write_full p d channel Hp Hc He Hch)
          as [d1 [Hw _]]. eexists. exact Hw.
      - intros Hnot. exfalso. apply Hnot. apply pwm_listed_in.
        apply Bool.eqb_prop in Hfull. change PWM_ENABLE_FULL with 0.
        rewrite Hfull.
        destruct (registry_cb p Hp) as [Hcb _].
        apply negb_true_iff, Z.eqb_neq. exact Hcb. }
    destruct (Z.eq_dec v PWM_ENABLE_AUTO) as [->|N2].
    { split.
      - intros _.
        destruct (Z.eq_dec (vget (virtual_hwmon_pwm_enable d) (1 - channel))
                    PWM_ENABLE_AUTO) as [Ho|Ho].
        + destruct (hwmon_write_auto_both p d channel Hp Hc He Hch Ho)
            as [d2 [m [Hw _]]]. eexists. exact Hw.
        + exact (hwmon_write_auto_single p d channel Hp Hc He Hch Ho).
      - intros Hnot. exfalso. apply Hnot. apply pwm_listed_in.
        destruct (registry_pwm_mode p PWM_ENABLE_AUTO FM_AUTO_NAME Hp)
          as [[_ Hl]|[Hav _]]; [tauto | exact Hl |].
        destruct (registry_auto p Hp) as [Hav' _]. congruence. }
    split.
    + intros Hin. exfalso.
      apply in_map_iff in Hin. destruct Hin as [x [Hx Hin]].
      pose proof (Hknown x Hin) as Hx'. unfold pwm_table in Hx'.
      destruct Hx' as [<-|[<-|[<-|[<-|[<-|[]]]]]]; cbn [fst] in Hx; congruence.
    + intros _. right.
      exact (hwmon_write_other d channel v Hch N0 N1 N2 N3 N4).
Qed.

Lemma pwm_enable_available_accepted_witness :
  exists l,
    pwm_enable_available_show (conf (driver_example (fun _ => 0) [] (1, 1)))
    = Emit (pwm_lines l)
    /\ (forall x, In x l -> In x pwm_table)
    /\ forall v,
         (In v (map fst l) ->
          exists d',
            msi_ec_hwmon_write (driver_example (fun _ => 0) [] (1, 1)) 0 v
            = Returns (0, d'))
         /\ (~ In v (map fst l) ->
             msi_ec_hwmon_write (driver_example (fun _ => 0) [] (1, 1)) 0 v
             = NullDeref
             \/ exists d',
                  msi_ec_hwmon_write (driver_example (fun _ => 0) [] (1, 1)) 0 v
                  = Returns (- EINVAL, d')).
Proof.
  apply (pwm_enable_available_accepted CONF401
           (driver_example (fun _ => 0) [] (1, 1)) 0).
  - unfold CONFIGURATIONS. simpl. tauto.
  - reflexivity.
  - constructor.
  - now left.
Defined.

(** The read that finds no cached state while the cooler-boost bit is
    set. *)
Lemma hwmon_cold_read_full (p : msi_ec_conf) (d : driver) (channel val : Z) :
  In p CONFIGURATIONS -> conf d = copy_conf p -> ec_healthy (ec d) ->
  channel = 0 \/ channel = 1 ->
  virtual_hwmon_pwm_enable d = (-1, -1) ->
  Z.testbit (u8 (ec_regs (ec d) (u8 (cb_address (cooler_boost p)))))
    (cb_bit (cooler_boost p)) = true ->
  exists d',
    msi_ec_hwmon_read d channel val
    = Returns (0, PWM_ENABLE_FULL,
               set_virtual d' (PWM_ENABLE_FULL, PWM_ENABLE_FULL)).
Proof.
  intros Hp Hc He Hch Hv Hbit.
  destruct (registry_cb p Hp) as [Hcb [Hb _]].
  unfold msi_ec_hwmon_read.
  assert (Hcond : (channel =? 0) || (channel =? 1) = true)
    by (destruct Hch; subst; reflexivity).
  rewrite Hcond, Hv.
  assert (E : (vget (-1, -1) channel >=? 0) = false)
    by (destruct Hch; subst; reflexivity).
  rewrite E, Hc. cbn [copy_conf cooler_boost].
  destruct (Z.eqb_spec (cb_address (cooler_boost p)) MSI_EC_ADDR_UNSUPP);
    [contradiction|]. cbn [negb].
  rewrite (ec_check_bit_healthy _ _ false (ec d) He Hb), Hbit.
  cbn [Z.ltb Z.compare]. eexists. reflexivity.
Qed.

Lemma hwmon_cached_read (d : driver) (channel val v : Z) :
  channel = 0 \/ channel = 1 -> 0 <= v ->
  virtual_hwmon_pwm_enable d = (v, v) ->
  msi_ec_hwmon_read d channel val = Returns (0, v, d).
Proof.
  intros Hch Hv Hvirt. unfold msi_ec_hwmon_read. rewrite Hvirt.
  destruct Hch; subst channel; cbn [Z.eqb orb vget fst snd];
    destruct (Z.geb_spec v 0); try lia; reflexivity.
Qed.

(** X13.  Let a profile of the registry be loaded, let the EC work
    without failure and let a PWM-enable write of [v] on channel 0 or 1
    return 0, where for [v] = Auto the other channel is already in the
    cached state Auto.  Then a PWM-enable read on either channel returns
    [v] from the cached state; and a read that finds no cached state
    (both entries -1, as after module load) derives the same [v] from
    the cooler-boost bit and the fan-mode register of the EC, and caches
    it for both channels. *)
Theorem hwmon_pwm_enable_coherent (p : msi_ec_conf) (d d' : driver)
    (channel v : Z) :
  In p CONFIGURATIONS -> conf d = copy_conf p -> ec_healthy (ec d) ->
  channel = 0 \/ channel = 1 ->
  (v = PWM_ENABLE_AUTO ->
   vget (virtual_hwmon_pwm_enable d) (1 - channel) = PWM_ENABLE_AUTO) ->
  msi_ec_hwmon_write d channel v = Returns (0, d') ->
  forall ch val, ch = 0 \/ ch = 1 ->
    msi_ec_hwmon_read d' ch val = Returns (0, v, d')
    /\ exists d'',
         msi_ec_hwmon_read (set_virtual d' (-1, -1)) ch val = Returns (0, v, d'')
         /\ virtual_hwmon_pwm_enable d'' = (v, v).
Proof.
  intros Hp Hc He Hch Hauto Hw ch val Hch'.
  assert (Hmode : forall d2 m mode,
            conf d2 = conf d -> ec_healthy (ec d2) ->
            virtual_hwmon_pwm_enable d' = (v, v) -> 0 <= v ->
            In m (modes (fan_mode p)) -> name m = Some mode ->
            ec d' = ec d2 -> conf d' = conf d2 ->
            pwm_enable_of_name (Some mode) = Returns v ->
            ec_regs (ec d2) (u8 (fm_address (fan_mode p))) = u8 (value m) ->
            Z.testbit (u8 (ec_regs (ec d2) (u8 (cb_address (cooler_boost p)))))
              (cb_bit (cooler_boost p)) = false ->
            msi_ec_hwmon_read d' ch val = Returns (0, v, d')
            /\ exists d'',
                 msi_ec_hwmon_read (set_virtual d' (-1, -1)) ch val
                 = Returns (0, v, d'')
                 /\ virtual_hwmon_pwm_enable d'' = (v, v)).
  { intros d2 m mode Hc2 He2 Hvirt Hv0 Hm Hn Hec Hcf Hname Hfm Hbit. split.
    - now apply hwmon_cached_read.
    - destruct (hwmon_cold_read p (set_virtual d' (-1, -1)) m mode ch val Hp)
        as [d'' Hread]; auto.
      + cbn [conf set_virtual]. congruence.
      + cbn [ec set_virtual]. now rewrite Hec.
      + cbn [ec set_virtual]. now rewrite Hec.
      + cbn [ec set_virtual]. now rewrite Hec.
      + rewrite Hread, Hname. cbn [bind]. eexists. split; reflexivity. }
  destruct (Z.eq_dec v PWM_ENABLE_FULL) as [->|N0].
  { destruct (hwmon_write_full p d channel Hp Hc He Hch)
      as [d1 [Hw1 [Hc1 [He1 Hbit]]]].
    rewrite Hw1 in Hw. injection Hw as <-. split.
    - apply hwmon_cached_read; [exact Hch' | unfold PWM_ENABLE_FULL; lia
                                | reflexivity].
    - destruct (hwmon_cold_read_full p
                  (set_virtual (set_virtual d1 (PWM_ENABLE_FULL, PWM_ENABLE_FULL))
                     (-1, -1)) ch val Hp) as [d'' Hread]; auto.
      + cbn [conf set_virtual]. congruence.
      + rewrite Hread. eexists. split; reflexivity. }
  destruct (Z.eq_dec v PWM_ENABLE_AUTO) as [->|N2].
  { destruct (hwmon_write_auto_both p d channel Hp Hc He Hch (Hauto eq_refl))
      as [d2 [m [Hw2 [Hc2 [He2 [Hv2 [Hm [Hn [Hfm Hbit]]]]]]]]].
    rewrite Hw2 in Hw. injection Hw as <-.
    apply (Hmode d2 m FM_AUTO_NAME); auto.
    unfold PWM_ENABLE_AUTO. lia. }
  assert (Hnamed : forall mode,
            (v = PWM_ENABLE_MANUAL /\ mode = FM_ADVANCED_NAME)
            \/ (v = PWM_ENABLE_SILENT /\ mode = FM_SILENT_NAME)
            \/ (v = PWM_ENABLE_BASIC /\ mode = FM_BASIC_NAME) ->
            pwm_enable_of_name (Some mode) = Returns v -> 0 <= v ->
            msi_ec_hwmon_read d' ch val = Returns (0, v, d')
            /\ exists d'',
                 msi_ec_hwmon_read (set_virtual d' (-1, -1)) ch val
                 = Returns (0, v, d'')
                 /\ virtual_hwmon_pwm_enable d'' = (v, v)).
  { intros mode Hcase Hname Hv0.
    assert (Hcase4 : (v = PWM_ENABLE_MANUAL /\ mode = FM_ADVANCED_NAME)
                     \/ (v = PWM_ENABLE_AUTO /\ mode = FM_AUTO_NAME)
                     \/ (v = PWM_ENABLE_SILENT /\ mode = FM_SILENT_NAME)
                     \/ (v = PWM_ENABLE_BASIC /\ mode = FM_BASIC_NAME)) by tauto.
    destruct (registry_pwm_mode p v mode Hp Hcase4) as [[Hav _]|[Hav _]].
    - destruct (hwmon_write_mode p d channel v mode Hp Hc He Hch Hcase Hav)
        as [d2 [m [Hw2 [Hc2 [He2 [Hm [Hn [Hfm Hbit]]]]]]]].
      rewrite Hw2 in Hw. injection Hw as <-.
      apply (Hmode d2 m mode); auto.
    - rewrite (hwmon_write_unavailable p d channel v mode Hc Hch Hcase Hav) in Hw.
      discriminate. }
  destruct (Z.eq_dec v PWM_ENABLE_MANUAL) as [E1|N1];
    [apply (Hnamed FM_ADVANCED_NAME); subst; auto; unfold PWM_ENABLE_MANUAL; lia|].
  destruct (Z.eq_dec v PWM_ENABLE_SILENT) as [E3|N3];
    [apply (Hnamed FM_SILENT_NAME); subst; auto; unfold PWM_ENABLE_SILENT; lia|].
  destruct (Z.eq_dec v PWM_ENABLE_BASIC) as [E4|N4];
    [apply (Hnamed FM_BASIC_NAME); subst; auto; unfold PWM_ENABLE_BASIC; lia|].
  destruct (hwmon_write_other d channel v Hch N0 N1 N2 N3 N4) as [dx Hx].
  rewrite Hx in Hw. injection Hw as Hbad _. unfold EINVAL in Hbad. lia.
Qed.

Lemma hwmon_pwm_enable_coherent_witness :
  exists d',
    msi_ec_hwmon_write (driver_example (fun _ => 0) [] (2, 2)) 0 PWM_ENABLE_MANUAL
    = Returns (0, d')
    /\ msi_ec_hwmon_read d' 1 0 = Returns (0, PWM_ENABLE_MANUAL, d')
    /\ exists d'',
         msi_ec_hwmon_read (set_virtual d' (-1, -1)) 1 0
         = Returns (0, PWM_ENABLE_MANUAL, d'')
         /\ virtual_hwmon_pwm_enable d'' = (PWM_ENABLE_MANUAL, PWM_ENABLE_MANUAL).
Proof.
  assert (Hin : In CONF401 CONFIGURATIONS) by (unfold CONFIGURATIONS; simpl; tauto).
  assert (Hh : ec_healthy (ec (driver_example (fun _ => 0) [] (2, 2))))
    by constructor.
  assert (Hw : exists d',
             msi_ec_hwmon_write (driver_example (fun _ => 0) [] (2, 2)) 0
               PWM_ENABLE_MANUAL = Returns (0, d'))
    by (eexists; vm_compute; reflexivity).
  destruct Hw as [d' Hw]. exists d'. split; [exact Hw|].
  exact (hwmon_pwm_enable_coherent CONF401
           (driver_example (fun _ => 0) [] (2, 2)) d' 0 PWM_ENABLE_MANUAL
           Hin eq_refl Hh (or_introl eq_refl)
           ltac:(intros H; discriminate H) Hw 1 0 (or_intror eq_refl)).
Defined.

(* ================================================================= *)
(** ** The PWM-enable state machine: the Auto request *)

(** C2.  Let a profile of the registry be loaded and let [channel] be 0
    or 1.  A PWM-enable write of Auto (2) on [channel] while the cached
    state of the other channel is not Auto does what
    [set_cooler_boost(false)] does after the request is cached, and
    nothing else: every EC write it makes goes to the cooler-boost
    register, none to the fan-mode register, whose content stays.  On
    an EC that works without failure this write returns 0 and clears
    the cooler-boost bit: afterwards the bit [cb_bit] of the register
    [cb_address] is 0 and [ec_check_bit] reports it as off, the other
    bits of that register are those of the byte the EC held, and every
    other register is as before.  When
    the cached state of the other channel is Auto and the EC works
    without failure, the write returns 0, its last EC write stores the
    value of the mode "auto" in the fan-mode register, and PWM-enable
    reads on both channels return Auto. *)
Theorem auto_is_debounced (p : msi_ec_conf) (d : driver) (channel : Z) :
  In p CONFIGURATIONS -> conf d = copy_conf p ->
  channel = 0 \/ channel = 1 ->
  (vget (virtual_hwmon_pwm_enable d) (1 - channel) <> PWM_ENABLE_AUTO ->
   exists result d' new,
     msi_ec_hwmon_write d channel PWM_ENABLE_AUTO = Returns (result, d')
     /\ set_cooler_boost
          (set_virtual d (vset (virtual_hwmon_pwm_enable d) channel PWM_ENABLE_AUTO))
          false = (result, d')
     /\ virtual_hwmon_pwm_enable d'
        = vset (virtual_hwmon_pwm_enable d) channel PWM_ENABLE_AUTO
     /\ ec_writes (ec d') = new ++ ec_writes (ec d)
     /\ (forall x, In x new ->
         fst x = u8 (cb_address (cooler_boost (conf d)))
         /\ fst x <> u8 (fm_address (fan_mode (conf d))))
     /\ ec_regs (ec d') (u8 (fm_address (fan_mode (conf d))))
        = ec_regs (ec d) (u8 (fm_address (fan_mode (conf d))))
     /\ (ec_healthy (ec d) ->
         result = 0
         /\ Z.testbit (ec_regs (ec d') (u8 (cb_address (cooler_boost (conf d)))))
              (cb_bit (cooler_boost (conf d))) = false
         /\ (exists e'',
              ec_check_bit (cb_address (cooler_boost (conf d)))
                (cb_bit (cooler_boost (conf d))) true (ec d')
              = (0, false, e''))
         /\ (forall k, 0 <= k < 8 -> k <> cb_bit (cooler_boost (conf d)) ->
              Z.testbit (ec_regs (ec d')
                           (u8 (cb_address (cooler_boost (conf d))))) k
              = Z.testbit (u8 (ec_regs (ec d)
                                 (u8 (cb_address (cooler_boost (conf d)))))) k)
         /\ (forall a, a <> u8 (cb_address (cooler_boost (conf d))) ->
              ec_regs (ec d') a = ec_regs (ec d) a)))
  /\ (vget (virtual_hwmon_pwm_enable d) (1 - channel) = PWM_ENABLE_AUTO ->
      ec_healthy (ec d) ->
      exists d' v,
        fan_mode_value (conf d) FM_AUTO_NAME = Some v
        /\ msi_ec_hwmon_write d channel PWM_ENABLE_AUTO = Returns (0, d')
        /\ hd_error (ec_writes (ec d'))
           = Some (u8 (fm_address (fan_mode (conf d))), u8 v)
        /\ ec_regs (ec d') (u8 (fm_address (fan_mode (conf d)))) = u8 v
        /\ forall val,
             msi_ec_hwmon_read d' 0 val = Returns (0, PWM_ENABLE_AUTO, d')
             /\ msi_ec_hwmon_read d' 1 val = Returns (0, PWM_ENABLE_AUTO, d')).
Proof.
  intros Hp Hconf Hch.
  assert (Hcond : (channel =? 0) || (channel =? 1) = true)
    by (destruct Hch; subst; reflexivity).
  pose proof (registry_cooler_boost p Hp) as Hcb.
  destruct (set_cooler_boost_frame
              (set_virtual d (vset (virtual_hwmon_pwm_enable d) channel
                                PWM_ENABLE_AUTO)) false)
    as [r [d1 [Hscb [Hc1 [Hv1 [_ [_ [Hh1 [Hregs [new [Hnew Hall]]]]]]]]]]].
  simpl conf in Hc1, Hregs, Hall. simpl virtual_hwmon_pwm_enable in Hv1.
  simpl ec in Hh1, Hregs, Hnew.
  assert (Hfm : u8 (fm_address (fan_mode (conf d)))
                <> u8 (cb_address (cooler_boost (conf d)))).
  { rewrite Hconf. simpl. congruence. }
  split.
  - intros Hother. exists r, d1, new.
    split.
    + unfold msi_ec_hwmon_write. rewrite Hcond.
      change (as_int PWM_ENABLE_AUTO) with PWM_ENABLE_AUTO.
      change (PWM_ENABLE_AUTO =? PWM_ENABLE_FULL) with false.
      change (PWM_ENABLE_AUTO =? PWM_ENABLE_MANUAL) with false.
      change (PWM_ENABLE_AUTO =? PWM_ENABLE_AUTO) with true.
      cbv iota. rewrite Hscb, Hv1.
      rewrite (vset_not_both _ _ Hch Hother). reflexivity.
    + split; [exact Hscb|]. split; [exact Hv1|]. split; [exact Hnew|].
      split; [|split].
      * intros x Hx. rewrite (Hall x Hx). split; [reflexivity | congruence].
      * now apply Hregs.
      * intros He.
        destruct (registry_cb p Hp) as [Hsupp [Hbit _]].
        destruct (set_cooler_boost_healthy
                    (set_virtual d (vset (virtual_hwmon_pwm_enable d) channel
                                      PWM_ENABLE_AUTO)) false He)
          as [d1' [Hscb' [_ [He1' [_ Hr']]]]].
        { cbn [set_virtual conf]. rewrite Hconf. exact Hsupp. }
        rewrite Hscb in Hscb'. injection Hscb' as -> <-.
        cbn [set_virtual conf ec] in Hr'.
        assert (Hcbit : 0 <= cb_bit (cooler_boost (conf d)) < 8)
          by (rewrite Hconf; exact Hbit).
        split; [reflexivity|]. split; [|split; [|split]].
        -- rewrite Hr', Z.eqb_refl, with_bit_testbit, Z.eqb_refl by lia.
           apply andb_false_r.
        -- exists (ec_consume (ec d1)).
           rewrite (ec_check_bit_healthy _ _ true (ec d1) He1' Hcbit).
           rewrite Hr', Z.eqb_refl.
           rewrite (u8_small _ (with_bit_byte _ _ _)).
           rewrite with_bit_testbit, Z.eqb_refl by lia.
           now rewrite andb_false_r.
        -- intros k Hk Hne. rewrite Hr', Z.eqb_refl, with_bit_testbit by lia.
           destruct (Z.eqb_spec (cb_bit (cooler_boost (conf d))) k);
             [congruence|].
           destruct (Z.ltb_spec k 8); [reflexivity | lia].
        -- intros a Ha. rewrite Hr'.
           destruct (Z.eqb_spec a (u8 (cb_address (cooler_boost (conf d)))));
             [contradiction | reflexivity].
  - intros Hother He.
    destruct (registry_auto p Hp) as [Havail [v Hv]]. rewrite <- Hconf in Havail, Hv.
    assert (Hboth : virtual_hwmon_pwm_enable d1 = (PWM_ENABLE_AUTO, PWM_ENABLE_AUTO)).
    { rewrite Hv1. exact (vset_both _ _ Hch Hother). }
    destruct (mode_change_other_ok all_curves_list d1 (Hh1 He))
      as [d2 [Hm [Hc2 [He2 Hv2]]]].
    destruct (ec_write_healthy (fm_address (fan_mode (conf d1))) v (ec d2) He2)
      as [e' [Hw [He' [Hr' Hlog]]]].
    assert (Hset : set_fan_mode d1 FM_AUTO_NAME = (0, set_ec d2 e')).
    { unfold set_fan_mode. rewrite Hc1 in *.
      rewrite (set_fan_mode_loop_found _ _ _ _ Hv).
      unfold curve_fan_mode_change.
      change (String.eqb FM_AUTO_NAME FM_ADVANCED_NAME) with false. cbv iota.
      rewrite Hm. cbn [Z.ltb Z.compare]. rewrite Hc1, Hw. reflexivity. }
    exists (set_ec d2 e'), v.
    split; [exact Hv|]. split.
    + unfold msi_ec_hwmon_write. rewrite Hcond.
      change (as_int PWM_ENABLE_AUTO) with PWM_ENABLE_AUTO.
      change (PWM_ENABLE_AUTO =? PWM_ENABLE_FULL) with false.
      change (PWM_ENABLE_AUTO =? PWM_ENABLE_MANUAL) with false.
      change (PWM_ENABLE_AUTO =? PWM_ENABLE_AUTO) with true.
      cbv iota. rewrite Hscb, Hboth. cbn [fst snd].
      change (PWM_ENABLE_AUTO =? PWM_ENABLE_AUTO) with true. cbn [andb].
      rewrite Hc1, Havail. cbn [bind]. rewrite Hset. reflexivity.
    + rewrite Hc1 in Hr', Hlog. simpl ec. rewrite Hlog, Hr'.
      split; [reflexivity|]. split; [now rewrite Z.eqb_refl|].
      intros val. unfold msi_ec_hwmon_read. simpl virtual_hwmon_pwm_enable.
      rewrite Hv2, Hboth. split; reflexivity.
Qed.

Lemma auto_is_debounced_witness :
  In CONF401 CONFIGURATIONS
  /\ (0 = 0 \/ 0 = 1)
  /\ vget (virtual_hwmon_pwm_enable (driver_example (fun _ => 0xff) [] (1, 1)))
       (1 - 0) <> PWM_ENABLE_AUTO
  /\ vget (virtual_hwmon_pwm_enable (driver_example (fun _ => 0) [] (1, 2)))
       (1 - 0) = PWM_ENABLE_AUTO
  /\ ec_healthy (ec (driver_example (fun _ => 0) [] (1, 2)))
  /\ (exists d' new,
        msi_ec_hwmon_write (driver_example (fun _ => 0xff) [] (1, 1)) 0
          PWM_ENABLE_AUTO = Returns (0, d')
        /\ virtual_hwmon_pwm_enable d' = (PWM_ENABLE_AUTO, 1)
        /\ ec_writes (ec d') = new ++ []
        /\ (forall x, In x new -> fst x <> 0xd4)
        /\ Z.testbit
             (ec_regs (ec (driver_example (fun _ => 0xff) [] (1, 1))) 0x98) 7
           = true
        /\ Z.testbit (ec_regs (ec d') 0x98) 7 = false
        /\ ec_regs (ec d') 0xd4 = 0xff)
  /\ (exists d',
        msi_ec_hwmon_write (driver_example (fun _ => 0) [] (1, 2)) 0
          PWM_ENABLE_AUTO = Returns (0, d')
        /\ hd_error (ec_writes (ec d')) = Some (0xd4, 0)
        /\ msi_ec_hwmon_read d' 0 0 = Returns (0, PWM_ENABLE_AUTO, d')
        /\ msi_ec_hwmon_read d' 1 0 = Returns (0, PWM_ENABLE_AUTO, d')).
Proof.
  assert (Hin : In CONF401 CONFIGURATIONS) by (unfold CONFIGURATIONS; simpl; tauto).
  assert (Hne : vget (virtual_hwmon_pwm_enable
                        (driver_example (fun _ => 0xff) [] (1, 1))) (1 - 0)
                <> PWM_ENABLE_AUTO) by (vm_compute; discriminate).
  assert (Hh : ec_healthy (ec (driver_example (fun _ => 0) [] (1, 2))))
    by constructor.
  split; [exact Hin|]. split; [now left|]. split; [exact Hne|].
  split; [reflexivity|]. split; [exact Hh|]. split.
  - destruct (proj1 (auto_is_debounced CONF401
                       (driver_example (fun _ => 0xff) [] (1, 1)) 0
                       Hin eq_refl (or_introl eq_refl)) Hne)
      as [result [d' [new [H1 [_ [H3 [H4 [H5 [H6 H7]]]]]]]]].
    destruct (H7 ltac:(constructor)) as [-> [Hbit _]].
    exists d', new. split; [exact H1|]. split; [exact H3|].
    split; [exact H4|].
    split; [intros x Hx; exact (proj2 (H5 x Hx))|].
    split; [reflexivity|]. split; [exact Hbit | exact H6].
  - destruct (proj2 (auto_is_debounced CONF401
                       (driver_example (fun _ => 0) [] (1, 2)) 0
                       Hin eq_refl (or_introl eq_refl)) eq_refl Hh)
      as [d' [v [Hv [H1 [H2 [_ H4]]]]]].
    assert (E : v = 0) by (vm_compute in Hv; congruence). subst v.
    exists d'. split; [exact H1|]. split; [exact H2|]. exact (H4 0).
Defined.

(* ================================================================= *)
(** ** Curves: what a pull reads *)

Lemma aget_ext (a b : list Z) :
  List.length a = List.length b -> (forall k, aget a k = aget b k) -> a = b.
Proof.
  intros Hl H. apply (nth_ext a b 0 0 Hl). intros k _. apply H.
Qed.

(** The read loop on a healthy EC fills [buf[i .. i + n - 1]] with the
    registers [j .. j + n - 1] and leaves the rest of the buffer. *)
Lemma sync_loop_reads (n i : nat) (j : Z) (buf : list Z) (e : ec_state) :
  ec_healthy e -> (i + n <= List.length buf)%nat ->
  exists buf' e',
    sync_loop n i j buf e = (0, buf', e') /\ ec_healthy e'
    /\ ec_regs e' = ec_regs e /\ ec_writes e' = ec_writes e
    /\ List.length buf' = List.length buf
    /\ (forall k, aget buf' k
          = if (i <=? k)%nat && (k <? i + n)%nat
            then u8 (ec_regs e (u8 (j + Z.of_nat (k - i))))
            else aget buf k).
Proof.
  revert i j buf e. induction n as [|n IH]; intros i j buf e He Hlen.
  - exists buf, e. simpl. repeat split; auto. intros k.
    destruct (Nat.leb_spec i k); destruct (Nat.ltb_spec k (i + 0));
      simpl; auto; lia.
  - cbn [sync_loop]. rewrite (ec_read_healthy j (aget buf i) e He). cbn [Z.eqb].
    destruct (IH (S i) (j + 1) (aset buf i (u8 (ec_regs e (u8 j))))
                (ec_consume e) (ec_consume_healthy e He))
      as [buf' [e' [Hs [He' [Hr [Hw [Hl Hget]]]]]]].
    { rewrite aset_length. lia. }
    exists buf', e'. split; [exact Hs|]. split; [exact He'|].
    split; [exact Hr|]. split; [exact Hw|].
    split; [now rewrite Hl, aset_length|].
    intros k. rewrite Hget. cbn [ec_consume ec_regs].
    rewrite aget_aset by lia.
    destruct (Nat.leb_spec (S i) k); destruct (Nat.leb_spec i k);
      destruct (Nat.ltb_spec k (S i + n)); destruct (Nat.ltb_spec k (i + S n));
      destruct (Nat.eqb_spec k i); cbn [andb]; try reflexivity; try lia.
    + do 3 f_equal. lia.
    + subst k. rewrite Nat.sub_diag, Z.add_0_r. reflexivity.
Qed.

Lemma allowed_count (curve : msi_ec_fan_curve) :
  is_curve_allowed curve = true ->
  1 <= entries_count curve <= CURVE_MAX_ENTRIES.
Proof.
  unfold is_curve_allowed, CURVE_MAX_ENTRIES. intros H.
  destruct (_ || _) eqn:E; [discriminate|].
  repeat (apply orb_false_iff in E; destruct E as [E ?]).
  destruct (Z.leb_spec (entries_count curve) 0); [congruence|].
  destruct (Z.gtb_spec (entries_count curve) 16); [congruence|]. lia.
Qed.

(** [sync_ec_curve] on a healthy EC and an allowed curve: the first
    [entries_count] speeds and [entries_count - 1] temperatures come
    from the registers, the rest of the two buffers stays. *)
Lemma sync_ec_curve_reads (curve : msi_ec_fan_curve) (speed temp : list Z)
    (e : ec_state) :
  is_curve_allowed curve = true -> ec_healthy e ->
  List.length speed = 16%nat -> List.length temp = 16%nat ->
  exists s t e',
    sync_ec_curve curve speed temp e = (0, s, t, e') /\ ec_healthy e'
    /\ ec_regs e' = ec_regs e /\ ec_writes e' = ec_writes e
    /\ List.length s = 16%nat /\ List.length t = 16%nat
    /\ (forall k, aget s k
          = if (k <? Z.to_nat (entries_count curve))%nat
            then u8 (ec_regs e (u8 (speed_start_address curve + Z.of_nat k)))
            else aget speed k)
    /\ (forall k, aget t k
          = if (k <? Z.to_nat (entries_count curve - 1))%nat
            then u8 (ec_regs e (u8 (temperature_start_address curve + Z.of_nat k)))
            else aget temp k).
Proof.
  intros Ha He Hls Hlt. pose proof (allowed_count curve Ha) as Hn.
  unfold CURVE_MAX_ENTRIES in Hn.
  unfold sync_ec_curve. rewrite Ha. cbn [negb].
  destruct (sync_loop_reads (Z.to_nat (entries_count curve)) 0
              (speed_start_address curve) speed e He ltac:(lia))
    as [s [e1 [Hs1 [He1 [Hr1 [Hw1 [Hl1 Hg1]]]]]]].
  rewrite Hs1. cbn [Z.eqb].
  destruct (sync_loop_reads (Z.to_nat (entries_count curve - 1)) 0
              (temperature_start_address curve) temp e1 He1 ltac:(lia))
    as [t [e2 [Hs2 [He2 [Hr2 [Hw2 [Hl2 Hg2]]]]]]].
  rewrite Hs2. exists s, t, e2.
  split; [reflexivity|]. split; [exact He2|]. split; [congruence|].
  split; [congruence|]. split; [congruence|]. split; [congruence|]. split.
  - intros k. rewrite Hg1. cbn [Nat.leb andb Nat.add]. now rewrite Nat.sub_0_r.
  - intros k. rewrite Hg2, Hr1. cbn [Nat.leb andb Nat.add]. now rewrite Nat.sub_0_r.
Qed.

(** X14.  Let the curve be allowed, let its registers be pairwise
    distinct and let the EC work without failure.  Pushing two buffers
    and then pulling into any two buffers succeeds twice and reproduces
    the first [entries_count] speeds and [entries_count - 1]
    temperatures that were pushed; the elements after them keep what the
    receiving buffers held.  The pull leaves the registers as they
    are. *)
Theorem push_sync_round_trip (curve : msi_ec_fan_curve)
    (speed temp speed0 temp0 : list Z) (e : ec_state) :
  is_curve_allowed curve = true -> NoDup (curve_regs curve) -> ec_healthy e ->
  curve_buffer speed -> curve_buffer temp ->
  curve_buffer speed0 -> curve_buffer temp0 ->
  exists e1 s t e2,
    push_ec_curve curve speed temp e = (0, e1)
    /\ sync_ec_curve curve speed0 temp0 e1 = (0, s, t, e2)
    /\ ec_regs e2 = ec_regs e1
    /\ (forall k, aget s k
          = if (k <? Z.to_nat (entries_count curve))%nat
            then aget speed k else aget speed0 k)
    /\ (forall k, aget t k
          = if (k <? Z.to_nat (entries_count curve - 1))%nat
            then aget temp k else aget temp0 k).
Proof.
  intros Ha Hnd He [Hbs _] [Hbt _] [_ Hl0] [_ Hl0'].
  destruct (push_ec_curve_healthy curve speed temp e Ha He)
    as [e1 [Hp [He1 [_ Hheld]]]].
  destruct (Hheld Hnd) as [Hhs Hht].
  destruct (sync_ec_curve_reads curve speed0 temp0 e1 Ha He1 Hl0 Hl0')
    as [s [t [e2 [Hs [_ [Hr [_ [_ [_ [Hgs Hgt]]]]]]]]]].
  exists e1, s, t, e2. split; [exact Hp|]. split; [exact Hs|].
  split; [exact Hr|]. split.
  - intros k. rewrite Hgs.
    destruct (Nat.ltb_spec k (Z.to_nat (entries_count curve))); [|reflexivity].
    rewrite Hhs by assumption. rewrite u8_u8. apply u8_small.
    now apply aget_bytes.
  - intros k. rewrite Hgt.
    destruct (Nat.ltb_spec k (Z.to_nat (entries_count curve - 1))); [|reflexivity].
    rewrite Hht by assumption. rewrite u8_u8. apply u8_small.
    now apply aget_bytes.
Qed.

Lemma push_sync_round_trip_witness :
  exists e1 s t e2,
    push_ec_curve (fan_curve (cpu CONF401)) curve_example temp_example
      (ec (driver_example (fun _ => 0) [] (1, 1))) = (0, e1)
    /\ sync_ec_curve (fan_curve (cpu CONF401)) zero_buffer zero_buffer e1
       = (0, s, t, e2)
    /\ s = curve_example /\ t = temp_example.
Proof.
  destruct (push_sync_round_trip (fan_curve (cpu CONF401))
              curve_example temp_example zero_buffer zero_buffer
              (ec (driver_example (fun _ => 0) [] (1, 1))))
    as [e1 [s [t [e2 [Hp [Hs _]]]]]].
  - reflexivity.
  - apply nodupb_NoDup. vm_compute. reflexivity.
  - constructor.
  - split; [apply bytesb_spec; vm_compute; reflexivity | reflexivity].
  - split; [apply bytesb_spec; vm_compute; reflexivity | reflexivity].
  - split; [apply bytesb_spec; vm_compute; reflexivity | reflexivity].
  - split; [apply bytesb_spec; vm_compute; reflexivity | reflexivity].
  - exists e1, s, t, e2. split; [exact Hp|]. split; [exact Hs|].
    vm_compute in Hp. injection Hp as <-.
    vm_compute in Hs. injection Hs as <- <- _. split; reflexivity.
Defined.

(* ================================================================= *)
(** ** Curve life cycle: [curve_init] and [curve_destroy] *)

Lemma copy_loop_all (ts tt sb tb : list Z) :
  List.length ts = 16%nat -> List.length tt = 16%nat ->
  List.length sb = 16%nat -> List.length tb = 16%nat ->
  copy_loop (Z.to_nat CURVE_MAX_ENTRIES) 0 ts tt sb tb = (ts, tt).
Proof.
  intros H1 H2 H3 H4.
  pose proof (copy_loop_spec (Z.to_nat CURVE_MAX_ENTRIES) 0 ts tt sb tb) as H.
  change (Z.to_nat CURVE_MAX_ENTRIES) with 16%nat in *.
  destruct (copy_loop 16 0 ts tt sb tb) as [sb' tb'].
  destruct H as [Hl1 [Hl2 [Hs Ht]]]; [lia | lia |].
  f_equal; apply aget_ext; try congruence; intros k.
  - rewrite Hs. destruct (Nat.ltb_spec k (0 + 16)); [reflexivity|].
    cbn [Nat.leb andb]. unfold aget. rewrite !nth_overflow by lia. reflexivity.
  - rewrite Ht. destruct (Nat.ltb_spec k (0 + 16)); [reflexivity|].
    cbn [Nat.leb andb]. unfold aget. rewrite !nth_overflow by lia. reflexivity.
Qed.

Lemma pack_set_default (d : driver) (f : fan) (s t : list Z) :
  pack (set_default d f s t) f
  = {| curve_temp := curve_temp (pack d f); curve_temp_default := t;
       curve_fan_speed := curve_fan_speed (pack d f);
       curve_fan_speed_default := s |}.
Proof. destruct f; reflexivity. Qed.

Lemma pack_set_default_other (d : driver) (f g : fan) (s t : list Z) :
  g <> f -> pack (set_default d f s t) g = pack d g.
Proof. destruct f, g; intros H; try reflexivity; now contradiction H. Qed.

Lemma curve_init_healthy (d : driver) (f : fan) :
  ec_healthy (ec d) -> is_curve_allowed (pack_curve (conf d) f) = true ->
  List.length (curve_fan_speed (pack d f)) = 16%nat ->
  List.length (curve_temp (pack d f)) = 16%nat ->
  List.length (curve_fan_speed_default (pack d f)) = 16%nat ->
  List.length (curve_temp_default (pack d f)) = 16%nat ->
  exists d',
    curve_init d f = (0, d')
    /\ conf d' = conf d /\ ec_healthy (ec d')
    /\ ec_regs (ec d') = ec_regs (ec d) /\ ec_writes (ec d') = ec_writes (ec d)
    /\ curve_fan_speed (pack d' f) = curve_fan_speed_default (pack d' f)
    /\ curve_temp (pack d' f) = curve_temp_default (pack d' f)
    /\ List.length (curve_fan_speed_default (pack d' f)) = 16%nat
    /\ List.length (curve_temp_default (pack d' f)) = 16%nat
    /\ (forall k, aget (curve_fan_speed_default (pack d' f)) k
          = if (k <? Z.to_nat (entries_count (pack_curve (conf d) f)))%nat
            then u8 (ec_regs (ec d)
                       (u8 (speed_start_address (pack_curve (conf d) f)
                            + Z.of_nat k)))
            else aget (curve_fan_speed_default (pack d f)) k)
    /\ (forall k, aget (curve_temp_default (pack d' f)) k
          = if (k <? Z.to_nat (entries_count (pack_curve (conf d) f) - 1))%nat
            then u8 (ec_regs (ec d)
                       (u8 (temperature_start_address (pack_curve (conf d) f)
                            + Z.of_nat k)))
            else aget (curve_temp_default (pack d f)) k)
    /\ (forall g, g <> f -> pack d' g = pack d g).
Proof.
  intros He Ha Hl1 Hl2 Hl3 Hl4. unfold curve_init. rewrite Ha.
  destruct (sync_ec_curve_reads (pack_curve (conf d) f)
              (curve_fan_speed_default (pack d f)) (curve_temp_default (pack d f))
              (ec d) Ha He Hl3 Hl4)
    as [s [t [e' [Hs [He' [Hr [Hw [Hls [Hlt [Hgs Hgt]]]]]]]]]].
  rewrite Hs. cbn [Z.ltb Z.compare].
  rewrite pack_set_ec, pack_set_default. cbn [curve_fan_speed curve_temp].
  rewrite (copy_loop_all s t _ _ Hls Hlt Hl1 Hl2).
  eexists. split; [reflexivity|].
  split; [reflexivity|]. split; [exact He'|]. split; [exact Hr|].
  split; [exact Hw|].
  assert (Hp : pack (set_active (set_ec (set_default d f s t) e') f s t) f
               = {| curve_temp := t; curve_temp_default := t;
                    curve_fan_speed := s; curve_fan_speed_default := s |})
    by (destruct f; reflexivity).
  rewrite Hp. cbn [curve_fan_speed curve_temp curve_fan_speed_default
                     curve_temp_default].
  repeat (split; [solve [reflexivity | assumption]|]).
  intros g Hg. destruct f, g; try reflexivity; now contradiction Hg.
Qed.

(** X15.  [curve_init] on a curve that is not allowed returns 0 and
    does nothing.  On an allowed curve and an EC that works without
    failure it returns 0 without writing to the EC; afterwards the first
    [entries_count] default speeds and [entries_count - 1] default
    temperatures are the bytes of the curve registers, the active
    buffers are equal to the default buffers in all their elements, and
    the buffers of the other fan are untouched. *)
Theorem curve_init_reads (d : driver) (f : fan) :
  ec_healthy (ec d) ->
  curve_buffer (curve_fan_speed (pack d f)) ->
  curve_buffer (curve_temp (pack d f)) ->
  curve_buffer (curve_fan_speed_default (pack d f)) ->
  curve_buffer (curve_temp_default (pack d f)) ->
  (is_curve_allowed (pack_curve (conf d) f) = false -> curve_init d f = (0, d))
  /\ (is_curve_allowed (pack_curve (conf d) f) = true ->
      exists d',
        curve_init d f = (0, d')
        /\ conf d' = conf d
        /\ ec_regs (ec d') = ec_regs (ec d)
        /\ ec_writes (ec d') = ec_writes (ec d)
        /\ curve_fan_speed (pack d' f) = curve_fan_speed_default (pack d' f)
        /\ curve_temp (pack d' f) = curve_temp_default (pack d' f)
        /\ (forall k,
              (k < Z.to_nat (entries_count (pack_curve (conf d) f)))%nat ->
              aget (curve_fan_speed_default (pack d' f)) k
              = u8 (ec_regs (ec d)
                      (u8 (speed_start_address (pack_curve (conf d) f)
                           + Z.of_nat k))))
        /\ (forall k,
              (k < Z.to_nat (entries_count (pack_curve (conf d) f) - 1))%nat ->
              aget (curve_temp_default (pack d' f)) k
              = u8 (ec_regs (ec d)
                      (u8 (temperature_start_address (pack_curve (conf d) f)
                           + Z.of_nat k))))
        /\ (forall g, g <> f -> pack d' g = pack d g)).
Proof.
  intros He [_ Hl1] [_ Hl2] [_ Hl3] [_ Hl4]. split.
  - intros Hna. unfold curve_init. now rewrite Hna.
  - intros Ha.
    destruct (curve_init_healthy d f He Ha Hl1 Hl2 Hl3 Hl4)
      as [d' [Hi [Hc [_ [Hr [Hw [Hs [Ht [_ [_ [Hgs [Hgt Ho]]]]]]]]]]]].
    exists d'. split; [exact Hi|]. split; [exact Hc|]. split; [exact Hr|].
    split; [exact Hw|]. split; [exact Hs|]. split; [exact Ht|].
    split; [|split; [|exact Ho]].
    + intros k Hk. rewrite Hgs.
      destruct (Nat.ltb_spec k (Z.to_nat (entries_count (pack_curve (conf d) f))));
        [reflexivity | lia].
    + intros k Hk. rewrite Hgt.
      destruct (Nat.ltb_spec k
                  (Z.to_nat (entries_count (pack_curve (conf d) f) - 1)));
        [reflexivity | lia].
Qed.

Lemma curve_init_reads_witness :
  exists d',
    curve_init (driver_example (fun a => a) [] (1, 1)) CPU = (0, d')
    /\ curve_fan_speed (pack d' CPU) = curve_fan_speed_default (pack d' CPU)
    /\ aget (curve_fan_speed_default (pack d' CPU)) 2 = 0x74
    /\ aget (curve_temp_default (pack d' CPU)) 0 = 0x6a
    /\ pack d' GPU = pack_example.
Proof.
  destruct (curve_init_reads (driver_example (fun a => a) [] (1, 1)) CPU)
    as [_ H].
  - constructor.
  - split; [apply bytesb_spec; vm_compute; reflexivity | reflexivity].
  - split; [apply bytesb_spec; vm_compute; reflexivity | reflexivity].
  - split; [apply bytesb_spec; vm_compute; reflexivity | reflexivity].
  - split; [apply bytesb_spec; vm_compute; reflexivity | reflexivity].
  - destruct (H eq_refl) as [d' [Hi [_ [_ [_ [Hs [_ [Hgs [Hgt Ho]]]]]]]]].
    exists d'. split; [exact Hi|]. split; [exact Hs|].
    split; [rewrite Hgs by (simpl; lia); reflexivity|].
    split; [rewrite Hgt by (simpl; lia); reflexivity|].
    apply Ho. discriminate.
Defined.

Lemma in_region_inv (j a : Z) (n : nat) :
  In a (region j n) -> exists k, (k < n)%nat /\ a = u8 (j + Z.of_nat k).
Proof.
  unfold region. intros H. apply in_map_iff in H. destruct H as [k [<- Hk]].
  exists k. split; [apply in_seq in Hk; lia | reflexivity].
Qed.

(** X16.  Let the curve be allowed with pairwise distinct registers.
    Let [curve_init] have run on an EC without failure, and let the
    driver later be in any state with the same configuration and the
    same default buffers, again on an EC without failure.  Then
    [curve_destroy] returns 0 and writes back what [curve_init] read:
    every register of the curve holds the byte it held when
    [curve_init] ran, the other registers are not written, and the
    active buffers are the default buffers again. *)
Theorem curve_init_destroy (d d1 d2 : driver) (f : fan) :
  ec_healthy (ec d) ->
  is_curve_allowed (pack_curve (conf d) f) = true ->
  NoDup (curve_regs (pack_curve (conf d) f)) ->
  curve_buffer (curve_fan_speed (pack d f)) ->
  curve_buffer (curve_temp (pack d f)) ->
  curve_buffer (curve_fan_speed_default (pack d f)) ->
  curve_buffer (curve_temp_default (pack d f)) ->
  curve_init d f = (0, d1) ->
  same_defaults d1 d2 -> ec_healthy (ec d2) ->
  curve_buffer (curve_fan_speed (pack d2 f)) ->
  curve_buffer (curve_temp (pack d2 f)) ->
  exists d3,
    curve_destroy d2 f = (0, d3)
    /\ (forall a, In a (curve_regs (pack_curve (conf d) f)) ->
          ec_regs (ec d3) a = u8 (ec_regs (ec d) a))
    /\ (forall a, ~ In a (curve_regs (pack_curve (conf d) f)) ->
          ec_regs (ec d3) a = ec_regs (ec d2) a)
    /\ curve_fan_speed (pack d3 f) = curve_fan_speed_default (pack d1 f)
    /\ curve_temp (pack d3 f) = curve_temp_default (pack d1 f).
Proof.
  intros He Ha Hnd [_ Hl1] [_ Hl2] [_ Hl3] [_ Hl4] Hinit [Hc2 Hdef] He2
    [_ Hl5] [_ Hl6].
  destruct (curve_init_healthy d f He Ha Hl1 Hl2 Hl3 Hl4)
    as [d1' [Hi [Hc1 [_ [_ [_ [_ [_ [Hls [Hlt [Hgs [Hgt _]]]]]]]]]]]].
  rewrite Hinit in Hi. injection Hi as <-.
  destruct (Hdef f) as [Hds Hdt].
  assert (Hc : conf d2 = conf d) by congruence.
  unfold curve_destroy. rewrite Hc, Ha, Hds, Hdt.
  destruct (push_ec_curve_healthy (pack_curve (conf d) f)
              (curve_fan_speed_default (pack d1 f))
              (curve_temp_default (pack d1 f)) (ec d2) Ha He2)
    as [e3 [Hp [He3 [Hframe Hheld]]]].
  rewrite Hp. cbn [Z.ltb Z.compare]. rewrite pack_set_ec, Hds, Hdt.
  rewrite (copy_loop_all _ _ _ _ Hls Hlt Hl5 Hl6).
  eexists. split; [reflexivity|]. cbn [set_active ec set_ec].
  destruct (Hheld Hnd) as [Hhs Hht].
  split; [|split; [exact Hframe|]].
  - intros a Hin. unfold curve_regs in Hin. apply in_app_or in Hin.
    destruct Hin as [Hin|Hin]; apply in_region_inv in Hin;
      destruct Hin as [k [Hk ->]].
    + rewrite Hhs by exact Hk. rewrite Hgs.
      destruct (Nat.ltb_spec k (Z.to_nat (entries_count (pack_curve (conf d) f))));
        [apply u8_u8 | lia].
    + rewrite Hht by exact Hk. rewrite Hgt.
      destruct (Nat.ltb_spec k
                  (Z.to_nat (entries_count (pack_curve (conf d) f) - 1)));
        [apply u8_u8 | lia].
  - destruct f; split; reflexivity.
Qed.

Lemma curve_init_destroy_witness :
  exists d1 d3,
    curve_init (driver_example (fun a => a) [] (1, 1)) CPU = (0, d1)
    /\ curve_destroy
         (set_ec d1 {| ec_regs := fun _ => 0; ec_faults := []; ec_writes := [] |})
         CPU = (0, d3)
    /\ ec_regs (ec d3) 0x72 = 0x72 /\ ec_regs (ec d3) 0x6f = 0x6f
    /\ ec_regs (ec d3) 0x80 = 0.
Proof.
  assert (Hi : exists d1,
             curve_init (driver_example (fun a => a) [] (1, 1)) CPU = (0, d1))
    by (eexists; vm_compute; reflexivity).
  destruct Hi as [d1 Hi]. exists d1.
  destruct (curve_init_destroy (driver_example (fun a => a) [] (1, 1)) d1
              (set_ec d1 {| ec_regs := fun _ => 0; ec_faults := [];
                            ec_writes := [] |}) CPU)
    as [d3 [Hd [Hin [Hout _]]]].
  - constructor.
  - reflexivity.
  - apply nodupb_NoDup. vm_compute. reflexivity.
  - split; [apply bytesb_spec; vm_compute; reflexivity | reflexivity].
  - split; [apply bytesb_spec; vm_compute; reflexivity | reflexivity].
  - split; [apply bytesb_spec; vm_compute; reflexivity | reflexivity].
  - split; [apply bytesb_spec; vm_compute; reflexivity | reflexivity].
  - exact Hi.
  - split; [reflexivity|]. intros f. rewrite pack_set_ec. split; reflexivity.
  - constructor.
  - rewrite pack_set_ec. vm_compute in Hi. injection Hi as <-.
    split; [apply bytesb_spec; vm_compute; reflexivity | reflexivity].
  - rewrite pack_set_ec. vm_compute in Hi. injection Hi as <-.
    split; [apply bytesb_spec; vm_compute; reflexivity | reflexivity].
  - exists d3. split; [exact Hi|]. split; [exact Hd|].
    split; [|split].
    + rewrite Hin; [reflexivity|]. vm_compute. tauto.
    + rewrite Hin; [reflexivity|]. vm_compute. tauto.
    + rewrite Hout; [reflexivity|]. vm_compute. intros H.
      decompose [or] H; discriminate || assumption.
Defined.

(* ================================================================= *)
(** ** The default buffers are written by [curve_init] only *)

Lemma same_defaults_refl (d : driver) : same_defaults d d.
Proof. split; [reflexivity|]. intros f. split; reflexivity. Qed.

Lemma same_defaults_trans (d1 d2 d3 : driver) :
  same_defaults d1 d2 -> same_defaults d2 d3 -> same_defaults d1 d3.
Proof.
  intros [Hc1 H1] [Hc2 H2]. split; [congruence|]. intros f.
  destruct (H1 f), (H2 f). split; congruence.
Qed.

Lemma same_defaults_set_ec (d d' : driver) (e : ec_state) :
  same_defaults d d' -> same_defaults d (set_ec d' e).
Proof.
  intros [Hc H]. split; [exact Hc|]. intros f. rewrite pack_set_ec. apply H.
Qed.

Lemma same_defaults_set_virtual (d d' : driver) (v : Z * Z) :
  same_defaults d d' -> same_defaults d (set_virtual d' v).
Proof.
  intros [Hc H]. split; [exact Hc|]. intros f.
  replace (pack (set_virtual d' v) f) with (pack d' f) by (destruct f; reflexivity).
  apply H.
Qed.

Lemma same_defaults_set_active (d d' : driver) (g : fan) (s t : list Z) :
  same_defaults d d' -> same_defaults d (set_active d' g s t).
Proof.
  intros [Hc H]. split; [exact Hc|]. intros f.
  destruct (H f) as [H1 H2]. destruct g, f; cbn; auto.
Qed.

Create HintDb defaults.
#[local] Hint Resolve same_defaults_refl same_defaults_set_ec
  same_defaults_set_virtual same_defaults_set_active : defaults.

Lemma mode_change_advanced_defaults (l : list fan) (d0 d : driver) :
  same_defaults d0 d -> same_defaults d0 (snd (mode_change_advanced l d)).
Proof.
  revert d. induction l as [|h l IH]; intros d H; [exact H|].
  cbn [mode_change_advanced].
  destruct (_ && _); [|now apply IH].
  destruct (push_ec_curve _ _ _ _) as [status e'].
  destruct (status <? 0); [cbn [snd]; auto with defaults|].
  apply IH. auto with defaults.
Qed.

Lemma mode_change_other_defaults (l : list fan) (d0 d : driver) :
  same_defaults d0 d -> same_defaults d0 (snd (mode_change_other l d)).
Proof.
  revert d. induction l as [|h l IH]; intros d H; [exact H|].
  cbn [mode_change_other].
  destruct (_ && _); [|now apply IH].
  destruct (sync_ec_curve_safe _ _ _ _ _) as [[[r s] t] e1].
  destruct (push_ec_curve _ _ _ _) as [status e'].
  destruct (status <? 0); [cbn [snd]; auto with defaults|].
  apply IH. auto with defaults.
Qed.

Lemma curve_fan_mode_change_defaults (d0 d : driver) (mode : string) :
  same_defaults d0 d -> same_defaults d0 (snd (curve_fan_mode_change d mode)).
Proof.
  intros H. unfold curve_fan_mode_change. destruct (String.eqb _ _).
  - now apply mode_change_advanced_defaults.
  - now apply mode_change_other_defaults.
Qed.

Lemma set_fan_mode_defaults (d0 d : driver) (mode : string) :
  same_defaults d0 d -> same_defaults d0 (snd (set_fan_mode d mode)).
Proof.
  intros H. unfold set_fan_mode.
  induction (firstn 5 (modes (fan_mode (conf d)))) as [|m ms IH];
    cbn [set_fan_mode_loop]; [exact H|].
  destruct (name m) as [n|]; [|exact IH].
  destruct (String.eqb n mode); [|exact IH].
  pose proof (curve_fan_mode_change_defaults d0 d mode H) as H1.
  destruct (curve_fan_mode_change d mode) as [r1 d1]. cbn [snd] in H1.
  destruct (r1 <? 0); [exact H1|].
  destruct (ec_write _ _ _) as [r2 e'].
  destruct (r2 <? 0); cbn [snd]; auto with defaults.
Qed.

Lemma set_cooler_boost_defaults (d0 d : driver) (enable : bool) :
  same_defaults d0 d -> same_defaults d0 (snd (set_cooler_boost d enable)).
Proof.
  intros H. unfold set_cooler_boost.
  destruct (_ =? _); [exact H|].
  destruct (ec_set_bit _ _ _ _) as [r e'].
  destruct (r <? 0); cbn [snd]; auto with defaults.
Qed.

(** X17.  Whatever the EC does, none of the operations that run after
    module load changes the configuration or a default buffer: the
    whole-curve write and read, the per-point write, the fan-mode hook
    and the two fan-mode setters, and the PWM-enable write. *)
Theorem default_buffers_kept (d : driver) :
  (forall f buf stack, same_defaults d (snd (curve_store d f buf stack)))
  /\ (forall f, same_defaults d (snd (curve_show d f)))
  /\ (forall fan_idx point is_pwm buf,
        same_defaults d (snd (curve_attr_store d fan_idx point is_pwm buf)))
  /\ (forall mode, same_defaults d (snd (curve_fan_mode_change d mode)))
  /\ (forall mode, same_defaults d (snd (set_fan_mode d mode)))
  /\ (forall buf, same_defaults d (snd (fan_mode_store d buf)))
  /\ (forall channel v r d',
        msi_ec_hwmon_write d channel v = Returns (r, d') -> same_defaults d d').
Proof.
  split; [|split; [|split; [|split; [|split; [|split]]]]].
  - intros f buf stack. unfold curve_store.
    destruct (read_curve _ _ _ _ _) as [[scount sbuf] tbuf].
    destruct (scount <? 0); [cbn [snd]; auto with defaults|].
    destruct (push_ec_curve_safe _ _ _ _ _) as [status e'].
    destruct (status <? 0); cbn [snd]; auto with defaults.
  - intros f. unfold curve_show.
    destruct (sync_ec_curve_safe _ _ _ _ _) as [[[status s] t] e'].
    destruct (status <? 0); [cbn [snd]; auto with defaults|].
    destruct (print_curve _ _ _); cbn [snd]; auto with defaults.
  - intros fan_idx point is_pwm buf. unfold curve_attr_store.
    destruct (kstrtoul buf 0) as [ret val].
    destruct (ret <? 0); [cbn [snd]; auto with defaults|].
    match goal with
    | |- context [match ?x with Some _ => _ | None => _ end] =>
        destruct x as [[sbuf tbuf]|]
    end; [|cbn [snd]; auto with defaults].
    destruct (push_ec_curve_safe _ _ _ _ _) as [r e'].
    destruct (r <? 0); cbn [snd]; auto with defaults.
  - intros mode. apply curve_fan_mode_change_defaults. auto with defaults.
  - intros mode. apply set_fan_mode_defaults. auto with defaults.
  - intros buf. unfold fan_mode_store. rewrite fan_mode_store_loop_slot.
    destruct (store_slot _ buf) as [[mode v]|]; [|cbn [snd]; auto with defaults].
    pose proof (curve_fan_mode_change_defaults d d mode (same_defaults_refl d))
      as H1.
    destruct (curve_fan_mode_change d mode) as [r1 d1]. cbn [snd] in H1.
    destruct (r1 <? 0); [exact H1|].
    destruct (ec_write _ _ _) as [r2 e'].
    destruct (r2 <? 0); cbn [snd]; auto with defaults.
  - intros channel v r d'. unfold msi_ec_hwmon_write.
    destruct (_ || _); [|intros [= <- <-]; auto with defaults].
    set (d0 := set_virtual d _).
    assert (H0 : same_defaults d d0) by (unfold d0; auto with defaults).
    assert (Hnamed : forall mode V,
              (let '(_, d1) := set_cooler_boost d0 false in
               do avail <- fan_mode_is_available (conf d1) mode;
               if avail then
                 let '(result, d2) := set_fan_mode d1 mode in
                 Returns (result, set_virtual d2 (V, V))
               else Returns (- EINVAL, d1)) = Returns (r, d') ->
              same_defaults d d').
    { intros mode V.
      pose proof (set_cooler_boost_defaults d d0 false H0) as H1.
      destruct (set_cooler_boost d0 false) as [r1 d1]. cbn [snd] in H1.
      destruct (fan_mode_is_available (conf d1) mode) as [[|]|]; cbn [bind].
      - pose proof (set_fan_mode_defaults d d1 mode H1) as H2.
        destruct (set_fan_mode d1 mode) as [r2 d2]. cbn [snd] in H2.
        intros [= <- <-]. auto with defaults.
      - intros [= <- <-]. exact H1.
      - discriminate. }
    destruct (v =? PWM_ENABLE_FULL).
    { destruct (negb _); [|intros [= <- <-]; exact H0].
      pose proof (set_cooler_boost_defaults d d0 true H0) as H1.
      destruct (set_cooler_boost d0 true) as [r1 d1]. cbn [snd] in H1.
      intros [= <- <-]. auto with defaults. }
    destruct (v =? PWM_ENABLE_MANUAL); [apply Hnamed|].
    destruct (v =? PWM_ENABLE_AUTO).
    { pose proof (set_cooler_boost_defaults d d0 false H0) as H1.
      destruct (set_cooler_boost d0 false) as [r1 d1]. cbn [snd] in H1.
      destruct (_ && _); [|intros [= <- <-]; exact H1].
      destruct (fan_mode_is_available (conf d1) FM_AUTO_NAME) as [[|]|];
        cbn [bind].
      - pose proof (set_fan_mode_defaults d d1 FM_AUTO_NAME H1) as H2.
        destruct (set_fan_mode d1 FM_AUTO_NAME) as [r2 d2]. cbn [snd] in H2.
        intros [= <- <-]. exact H2.
      - intros [= <- <-]. exact H1.
      - discriminate. }
    destruct (v =? PWM_ENABLE_SILENT); [apply Hnamed|].
    destruct (v =? PWM_ENABLE_BASIC); [apply Hnamed|].
    intros [= <- <-]. exact H0.
Qed.

(* ================================================================= *)
(** ** The round trip through "auto" *)

Lemma bytes_of_aget (a : list Z) : (forall k, is_byte (aget a k)) -> bytes a.
Proof.
  intros H. unfold bytes. apply Forall_forall. intros x Hx.
  destruct (In_nth a x 0 Hx) as [k [_ <-]]. apply H.
Qed.

(** While the fan-mode register holds the value of "advanced", the
    guarded pull of a reset-on-auto curve is the pull. *)
Lemma sync_ec_curve_safe_advanced (c : msi_ec_conf) (curve : msi_ec_fan_curve)
    (s t : list Z) (e : ec_state) :
  ec_healthy e ->
  apply_strategy curve = CURVE_APPLY_STRATEGY_RESET_ON_AUTO ->
  fan_mode_lookup (modes (fan_mode c))
    (u8 (ec_regs e (u8 (fm_address (fan_mode c))))) = Some FM_ADVANCED_NAME ->
  sync_ec_curve_safe c curve s t e = sync_ec_curve curve s t (ec_consume e).
Proof.
  intros He Hst Hfm. unfold sync_ec_curve_safe. rewrite Hst, Z.eqb_refl.
  unfold fan_mode_get. rewrite (ec_read_healthy _ 0 e He).
  cbn [Z.ltb Z.compare]. rewrite Hfm. cbn [Z.eqb negb].
  change (String.eqb FM_ADVANCED_NAME FM_ADVANCED_NAME) with true. reflexivity.
Qed.

(** Leaving the advanced mode while the fan-mode register still holds
    the value of "advanced": a handled curve [g] of the list is pulled,
    so its first [entries_count] active speeds and [entries_count - 1]
    active temperatures become the bytes of its registers, and then its
    default buffers are pushed. *)
Lemma mode_change_other_pulls (g : fan) (l : list fan) (d : driver) :
  layout_ok (conf d) = true -> ec_healthy (ec d) -> NoDup l ->
  reset_on_auto (pack_curve (conf d) g) = true ->
  fan_mode_lookup (modes (fan_mode (conf d)))
    (u8 (ec_regs (ec d) (u8 (fm_address (fan_mode (conf d))))))
  = Some FM_ADVANCED_NAME ->
  curve_buffer (curve_fan_speed (pack d g)) ->
  curve_buffer (curve_temp (pack d g)) ->
  In g l ->
  exists d',
    mode_change_other l d = (0, d') /\ conf d' = conf d /\ ec_healthy (ec d')
    /\ ec_regs (ec d') (u8 (fm_address (fan_mode (conf d))))
       = ec_regs (ec d) (u8 (fm_address (fan_mode (conf d))))
    /\ (forall k, aget (curve_fan_speed (pack d' g)) k
          = if (k <? Z.to_nat (entries_count (pack_curve (conf d) g)))%nat
            then u8 (ec_regs (ec d)
                       (u8 (speed_start_address (pack_curve (conf d) g)
                            + Z.of_nat k)))
            else aget (curve_fan_speed (pack d g)) k)
    /\ (forall k, aget (curve_temp (pack d' g)) k
          = if (k <? Z.to_nat (entries_count (pack_curve (conf d) g) - 1))%nat
            then u8 (ec_regs (ec d)
                       (u8 (temperature_start_address (pack_curve (conf d) g)
                            + Z.of_nat k)))
            else aget (curve_temp (pack d g)) k)
    /\ curve_fan_speed_default (pack d' g) = curve_fan_speed_default (pack d g)
    /\ curve_temp_default (pack d' g) = curve_temp_default (pack d g)
    /\ ec_holds (ec d') (pack_curve (conf d) g)
         (curve_fan_speed_default (pack d g)) (curve_temp_default (pack d g)).
Proof.
  intros Hl He Hnd Hg. revert d Hl He Hg.
  induction l as [|h l IH]; intros d Hl He Hg Hfm Hcs Hct Hin;
    [contradiction|].
  inversion Hnd as [|? ? Hhl Hnd']; subst. specialize (IH Hnd').
  cbn [mode_change_other].
  fold (reset_on_auto (pack_curve (conf d) h)).
  destruct (reset_on_auto (pack_curve (conf d) h)) eqn:Hh.
  - assert (Hah : is_curve_allowed (pack_curve (conf d) h) = true).
    { unfold reset_on_auto in Hh. apply andb_true_iff in Hh. tauto. }
    destruct (layout_curve (conf d) h Hl Hh) as [Hndh [Hfmh Hdisj]].
    destruct (fan_eq_dec h g) as [->|Hne].
    + (* the curve of interest: pulled, then reset *)
      destruct Hcs as [Hbs Hls]. destruct Hct as [Hbt Hlt].
      change (Z.to_nat CURVE_MAX_ENTRIES) with 16%nat in Hls, Hlt.
      assert (Hst : apply_strategy (pack_curve (conf d) g)
                    = CURVE_APPLY_STRATEGY_RESET_ON_AUTO).
      { unfold reset_on_auto in Hg. apply andb_true_iff in Hg.
        now apply Z.eqb_eq. }
      rewrite (sync_ec_curve_safe_advanced _ _ _ _ _ He Hst Hfm).
      destruct (sync_ec_curve_reads (pack_curve (conf d) g)
                  (curve_fan_speed (pack d g)) (curve_temp (pack d g))
                  (ec_consume (ec d)) Hah (ec_consume_healthy _ He) Hls Hlt)
        as [s1 [t1 [e1 [Hs [He1 [Hr1 [Hw1 [Hls1 [Hlt1 [Hgs Hgt]]]]]]]]]].
      cbn [ec_consume ec_regs] in Hr1, Hgs, Hgt.
      rewrite Hs. cbv zeta. rewrite pack_set_ec.
      destruct (pack_set_active d g s1 t1) as [Eas [Eat [Eds Edt]]].
      rewrite Eds, Edt.
      destruct (push_ec_curve_healthy (pack_curve (conf d) g)
                  (curve_fan_speed_default (pack d g))
                  (curve_temp_default (pack d g)) e1 Hah He1)
        as [e2 [Hp [He2 [Hf2 Hh2]]]].
      change (conf (set_ec (set_active d g s1 t1) e1)) with (conf d).
      rewrite Hp. cbn [Z.ltb Z.compare].
      destruct (mode_change_other_healthy g l
                  (set_ec (set_ec (set_active d g s1 t1) e1) e2) Hl He2 Hnd' Hg)
        as [d' [Hm [Hc [He' [_ [Hfm' Hrest]]]]]].
      simpl conf in Hrest, Hfm', Hc. simpl ec in Hrest, Hfm'.
      rewrite !pack_set_ec in Hrest. rewrite Eas, Eat in Hrest.
      destruct Hrest as [Hpk [_ Hout]].
      { apply bytes_of_aget. intros k. rewrite Hgs.
        destruct (_ <? _)%nat; [apply u8_range | now apply aget_bytes]. }
      { apply bytes_of_aget. intros k. rewrite Hgt.
        destruct (_ <? _)%nat; [apply u8_range | now apply aget_bytes]. }
      { intros Hgl. contradiction. }
      exists d'. split; [exact Hm|]. split; [exact Hc|]. split; [exact He'|].
      split; [rewrite Hfm', (Hf2 _ Hfmh); now rewrite Hr1|].
      rewrite Hpk, Eas, Eat, Eds, Edt.
      split; [exact Hgs|]. split; [exact Hgt|].
      split; [reflexivity|]. split; [reflexivity|].
      apply Hout; [exact Hhl|]. now apply Hh2.
    + (* another curve is handled first *)
      destruct (sync_ec_curve_safe_healthy (conf d) (pack_curve (conf d) h)
                  (curve_fan_speed (pack d h)) (curve_temp (pack d h)) (ec d) He)
        as [r [s1 [t1 [e1 [Hs [He1 [Hr1 _]]]]]]].
      rewrite Hs. cbv zeta. rewrite pack_set_ec.
      destruct (proj2 (proj2 (pack_set_active d h s1 t1))) as [Eds Edt].
      rewrite Eds, Edt.
      destruct (push_ec_curve_healthy (pack_curve (conf d) h)
                  (curve_fan_speed_default (pack d h))
                  (curve_temp_default (pack d h)) e1 Hah He1)
        as [e2 [Hp [He2 [Hf2 _]]]].
      change (conf (set_ec (set_active d h s1 t1) e1)) with (conf d).
      rewrite Hp. cbn [Z.ltb Z.compare].
      assert (Hkeep : forall a, In a (curve_regs (pack_curve (conf d) g)) ->
                ec_regs e2 a = ec_regs (ec d) a).
      { intros a Ha. rewrite Hf2; [now rewrite Hr1|].
        assert (Hne' : g <> h) by congruence.
        exact (Hdisj g Hne' Hg a Ha). }
      assert (Hpg : pack (set_ec (set_ec (set_active d h s1 t1) e1) e2) g
                    = pack d g).
      { rewrite !pack_set_ec. now apply pack_set_active_other. }
      destruct (IH (set_ec (set_ec (set_active d h s1 t1) e1) e2) Hl He2 Hg)
        as [d' [Hm [Hc [He' [Hfm' [Hgs [Hgt [Hds [Hdt Hheld]]]]]]]]].
      { simpl conf. simpl ec. rewrite (Hf2 _ Hfmh), Hr1. exact Hfm. }
      { now rewrite Hpg. }
      { now rewrite Hpg. }
      { destruct Hin as [E|Hin]; [contradiction | exact Hin]. }
      simpl conf in Hc, Hfm', Hgs, Hgt, Hheld. simpl ec in Hfm', Hgs, Hgt.
      rewrite Hpg in Hgs, Hgt, Hds, Hdt, Hheld.
      exists d'. split; [exact Hm|]. split; [exact Hc|]. split; [exact He'|].
      split; [rewrite Hfm', (Hf2 _ Hfmh); now rewrite Hr1|].
      split; [|split; [|split; [exact Hds|split; [exact Hdt | exact Hheld]]]].
      * intros k. rewrite Hgs.
        destruct (Nat.ltb_spec k
                    (Z.to_nat (entries_count (pack_curve (conf d) g))));
          [|reflexivity].
        rewrite Hkeep; [reflexivity|].
        unfold curve_regs. apply in_or_app. left. now apply in_region.
      * intros k. rewrite Hgt.
        destruct (Nat.ltb_spec k
                    (Z.to_nat (entries_count (pack_curve (conf d) g) - 1)));
          [|reflexivity].
        rewrite Hkeep; [reflexivity|].
        unfold curve_regs. apply in_or_app. right. now apply in_region.
  - assert (Hne : h <> g) by (intros ->; congruence).
    apply IH; auto.
    destruct Hin as [E|Hin]; [contradiction | exact Hin].
Qed.

(** Leaving manual mode for "auto" on a healthy EC whose fan-mode
    register holds the value of "advanced", seen from a handled curve
    [g]: the curve registers are pulled into the active buffers of [g],
    then the default buffers are pushed. *)
Lemma leave_manual_pulls (g : fan) (d : driver) (v : Z) :
  layout_ok (conf d) = true -> ec_healthy (ec d) ->
  reset_on_auto (pack_curve (conf d) g) = true ->
  fan_mode_value (conf d) FM_AUTO_NAME = Some v ->
  fan_mode_lookup (modes (fan_mode (conf d)))
    (u8 (ec_regs (ec d) (u8 (fm_address (fan_mode (conf d))))))
  = Some FM_ADVANCED_NAME ->
  curve_buffer (curve_fan_speed (pack d g)) ->
  curve_buffer (curve_temp (pack d g)) ->
  exists d',
    set_fan_mode d FM_AUTO_NAME = (0, d')
    /\ (forall k, aget (curve_fan_speed (pack d' g)) k
          = if (k <? Z.to_nat (entries_count (pack_curve (conf d) g)))%nat
            then u8 (ec_regs (ec d)
                       (u8 (speed_start_address (pack_curve (conf d) g)
                            + Z.of_nat k)))
            else aget (curve_fan_speed (pack d g)) k)
    /\ (forall k, aget (curve_temp (pack d' g)) k
          = if (k <? Z.to_nat (entries_count (pack_curve (conf d) g) - 1))%nat
            then u8 (ec_regs (ec d)
                       (u8 (temperature_start_address (pack_curve (conf d) g)
                            + Z.of_nat k)))
            else aget (curve_temp (pack d g)) k)
    /\ curve_fan_speed_default (pack d' g) = curve_fan_speed_default (pack d g)
    /\ curve_temp_default (pack d' g) = curve_temp_default (pack d g)
    /\ ec_holds (ec d') (pack_curve (conf d) g)
         (curve_fan_speed_default (pack d g)) (curve_temp_default (pack d g)).
Proof.
  intros Hl He Hg Hv Hfm Hcs Hct. unfold set_fan_mode.
  rewrite (set_fan_mode_loop_found _ _ _ _ Hv).
  unfold curve_fan_mode_change.
  change (String.eqb FM_AUTO_NAME FM_ADVANCED_NAME) with false. cbv iota.
  assert (Hnd : NoDup all_curves_list).
  { unfold all_curves_list. repeat constructor; simpl; intuition discriminate. }
  destruct (mode_change_other_pulls g all_curves_list d Hl He Hnd Hg Hfm Hcs Hct)
    as [d1 [Hm [Hc [He1 [_ [Hgs [Hgt [Hds [Hdt Hheld]]]]]]]]].
  { unfold all_curves_list. destruct g; simpl; auto. }
  rewrite Hm. cbn [Z.ltb Z.compare].
  destruct (ec_write_healthy (fm_address (fan_mode (conf d))) v (ec d1) He1)
    as [e' [Hw [He' [Hr' _]]]].
  rewrite Hw. cbn [Z.ltb Z.compare].
  exists (set_ec d1 e'). split; [reflexivity|]. rewrite pack_set_ec.
  split; [exact Hgs|]. split; [exact Hgt|]. split; [exact Hds|].
  split; [exact Hdt|].
  destruct (layout_curve (conf d) g Hl Hg) as [_ [Hfmg _]].
  apply (ec_holds_frame (ec d1)); [exact Hheld|].
  intros a Ha. simpl. rewrite Hr'.
  destruct (Z.eqb_spec a (u8 (fm_address (fan_mode (conf d))))) as [->|_];
    [contradiction | reflexivity].
Qed.

Lemma mode_value_slot (ms : list msi_ec_mode) (n : string) (v : Z) :
  mode_value ms n = Some v ->
  exists m, In m ms /\ name m = Some n /\ value m = v.
Proof.
  induction ms as [|m ms IH]; simpl; [discriminate|].
  destruct (name m) as [n'|] eqn:En.
  - destruct (String.eqb_spec n' n) as [->|_].
    + intros [= <-]. exists m. auto.
    + intros H. destruct (IH H) as [m' [Hin Hm']]. exists m'. auto.
  - intros H. destruct (IH H) as [m' [Hin Hm']]. exists m'. auto.
Qed.

(** In a profile of the registry the value that [set_fan_mode] writes
    for "advanced" is read back by [fan_mode_get] as "advanced". *)
Lemma registry_advanced_read_back (p : msi_ec_conf) (v : Z) :
  In p CONFIGURATIONS ->
  fan_mode_value (copy_conf p) FM_ADVANCED_NAME = Some v ->
  fan_mode_lookup (modes (fan_mode p)) (u8 v) = Some FM_ADVANCED_NAME.
Proof.
  intros Hp Hv. unfold fan_mode_value in Hv. cbn [copy_conf fan_mode] in Hv.
  destruct (mode_value_slot _ _ _ Hv) as [m [Hin [Hn <-]]].
  apply In_firstn in Hin.
  exact (proj1 (proj2 (registry_modes p m FM_ADVANCED_NAME Hp Hin Hn))).
Qed.

(** C1.  Let a profile of the registry be loaded and let the curve of
    fan [f] be allowed and have the strategy ResetOnAuto; let the EC
    work without failure.  Call [C] the active buffers and [D] the
    default buffers of [f].  Setting the fan mode to "advanced", then to
    "auto", then to "advanced" again succeeds three times.  After the
    first step the EC curve registers hold [C] (entering manual pushes
    the active buffers).  After the second step the active buffers are
    still [C] and the registers hold [D] (leaving manual pulls, then
    pushes the defaults).  After the third step the active buffers are
    [C], the default buffers are [D], and the registers hold [C].
    Leaving manual pulls whatever the registers hold: when, after the
    first step, the curve registers have any other content (the
    fan-mode register still holding "advanced"), the step to "auto"
    makes the first [entries_count] active speeds and
    [entries_count - 1] active temperatures the bytes of these
    registers, keeps the default buffers, and leaves [D] in the
    registers. *)
Theorem reset_on_auto_round_trip (p : msi_ec_conf) (d : driver) (f : fan) :
  In p CONFIGURATIONS -> conf d = copy_conf p ->
  apply_strategy (pack_curve (conf d) f) = CURVE_APPLY_STRATEGY_RESET_ON_AUTO ->
  is_curve_allowed (pack_curve (conf d) f) = true ->
  ec_healthy (ec d) ->
  bytes (curve_fan_speed (pack d f)) -> bytes (curve_temp (pack d f)) ->
  exists d1 d2 d3,
    set_fan_mode d FM_ADVANCED_NAME = (0, d1)
    /\ set_fan_mode d1 FM_AUTO_NAME = (0, d2)
    /\ set_fan_mode d2 FM_ADVANCED_NAME = (0, d3)
    /\ ec_holds (ec d1) (pack_curve (conf d) f)
         (curve_fan_speed (pack d f)) (curve_temp (pack d f))
    /\ pack d2 f = pack d f
    /\ ec_holds (ec d2) (pack_curve (conf d) f)
         (curve_fan_speed_default (pack d f)) (curve_temp_default (pack d f))
    /\ pack d3 f = pack d f
    /\ ec_holds (ec d3) (pack_curve (conf d) f)
         (curve_fan_speed (pack d f)) (curve_temp (pack d f))
    /\ (curve_buffer (curve_fan_speed (pack d f)) ->
        curve_buffer (curve_temp (pack d f)) ->
        forall e',
          ec_healthy e' ->
          ec_regs e' (u8 (fm_address (fan_mode (conf d))))
          = ec_regs (ec d1) (u8 (fm_address (fan_mode (conf d)))) ->
          exists d2',
            set_fan_mode (set_ec d1 e') FM_AUTO_NAME = (0, d2')
            /\ (forall k, aget (curve_fan_speed (pack d2' f)) k
                  = if (k <? Z.to_nat (entries_count (pack_curve (conf d) f)))%nat
                    then u8 (ec_regs e'
                               (u8 (speed_start_address (pack_curve (conf d) f)
                                    + Z.of_nat k)))
                    else aget (curve_fan_speed (pack d f)) k)
            /\ (forall k, aget (curve_temp (pack d2' f)) k
                  = if (k <? Z.to_nat
                               (entries_count (pack_curve (conf d) f) - 1))%nat
                    then u8 (ec_regs e'
                               (u8 (temperature_start_address
                                      (pack_curve (conf d) f) + Z.of_nat k)))
                    else aget (curve_temp (pack d f)) k)
            /\ curve_fan_speed_default (pack d2' f)
               = curve_fan_speed_default (pack d f)
            /\ curve_temp_default (pack d2' f) = curve_temp_default (pack d f)
            /\ ec_holds (ec d2') (pack_curve (conf d) f)
                 (curve_fan_speed_default (pack d f))
                 (curve_temp_default (pack d f))).
Proof.
  intros Hp Hconf Hstrat Hallowed He Hbs Hbt.
  assert (Hl : layout_ok (conf d) = true)
    by (rewrite Hconf; now apply registry_layout).
  assert (Hg : reset_on_auto (pack_curve (conf d) f) = true).
  { unfold reset_on_auto. rewrite Hstrat, Hallowed. reflexivity. }
  destruct (registry_advanced p Hp) as [va Hva].
  pose proof (registry_advanced_read_back p va Hp Hva) as Hback.
  rewrite <- Hconf in Hva.
  destruct (registry_auto p Hp) as [_ [vo Hvo]]. rewrite <- Hconf in Hvo.
  destruct (enter_manual f d va Hl He Hg Hva)
    as [d1 [H1 [Hc1 [He1 [Hpk1 Hh1]]]]].
  assert (Hl1 : layout_ok (conf d1) = true) by now rewrite Hc1.
  destruct (leave_manual f d1 vo) as [d2 [H2 [Hc2 [He2 [Hpk2 Hh2]]]]];
    try rewrite Hc1; try rewrite Hpk1; auto.
  rewrite Hc1, Hpk1 in Hh2.
  assert (Hl2 : layout_ok (conf d2) = true) by now rewrite Hc2.
  destruct (enter_manual f d2 va) as [d3 [H3 [Hc3 [He3 [Hpk3 Hh3]]]]];
    try rewrite Hc2, Hc1; auto.
  rewrite Hc2, Hc1, Hpk2, Hpk1 in Hh3.
  exists d1, d2, d3.
  split; [exact H1|]. split; [exact H2|]. split; [exact H3|].
  split; [exact Hh1|].
  split; [now rewrite Hpk2, Hpk1|]. split; [exact Hh2|].
  split; [now rewrite Hpk3, Hpk2, Hpk1|]. split; [exact Hh3|].
  intros Hcs Hct e' He' Hfm'.
  (* the fan-mode register after the first step *)
  assert (Hreg : ec_regs (ec d1) (u8 (fm_address (fan_mode (conf d)))) = u8 va).
  { unfold fan_mode_value in Hva.
    destruct (mode_value_slot _ _ _ Hva) as [m [Hin [Hn Hval]]].
    apply In_firstn in Hin. rewrite Hconf in Hin. cbn [copy_conf fan_mode] in Hin.
    destruct (set_fan_mode_healthy p d m FM_ADVANCED_NAME Hp Hconf He Hin Hn)
      as [d1' [H1' [_ [_ [_ [Hr _]]]]]].
    rewrite H1 in H1'. injection H1' as <-. now rewrite Hr, Hval. }
  destruct (leave_manual_pulls f (set_ec d1 e') vo)
    as [d2' [H2' [Hgs [Hgt [Hds [Hdt Hheld]]]]]].
  - exact Hl1.
  - exact He'.
  - cbn [set_ec conf]. now rewrite Hc1.
  - cbn [set_ec conf]. now rewrite Hc1.
  - cbn [set_ec conf ec]. rewrite Hc1, Hfm', Hreg, u8_u8.
    rewrite Hconf. cbn [copy_conf fan_mode]. exact Hback.
  - now rewrite pack_set_ec, Hpk1.
  - now rewrite pack_set_ec, Hpk1.
  - cbn [set_ec conf ec] in Hgs, Hgt, Hheld.
    rewrite pack_set_ec, Hpk1 in Hgs, Hgt, Hds, Hdt, Hheld.
    rewrite Hc1 in Hgs, Hgt, Hheld.
    exists d2'. repeat (split; [assumption|]). exact Hheld.
Qed.

Lemma reset_on_auto_round_trip_witness :
  In CONF401 CONFIGURATIONS
  /\ is_curve_allowed
       (pack_curve (conf (driver_example (fun _ => 0) [] (1, 1))) CPU) = true
  /\ ec_healthy (ec (driver_example (fun _ => 0) [] (1, 1)))
  /\ exists d1 d2 d3,
       set_fan_mode (driver_example (fun _ => 0) [] (1, 1)) FM_ADVANCED_NAME
       = (0, d1)
       /\ set_fan_mode d1 FM_AUTO_NAME = (0, d2)
       /\ set_fan_mode d2 FM_ADVANCED_NAME = (0, d3)
       /\ ec_holds (ec d1) (fan_curve (cpu CONF401)) curve_example temp_example
       /\ pack d2 CPU = pack_example
       /\ ec_holds (ec d2) (fan_curve (cpu CONF401))
            default_speed_example default_temp_example
       /\ pack d3 CPU = pack_example
       /\ ec_holds (ec d3) (fan_curve (cpu CONF401)) curve_example temp_example
       /\ exists d2',
            set_fan_mode
              (set_ec d1 {| ec_regs := fun a => if a =? 0xd4 then 0x80 else 7;
                            ec_faults := []; ec_writes := [] |})
              FM_AUTO_NAME = (0, d2')
            /\ firstn 7 curve_example = [10; 20; 30; 40; 50; 60; 70]
            /\ firstn 7 (curve_fan_speed (pack d2' CPU)) = [7; 7; 7; 7; 7; 7; 7]
            /\ firstn 6 (curve_temp (pack d2' CPU)) = [7; 7; 7; 7; 7; 7]
            /\ ec_holds (ec d2') (fan_curve (cpu CONF401))
                 default_speed_example default_temp_example.
Proof.
  assert (Hin : In CONF401 CONFIGURATIONS) by (unfold CONFIGURATIONS; simpl; tauto).
  assert (Hh : ec_healthy (ec (driver_example (fun _ => 0) [] (1, 1))))
    by constructor.
  split; [exact Hin|]. split; [reflexivity|]. split; [exact Hh|].
  destruct (reset_on_auto_round_trip CONF401
              (driver_example (fun _ => 0) [] (1, 1)) CPU
              Hin eq_refl eq_refl eq_refl Hh)
    as [d1 [d2 [d3 [H1 [H2 [H3 [H4 [H5 [H6 [H7 [H8 H9]]]]]]]]]]].
  - apply bytesb_spec. vm_compute. reflexivity.
  - apply bytesb_spec. vm_compute. reflexivity.
  - exists d1, d2, d3.
    split; [exact H1|]. split; [exact H2|]. split; [exact H3|].
    split; [exact H4|]. split; [exact H5|]. split; [exact H6|].
    split; [exact H7|]. split; [exact H8|].
    destruct (H9 ltac:(split; [apply bytesb_spec; vm_compute; reflexivity
                              | reflexivity])
                 ltac:(split; [apply bytesb_spec; vm_compute; reflexivity
                              | reflexivity])
                 {| ec_regs := fun a => if a =? 0xd4 then 0x80 else 7;
                    ec_faults := []; ec_writes := [] |})
      as [d2' [H2' [Hgs [Hgt [_ [_ Hheld]]]]]].
    + constructor.
    + vm_compute in H1. injection H1 as <-. reflexivity.
    + exists d2'. split; [exact H2'|]. split; [reflexivity|].
      pose proof H1 as E1. vm_compute in E1. injection E1 as E1.
      rewrite <- E1 in H2'.
      pose proof H2' as E2. vm_compute in E2. injection E2 as E2.
      split; [|split; [|exact Hheld]]; rewrite <- E2; reflexivity.
Defined.

(* ================================================================= *)
(** ** Whole-curve attribute: store, then show *)

Lemma read_curve_length (sbuf tbuf : list Z) (entries : Z) (buf : string)
    (stack : nat -> Z) (r : Z) (s t : list Z) :
  read_curve sbuf tbuf entries buf stack = (r, s, t) ->
  entries <= CURVE_MAX_ENTRIES ->
  List.length sbuf = 16%nat -> List.length tbuf = 16%nat ->
  List.length s = 16%nat /\ List.length t = 16%nat.
Proof.
  unfold read_curve, CURVE_MAX_ENTRIES. intros H Hn Hls Hlt.
  destruct (read_ints _ buf []) as [[data sdata]|];
    [|inversion H; subst; auto].
  match type of H with
  | context [match ?x with EmptyString => _ | String _ _ => _ end] =>
      destruct x
  end; [|inversion H; subst; auto].
  destruct (split_loop _ _ _ _ _ _ _) as [ts tt].
  destruct (negb (temps_loop _ 0 0 tt)); [inversion H; subst; auto|].
  destruct (negb (speeds_loop _ 0 ts)); [inversion H; subst; auto|].
  pose proof (copy_loop_spec (Z.to_nat entries) 0 ts tt sbuf tbuf) as Hcopy.
  destruct (copy_loop _ _ _ _ _ _) as [sb' tb'].
  destruct Hcopy as [H1 [H2 _]]; [lia | lia |].
  inversion H; subst. split; congruence.
Qed.

(** On an EC without failure [fan_mode_get] is a function of the
    fan-mode register. *)
Lemma fan_mode_get_regs (c : msi_ec_conf) (dst : option string) (e e' : ec_state) :
  ec_healthy e -> ec_healthy e' ->
  ec_regs e' (u8 (fm_address (fan_mode c))) = ec_regs e (u8 (fm_address (fan_mode c))) ->
  fst (fan_mode_get c dst e') = fst (fan_mode_get c dst e).
Proof.
  intros He He' Hr. unfold fan_mode_get.
  rewrite (ec_read_healthy _ 0 e He), (ec_read_healthy _ 0 e' He'), Hr.
  cbn [Z.ltb Z.compare].
  destruct (fan_mode_lookup _ _); [reflexivity|].
  destruct (_ =? 0); reflexivity.
Qed.

Lemma curve_text_of_ext (s t s' t' : list Z) (n : Z) :
  (forall i, (i < Z.to_nat n)%nat -> aget s' i = aget s i) ->
  (forall i, (S i < Z.to_nat n)%nat -> aget t' i = aget t i) ->
  curve_text_of s' t' n = curve_text_of s t n.
Proof.
  intros Hs Ht. unfold curve_text_of. f_equal. apply map_ext_in.
  intros j Hj. apply in_seq in Hj.
  destruct (Nat.Even_or_Odd j) as [[k ->]|[k ->]].
  - rewrite !curve_item_even. apply Hs. lia.
  - replace (2 * k + 1)%nat with (S (2 * k)) by lia.
    rewrite !curve_item_odd. apply Ht. lia.
Qed.

(** A guarded push followed by a guarded pull, on an EC without failure:
    either both go through and the pull changes nothing, or both stop at
    the fan mode. *)
Lemma push_sync_safe (c : msi_ec_conf) (curve : msi_ec_fan_curve)
    (s t : list Z) (e : ec_state) :
  is_curve_allowed curve = true -> NoDup (curve_regs curve) ->
  ~ In (u8 (fm_address (fan_mode c))) (curve_regs curve) ->
  ec_healthy e ->
  List.length s = 16%nat -> List.length t = 16%nat ->
  (forall i, (i < Z.to_nat (entries_count curve))%nat -> is_byte (aget s i)) ->
  (forall i, (S i < Z.to_nat (entries_count curve))%nat -> is_byte (aget t i)) ->
  exists r e1,
    push_ec_curve_safe c curve s t e = (r, e1) /\ ec_healthy e1
    /\ ((r = 0
         /\ exists e2, sync_ec_curve_safe c curve s t e1 = (0, s, t, e2)
                       /\ ec_regs e2 = ec_regs e1)
        \/ (r = - ENODATA
            /\ apply_strategy curve = CURVE_APPLY_STRATEGY_RESET_ON_AUTO
            /\ ec_regs e1 = ec_regs e /\ ec_writes e1 = ec_writes e
            /\ exists e2,
                 sync_ec_curve_safe c curve s t e1 = (- ENODATA, s, t, e2))).
Proof.
  intros Ha Hnd Hfm He Hls Hlt Hbs Hbt.
  pose proof (allowed_count curve Ha) as Hn. unfold CURVE_MAX_ENTRIES in Hn.
  assert (Hpush : forall e0, ec_healthy e0 ->
            exists e1, push_ec_curve curve s t e0 = (0, e1) /\ ec_healthy e1
              /\ ec_regs e1 (u8 (fm_address (fan_mode c)))
                 = ec_regs e0 (u8 (fm_address (fan_mode c)))
              /\ exists e2, sync_ec_curve curve s t e1 = (0, s, t, e2)
                            /\ ec_regs e2 = ec_regs e1).
  { intros e0 He0.
    destruct (push_ec_curve_healthy curve s t e0 Ha He0)
      as [e1 [Hp [He1 [Hout Hheld]]]].
    destruct (Hheld Hnd) as [Hhs Hht].
    destruct (sync_ec_curve_reads curve s t e1 Ha He1 Hls Hlt)
      as [s2 [t2 [e2 [Hs [_ [Hr [_ [Hl1 [Hl2 [Hgs Hgt]]]]]]]]]].
    exists e1. split; [exact Hp|]. split; [exact He1|].
    split; [now apply Hout|].
    exists e2. split; [|exact Hr]. rewrite Hs.
    assert (Es : s2 = s).
    { apply aget_ext; [congruence|]. intros k. rewrite Hgs.
      destruct (Nat.ltb_spec k (Z.to_nat (entries_count curve))); [|reflexivity].
      rewrite Hhs by assumption. rewrite u8_u8. apply u8_small. now apply Hbs. }
    assert (Et : t2 = t).
    { apply aget_ext; [congruence|]. intros k. rewrite Hgt.
      destruct (Nat.ltb_spec k (Z.to_nat (entries_count curve - 1)));
        [|reflexivity].
      rewrite Hht by assumption. rewrite u8_u8. apply u8_small.
      apply Hbt. lia. }
    now rewrite Es, Et. }
  unfold push_ec_curve_safe, sync_ec_curve_safe.
  destruct (apply_strategy curve =? CURVE_APPLY_STRATEGY_RESET_ON_AUTO) eqn:Est.
  - apply Z.eqb_eq in Est.
    destruct (fan_mode_get_healthy c None e He)
      as [r [fm [e1 [Hg [He1 [Hr1 Hw1]]]]]].
    rewrite Hg.
    assert (Hsame : forall e', ec_healthy e' ->
              ec_regs e' (u8 (fm_address (fan_mode c)))
              = ec_regs e (u8 (fm_address (fan_mode c))) ->
              exists e2, fan_mode_get c None e' = (r, fm, e2)
                         /\ ec_healthy e2 /\ ec_regs e2 = ec_regs e').
    { intros e' He' Hr'.
      pose proof (fan_mode_get_regs c None e e' He He' Hr') as Hf.
      destruct (fan_mode_get_healthy c None e' He')
        as [r' [fm' [e2 [Hg' [He2 [Hr2 _]]]]]].
      rewrite Hg, Hg' in Hf. cbn [fst] in Hf. injection Hf as -> ->.
      exists e2. auto. }
    destruct (negb (r =? 0)) eqn:Er.
    { exists (- ENODATA), e1. split; [reflexivity|]. split; [exact He1|].
      right. split; [reflexivity|]. split; [exact Est|].
      split; [exact Hr1|]. split; [exact Hw1|].
      destruct (Hsame e1 He1) as [e2 [Hg2 _]]; [now rewrite Hr1|].
      exists e2. now rewrite Hg2, Er. }
    destruct fm as [n|].
    2:{ exists (- ENODATA), e1. split; [reflexivity|]. split; [exact He1|].
        right. split; [reflexivity|]. split; [exact Est|].
        split; [exact Hr1|]. split; [exact Hw1|].
        destruct (Hsame e1 He1) as [e2 [Hg2 _]]; [now rewrite Hr1|].
        exists e2. now rewrite Hg2, Er. }
    destruct (negb (String.eqb n FM_ADVANCED_NAME)) eqn:En.
    { exists 0, e1. split; [reflexivity|]. split; [exact He1|]. left.
      split; [reflexivity|].
      destruct (Hsame e1 He1) as [e2 [Hg2 [_ Hr2]]]; [now rewrite Hr1|].
      exists e2. now rewrite Hg2, Er, En. }
    destruct (Hpush e1 He1) as [e2 [Hp [He2 [Hfm2 _]]]].
    exists 0, e2. split; [exact Hp|]. split; [exact He2|]. left.
    split; [reflexivity|].
    destruct (Hsame e2 He2) as [e3 [Hg3 [He3 Hr3]]]; [now rewrite Hfm2, Hr1|].
    rewrite Hg3, Er, En.
    destruct (sync_ec_curve_reads curve s t e3 Ha He3 Hls Hlt)
      as [s4 [t4 [e4 [Hs4 [_ [Hr4 [_ [Hl1 [Hl2 [Hgs Hgt]]]]]]]]]].
    destruct (push_ec_curve_healthy curve s t e1 Ha He1)
      as [e2' [Hp' [_ [_ Hheld]]]].
    rewrite Hp in Hp'. injection Hp' as <-.
    destruct (Hheld Hnd) as [Hhs Hht].
    exists e4. rewrite Hs4. split; [|congruence].
    assert (Es : s4 = s).
    { apply aget_ext; [congruence|]. intros k. rewrite Hgs, Hr3.
      destruct (Nat.ltb_spec k (Z.to_nat (entries_count curve))); [|reflexivity].
      rewrite Hhs by assumption. rewrite u8_u8. apply u8_small. now apply Hbs. }
    assert (Et : t4 = t).
    { apply aget_ext; [congruence|]. intros k. rewrite Hgt, Hr3.
      destruct (Nat.ltb_spec k (Z.to_nat (entries_count curve - 1)));
        [|reflexivity].
      rewrite Hht by assumption. rewrite u8_u8. apply u8_small.
      apply Hbt. lia. }
    now rewrite Es, Et.
  - destruct (Hpush e He) as [e1 [Hp [He1 [_ [e2 [Hs Hr]]]]]].
    exists 0, e1. split; [exact Hp|]. split; [exact He1|]. left.
    split; [reflexivity|]. exists e2. auto.
Qed.

(** The status of a guarded push on an EC without failure: it stops
    with [-ENODATA] exactly for a reset-on-auto curve while the
    fan-mode register holds no listed value. *)
Lemma push_ec_curve_safe_status (c : msi_ec_conf) (curve : msi_ec_fan_curve)
    (s t : list Z) (e : ec_state) :
  is_curve_allowed curve = true -> ec_healthy e ->
  fst (push_ec_curve_safe c curve s t e)
  = if apply_strategy curve =? CURVE_APPLY_STRATEGY_RESET_ON_AUTO
    then match fan_mode_lookup (modes (fan_mode c))
                 (u8 (ec_regs e (u8 (fm_address (fan_mode c))))) with
         | Some _ => 0
         | None => - ENODATA
         end
    else 0.
Proof.
  intros Ha He. unfold push_ec_curve_safe.
  destruct (apply_strategy curve =? CURVE_APPLY_STRATEGY_RESET_ON_AUTO).
  - unfold fan_mode_get. rewrite (ec_read_healthy _ 0 e He).
    cbn [Z.ltb Z.compare].
    destruct (fan_mode_lookup _ _) as [n|].
    + cbn [Z.eqb negb].
      destruct (negb (String.eqb n FM_ADVANCED_NAME)); [reflexivity|].
      destruct (push_ec_curve_healthy curve s t (ec_consume e) Ha
                  (ec_consume_healthy e He)) as [e1 [Hp _]].
      now rewrite Hp.
    + destruct (Z.eqb_spec (u8 (ec_regs e (u8 (fm_address (fan_mode c))))) 0)
        as [E|E].
      * reflexivity.
      * destruct (Z.eqb_spec (u8 (ec_regs e (u8 (fm_address (fan_mode c))))) 0);
          [contradiction | reflexivity].
  - destruct (push_ec_curve_healthy curve s t e Ha He) as [e1 [Hp _]].
    now rewrite Hp.
Qed.

(** X18.  Let the EC work without failure, let the curve of the fan be
    allowed with as many entries as the CPU curve, let its registers be
    pairwise distinct and not the fan-mode register.  Writing the text
    of an accepted curve to the curve attribute puts the curve into the
    active buffers and returns the length of the text; reading the
    attribute then shows the same text and leaves buffers and registers
    as they are.  This holds whenever the curve is not reset-on-auto
    or the fan-mode register holds the value of a listed mode.  In the
    remaining case, a reset-on-auto curve while the fan-mode register
    holds no listed value, the write returns [-ENODATA] with no register
    written, the buffers hold the new curve all the same, and the read
    fails with [-ENODATA] too. *)
Theorem curve_store_show (d : driver) (f : fan) (speed temp : list Z)
    (stack : nat -> Z) :
  ec_healthy (ec d) ->
  is_curve_allowed (pack_curve (conf d) f) = true ->
  entries_count (fan_curve (cpu (conf d))) = entries_count (pack_curve (conf d) f) ->
  NoDup (curve_regs (pack_curve (conf d) f)) ->
  ~ In (u8 (fm_address (fan_mode (conf d)))) (curve_regs (pack_curve (conf d) f)) ->
  curve_buffer (curve_fan_speed (pack d f)) -> curve_buffer (curve_temp (pack d f)) ->
  bytes speed -> bytes temp ->
  curve_accepted (Z.to_nat (entries_count (pack_curve (conf d) f))) speed temp ->
  exists r d1,
    curve_store d f
      (curve_text_of speed temp (entries_count (pack_curve (conf d) f))) stack
    = (r, d1)
    /\ (forall i, (i < Z.to_nat (entries_count (pack_curve (conf d) f)))%nat ->
          aget (curve_fan_speed (pack d1 f)) i = aget speed i)
    /\ (forall i, (S i < Z.to_nat (entries_count (pack_curve (conf d) f)))%nat ->
          aget (curve_temp (pack d1 f)) i = aget temp i)
    /\ (apply_strategy (pack_curve (conf d) f)
         <> CURVE_APPLY_STRATEGY_RESET_ON_AUTO
         \/ fan_mode_lookup (modes (fan_mode (conf d)))
              (u8 (ec_regs (ec d) (u8 (fm_address (fan_mode (conf d))))))
            <> None ->
         r = Z.of_nat (String.length
               (curve_text_of speed temp (entries_count (pack_curve (conf d) f))))
         /\ exists d2,
              curve_show d1 f
              = (Some (Emit (curve_text_of speed temp
                               (entries_count (pack_curve (conf d) f)))), d2)
              /\ pack d2 f = pack d1 f /\ ec_regs (ec d2) = ec_regs (ec d1))
    /\ (apply_strategy (pack_curve (conf d) f)
         = CURVE_APPLY_STRATEGY_RESET_ON_AUTO ->
         fan_mode_lookup (modes (fan_mode (conf d)))
           (u8 (ec_regs (ec d) (u8 (fm_address (fan_mode (conf d))))))
         = None ->
         r = - ENODATA
         /\ ec_regs (ec d1) = ec_regs (ec d)
         /\ ec_writes (ec d1) = ec_writes (ec d)
         /\ exists d2, curve_show d1 f = (Some (Fail (- ENODATA)), d2)).
Proof.
  intros He Ha Hcpu Hnd Hfm [Hbs0 Hls0] [Hbt0 Hlt0] Hbs Hbt Hacc.
  set (curve := pack_curve (conf d) f) in *.
  set (n := entries_count curve) in *.
  pose proof (allowed_count curve Ha) as Hn. fold n in Hn.
  change (Z.to_nat CURVE_MAX_ENTRIES) with 16%nat in Hls0, Hlt0.
  destruct (read_curve_of_curve_text speed temp (curve_fan_speed (pack d f))
              (curve_temp (pack d f)) n stack Hn Hbs Hbt Hls0 Hlt0 Hacc)
    as [s' [t' [Hread [Hs Ht]]]].
  fold (curve_text_of speed temp n) in Hread.
  destruct (read_curve_length _ _ _ _ _ _ _ _ Hread (proj2 Hn) Hls0 Hlt0)
    as [Hls' Hlt'].
  destruct (push_sync_safe (conf d) curve s' t' (ec d) Ha Hnd Hfm He Hls' Hlt')
    as [r [e1 [Hp [He1 Hcases]]]].
  { intros i Hi. rewrite Hs by exact Hi. now apply aget_bytes. }
  { intros i Hi. rewrite Ht by exact Hi. now apply aget_bytes. }
  assert (Hstore : curve_store d f (curve_text_of speed temp n) stack
                   = (if r <? 0 then r
                      else Z.of_nat (String.length (curve_text_of speed temp n)),
                      set_ec (set_active d f s' t') e1)).
  { unfold curve_store. rewrite Hcpu. fold curve. fold n. rewrite Hread.
    destruct (Z.ltb_spec (Z.of_nat (String.length (curve_text_of speed temp n))) 0);
      [lia|].
    rewrite Hp. destruct (r <? 0); reflexivity. }
  destruct (pack_set_active d f s' t') as [P1 [P2 [P3 P4]]].
  eexists. exists (set_ec (set_active d f s' t') e1).
  split; [exact Hstore|].
  rewrite pack_set_ec, P1, P2.
  split; [exact Hs|]. split; [exact Ht|].
  assert (Hshow : forall st e2,
            sync_ec_curve_safe (conf d) curve s' t' e1 = (st, s', t', e2) ->
            curve_show (set_ec (set_active d f s' t') e1) f
            = (if st <? 0 then Some (Fail st)
               else Some (Emit (curve_text_of speed temp n)),
               set_ec (set_active (set_ec (set_active d f s' t') e1) f s' t') e2)).
  { intros st e2 Hsync. unfold curve_show.
    rewrite pack_set_ec, P1, P2.
    change (conf (set_ec (set_active d f s' t') e1)) with (conf d).
    change (ec (set_ec (set_active d f s' t') e1)) with e1.
    fold curve. rewrite Hsync. destruct (st <? 0); [reflexivity|].
    fold n. rewrite print_curve_curve_text by lia.
    fold (curve_text_of s' t' n).
    now rewrite (curve_text_of_ext speed temp s' t' n Hs Ht). }
  pose proof (push_ec_curve_safe_status (conf d) curve s' t' (ec d) Ha He)
    as Hstatus.
  rewrite Hp in Hstatus. cbn [fst] in Hstatus.
  split.
  - intros Hcond.
    assert (Hr0 : r = 0).
    { rewrite Hstatus.
      destruct (Z.eqb_spec (apply_strategy curve)
                  CURVE_APPLY_STRATEGY_RESET_ON_AUTO) as [E|E]; [|reflexivity].
      destruct (fan_mode_lookup _ _); [reflexivity|].
      destruct Hcond as [Hc|Hc]; contradiction. }
    clear Hstatus.
    destruct Hcases as [[_ [e2 [Hsync Hr2]]]|[Hr _]];
      [|rewrite Hr0 in Hr; discriminate Hr].
    subst r. split; [reflexivity|].
    eexists. split; [exact (Hshow 0 e2 Hsync)|]. split.
    + pose proof (set_active_same (set_ec (set_active d f s' t') e1) f) as Q.
      rewrite pack_set_ec, P1, P2 in Q.
      rewrite (pack_set_ec _ e2 f), Q. reflexivity.
    + exact Hr2.
  - intros Hst Hnone.
    assert (Hr0 : r = - ENODATA).
    { rewrite Hstatus. fold curve in Hst. rewrite Hst, Z.eqb_refl.
      now rewrite Hnone. }
    clear Hstatus.
    destruct Hcases as [[Hr _]|[_ [_ [Hr1 [Hw1 [e2 Hsync]]]]]];
      [rewrite Hr0 in Hr; discriminate Hr|].
    subst r. split; [reflexivity|].
    split; [exact Hr1|]. split; [exact Hw1|].
    eexists. exact (Hshow (- ENODATA) e2 Hsync).
Qed.

Lemma curve_store_show_witness :
  exists d1 d2,
    curve_store
      (driver_example (fun a => if a =? 0xd4 then 0x80 else 0) [] (1, 1)) CPU
      ("0 45 25 55 35 65 45 75 55 85 65 95 75" ++ String "010" "") (fun _ => 0)
    = (38, d1)
    /\ curve_show d1 CPU
       = (Some (Emit ("0 45 25 55 35 65 45 75 55 85 65 95 75" ++ String "010" "")),
          d2).
Proof.
  destruct (curve_store_show
              (driver_example (fun a => if a =? 0xd4 then 0x80 else 0) [] (1, 1))
              CPU default_speed_example default_temp_example (fun _ => 0))
    as [r [d1 [Hst [_ [_ Hc]]]]].
  - constructor.
  - reflexivity.
  - reflexivity.
  - apply nodupb_NoDup. vm_compute. reflexivity.
  - vm_compute. intros H. decompose [or] H; discriminate || assumption.
  - split; [apply bytesb_spec; vm_compute; reflexivity | reflexivity].
  - split; [apply bytesb_spec; vm_compute; reflexivity | reflexivity].
  - apply bytesb_spec. vm_compute. reflexivity.
  - apply bytesb_spec. vm_compute. reflexivity.
  - apply curve_acceptedb_spec. vm_compute. reflexivity.
  - assert (Hr : r = 38).
    { apply (f_equal fst) in Hst. vm_compute in Hst. congruence. }
    subst r. exists d1.
    destruct Hc as [Hc _].
    destruct Hc as [_ [d2 [Hshow _]]];
      [right; vm_compute; discriminate|].
    exists d2. split; [exact Hst | exact Hshow].
Defined.

(* ================================================================= *)
(** ** Per-point attributes: store, then show *)

Lemma fan_of_idx (fan_idx : Z) (c : msi_ec_conf) :
  (if fan_idx =? 0 then fan_curve (cpu c) else fan_curve (gpu c))
  = pack_curve c (if fan_idx =? 0 then CPU else GPU).
Proof. destruct (fan_idx =? 0); reflexivity. Qed.

(** The branch of [curve_attr_store] that stores a temperature. *)
Lemma curve_attr_store_temp (d : driver) (fan_idx point v : Z) (buf : string)
    (f : fan) :
  f = (if fan_idx =? 0 then CPU else GPU) ->
  kstrtoul buf 0 = (0, v) -> v <= 100 ->
  1 <= point < entries_count (pack_curve (conf d) f) ->
  exists r e',
    curve_attr_store d fan_idx point 0 buf
    = (r, set_ec (set_active d f (curve_fan_speed (pack d f))
                    (aset (curve_temp (pack d f)) (Z.to_nat (point - 1)) (u8 v)))
            e').
Proof.
  intros -> Hk Hv Hp. unfold curve_attr_store. rewrite Hk.
  cbn [Z.ltb Z.compare Z.eqb negb].
  destruct (fan_idx =? 0); cbn [pack_curve] in Hp.
  - destruct (Z.ltb_spec point 1); [lia|].
    destruct (Z.geb_spec point (entries_count (fan_curve (cpu (conf d)))));
      [lia|].
    destruct (Z.gtb_spec v 100); [lia|]. cbn [orb].
    destruct (push_ec_curve_safe _ _ _ _ _) as [r e'].
    destruct (r <? 0); eauto.
  - destruct (Z.ltb_spec point 1); [lia|].
    destruct (Z.geb_spec point (entries_count (fan_curve (gpu (conf d)))));
      [lia|].
    destruct (Z.gtb_spec v 100); [lia|]. cbn [orb].
    destruct (push_ec_curve_safe _ _ _ _ _) as [r e'].
    destruct (r <? 0); eauto.
Qed.

(** The branch of [curve_attr_store] that stores a speed. *)
Lemma curve_attr_store_pwm (d : driver) (fan_idx point is_pwm v : Z)
    (buf : string) (f : fan) :
  f = (if fan_idx =? 0 then CPU else GPU) -> is_pwm <> 0 ->
  kstrtoul buf 0 = (0, v) -> v <= 255 ->
  1 <= point <= entries_count (pack_curve (conf d) f) ->
  exists r e',
    curve_attr_store d fan_idx point is_pwm buf
    = (r, set_ec
            (set_active d f
               (aset (curve_fan_speed (pack d f)) (Z.to_nat (point - 1))
                  (u8 (u64 (v * (if u32 (max_speed (pack_curve (conf d) f)) >? 0
                                 then u32 (max_speed (pack_curve (conf d) f))
                                 else 100)) / 255)))
               (curve_temp (pack d f)))
            e').
Proof.
  intros -> Hpwm Hk Hv Hp. unfold curve_attr_store. rewrite Hk.
  cbn [Z.ltb Z.compare].
  destruct (Z.eqb_spec is_pwm 0) as [|_]; [contradiction|]. cbn [negb].
  destruct (fan_idx =? 0); cbn [pack_curve] in Hp.
  - destruct (Z.ltb_spec point 1); [lia|].
    destruct (Z.gtb_spec point (entries_count (fan_curve (cpu (conf d)))));
      [lia|].
    destruct (Z.gtb_spec v 255); [lia|]. cbn [orb].
    destruct (push_ec_curve_safe _ _ _ _ _) as [r e'].
    destruct (r <? 0); eauto.
  - destruct (Z.ltb_spec point 1); [lia|].
    destruct (Z.gtb_spec point (entries_count (fan_curve (gpu (conf d)))));
      [lia|].
    destruct (Z.gtb_spec v 255); [lia|]. cbn [orb].
    destruct (push_ec_curve_safe _ _ _ _ _) as [r e'].
    destruct (r <? 0); eauto.
Qed.

Lemma sprintf_u_byte (v : Z) : is_byte v -> sprintf_u v = sprintf_d v.
Proof.
  unfold is_byte, sprintf_u, u32. intros H. f_equal.
  apply Z.mod_small. lia.
Qed.

(** X19.  On a curve of at most [CURVE_MAX_ENTRIES] entries, a
    temperature point takes a number from 0 to 100 at the points 1 to
    [entries_count - 1].  Whatever the EC does and whatever
    status the store returns, the value is in the active buffer
    afterwards: the attribute shows it, the speeds and the other
    temperatures are as before. *)
Theorem curve_attr_temp_store_show (d : driver) (fan_idx point v : Z)
    (buf : string) (f : fan) :
  f = (if fan_idx =? 0 then CPU else GPU) ->
  kstrtoul buf 0 = (0, v) -> 0 <= v <= 100 ->
  1 <= point < entries_count (pack_curve (conf d) f) ->
  entries_count (pack_curve (conf d) f) <= CURVE_MAX_ENTRIES ->
  List.length (curve_temp (pack d f)) = Z.to_nat CURVE_MAX_ENTRIES ->
  curve_attr_show (snd (curve_attr_store d fan_idx point 0 buf)) fan_idx point 0
  = Emit (sprintf_d v ++ String "010" "")
  /\ curve_fan_speed (pack (snd (curve_attr_store d fan_idx point 0 buf)) f)
     = curve_fan_speed (pack d f)
  /\ forall k, k <> Z.to_nat (point - 1) ->
       aget (curve_temp (pack (snd (curve_attr_store d fan_idx point 0 buf)) f)) k
       = aget (curve_temp (pack d f)) k.
Proof.
  intros Hf Hk Hv Hp Hn Hl. unfold CURVE_MAX_ENTRIES in *.
  destruct (curve_attr_store_temp d fan_idx point v buf f Hf Hk (proj2 Hv) Hp)
    as [r [e' ->]].
  cbn [snd].
  destruct (pack_set_active d f (curve_fan_speed (pack d f))
              (aset (curve_temp (pack d f)) (Z.to_nat (point - 1)) (u8 v)))
    as [P1 [P2 _]].
  split; [|split].
  - unfold curve_attr_show. rewrite <- Hf.
    cbn [Z.eqb negb]. change (conf (set_ec _ e')) with (conf d).
    destruct (Z.ltb_spec point 1); [lia|].
    destruct (Z.geb_spec point (entries_count (pack_curve (conf d) f))); [lia|].
    cbn [orb]. rewrite pack_set_ec, P2.
    rewrite aget_aset by lia. rewrite Nat.eqb_refl, u8_u8.
    assert (Hb : is_byte v) by (unfold is_byte; lia).
    rewrite (u8_small v Hb), sysfs_emit_byte by exact Hb.
    now rewrite sprintf_u_byte.
  - now rewrite pack_set_ec, P1.
  - intros k Hne. rewrite pack_set_ec, P2, aget_aset by lia.
    destruct (Nat.eqb_spec k (Z.to_nat (point - 1))); [contradiction|reflexivity].
Qed.

Lemma curve_attr_temp_store_show_witness :
  curve_attr_show
    (snd (curve_attr_store (driver_example (fun _ => 0) [-5] (1, 1)) 0 2 0
            ("55" ++ String "010" "")))
    0 2 0
  = Emit ("55" ++ String "010" "").
Proof.
  apply (curve_attr_temp_store_show (driver_example (fun _ => 0) [-5] (1, 1))
           0 2 55 ("55" ++ String "010" "") CPU).
  - reflexivity.
  - vm_compute. reflexivity.
  - lia.
  - vm_compute. split; [discriminate | reflexivity].
  - vm_compute. discriminate.
  - reflexivity.
Defined.

(** The value a speed point reads back after [v] was stored under the
    maximum [m]: scaled down on the way in, scaled up on the way out. *)
Lemma pwm_scale_bounds (v m : Z) :
  0 <= v <= 255 -> 0 < m <= 255 ->
  0 <= v * m / 255 <= m
  /\ 0 <= v * m / 255 * 255 / m <= v
  /\ (v - v * m / 255 * 255 / m) * m < 255 + m.
Proof.
  intros Hv Hm.
  assert (H1 : 0 <= v * m / 255) by (apply Z.div_pos; nia).
  assert (H2 : v * m / 255 * 255 <= v * m)
    by (rewrite Z.mul_comm; apply Z.mul_div_le; lia).
  assert (H3 : v * m < (v * m / 255 + 1) * 255).
  { pose proof (Z.mod_pos_bound (v * m) 255 ltac:(lia)).
    pose proof (Z.div_mod (v * m) 255 ltac:(lia)). lia. }
  set (s := v * m / 255) in *.
  assert (H4 : 0 <= s * 255 / m) by (apply Z.div_pos; nia).
  assert (H5 : s * 255 / m * m <= s * 255)
    by (rewrite Z.mul_comm; apply Z.mul_div_le; lia).
  assert (H6 : s * 255 < (s * 255 / m + 1) * m).
  { pose proof (Z.mod_pos_bound (s * 255) m ltac:(lia)).
    pose proof (Z.div_mod (s * 255) m ltac:(lia)). lia. }
  split; [nia|]. split; [split; [exact H4|nia]|]. nia.
Qed.

(** X20.  On a curve of at most [CURVE_MAX_ENTRIES] entries, a speed
    point takes a number [v] from 0 to 255 at the points 1 to
    [entries_count]; let the maximum speed [m] of the curve be at most
    255 (100 stands in for 0).  Whatever the EC does and whatever
    status the store returns, the buffer holds [v * m / 255] afterwards
    and the attribute shows that value scaled back: a number [r] that is
    at most [v] and less than [255 / m + 1] below it.  So a value read
    from the attribute and written back can come out smaller. *)
Theorem curve_attr_pwm_store_show (d : driver) (fan_idx point is_pwm v m : Z)
    (buf : string) (f : fan) :
  f = (if fan_idx =? 0 then CPU else GPU) -> is_pwm <> 0 ->
  kstrtoul buf 0 = (0, v) -> 0 <= v <= 255 ->
  0 <= max_speed (pack_curve (conf d) f) <= 255 ->
  m = (if max_speed (pack_curve (conf d) f) >? 0
       then max_speed (pack_curve (conf d) f) else 100) ->
  1 <= point <= entries_count (pack_curve (conf d) f) ->
  entries_count (pack_curve (conf d) f) <= CURVE_MAX_ENTRIES ->
  List.length (curve_fan_speed (pack d f)) = Z.to_nat CURVE_MAX_ENTRIES ->
  aget (curve_fan_speed
          (pack (snd (curve_attr_store d fan_idx point is_pwm buf)) f))
    (Z.to_nat (point - 1)) = v * m / 255
  /\ curve_attr_show (snd (curve_attr_store d fan_idx point is_pwm buf))
       fan_idx point is_pwm
     = Emit (sprintf_d (v * m / 255 * 255 / m) ++ String "010" "")
  /\ v * m / 255 * 255 / m <= v
  /\ (v - v * m / 255 * 255 / m) * m < 255 + m.
Proof.
  intros Hf Hpwm Hk Hv Hmax Hm Hp Hn Hl. unfold CURVE_MAX_ENTRIES in *.
  assert (Hm' : 0 < m <= 255).
  { subst m. destruct (Z.gtb_spec (max_speed (pack_curve (conf d) f)) 0); lia. }
  destruct (pwm_scale_bounds v m Hv Hm') as [B1 [B2 B3]].
  destruct (curve_attr_store_pwm d fan_idx point is_pwm v buf f Hf Hpwm Hk
              (proj2 Hv) Hp) as [r [e' ->]].
  cbn [snd].
  assert (E32 : u32 (max_speed (pack_curve (conf d) f))
                = max_speed (pack_curve (conf d) f)).
  { unfold u32. apply Z.mod_small. lia. }
  rewrite E32, <- Hm.
  assert (E64 : u64 (v * m) = v * m).
  { unfold u64. apply Z.mod_small. nia. }
  rewrite E64.
  assert (Hs : is_byte (v * m / 255)) by (unfold is_byte; lia).
  rewrite (u8_small _ Hs).
  destruct (pack_set_active d f
              (aset (curve_fan_speed (pack d f)) (Z.to_nat (point - 1))
                 (v * m / 255)) (curve_temp (pack d f)))
    as [P1 _].
  assert (Hget : aget (curve_fan_speed
                         (pack (set_ec (set_active d f
                            (aset (curve_fan_speed (pack d f))
                               (Z.to_nat (point - 1)) (v * m / 255))
                            (curve_temp (pack d f))) e') f))
                   (Z.to_nat (point - 1)) = v * m / 255).
  { rewrite pack_set_ec, P1, aget_aset by lia. now rewrite Nat.eqb_refl. }
  split; [exact Hget|]. split; [|split; [lia | exact B3]].
  unfold curve_attr_show. rewrite <- Hf.
  destruct (Z.eqb_spec is_pwm 0) as [|_]; [contradiction|]. cbn [negb].
  change (conf (set_ec _ e')) with (conf d). rewrite <- Hm.
  destruct (Z.ltb_spec point 1); [lia|].
  destruct (Z.gtb_spec point (entries_count (pack_curve (conf d) f))); [lia|].
  cbn [orb]. rewrite Hget, (u8_small _ Hs).
  rewrite Z.quot_div_nonneg by lia.
  assert (Hr : is_byte (v * m / 255 * 255 / m)) by (unfold is_byte; lia).
  rewrite (u8_small _ Hr), sysfs_emit_byte by exact Hr.
  now rewrite sprintf_u_byte.
Qed.

Lemma curve_attr_pwm_store_show_witness :
  curve_attr_show
    (snd (curve_attr_store (driver_example (fun _ => 0) [-5] (1, 1)) 0 3 1
            ("1" ++ String "010" "")))
    0 3 1
  = Emit ("0" ++ String "010" "").
Proof.
  apply (curve_attr_pwm_store_show (driver_example (fun _ => 0) [-5] (1, 1))
           0 3 1 1 150 ("1" ++ String "010" "") CPU).
  - reflexivity.
  - discriminate.
  - vm_compute. reflexivity.
  - lia.
  - vm_compute. split; discriminate.
  - reflexivity.
  - vm_compute. split; discriminate.
  - vm_compute. discriminate.
  - reflexivity.
Defined.

(* ================================================================= *)
(** ** Sequence reads, firmware version, hwmon sensors *)

(** The loop of [ec_read_seq] when the first failing transaction is the
    one after [pre]. *)
Lemma ec_read_seq_loop_stops (pre : list Z) (r : Z) (post : list Z)
    (n i : nat) (addr : Z) (buf : list Z) (e : ec_state) :
  ec_faults e = pre ++ r :: post -> Forall (fun x => 0 <= x) pre -> r < 0 ->
  (List.length pre < n)%nat -> (i + n <= List.length buf)%nat ->
  exists buf' e',
    ec_read_seq_loop n i addr buf e = (r, buf', e')
    /\ ec_faults e' = post /\ ec_regs e' = ec_regs e
    /\ ec_writes e' = ec_writes e
    /\ (forall k, aget buf' k
          = if (i <=? k)%nat && (k <? i + List.length pre)%nat
            then u8 (ec_regs e (u8 (addr + Z.of_nat k)))
            else aget buf k).
Proof.
  revert n i buf e.
  induction pre as [|p pre IH]; intros n i buf e Hf Hpre Hr Hn Hlen.
  - destruct n as [|n]; [simpl in Hn; lia|].
    cbn [ec_read_seq_loop]. unfold ec_read, ec_next. rewrite Hf. cbn [app].
    assert (E : (r <? 0) = true) by (apply Z.ltb_lt; exact Hr).
    rewrite E. cbv iota. rewrite E. cbv iota beta. rewrite E.
    exists (aset buf i (aget buf i)), (ec_consume e).
    split; [reflexivity|]. unfold ec_consume. cbn [ec_faults ec_regs ec_writes].
    rewrite Hf. cbn [app tl]. repeat split; auto.
    intros k. rewrite aset_same. cbn [List.length].
    destruct (Nat.leb_spec i k); destruct (Nat.ltb_spec k (i + 0));
      cbn [andb]; auto; lia.
  - destruct n as [|n]; [simpl in Hn; lia|].
    inversion Hpre as [|? ? Hp Hpre']; subst.
    cbn [ec_read_seq_loop]. unfold ec_read, ec_next. rewrite Hf. cbn [app].
    destruct (Z.ltb_spec p 0); [lia|]. cbn [Z.ltb Z.compare].
    destruct (IH n (S i)
                (aset buf i (u8 (ec_regs e (u8 (addr + Z.of_nat i)))))
                (ec_consume e))
      as [buf' [e' [Hl [Hf' [Hr' [Hw' Hget]]]]]]; auto.
    { unfold ec_consume. cbn [ec_faults]. now rewrite Hf. }
    { simpl in Hn. lia. }
    { rewrite aset_length. lia. }
    exists buf', e'. split; [exact Hl|]. split; [exact Hf'|].
    split; [exact Hr'|]. split; [exact Hw'|].
    intros k. rewrite Hget. cbn [ec_consume ec_regs].
    rewrite aget_aset by lia. cbn [List.length].
    destruct (Nat.leb_spec (S i) k); destruct (Nat.leb_spec i k);
      destruct (Nat.ltb_spec k (S i + List.length pre));
      destruct (Nat.ltb_spec k (i + S (List.length pre)));
      destruct (Nat.eqb_spec k i); cbn [andb]; try reflexivity; try lia.
    now subst.
Qed.

(** The loop of [ec_read_seq] on an EC without failure. *)
Lemma ec_read_seq_loop_healthy (n i : nat) (addr : Z) (buf : list Z)
    (e : ec_state) :
  ec_healthy e -> (i + n <= List.length buf)%nat ->
  exists buf' e',
    ec_read_seq_loop n i addr buf e = (0, buf', e') /\ ec_healthy e'
    /\ ec_regs e' = ec_regs e /\ ec_writes e' = ec_writes e
    /\ List.length buf' = List.length buf
    /\ (forall k, aget buf' k
          = if (i <=? k)%nat && (k <? i + n)%nat
            then u8 (ec_regs e (u8 (addr + Z.of_nat k)))
            else aget buf k).
Proof.
  revert i buf e. induction n as [|n IH]; intros i buf e He Hlen.
  - exists buf, e. simpl. repeat split; auto. intros k.
    destruct (Nat.leb_spec i k); destruct (Nat.ltb_spec k (i + 0));
      simpl; auto; lia.
  - cbn [ec_read_seq_loop]. rewrite (ec_read_healthy _ (aget buf i) e He).
    cbn [Z.ltb Z.compare].
    destruct (IH (S i) (aset buf i (u8 (ec_regs e (u8 (addr + Z.of_nat i)))))
                (ec_consume e) (ec_consume_healthy e He))
      as [buf' [e' [Hs [He' [Hr [Hw [Hl Hget]]]]]]].
    { rewrite aset_length. lia. }
    exists buf', e'. split; [exact Hs|]. split; [exact He'|].
    split; [exact Hr|]. split; [exact Hw|].
    split; [now rewrite Hl, aset_length|].
    intros k. rewrite Hget. cbn [ec_consume ec_regs].
    rewrite aget_aset by lia.
    destruct (Nat.leb_spec (S i) k); destruct (Nat.leb_spec i k);
      destruct (Nat.ltb_spec k (S i + n)); destruct (Nat.ltb_spec k (i + S n));
      destruct (Nat.eqb_spec k i); cbn [andb]; try reflexivity; try lia.
    now subst.
Qed.

(** X21.  [ec_read_seq] stops at the first transaction that fails.  When
    the transactions before it succeed and it is among the [len]
    requested, the function returns its status; the bytes read before
    it are in the buffer, the rest of the buffer is as it was, and no
    further transaction is made. *)
Theorem ec_read_seq_stops (addr len : Z) (buf : list Z) (e : ec_state)
    (pre : list Z) (r : Z) (post : list Z) :
  ec_faults e = pre ++ r :: post -> Forall (fun x => 0 <= x) pre -> r < 0 ->
  Z.of_nat (List.length pre) < u8 len -> u8 len <= Z.of_nat (List.length buf) ->
  exists buf' e',
    ec_read_seq addr buf len e = (r, buf', e')
    /\ ec_faults e' = post /\ ec_regs e' = ec_regs e
    /\ ec_writes e' = ec_writes e
    /\ (forall k, aget buf' k
          = if (k <? List.length pre)%nat
            then u8 (ec_regs e (u8 (u8 addr + Z.of_nat k)))
            else aget buf k).
Proof.
  intros Hf Hpre Hr Hn Hlen. unfold ec_read_seq.
  destruct (ec_read_seq_loop_stops pre r post (Z.to_nat (u8 len)) 0 (u8 addr)
              buf e Hf Hpre Hr)
    as [buf' [e' [Hl [Hf' [Hr' [Hw' Hget]]]]]]; [lia | lia |].
  exists buf', e'. repeat split; auto.
Qed.

Lemma ec_read_seq_stops_witness :
  exists buf' e',
    ec_read_seq 0xa0 [0; 0; 0; 0] 3
      {| ec_regs := fun a => a; ec_faults := [0; -5; 0]; ec_writes := [] |}
    = (-5, buf', e')
    /\ ec_faults e' = [0] /\ buf' = [0xa0; 0; 0; 0].
Proof.
  destruct (ec_read_seq_stops 0xa0 3 [0; 0; 0; 0]
              {| ec_regs := fun a => a; ec_faults := [0; -5; 0];
                 ec_writes := [] |} [0] (-5) [0])
    as [buf' [e' [Hl [Hf _]]]].
  - reflexivity.
  - repeat constructor. discriminate.
  - reflexivity.
  - reflexivity.
  - vm_compute. discriminate.
  - exists buf', e'. split; [exact Hl|]. split; [exact Hf|].
    vm_compute in Hl. congruence.
Defined.

Lemma c_string_of_length (l : list Z) :
  (String.length (c_string_of l) <= List.length l)%nat.
Proof.
  induction l as [|b l IH]; simpl; [lia|].
  destruct (b =? 0); simpl; lia.
Qed.

Lemma string_length_app (a b : string) :
  String.length (a ++ b) = (String.length a + String.length b)%nat.
Proof. induction a as [|c a IH]; simpl; auto. Qed.

(** X22.  On an EC without failure [ec_get_firmware_version] returns 13,
    the size of its buffer, which then holds the twelve registers from
    0xA0 on and a terminating zero; the registers are as before.
    [fw_version] shows this buffer as a C string, the characters up to
    the first zero, followed by a newline. *)
Theorem firmware_version_read (e : ec_state) :
  ec_healthy e ->
  exists e',
    ec_get_firmware_version e
    = (13, map (fun i => u8 (ec_regs e (0xa0 + Z.of_nat i))) (seq 0 12) ++ [0], e')
    /\ ec_regs e' = ec_regs e /\ ec_writes e' = ec_writes e
    /\ fw_version_show e
       = (Emit (c_string_of
                  (map (fun i => u8 (ec_regs e (0xa0 + Z.of_nat i))) (seq 0 12))
                ++ String "010" ""), e').
Proof.
  intros He.
  assert (Hver : exists e',
             ec_get_firmware_version e
             = (13, map (fun i => u8 (ec_regs e (0xa0 + Z.of_nat i))) (seq 0 12)
                    ++ [0], e')
             /\ ec_regs e' = ec_regs e /\ ec_writes e' = ec_writes e).
  { unfold ec_get_firmware_version, ec_read_seq.
    change (Z.to_nat (u8 MSI_EC_FW_VERSION_LENGTH)) with 12%nat.
    change (u8 MSI_EC_FW_VERSION_ADDRESS) with 0xa0.
    change (Z.to_nat (MSI_EC_FW_VERSION_LENGTH + 1)) with 13%nat.
    destruct (ec_read_seq_loop_healthy 12 0 0xa0 (repeat 0 13) e He)
      as [buf' [e' [Hs [_ [Hr [Hw [Hl Hget]]]]]]]; [simpl; lia|].
    rewrite Hs. cbn [Z.ltb Z.compare].
    exists e'. split; [|split; assumption].
    change (MSI_EC_FW_VERSION_LENGTH + 1) with 13. f_equal. f_equal.
    apply aget_ext; [rewrite Hl; reflexivity|].
    intros k. rewrite Hget. cbn [Nat.leb andb Nat.add].
    destruct (Nat.ltb_spec k 12) as [Hk|Hk].
    - do 12 (destruct k as [|k]; [reflexivity|]). lia.
    - unfold aget. destruct (Nat.eq_dec k 12) as [->|Hne]; [reflexivity|].
      rewrite !nth_overflow; [reflexivity | simpl; lia | simpl; lia]. }
  destruct Hver as [e' [Hv [Hr Hw]]]. exists e'.
  split; [exact Hv|]. split; [exact Hr|]. split; [exact Hw|].
  unfold fw_version_show. rewrite Hv. cbn [Z.ltb Z.compare].
  set (regs := map (fun i => u8 (ec_regs e (0xa0 + Z.of_nat i))) (seq 0 12)).
  assert (Hc : c_string_of (regs ++ [0]) = c_string_of regs).
  { clearbody regs. induction regs as [|b l IH]; [reflexivity|].
    cbn [app c_string_of]. destruct (b =? 0); [reflexivity|]. now rewrite IH. }
  rewrite Hc, sysfs_emit_short; [reflexivity|].
  pose proof (c_string_of_length regs) as Hlen.
  assert (Hregs : List.length regs = 12%nat)
    by (unfold regs; now rewrite length_map, length_seq).
  rewrite Hregs in Hlen. rewrite string_length_app.
  change (String.length (String "010" "")) with 1%nat.
  unfold PAGE_SIZE. lia.
Qed.

Lemma firmware_version_read_witness :
  exists e',
    fw_version_show
      {| ec_regs := fun a => if a <? 0xa4 then 0x31 else 0;
         ec_faults := []; ec_writes := [] |}
    = (Emit ("1111" ++ String "010" ""), e').
Proof.
  destruct (firmware_version_read
              {| ec_regs := fun a => if a <? 0xa4 then 0x31 else 0;
                 ec_faults := []; ec_writes := [] |})
    as [e' [_ [_ [_ H]]]].
  - constructor.
  - exists e'. exact H.
Defined.

Lemma ec_read_seq_one (address : Z) (e : ec_state) :
  ec_read_seq address [0] 1 e
  = (let '(result, v, e') := ec_read (u8 address) 0 e in
     (if result <? 0 then result else 0, [v], e')).
Proof.
  unfold ec_read_seq. change (Z.to_nat (u8 1)) with 1%nat.
  cbn [ec_read_seq_loop Z.of_nat aget nth aset]. rewrite Z.add_0_r.
  destruct (ec_read (u8 address) 0 e) as [[result v] e'].
  destruct (result <? 0); reflexivity.
Qed.

Lemma ec_read_u8 (address old : Z) (e : ec_state) :
  ec_read (u8 address) old e = ec_read address old e.
Proof. unfold ec_read. now rewrite u8_u8. Qed.

Lemma sysfs_emit_d_byte (v : Z) :
  is_byte v ->
  sysfs_emit (sprintf_d v ++ String "010" "") = (sprintf_d v ++ String "010" "")%string.
Proof.
  intros Hv. rewrite <- (sprintf_u_byte v Hv). now apply sysfs_emit_byte.
Qed.

(** X23.  The hwmon temperature channel of a fan (0 for the CPU, 1 for
    the GPU) exists exactly when the profile has a temperature address
    for it.  Without one the channel is hidden and a read returns
    [-EOPNOTSUPP] without an EC transaction.  With one, a read and the
    [realtime_temperature] attribute of the same fan agree on any EC:
    both fail with the same status, or the attribute shows a byte [t]
    and hwmon reports [1000 * t] millidegrees. *)
Theorem hwmon_temp_matches_attribute (d : driver) (f : fan) (val : Z) :
  (rt_temp_address (fan_conf (conf d) f) = MSI_EC_ADDR_UNSUPP ->
     msi_ec_hwmon_is_visible (conf d) hwmon_temp hwmon_temp_input (fan_channel f)
     = 0
     /\ msi_ec_hwmon_ops_read d hwmon_temp hwmon_temp_input (fan_channel f) val
        = Returns (- EOPNOTSUPP, val, d))
  /\ (rt_temp_address (fan_conf (conf d) f) <> MSI_EC_ADDR_UNSUPP ->
     msi_ec_hwmon_is_visible (conf d) hwmon_temp hwmon_temp_input (fan_channel f)
     = 292
     /\ ((exists r e',
            r < 0
            /\ msi_ec_hwmon_ops_read d hwmon_temp hwmon_temp_input
                 (fan_channel f) val
               = Returns (r, val, set_ec d e')
            /\ realtime_temperature_show f (conf d) (ec d) = (Fail r, e'))
         \/ (exists t e',
            0 <= t < 256
            /\ msi_ec_hwmon_ops_read d hwmon_temp hwmon_temp_input
                 (fan_channel f) val
               = Returns (0, 1000 * t, set_ec d e')
            /\ realtime_temperature_show f (conf d) (ec d)
               = (Emit (sprintf_d t ++ String "010" ""), e')))).
Proof.
  assert (Hread : forall address,
            (exists r e',
               r < 0 /\ hwmon_read_temp address val (ec d) = (r, val, e')
               /\ ec_read address 0 (ec d) = (r, 0, e'))
            \/ (exists t e',
               0 <= t < 256
               /\ hwmon_read_temp address val (ec d) = (0, 1000 * t, e')
               /\ ec_read address 0 (ec d) = (0, t, e'))).
  { intros address. unfold hwmon_read_temp.
    rewrite ec_read_seq_one, ec_read_u8. unfold ec_read.
    destruct (ec_next (ec d) <? 0) eqn:E.
    - left. exists (ec_next (ec d)), (ec_consume (ec d)).
      split; [now apply Z.ltb_lt|].
      cbv beta iota. rewrite ?E. cbv beta iota. rewrite ?E. auto.
    - right. exists (u8 (ec_regs (ec d) (u8 address))), (ec_consume (ec d)).
      split; [apply u8_range|]. cbn [Z.ltb Z.compare aget nth].
      split; [|reflexivity]. do 2 f_equal. lia. }
  split.
  - intros Hu. destruct f; cbn [fan_conf fan_channel] in *;
      unfold msi_ec_hwmon_is_visible, msi_ec_hwmon_ops_read;
      rewrite Hu, Z.eqb_refl; split; reflexivity.
  - intros Hs. apply Z.eqb_neq in Hs.
    destruct f; cbn [fan_conf fan_channel realtime_temperature_show] in *;
      unfold msi_ec_hwmon_is_visible, msi_ec_hwmon_ops_read,
        cpu_realtime_temperature_show, gpu_realtime_temperature_show;
      rewrite Hs;
      change (hwmon_temp_input =? hwmon_temp_input) with true;
      cbn [Z.eqb Pos.eqb negb andb orb].
    + split; [reflexivity|].
      destruct (Hread (rt_temp_address (cpu (conf d))))
        as [[r [e' [Hr [H1 H2]]]]|[t [e' [Ht [H1 H2]]]]]; rewrite H1, H2.
      * left. exists r, e'. split; [exact Hr|]. split; [reflexivity|].
        destruct (Z.ltb_spec r 0); [reflexivity | lia].
      * right. exists t, e'. split; [exact Ht|]. split; [reflexivity|].
        cbn [Z.ltb Z.compare]. rewrite sysfs_emit_d_byte by exact Ht.
        reflexivity.
    + split; [reflexivity|].
      destruct (Hread (rt_temp_address (gpu (conf d))))
        as [[r [e' [Hr [H1 H2]]]]|[t [e' [Ht [H1 H2]]]]]; rewrite H1, H2.
      * left. exists r, e'. split; [exact Hr|]. split; [reflexivity|].
        destruct (Z.ltb_spec r 0); [reflexivity | lia].
      * right. exists t, e'. split; [exact Ht|]. split; [reflexivity|].
        cbn [Z.ltb Z.compare]. rewrite sysfs_emit_d_byte by exact Ht.
        reflexivity.
Qed.

Lemma fan_word (h l : Z) :
  is_byte h -> is_byte l ->
  Z.lor (Z.shiftl h 8) l mod 2 ^ 16 = 256 * h + l.
Proof.
  unfold is_byte. intros Hh Hl.
  assert (Hland : Z.land (Z.shiftl h 8) l = 0).
  { apply Z.bits_inj'. intros n Hn. rewrite Z.land_spec, Z.bits_0.
    destruct (Z.ltb_spec n 8).
    - rewrite Z.shiftl_spec_low by lia. reflexivity.
    - destruct (Z.eq_dec l 0) as [->|Hnz];
        [rewrite Z.bits_0; apply andb_false_r|].
      rewrite (Z.bits_above_log2 l n), andb_false_r; [reflexivity | lia |].
      assert (Z.log2 l < 8) by (apply Z.log2_lt_pow2; lia). lia. }
  pose proof (Z.add_lor_land (Z.shiftl h 8) l) as Hadd.
  rewrite Hland, Z.add_0_r in Hadd.
  rewrite Hadd, Z.shiftl_mul_pow2 by lia. change (2 ^ 8) with 256.
  rewrite Z.mod_small by lia. lia.
Qed.

(** X24.  On an EC without failure a read of the hwmon fan channel of a
    fan returns 0.  The value is 0 when the 16-bit counter of the fan is
    0, and 480000 divided by the counter otherwise, so the division is
    never by zero and the value is 0 or between 7 and 480000.  The
    registers are as before.  The read does not look at the profile. *)
Theorem hwmon_fan_read_rpm (d : driver) (f : fan) (val : Z) :
  ec_healthy (ec d) ->
  exists rpm e',
    msi_ec_hwmon_ops_read d hwmon_fan hwmon_fan_input (fan_channel f) val
    = Returns (0, rpm, set_ec d e')
    /\ ec_regs e' = ec_regs (ec d) /\ ec_writes e' = ec_writes (ec d)
    /\ (fan_counter f (ec d) = 0 -> rpm = 0)
    /\ (fan_counter f (ec d) <> 0 ->
        rpm = 480000 / fan_counter f (ec d) /\ 7 <= rpm <= 480000).
Proof.
  intros He.
  assert (Hread : forall high low,
            is_byte high -> is_byte low ->
            exists rpm e',
              hwmon_read_fan high low val (ec d) = (0, rpm, e')
              /\ ec_regs e' = ec_regs (ec d) /\ ec_writes e' = ec_writes (ec d)
              /\ let w := 256 * u8 (ec_regs (ec d) high)
                          + u8 (ec_regs (ec d) low) in
                 (w = 0 -> rpm = 0)
                 /\ (w <> 0 -> rpm = 480000 / w /\ 7 <= rpm <= 480000)).
  { intros high low Hh Hl. unfold hwmon_read_fan.
    rewrite ec_read_seq_one, ec_read_u8.
    rewrite (ec_read_healthy high 0 (ec d) He). cbn [Z.ltb Z.compare].
    rewrite ec_read_seq_one, ec_read_u8.
    rewrite (ec_read_healthy low 0 (ec_consume (ec d))
               (ec_consume_healthy _ He)).
    cbn [Z.ltb Z.compare aget nth ec_consume ec_regs].
    rewrite (u8_small high Hh), (u8_small low Hl).
    rewrite fan_word by apply u8_range.
    pose proof (u8_range (ec_regs (ec d) high)) as B1.
    pose proof (u8_range (ec_regs (ec d) low)) as B2.
    unfold is_byte in B1, B2.
    set (w := 256 * u8 (ec_regs (ec d) high) + u8 (ec_regs (ec d) low)) in *.
    destruct (Z.eqb_spec w 0) as [E|E].
    - eexists. eexists. split; [reflexivity|]. cbn [ec_regs ec_writes].
      split; [reflexivity|]. split; [reflexivity|].
      split; [reflexivity | contradiction].
    - eexists. eexists. split; [reflexivity|]. cbn [ec_regs ec_writes].
      split; [reflexivity|]. split; [reflexivity|].
      split; [contradiction|]. intros _.
      rewrite Z.quot_div_nonneg by lia. split; [reflexivity|].
      split.
      + apply Z.div_le_lower_bound; lia.
      + apply Z.div_le_upper_bound; lia. }
  destruct f; cbn [fan_channel fan_counter];
    unfold msi_ec_hwmon_ops_read;
    cbn [Z.eqb hwmon_fan_input Pos.eqb].
  - destruct (Hread 0xC8 0xC9) as [rpm [e' [H1 [Hr [Hw Hrpm]]]]];
      [unfold is_byte; lia | unfold is_byte; lia |].
    rewrite H1. exists rpm, e'. auto.
  - destruct (Hread 0xCA 0xCB) as [rpm [e' [H1 [Hr [Hw Hrpm]]]]];
      [unfold is_byte; lia | unfold is_byte; lia |].
    rewrite H1. exists rpm, e'. auto.
Qed.

Lemma hwmon_fan_read_rpm_witness :
  exists e',
    msi_ec_hwmon_ops_read
      (driver_example (fun a => if a =? 0xC8 then 1 else 0x2c) [] (1, 1))
      hwmon_fan hwmon_fan_input 0 0
    = Returns (0, 1600, e').
Proof.
  destruct (hwmon_fan_read_rpm
              (driver_example (fun a => if a =? 0xC8 then 1 else 0x2c) [] (1, 1))
              CPU 0)
    as [rpm [e' [H [_ [_ [_ Hrpm]]]]]].
  - constructor.
  - destruct Hrpm as [-> _]; [vm_compute; discriminate|].
    eexists. exact H.
Defined.

(* ================================================================= *)
(** ** Cooler boost: the sysfs attribute and the hwmon view *)

(** X25.  Let a profile of the registry be loaded, let the EC work
    without failure and let [kstrtobool] read the text written as
    [on].  A write to [cooler_boost] returns the length of the text
    and changes no other register; a following read shows [on] as
    "on" or "off".  After writing "on", a PWM-enable read that finds the
    cache empty reports Full on either channel and caches it for both;
    after writing "off" such a read reports the value that belongs to
    the fan mode the fan-mode register holds. *)
Theorem cooler_boost_sysfs_hwmon (p : msi_ec_conf) (d : driver) (buf : string)
    (on : bool) (channel val : Z) :
  In p CONFIGURATIONS -> conf d = copy_conf p -> ec_healthy (ec d) ->
  kstrtobool buf false = (0, on) ->
  channel = 0 \/ channel = 1 ->
  virtual_hwmon_pwm_enable d = (-1, -1) ->
  exists e1,
    cooler_boost_store (conf d) buf (ec d) = (Z.of_nat (String.length buf), e1)
    /\ fst (cooler_boost_show (conf d) e1)
       = Emit (str_on_off on ++ String "010" "")
    /\ (forall a, a <> u8 (cb_address (cooler_boost p)) ->
          ec_regs e1 a = ec_regs (ec d) a)
    /\ (on = true ->
        exists d',
          msi_ec_hwmon_read (set_ec d e1) channel val
          = Returns (0, PWM_ENABLE_FULL, d')
          /\ virtual_hwmon_pwm_enable d' = (PWM_ENABLE_FULL, PWM_ENABLE_FULL))
    /\ (on = false ->
        forall m mode,
          In m (modes (fan_mode p)) -> name m = Some mode ->
          ec_regs (ec d) (u8 (fm_address (fan_mode p))) = u8 (value m) ->
          exists d',
            msi_ec_hwmon_read (set_ec d e1) channel val
            = bind (pwm_enable_of_name (Some mode))
                (fun v => Returns (0, v, set_virtual d' (v, v)))).
Proof.
  intros Hp Hc He Hk Hch Hv.
  destruct (registry_cb p Hp) as [Hcb [Hb [Hfm _]]].
  rewrite Hc. unfold cooler_boost_store, cooler_boost_show.
  change (cooler_boost (copy_conf p)) with (cooler_boost p).
  rewrite Hk. cbn [Z.eqb negb].
  destruct (ec_set_bit_healthy (cb_address (cooler_boost p))
              (cb_bit (cooler_boost p)) on (ec d) He)
    as [e1 [Hs [He1 Hr]]].
  rewrite Hs. cbn [Z.ltb Z.compare].
  exists e1. split; [reflexivity|]. split; [|split; [|split]].
  - rewrite (ec_set_bit_then_check _ _ on false (ec d) e1 He1 Hb Hr).
    cbn [Z.ltb Z.compare fst]. now rewrite sysfs_emit_on_off.
  - intros a Ha. rewrite Hr.
    destruct (Z.eqb_spec a (u8 (cb_address (cooler_boost p))));
      [contradiction | reflexivity].
  - intros ->.
    destruct (hwmon_cold_read_full p (set_ec d e1) channel val Hp Hc He1 Hch Hv)
      as [d' Hread].
    + cbn [set_ec ec]. rewrite Hr, Z.eqb_refl.
      rewrite (u8_small _ (with_bit_byte _ _ _)).
      rewrite with_bit_testbit, Z.eqb_refl by lia.
      destruct (Z.ltb_spec (cb_bit (cooler_boost p)) 8); [reflexivity | lia].
    + eexists. split; [exact Hread | reflexivity].
  - intros -> m mode Hm Hn Hreg.
    apply (hwmon_cold_read p (set_ec d e1) m mode channel val Hp Hc He1 Hch Hv
             Hm Hn).
    + cbn [set_ec ec]. rewrite Hr.
      destruct (Z.eqb_spec (u8 (fm_address (fan_mode p)))
                  (u8 (cb_address (cooler_boost p)))) as [E|_];
        [symmetry in E; contradiction | exact Hreg].
    + cbn [set_ec ec]. rewrite Hr, Z.eqb_refl.
      rewrite (u8_small _ (with_bit_byte _ _ _)).
      rewrite with_bit_testbit, Z.eqb_refl by lia.
      destruct (Z.ltb_spec (cb_bit (cooler_boost p)) 8); [reflexivity | lia].
Qed.

Lemma cooler_boost_sysfs_hwmon_witness :
  exists e1 d',
    cooler_boost_store (copy_conf CONF401) ("on" ++ String "010" "")
      (ec (driver_example (fun _ => 0) [] (-1, -1))) = (3, e1)
    /\ fst (cooler_boost_show (copy_conf CONF401) e1)
       = Emit ("on" ++ String "010" "")
    /\ msi_ec_hwmon_read
         (set_ec (driver_example (fun _ => 0) [] (-1, -1)) e1) 1 7
       = Returns (0, 0, d').
Proof.
  destruct (cooler_boost_sysfs_hwmon CONF401
              (driver_example (fun _ => 0) [] (-1, -1))
              ("on" ++ String "010" "") true 1 7)
    as [e1 [Hs [Hshow [_ [Hfull _]]]]].
  - vm_compute. tauto.
  - reflexivity.
  - constructor.
  - vm_compute. reflexivity.
  - right. reflexivity.
  - reflexivity.
  - destruct (Hfull eq_refl) as [d' [Hread _]].
    exists e1, d'. split; [exact Hs|]. split; [exact Hshow | exact Hread].
Defined.

(* ================================================================= *)
(** ** Module load and unload: the curves of both fans *)

Lemma curve_init_any (d : driver) (f : fan) :
  ec_healthy (ec d) -> pack_ok (pack d f) ->
  exists d',
    curve_init d f = (0, d') /\ conf d' = conf d /\ ec_healthy (ec d')
    /\ ec_regs (ec d') = ec_regs (ec d)
    /\ (forall g, g <> f -> pack d' g = pack d g)
    /\ List.length (curve_fan_speed_default (pack d' f)) = 16%nat
    /\ List.length (curve_temp_default (pack d' f)) = 16%nat
    /\ (is_curve_allowed (pack_curve (conf d) f) = true ->
        (forall i, (i < Z.to_nat (entries_count (pack_curve (conf d) f)))%nat ->
           aget (curve_fan_speed_default (pack d' f)) i
           = u8 (ec_regs (ec d)
                   (u8 (speed_start_address (pack_curve (conf d) f)
                        + Z.of_nat i))))
        /\ (forall i,
              (i < Z.to_nat (entries_count (pack_curve (conf d) f) - 1))%nat ->
              aget (curve_temp_default (pack d' f)) i
              = u8 (ec_regs (ec d)
                      (u8 (temperature_start_address (pack_curve (conf d) f)
                           + Z.of_nat i))))).
Proof.
  intros He [[_ Hl1] [[_ Hl2] [[_ Hl3] [_ Hl4]]]].
  change (Z.to_nat CURVE_MAX_ENTRIES) with 16%nat in *.
  destruct (is_curve_allowed (pack_curve (conf d) f)) eqn:Ha.
  - destruct (curve_init_healthy d f He Ha Hl1 Hl2 Hl3 Hl4)
      as [d' [Hi [Hc [He' [Hr [_ [_ [_ [Hls [Hlt [Hgs [Hgt Ho]]]]]]]]]]]].
    exists d'. repeat (split; [assumption|]). intros _. split; intros i Hi'.
    + rewrite Hgs.
      destruct (Nat.ltb_spec i (Z.to_nat (entries_count (pack_curve (conf d) f))));
        [reflexivity | lia].
    + rewrite Hgt.
      destruct (Nat.ltb_spec i
                  (Z.to_nat (entries_count (pack_curve (conf d) f) - 1)));
        [reflexivity | lia].
  - exists d. unfold curve_init. rewrite Ha.
    repeat (split; [solve [reflexivity | assumption]|]). discriminate.
Qed.

Lemma curve_destroy_any (d : driver) (f : fan) :
  ec_healthy (ec d) ->
  List.length (curve_fan_speed (pack d f)) = 16%nat ->
  List.length (curve_temp (pack d f)) = 16%nat ->
  List.length (curve_fan_speed_default (pack d f)) = 16%nat ->
  List.length (curve_temp_default (pack d f)) = 16%nat ->
  exists d',
    curve_destroy d f = (0, d') /\ same_defaults d d' /\ ec_healthy (ec d')
    /\ (forall a, ~ In a (used_curve_regs (conf d) f) ->
          ec_regs (ec d') a = ec_regs (ec d) a)
    /\ (forall g, g <> f -> pack d' g = pack d g)
    /\ (is_curve_allowed (pack_curve (conf d) f) = true ->
        (NoDup (curve_regs (pack_curve (conf d) f)) ->
         ec_holds (ec d') (pack_curve (conf d) f)
           (curve_fan_speed_default (pack d f))
           (curve_temp_default (pack d f)))
        /\ curve_fan_speed (pack d' f) = curve_fan_speed_default (pack d f)
        /\ curve_temp (pack d' f) = curve_temp_default (pack d f)).
Proof.
  intros He Hl1 Hl2 Hl3 Hl4. unfold curve_destroy, used_curve_regs.
  destruct (is_curve_allowed (pack_curve (conf d) f)) eqn:Ha.
  - destruct (push_ec_curve_healthy (pack_curve (conf d) f)
                (curve_fan_speed_default (pack d f))
                (curve_temp_default (pack d f)) (ec d) Ha He)
      as [e3 [Hp [He3 [Hframe Hheld]]]].
    rewrite Hp. cbn [Z.ltb Z.compare]. rewrite pack_set_ec.
    rewrite (copy_loop_all _ _ _ _ Hl3 Hl4 Hl1 Hl2).
    eexists. split; [reflexivity|].
    split; [auto with defaults|]. split; [exact He3|].
    split; [exact Hframe|]. split.
    + intros g Hg. rewrite pack_set_active_other by (intros E; now apply Hg).
      apply pack_set_ec.
    + intros _. split; [exact Hheld|].
      destruct (pack_set_active (set_ec d e3) f
                  (curve_fan_speed_default (pack d f))
                  (curve_temp_default (pack d f))) as [P1 [P2 _]].
      split; assumption.
  - exists d. split; [reflexivity|]. split; [auto with defaults|].
    split; [exact He|]. split; [reflexivity|]. split; [reflexivity|].
    discriminate.
Qed.

Lemma in_used_regs (c : msi_ec_conf) (f : fan) (a : Z) :
  In a (used_curve_regs c f) ->
  is_curve_allowed (pack_curve c f) = true /\ In a (curve_regs (pack_curve c f)).
Proof.
  unfold used_curve_regs. destruct (is_curve_allowed _); [auto | contradiction].
Qed.

Lemma ec_holds_reg (e : ec_state) (regs : Z -> Z) (curve : msi_ec_fan_curve)
    (speed temp : list Z) (a : Z) :
  ec_holds e curve speed temp ->
  (forall i, (i < Z.to_nat (entries_count curve))%nat ->
     aget speed i = u8 (regs (u8 (speed_start_address curve + Z.of_nat i)))) ->
  (forall i, (i < Z.to_nat (entries_count curve - 1))%nat ->
     aget temp i
     = u8 (regs (u8 (temperature_start_address curve + Z.of_nat i)))) ->
  In a (curve_regs curve) -> ec_regs e a = u8 (regs a).
Proof.
  intros [Hs Ht] Hs0 Ht0 Hin. unfold curve_regs in Hin.
  apply in_app_or in Hin.
  destruct Hin as [Hin|Hin]; apply in_region_inv in Hin;
    destruct Hin as [k [Hk ->]].
  - rewrite Hs, Hs0 by exact Hk. apply u8_u8.
  - rewrite Ht, Ht0 by exact Hk. apply u8_u8.
Qed.

(** X26.  Let the EC work without failure at load and at unload, and let
    the registers of the allowed curves be pairwise distinct.  When
    [msi_platform_probe] has returned 0 and the driver is later in any
    state with the same configuration and default buffers, the two
    [curve_destroy] calls of [msi_ec_exit] leave every register of an
    allowed curve with the byte it held, as the EC reports it, when the
    module was loaded, and write no other register. *)
Theorem probe_exit_restores (debug : bool) (sysfs_create_group : Z)
    (d d1 d2 : driver) :
  ec_healthy (ec d) -> (forall f, pack_ok (pack d f)) ->
  NoDup (used_curve_regs (conf d) CPU ++ used_curve_regs (conf d) GPU) ->
  msi_platform_probe debug sysfs_create_group d = (0, d1) ->
  same_defaults d1 d2 -> ec_healthy (ec d2) ->
  (forall f, curve_buffer (curve_fan_speed (pack d2 f))
             /\ curve_buffer (curve_temp (pack d2 f))) ->
  (forall a,
     In a (used_curve_regs (conf d) CPU ++ used_curve_regs (conf d) GPU) ->
     ec_regs (ec (msi_ec_exit_curves d2)) a = u8 (ec_regs (ec d) a))
  /\ (forall a,
     ~ In a (used_curve_regs (conf d) CPU ++ used_curve_regs (conf d) GPU) ->
     ec_regs (ec (msi_ec_exit_curves d2)) a = ec_regs (ec d2) a).
Proof.
  intros He Hok Hnd Hprobe [Hc2 Hdef] He2 Hact.
  (* load *)
  unfold msi_platform_probe in Hprobe.
  destruct (debug && (sysfs_create_group <? 0)) eqn:Edbg.
  { apply andb_true_iff in Edbg. destruct Edbg as [_ Hneg].
    apply Z.ltb_lt in Hneg. injection Hprobe as H0 _. lia. }
  destruct (curve_init_any d CPU He (Hok CPU))
    as [dA [HiA [HcA [HeA [HrA [HoA [HlsA [HltA HholdA]]]]]]]].
  rewrite HiA in Hprobe. cbn [Z.ltb Z.compare] in Hprobe.
  assert (HokA : pack_ok (pack dA GPU)).
  { rewrite (HoA GPU) by discriminate. apply Hok. }
  destruct (curve_init_any dA GPU HeA HokA)
    as [dB [HiB [HcB [HeB [HrB [HoB [HlsB [HltB HholdB]]]]]]]].
  rewrite HiB in Hprobe. cbn [Z.ltb Z.compare] in Hprobe.
  injection Hprobe as <-.
  assert (Hc1 : conf dB = conf d) by congruence.
  assert (Hc2' : conf d2 = conf d) by congruence.
  rewrite HcA in HholdB.
  (* unload *)
  destruct (Hdef CPU) as [HsC HtC]. destruct (Hdef GPU) as [HsG HtG].
  rewrite (HoB CPU) in HsC, HtC by discriminate.
  destruct (Hact CPU) as [[_ HaC1] [_ HaC2]].
  destruct (Hact GPU) as [[_ HaG1] [_ HaG2]].
  change (Z.to_nat CURVE_MAX_ENTRIES) with 16%nat in *.
  destruct (curve_destroy_any d2 CPU He2 HaC1 HaC2)
    as [d3 [Hd3 [[Hc3 Hdef3] [He3 [Hout3 [Ho3 Hin3]]]]]];
    [congruence | congruence |].
  destruct (curve_destroy_any d3 GPU He3)
    as [d4 [Hd4 [_ [He4 [Hout4 [_ Hin4]]]]]];
    try (rewrite (Ho3 GPU) by discriminate; congruence).
  unfold msi_ec_exit_curves. rewrite Hd3, Hd4.
  rewrite Hc2' in Hout3, Hin3. rewrite Hc3, Hc2' in Hout4, Hin4.
  rewrite (Ho3 GPU) in Hin4 by discriminate.
  rewrite HsC, HtC in Hin3. rewrite HsG, HtG in Hin4.
  split.
  - intros a Hin. apply in_app_or in Hin. destruct Hin as [Hin|Hin].
    + assert (Hnot : ~ In a (used_curve_regs (conf d) GPU)).
      { intros Hg. apply (NoDup_app_disjoint _ _ _ Hnd Hin Hg). }
      rewrite (Hout4 a Hnot).
      destruct (in_used_regs _ _ _ Hin) as [Ha Hreg].
      destruct (Hin3 Ha) as [Hheld _].
      assert (Hnd' : NoDup (curve_regs (pack_curve (conf d) CPU))).
      { apply NoDup_app_remove_r in Hnd. unfold used_curve_regs in Hnd.
        now rewrite Ha in Hnd. }
      destruct (HholdA Ha) as [Hgs Hgt].
      apply (ec_holds_reg _ _ _ _ _ a (Hheld Hnd') Hgs Hgt Hreg).
    + destruct (in_used_regs _ _ _ Hin) as [Ha Hreg].
      destruct (Hin4 Ha) as [Hheld _].
      assert (Hnd' : NoDup (curve_regs (pack_curve (conf d) GPU))).
      { apply NoDup_app_remove_l in Hnd. unfold used_curve_regs in Hnd.
        now rewrite Ha in Hnd. }
      destruct (HholdB Ha) as [Hgs Hgt]. rewrite HrA in Hgs, Hgt.
      apply (ec_holds_reg _ _ _ _ _ a (Hheld Hnd') Hgs Hgt Hreg).
  - intros a Hnot. rewrite Hout4, Hout3; [reflexivity | |];
      intros Hin; apply Hnot; apply in_or_app; auto.
Qed.

Lemma probe_exit_restores_witness :
  exists d1,
    msi_platform_probe false 0 (driver_example (fun a => a) [] (1, 1)) = (0, d1)
    /\ ec_regs (ec (msi_ec_exit_curves
                      (set_ec d1 {| ec_regs := fun _ => 0; ec_faults := [];
                                    ec_writes := [] |}))) 0x72 = 0x72
    /\ ec_regs (ec (msi_ec_exit_curves
                      (set_ec d1 {| ec_regs := fun _ => 0; ec_faults := [];
                                    ec_writes := [] |}))) 0x8a = 0x8a
    /\ ec_regs (ec (msi_ec_exit_curves
                      (set_ec d1 {| ec_regs := fun _ => 0; ec_faults := [];
                                    ec_writes := [] |}))) 0xd4 = 0.
Proof.
  assert (Hi : exists d1,
             msi_platform_probe false 0 (driver_example (fun a => a) [] (1, 1))
             = (0, d1))
    by (eexists; vm_compute; reflexivity).
  destruct Hi as [d1 Hi]. exists d1. split; [exact Hi|].
  assert (Hbuf : forall l, bytesb l = true -> List.length l = 16%nat ->
                           curve_buffer l)
    by (intros l H1 H2; split; [now apply bytesb_spec | exact H2]).
  destruct (probe_exit_restores false 0 (driver_example (fun a => a) [] (1, 1))
              d1
              (set_ec d1 {| ec_regs := fun _ => 0; ec_faults := [];
                            ec_writes := [] |}))
    as [Hin Hout].
  - constructor.
  - intros [|]; repeat split; try apply bytesb_spec; vm_compute; reflexivity.
  - apply nodupb_NoDup. vm_compute. reflexivity.
  - exact Hi.
  - split; [reflexivity|]. intros f. rewrite pack_set_ec. split; reflexivity.
  - constructor.
  - vm_compute in Hi. injection Hi as <-.
    intros [|]; split; apply Hbuf; vm_compute; reflexivity.
  - split; [|split].
    + rewrite Hin; [reflexivity|]. vm_compute. tauto.
    + rewrite Hin; [reflexivity|]. vm_compute. tauto.
    + rewrite Hout; [reflexivity|]. vm_compute. intros H.
      decompose [or] H; discriminate || assumption.
Defined.

(* ================================================================= *)
(** ** Profiles without a fan curve *)

Lemma set_ec_same (d : driver) : set_ec d (ec d) = d.
Proof. destruct d. reflexivity. Qed.

(** With no entries [read_curve] reads no number: it rejects the text or
    accepts it, and copies nothing. *)
Lemma read_curve_zero (sbuf tbuf : list Z) (entries : Z) (buf : string)
    (stack : nat -> Z) :
  entries <= 0 ->
  exists r,
    read_curve sbuf tbuf entries buf stack = (r, sbuf, tbuf)
    /\ (r = - EINVAL \/ 0 <= r).
Proof.
  intros H. unfold read_curve.
  replace (Z.to_nat (2 * entries - 1)) with 0%nat by lia.
  replace (Z.to_nat (entries - 1)) with 0%nat by lia.
  replace (Z.to_nat entries) with 0%nat by lia.
  cbn [read_ints split_loop temps_loop speeds_loop copy_loop negb].
  match goal with
  | |- context [match ?x with EmptyString => _ | String _ _ => _ end] =>
      destruct x
  end; eexists; (split; [reflexivity|]); [right; lia | left; reflexivity].
Qed.

Lemma registry_curve_less (p : msi_ec_conf) (f : fan) :
  In p CONFIGURATIONS -> is_curve_allowed (pack_curve p f) = false ->
  entries_count (pack_curve p f) = 0
  /\ entries_count (fan_curve (cpu p)) = 0
  /\ apply_strategy (pack_curve p f) = CURVE_APPLY_STRATEGY_NORMAL.
Proof.
  intros Hp Ha.
  assert (H : curve_less_ok p = true).
  { apply (registry_forall curve_less_ok); [vm_compute; reflexivity | exact Hp]. }
  unfold curve_less_ok in H. rewrite forallb_forall in H.
  assert (Hf : In f [CPU; GPU]) by (destruct f; simpl; auto).
  specialize (H f Hf). rewrite Ha in H. cbn [orb] in H.
  apply andb_true_iff in H. destruct H as [H H3].
  apply andb_true_iff in H. destruct H as [H1 H2].
  apply Z.eqb_eq in H1, H2, H3. auto.
Qed.

(** X27.  Let a profile of the registry be loaded whose curve for a fan
    is not allowed (every profile but one has no fan curve).  Then every
    curve attribute of that fan fails, whatever is written and whatever
    the EC does: the whole-curve read and write and the per-point read
    return [-EINVAL], the per-point write returns the parse error of
    [kstrtoul] or [-EINVAL].  None of them makes an EC transaction or
    changes the driver state, and the read never reaches the store
    before the text buffer that [print_curve] makes for an empty
    curve. *)
Theorem curve_less_profile_rejects (p : msi_ec_conf) (d : driver) (f : fan)
    (fan_idx : Z) :
  In p CONFIGURATIONS -> conf d = copy_conf p ->
  is_curve_allowed (pack_curve (conf d) f) = false ->
  f = (if fan_idx =? 0 then CPU else GPU) ->
  curve_show d f = (Some (Fail (- EINVAL)), d)
  /\ (forall buf stack, curve_store d f buf stack = (- EINVAL, d))
  /\ (forall point is_pwm,
        curve_attr_show d fan_idx point is_pwm = Fail (- EINVAL))
  /\ (forall point is_pwm buf,
        curve_attr_store d fan_idx point is_pwm buf
        = (if fst (kstrtoul buf 0) <? 0 then fst (kstrtoul buf 0) else - EINVAL,
           d)).
Proof.
  intros Hp Hc Ha Hf.
  assert (Ha' : is_curve_allowed (pack_curve p f) = false).
  { rewrite Hc in Ha. destruct f; exact Ha. }
  destruct (registry_curve_less p f Hp Ha') as [Hn [Hcpu Hst]].
  assert (Hn' : entries_count (pack_curve (conf d) f) = 0)
    by (rewrite Hc; destruct f; exact Hn).
  assert (Hcpu' : entries_count (fan_curve (cpu (conf d))) = 0)
    by (rewrite Hc; exact Hcpu).
  assert (Hst' : apply_strategy (pack_curve (conf d) f)
                 = CURVE_APPLY_STRATEGY_NORMAL)
    by (rewrite Hc; destruct f; exact Hst).
  split; [|split; [|split]].
  - unfold curve_show, sync_ec_curve_safe, sync_ec_curve.
    rewrite Hst', Ha. cbn [Z.eqb negb Z.ltb Z.compare Z.opp EINVAL].
    change (CURVE_APPLY_STRATEGY_NORMAL =? CURVE_APPLY_STRATEGY_RESET_ON_AUTO)
      with false. cbv iota.
    now rewrite set_active_same, set_ec_same.
  - intros buf stack. unfold curve_store. rewrite Hcpu'.
    destruct (read_curve_zero (curve_fan_speed (pack d f)) (curve_temp (pack d f))
                0 buf stack ltac:(lia)) as [r [Hr Hcase]].
    rewrite Hr, set_active_same.
    destruct Hcase as [->|Hpos].
    + reflexivity.
    + destruct (Z.ltb_spec r 0); [lia|].
      unfold push_ec_curve_safe, push_ec_curve. rewrite Hst', Ha.
      change (CURVE_APPLY_STRATEGY_NORMAL =? CURVE_APPLY_STRATEGY_RESET_ON_AUTO)
        with false. cbn [negb]. cbv iota.
      change (- EINVAL <? 0) with true. cbv iota. now rewrite set_ec_same.
  - intros point is_pwm. unfold curve_attr_show. rewrite <- Hf, Hn'.
    destruct (negb (is_pwm =? 0)).
    + destruct (Z.ltb_spec point 1); [reflexivity|].
      destruct (Z.gtb_spec point 0); [reflexivity | lia].
    + destruct (Z.ltb_spec point 1); [reflexivity|].
      destruct (Z.geb_spec point 0); [reflexivity | lia].
  - intros point is_pwm buf. unfold curve_attr_store.
    destruct (kstrtoul buf 0) as [ret val]. cbn [fst].
    destruct (ret <? 0); [reflexivity|].
    assert (Hg : entries_count (fan_curve (gpu (conf d))) = 0
                 \/ (fan_idx =? 0) = true).
    { destruct (fan_idx =? 0); [now right|]. left. subst f. exact Hn'. }
    rewrite Hcpu'.
    destruct (fan_idx =? 0).
    + destruct (negb (is_pwm =? 0)).
      * destruct (Z.ltb_spec point 1); [reflexivity|].
        destruct (Z.gtb_spec point 0); [reflexivity | lia].
      * destruct (Z.ltb_spec point 1); [reflexivity|].
        destruct (Z.geb_spec point 0); [reflexivity | lia].
    + destruct Hg as [Hg|Hg]; [rewrite Hg | discriminate].
      destruct (negb (is_pwm =? 0)).
      * destruct (Z.ltb_spec point 1); [reflexivity|].
        destruct (Z.gtb_spec point 0); [reflexivity | lia].
      * destruct (Z.ltb_spec point 1); [reflexivity|].
        destruct (Z.geb_spec point 0); [reflexivity | lia].
Qed.

Lemma curve_less_profile_rejects_witness :
  curve_store
    (set_conf (driver_example (fun _ => 0) [] (1, 1)) (copy_conf CONF0) true)
    GPU ("10 40 60" ++ String "010" "") (fun _ => 0)
  = (- EINVAL,
     set_conf (driver_example (fun _ => 0) [] (1, 1)) (copy_conf CONF0) true)
  /\ curve_attr_store
       (set_conf (driver_example (fun _ => 0) [] (1, 1)) (copy_conf CONF0) true)
       1 1 1 "128"
     = (- EINVAL,
        set_conf (driver_example (fun _ => 0) [] (1, 1)) (copy_conf CONF0) true).
Proof.
  destruct (curve_less_profile_rejects CONF0
              (set_conf (driver_example (fun _ => 0) [] (1, 1))
                 (copy_conf CONF0) true) GPU 1)
    as [_ [Hstore [_ Hattr]]].
  - vm_compute. tauto.
  - reflexivity.
  - reflexivity.
  - reflexivity.
  - split; [apply Hstore | apply (Hattr 1 1 "128")].
Defined.
